(** * EIP93 cipher offload engine (eip93-cipher.c): shallow embedding

    The driver functions of [src/eip93-cipher.c] are rendered as functions
    over an explicit kernel/device state.  Integers are [Z] with the C
    wrap-around written out, buffers are byte lists, ring-indexed tables
    are finite maps, a scatterlist pointer is the chain of entries that
    starts at it ([[]] is NULL, [tail] is sg_next). *)

From stdpp Require Import base numbers option list gmap.
From Stdlib Require Import ZArith Lia Bool.

Local Open Scope Z_scope.

(** ** Machine integers and kernel macros *)

Definition u32 (x : Z) : Z := x mod 2 ^ 32.

(** Conversion of an unsigned 32-bit value to [int]. *)
Definition s32 (x : Z) : Z :=
  let y := u32 x in if y <? 2 ^ 31 then y else y - 2 ^ 32.

Definition BIT (n : Z) : Z := Z.shiftl 1 n.
Definition GENMASK (h l : Z) : Z := Z.shiftl (Z.ones (h - l + 1)) l.

(** [IS_ALIGNED(x, a)] is [((x) & ((typeof(x))(a) - 1)) == 0]; every use in
    this file has an unsigned 32-bit [x]. *)
Definition IS_ALIGNED (x a : Z) : bool := Z.land x (u32 (a - 1)) =? 0.

(** [DIV_ROUND_UP(n, d)] is [((n) + (d) - 1) / (d)], here on [u32]. *)
Definition DIV_ROUND_UP (n d : Z) : Z := u32 (n + d - 1) / d.

Definition flag_set (flags bit : Z) : bool := negb (Z.land flags bit =? 0).

Definition EINVAL : Z := 22.
Definition ENOMEM : Z := 12.
Definition EAGAIN : Z := 11.
Definition EBUSY : Z := 16.
Definition ENOENT : Z := 2.
Definition EINPROGRESS : Z := 115.

Definition AES_BLOCK_SIZE : Z := 16.
Definition DES_BLOCK_SIZE : Z := 8.
Definition DES3_EDE_BLOCK_SIZE : Z := 8.
Definition DES3_EDE_KEY_SIZE : Z := 24.
Definition AES_KEYSIZE_128 : Z := 16.
Definition AES_KEYSIZE_192 : Z := 24.
Definition AES_KEYSIZE_256 : Z := 32.
Definition CTR_RFC3686_NONCE_SIZE : Z := 4.

(** ** Scatter/gather lists *)

(** One [struct scatterlist] entry.  [sg_addr] is the address of the entry
    itself (pointer identity), [sg_page] the bus address of its page,
    [sg_data] the bytes of the buffer it describes. *)
Record scatterlist := {
  sg_addr : Z;
  sg_page : Z;
  sg_offset : Z;
  sg_length : Z;
  sg_dma_address : Z;
  sg_data : list Z
}.

(** [sg_dma_len(sg)] is the macro [(sg)->length] on this platform. *)
Definition sg_dma_len (sg : scatterlist) : Z := sg_length sg.

(** Pointer comparison [a == b] of two scatterlist pointers. *)
Definition sg_ptr_eq (a b : list scatterlist) : bool :=
  match a, b with
  | [], [] => true
  | x :: _, y :: _ => sg_addr x =? sg_addr y
  | _, _ => false
  end.

Definition sg_is_null (a : list scatterlist) : bool :=
  match a with [] => true | _ => false end.

Definition sg_nents (sg : list scatterlist) : Z := Z.of_nat (length sg).

(** [sg_nents_for_len]: number of entries needed to cover [len] bytes, 0 for
    an empty request, [-EINVAL] when the list is too short. *)
Fixpoint sg_nents_for_len_loop (sg : list scatterlist) (len nents total : Z) : Z :=
  match sg with
  | [] => - EINVAL
  | s :: rest =>
      let nents := nents + 1 in
      let total := total + sg_length s in
      if len <=? total then nents
      else sg_nents_for_len_loop rest len nents total
  end.

Definition sg_nents_for_len (sg : list scatterlist) (len : Z) : Z :=
  if len =? 0 then 0 else sg_nents_for_len_loop sg len 0 0.

Definition sum_len (sg : list scatterlist) : Z :=
  foldr (fun s acc => sg_length s + acc) 0 sg.

(** ** mtk_is_sg_aligned *)

Fixpoint mtk_is_sg_aligned (sg : list scatterlist) (len blksz : Z) : bool :=
  match sg with
  | [] => false
  | s :: rest =>
      if negb (IS_ALIGNED (sg_offset s) 32) then false
      else if len <=? sg_length s then
        if negb (IS_ALIGNED len blksz) then false else true
      else if negb (IS_ALIGNED (sg_length s) blksz) then false
      else mtk_is_sg_aligned rest (u32 (len - sg_length s)) blksz
  end.

(** ** Flags, limits and layout constants *)

(** Modelled from the spec: the headers eip93-cipher.h, eip93-common.h and
    eip93-ring.h are not under src/.  The spec only says that the transform
    carries "algorithm selection flags" and the side table "per-segment
    flags"; the model gives every flag its own bit, the masks cover the
    bits of their group, and the [IS_*] macros test one bit. *)
Definition MTK_ALG_DES : Z := BIT 0.
Definition MTK_ALG_3DES : Z := BIT 1.
Definition MTK_ALG_AES : Z := BIT 2.
Definition MTK_ALG_MASK : Z := GENMASK 2 0.
Definition MTK_HASH_MD5 : Z := BIT 3.
Definition MTK_HASH_SHA1 : Z := BIT 4.
Definition MTK_HASH_SHA224 : Z := BIT 5.
Definition MTK_HASH_SHA256 : Z := BIT 6.
Definition MTK_HASH_HMAC : Z := BIT 7.
Definition MTK_HASH_MASK : Z := GENMASK 6 3.
Definition MTK_MODE_CBC : Z := BIT 8.
Definition MTK_MODE_ECB : Z := BIT 9.
Definition MTK_MODE_CTR : Z := BIT 10.
Definition MTK_MODE_RFC3686 : Z := BIT 11.
Definition MTK_MODE_MASK : Z := GENMASK 10 8.
Definition MTK_ENCRYPT : Z := BIT 12.
Definition MTK_DECRYPT : Z := BIT 13.
Definition MTK_BUSY : Z := BIT 14.

Definition MTK_DESC_ASYNC : Z := BIT 0.
Definition MTK_DESC_LAST : Z := BIT 6.
Definition MTK_DESC_FINISH : Z := BIT 7.

Definition IS_ENCRYPT (flags : Z) : bool := flag_set flags MTK_ENCRYPT.
Definition IS_DECRYPT (flags : Z) : bool := flag_set flags MTK_DECRYPT.
Definition IS_BUSY (flags : Z) : bool := flag_set flags MTK_BUSY.
Definition IS_CBC (flags : Z) : bool := flag_set flags MTK_MODE_CBC.
Definition IS_ECB (flags : Z) : bool := flag_set flags MTK_MODE_ECB.
Definition IS_CTR (flags : Z) : bool := flag_set flags MTK_MODE_CTR.
Definition IS_RFC3686 (flags : Z) : bool := flag_set flags MTK_MODE_RFC3686.
Definition IS_HMAC (flags : Z) : bool := flag_set flags MTK_HASH_HMAC.
Definition IS_HASH_MD5 (flags : Z) : bool := flag_set flags MTK_HASH_MD5.

(** Modelled from the spec: ring capacity, busy threshold and the software
    fallback threshold ("a configured busy threshold", "a minimum-size
    threshold") are constants of the missing headers. *)
Definition MTK_RING_SIZE : Z := 512.
Definition MTK_RING_BUSY : Z := 32.
Definition NUM_AES_BYPASS : Z := 256.

(** Modelled from the spec: [sizeof(saState_t)] and [sizeof(saRecord_t)],
    the strides of the ring-indexed SA slots. *)
Definition sizeof_saState : Z := 56.
Definition sizeof_saRecord : Z := 128.

(** Register names of eip93-regs.h (missing), kept symbolic. *)
Inductive reg := EIP93_REG_PE_RING_THRESH | EIP93_REG_PE_CD_COUNT | EIP93_REG_PE_RD_COUNT.

(** ** SA record, SA state, descriptors *)

(** An assignment to a bit-field of [w] bits keeps the low [w] bits of the
    value. *)
Definition bitfield (w x : Z) : Z := x mod 2 ^ w.

(** Widths of the bit-fields of eip93-regs.h (not among the sources) that
    take a value computed from the request: [peLength.bits.length] of a
    descriptor, [saCmd0.bits.digestLength] and
    [saCmd1.bits.hashCryptOffset] of an SA record. *)
Definition PE_LENGTH_BITS : Z := 20.
Definition SA_DIGEST_LENGTH_BITS : Z := 4.
Definition SA_HASH_CRYPT_OFFSET_BITS : Z := 8.

(** The bit fields of [saCmd0] / [saCmd1] the driver assigns.  The fields
    that take a constant or a code of a few values hold that value; the
    two that take a value computed from the request are cut to their width
    where they are assigned ([send_req_saRecord]). *)
Record saCmd0_bits := {
  opCode : Z; direction : Z; opGroup : Z; padType : Z; cipher : Z; hash : Z;
  scPad : Z; extPad : Z; hdrProc : Z; digestLength : Z; ivSource : Z;
  saveIv : Z; saveHash : Z
}.

Record saCmd1_bits := {
  copyDigest : Z; copyHeader : Z; copyPayload : Z; cipherMode : Z; hmac : Z;
  byteOffset : Z; hashCryptOffset : Z; aesKeyLen : Z; seqNumCheck : Z
}.

(** [struct saRecord_s]; key, digests and nonce as their memory image. *)
Record saRecord_s := {
  saCmd0 : saCmd0_bits;
  saCmd1 : saCmd1_bits;
  saKey : list Z;
  saIDigest : list Z;
  saODigest : list Z;
  saSpi : Z;
  saSeqNumMask : Z * Z;
  saNonce : list Z
}.

Definition saCmd0_zero : saCmd0_bits :=
  {| opCode := 0; direction := 0; opGroup := 0; padType := 0; cipher := 0; hash := 0;
     scPad := 0; extPad := 0; hdrProc := 0; digestLength := 0; ivSource := 0;
     saveIv := 0; saveHash := 0 |}.

Definition saCmd1_zero : saCmd1_bits :=
  {| copyDigest := 0; copyHeader := 0; copyPayload := 0; cipherMode := 0; hmac := 0;
     byteOffset := 0; hashCryptOffset := 0; aesKeyLen := 0; seqNumCheck := 0 |}.

(** A record as [kzalloc] returns it. *)
Definition saRecord_zero : saRecord_s :=
  {| saCmd0 := saCmd0_zero; saCmd1 := saCmd1_zero; saKey := replicate 32 0;
     saIDigest := replicate 32 0; saODigest := replicate 32 0; saSpi := 0;
     saSeqNumMask := (0, 0); saNonce := replicate 4 0 |}.

Definition with_saCmd0 (f : saCmd0_bits -> saCmd0_bits) (r : saRecord_s) : saRecord_s :=
  {| saCmd0 := f (saCmd0 r); saCmd1 := saCmd1 r; saKey := saKey r;
     saIDigest := saIDigest r; saODigest := saODigest r; saSpi := saSpi r;
     saSeqNumMask := saSeqNumMask r; saNonce := saNonce r |}.

Definition with_saCmd1 (f : saCmd1_bits -> saCmd1_bits) (r : saRecord_s) : saRecord_s :=
  {| saCmd0 := saCmd0 r; saCmd1 := f (saCmd1 r); saKey := saKey r;
     saIDigest := saIDigest r; saODigest := saODigest r; saSpi := saSpi r;
     saSeqNumMask := saSeqNumMask r; saNonce := saNonce r |}.

Definition set_direction (v : Z) (c : saCmd0_bits) : saCmd0_bits :=
  {| opCode := opCode c; direction := v; opGroup := opGroup c; padType := padType c;
     cipher := cipher c; hash := hash c; scPad := scPad c; extPad := extPad c;
     hdrProc := hdrProc c; digestLength := digestLength c; ivSource := ivSource c;
     saveIv := saveIv c; saveHash := saveHash c |}.

Definition set_opCode (v : Z) (c : saCmd0_bits) : saCmd0_bits :=
  {| opCode := v; direction := direction c; opGroup := opGroup c; padType := padType c;
     cipher := cipher c; hash := hash c; scPad := scPad c; extPad := extPad c;
     hdrProc := hdrProc c; digestLength := digestLength c; ivSource := ivSource c;
     saveIv := saveIv c; saveHash := saveHash c |}.

Definition set_digestLength (v : Z) (c : saCmd0_bits) : saCmd0_bits :=
  {| opCode := opCode c; direction := direction c; opGroup := opGroup c; padType := padType c;
     cipher := cipher c; hash := hash c; scPad := scPad c; extPad := extPad c;
     hdrProc := hdrProc c; digestLength := v; ivSource := ivSource c;
     saveIv := saveIv c; saveHash := saveHash c |}.

Definition set_hashCryptOffset (v : Z) (c : saCmd1_bits) : saCmd1_bits :=
  {| copyDigest := copyDigest c; copyHeader := copyHeader c; copyPayload := copyPayload c;
     cipherMode := cipherMode c; hmac := hmac c; byteOffset := byteOffset c;
     hashCryptOffset := v; aesKeyLen := aesKeyLen c; seqNumCheck := seqNumCheck c |}.

(** [struct saState_s]: only [stateIv] (four 32-bit words) is used; it is
    kept as its 16-byte memory image. *)
Record saState_s := { stateIv : list Z }.

Definition saState_zero : saState_s := {| stateIv := replicate 16 0 |}.

(** [memcpy(dst, src, n)] on memory images. *)
Definition memcpy (dst src : list Z) (n : Z) : list Z :=
  take (Z.to_nat n) src ++ drop (Z.to_nat n) dst.

(** Big-endian image of a 32-bit value and back ([cpu_to_be32] followed by
    a store, a load followed by [be32_to_cpu]). *)
Definition be32_bytes (x : Z) : list Z :=
  [Z.land (Z.shiftr x 24) 255; Z.land (Z.shiftr x 16) 255;
   Z.land (Z.shiftr x 8) 255; Z.land x 255].

Definition be32_of_bytes (bs : list Z) : Z :=
  match bs with
  | [b0; b1; b2; b3] => Z.lor (Z.shiftl b0 24) (Z.lor (Z.shiftl b1 16) (Z.lor (Z.shiftl b2 8) b3))
  | _ => 0
  end.

(** Word [i] of a buffer of 32-bit words, as its four bytes. *)
Definition word_at (i : nat) (buf : list Z) : list Z := take 4 (drop (4 * i) buf).

Definition set_word_at (i : nat) (w buf : list Z) : list Z :=
  take (4 * i) buf ++ w ++ drop (4 * i + 4) buf.

(** [crypto_inc]: increment a byte string read as a big-endian number. *)
Fixpoint crypto_inc_rev (rev_bytes : list Z) : list Z :=
  match rev_bytes with
  | [] => []
  | b :: rest =>
      let b' := (b + 1) mod 256 in
      if b' =? 0 then b' :: crypto_inc_rev rest else b' :: rest
  end.

Definition crypto_inc (a : list Z) : list Z := rev (crypto_inc_rev (rev a)).

(** A command descriptor as [mtk_scatter_combine] fills it. *)
Record eip93_descriptor_s := {
  ctl_hostReady : Z; ctl_prngMode : Z; ctl_hashFinal : Z; ctl_padCrtlStat : Z;
  ctl_peReady : Z;
  srcAddr : Z; dstAddr : Z; saAddr : Z; stateAddr : Z; arc4Addr : Z; userId : Z;
  len_byPass : Z; len_length : Z; len_hostReady : Z
}.

(** Entry of the side table [ring->dma_buf]. *)
Record mtk_desc_buf := { buf_flags : Z; buf_req : Z; buf_saPointer : Z }.

Definition mtk_desc_buf_zero : mtk_desc_buf :=
  {| buf_flags := 0; buf_req := 0; buf_saPointer := 0 |}.

(** ** Device and kernel state *)

Record mtk_desc_ring := { ring_write : Z; ring_read : Z }.

Record mtk_device := {
  cdr : mtk_desc_ring;
  rdr : mtk_desc_ring;
  cdr_desc : gmap Z eip93_descriptor_s;
  dma_buf : gmap Z mtk_desc_buf;
  saState : gmap Z saState_s;
  saRecord : gmap Z saRecord_s;
  dev_saState_base : Z;
  dev_saRecord_base : Z;
  requests : Z;
  busy : bool
}.

Inductive dma_dir := DMA_BIDIRECTIONAL | DMA_TO_DEVICE | DMA_FROM_DEVICE.

(** Calls into the kernel and the hardware that leave the driver's data;
    [EvCall_mtk_ctx_saRecord] marks an entry into [mtk_ctx_saRecord]. *)
Inductive event :=
| EvPrintk
| EvDevErr
| EvFreePages (virt : Z)
| EvDmaMap (sg : Z) (nents : Z) (dir : dma_dir)
| EvDmaUnmap (sg : Z) (nents : Z) (dir : dma_dir)
| EvWritel (val : Z) (r : reg)
| EvComplete (req : Z) (err : Z)
| EvSetBadKeyLen
| EvCall_mtk_ctx_saRecord
| EvFallback (encrypt : bool) (cryptlen : Z).

(** Kernel state: the device, the trace of outside calls (latest first),
    the answers the allocator will give to the next allocation requests
    ([None]: the allocation fails), and the heap cells that hold the SA
    records of the transforms ([ctx->sa] is a pointer into it). *)
Record kstate := {
  dev : mtk_device;
  trace : list event;
  allocs : list (option Z);
  sa_mem : gmap Z saRecord_s
}.

Definition set_dev (d : mtk_device) (k : kstate) : kstate :=
  {| dev := d; trace := trace k; allocs := allocs k; sa_mem := sa_mem k |}.

Definition set_cdr (r : mtk_desc_ring) (d : mtk_device) : mtk_device :=
  {| cdr := r; rdr := rdr d; cdr_desc := cdr_desc d; dma_buf := dma_buf d;
     saState := saState d; saRecord := saRecord d; dev_saState_base := dev_saState_base d;
     dev_saRecord_base := dev_saRecord_base d; requests := requests d; busy := busy d |}.

Definition set_rdr (r : mtk_desc_ring) (d : mtk_device) : mtk_device :=
  {| cdr := cdr d; rdr := r; cdr_desc := cdr_desc d; dma_buf := dma_buf d;
     saState := saState d; saRecord := saRecord d; dev_saState_base := dev_saState_base d;
     dev_saRecord_base := dev_saRecord_base d; requests := requests d; busy := busy d |}.

Definition set_cdr_desc (m : gmap Z eip93_descriptor_s) (d : mtk_device) : mtk_device :=
  {| cdr := cdr d; rdr := rdr d; cdr_desc := m; dma_buf := dma_buf d;
     saState := saState d; saRecord := saRecord d; dev_saState_base := dev_saState_base d;
     dev_saRecord_base := dev_saRecord_base d; requests := requests d; busy := busy d |}.

Definition set_dma_buf (m : gmap Z mtk_desc_buf) (d : mtk_device) : mtk_device :=
  {| cdr := cdr d; rdr := rdr d; cdr_desc := cdr_desc d; dma_buf := m;
     saState := saState d; saRecord := saRecord d; dev_saState_base := dev_saState_base d;
     dev_saRecord_base := dev_saRecord_base d; requests := requests d; busy := busy d |}.

Definition set_saState (m : gmap Z saState_s) (d : mtk_device) : mtk_device :=
  {| cdr := cdr d; rdr := rdr d; cdr_desc := cdr_desc d; dma_buf := dma_buf d;
     saState := m; saRecord := saRecord d; dev_saState_base := dev_saState_base d;
     dev_saRecord_base := dev_saRecord_base d; requests := requests d; busy := busy d |}.

Definition set_saRecord (m : gmap Z saRecord_s) (d : mtk_device) : mtk_device :=
  {| cdr := cdr d; rdr := rdr d; cdr_desc := cdr_desc d; dma_buf := dma_buf d;
     saState := saState d; saRecord := m; dev_saState_base := dev_saState_base d;
     dev_saRecord_base := dev_saRecord_base d; requests := requests d; busy := busy d |}.

Definition set_requests (n : Z) (d : mtk_device) : mtk_device :=
  {| cdr := cdr d; rdr := rdr d; cdr_desc := cdr_desc d; dma_buf := dma_buf d;
     saState := saState d; saRecord := saRecord d; dev_saState_base := dev_saState_base d;
     dev_saRecord_base := dev_saRecord_base d; requests := n; busy := busy d |}.

Definition set_busy (b : bool) (d : mtk_device) : mtk_device :=
  {| cdr := cdr d; rdr := rdr d; cdr_desc := cdr_desc d; dma_buf := dma_buf d;
     saState := saState d; saRecord := saRecord d; dev_saState_base := dev_saState_base d;
     dev_saRecord_base := dev_saRecord_base d; requests := requests d; busy := b |}.

(** Slot [i] of a ring-indexed table (the tables are allocated zeroed). *)
Definition buf_at (d : mtk_device) (i : Z) : mtk_desc_buf :=
  default mtk_desc_buf_zero (dma_buf d !! i).

Definition saState_at (d : mtk_device) (i : Z) : saState_s :=
  default saState_zero (saState d !! i).

Definition saRecord_at (d : mtk_device) (i : Z) : saRecord_s :=
  default saRecord_zero (saRecord d !! i).

(** ** The driver monad: state passing with two ways to go wrong *)

(** [Oops]: the C code dereferences NULL, an error pointer or an
    uninitialised pointer.  [Diverge]: the loop budget of the model ran out. *)
Inductive result (A : Type) : Type :=
| Done (a : A)
| Oops
| Diverge.
Arguments Done {A} a.
Arguments Oops {A}.
Arguments Diverge {A}.

Definition M (A : Type) : Type := kstate -> result (A * kstate).

Definition ret {A} (a : A) : M A := fun k => Done (a, k).

Definition bind {A B} (m : M A) (f : A -> M B) : M B :=
  fun k => match m k with
           | Done (a, k') => f a k'
           | Oops => Oops
           | Diverge => Diverge
           end.

Notation "'let*' x ':=' m 'in' f" := (bind m (fun x => f))
  (at level 10, x pattern, m at level 100, f at level 200).

Definition oops {A} : M A := fun _ => Oops.
Definition get_dev : M mtk_device := fun k => Done (dev k, k).
Definition put_dev (d : mtk_device) : M unit := fun k => Done (tt, set_dev d k).
Definition modify_dev (f : mtk_device -> mtk_device) : M unit :=
  fun k => Done (tt, set_dev (f (dev k)) k).
Definition emit (e : event) : M unit :=
  fun k => Done (tt, {| dev := dev k; trace := e :: trace k; allocs := allocs k;
                        sa_mem := sa_mem k |}).

(** Next answer of the allocator. *)
Definition alloc : M (option Z) :=
  fun k => match allocs k with
           | [] => Done (None, k)
           | a :: rest => Done (a, {| dev := dev k; trace := trace k; allocs := rest;
                                      sa_mem := sa_mem k |})
           end.

(** Dereference of an SA record pointer. *)
Definition load_sa (p : Z) : M saRecord_s :=
  fun k => match sa_mem k !! p with
           | Some r => Done (r, k)
           | None => Oops
           end.

Definition store_sa (p : Z) (r : saRecord_s) : M unit :=
  fun k => Done (tt, {| dev := dev k; trace := trace k; allocs := allocs k;
                        sa_mem := <[p := r]> (sa_mem k) |}).

(** ** Descriptor rings *)

(** Modelled from the spec: eip93-ring.c is not under src/.  The ring is a
    fixed-capacity circular buffer; the write pointer advances only on
    production, the read pointer only on reaping, and one slot stays unused
    so that full and empty differ ("at most capacity-1 descriptors may be
    outstanding").  Both calls report the index they looked at through
    their out-parameter, also when they fail. *)
Definition ring_succ (i : Z) : Z := if i + 1 =? MTK_RING_SIZE then 0 else i + 1.

Definition mtk_ring_next_wptr (r : mtk_desc_ring) : Z * option mtk_desc_ring :=
  (ring_write r,
   if ring_succ (ring_write r) =? ring_read r then None
   else Some {| ring_write := ring_succ (ring_write r); ring_read := ring_read r |}).

Definition mtk_ring_next_rptr (r : mtk_desc_ring) : Z * option mtk_desc_ring :=
  (ring_read r,
   if ring_write r =? ring_read r then None
   else Some {| ring_write := ring_write r; ring_read := ring_succ (ring_read r) |}).

Definition mtk_ring_curr_wptr_index : M Z :=
  fun k => Done (ring_write (rdr (dev k)), k).

(** [mtk_add_rdesc] / [mtk_add_cdesc]: the index written to [*wptr] and
    whether a descriptor (rather than an error pointer) came back. *)
Definition mtk_add_rdesc : M (Z * bool) :=
  fun k => match mtk_ring_next_wptr (rdr (dev k)) with
           | (i, Some r) => Done ((i, true), set_dev (set_rdr r (dev k)) k)
           | (i, None) => Done ((i, false), k)
           end.

Definition mtk_add_cdesc : M (Z * bool) :=
  fun k => match mtk_ring_next_wptr (cdr (dev k)) with
           | (i, Some r) => Done ((i, true), set_dev (set_cdr r (dev k)) k)
           | (i, None) => Done ((i, false), k)
           end.

(** ** mtk_free_sg_cpy, mtk_make_sg_cpy *)

(** [sg_virt] of a bounce buffer is the address the page allocator gave;
    it is kept in [sg_page] (the platform maps memory one to one). *)
Definition mtk_free_sg_cpy (len : Z) (sg : list scatterlist) : M (list scatterlist) :=
  match sg with
  | [] => ret []
  | s :: _ =>
      if len =? 0 then ret sg
      else let* _ := emit (EvFreePages (sg_page s)) in ret []
  end.

Definition sg_copy_to_buffer (sg : list scatterlist) (len : Z) : list Z :=
  take (Z.to_nat len) (concat (map (fun s => take (Z.to_nat (sg_length s)) (sg_data s)) sg)).

(** Reads of the request context that [mtk_make_sg_cpy] needs. *)
Definition mtk_make_sg_cpy (src : list scatterlist) (len : Z)
    (assoclen textsize authsize : Z) (copy : bool) : M (Z * list scatterlist) :=
  let* dst := alloc in
  match dst with
  | None => let* _ := emit EvPrintk in ret (- ENOMEM, [])
  | Some dst_addr =>
      let totallen := s32 (assoclen + textsize + authsize) in
      let* pages := alloc in
      match pages with
      | None => let* _ := emit EvPrintk in ret (- ENOMEM, [])
      | Some virt =>
          let fresh := replicate (Z.to_nat totallen) 0 in
          let data := if copy then
                        let c := sg_copy_to_buffer src len in c ++ drop (length c) fresh
                      else fresh in
          ret (0, [ {| sg_addr := dst_addr; sg_page := virt; sg_offset := 0;
                       sg_length := u32 totallen; sg_dma_address := 0;
                       sg_data := data |} ])
      end
  end.

(** [dma_map_sg] on a platform without IOMMU: every entry gets the bus
    address of its buffer. *)
Definition dma_map_entries (sg : list scatterlist) : list scatterlist :=
  map (fun s => {| sg_addr := sg_addr s; sg_page := sg_page s; sg_offset := sg_offset s;
                   sg_length := sg_length s; sg_dma_address := sg_page s + sg_offset s;
                   sg_data := sg_data s |}) sg.

Definition head_addr (sg : list scatterlist) : Z :=
  match sg with [] => 0 | s :: _ => sg_addr s end.

Definition dma_map_sg (sg : list scatterlist) (dir : dma_dir) : M (list scatterlist) :=
  let* _ := emit (EvDmaMap (head_addr sg) (sg_nents sg) dir) in
  ret (dma_map_entries sg).

Definition dma_unmap_sg (sg : list scatterlist) (nents : Z) (dir : dma_dir) : M unit :=
  emit (EvDmaUnmap (head_addr sg) nents dir).

(** [scatterwalk_ffwd(dst, src, len)]: skip [len] bytes; the new head entry
    lives in the two-entry array [dst] of the request context. *)
Fixpoint scatterwalk_ffwd (dst_addr : Z) (src : list scatterlist) (len : Z)
    : option (list scatterlist) :=
  if len =? 0 then Some src
  else match src with
       | [] => None
       | s :: rest =>
           if len <? sg_length s then
             Some ({| sg_addr := dst_addr; sg_page := sg_page s;
                      sg_offset := sg_offset s + len; sg_length := sg_length s - len;
                      sg_dma_address := 0;
                      sg_data := drop (Z.to_nat len) (sg_data s) |} :: rest)
           else scatterwalk_ffwd dst_addr rest (len - sg_length s)
       end.

(** ** mtk_scatter_combine *)

(** Lines 262-289: take the next result and command descriptor, fill the
    command descriptor and the side-table entry.  Writing through the error
    pointer of a full command ring is an [Oops]. *)
Definition sc_emit (saRecord_base saState_base areq saPointer : Z)
    (saddr offsetin daddr offsetout len : Z) : M Z :=
  let* (_, rok) := mtk_add_rdesc in
  let* _ := (if rok then ret tt else emit EvDevErr) in
  let* (wptr, cok) := mtk_add_cdesc in
  let* _ := (if cok then ret tt else emit EvDevErr) in
  if negb cok then oops
  else
    let cdesc :=
      {| ctl_hostReady := 1; ctl_prngMode := 0; ctl_hashFinal := 1;
         ctl_padCrtlStat := 0; ctl_peReady := 0;
         srcAddr := u32 (saddr + offsetin); dstAddr := u32 (daddr + offsetout);
         saAddr := saRecord_base; stateAddr := saState_base; arc4Addr := saState_base;
         userId := 0; len_byPass := 0; len_length := bitfield PE_LENGTH_BITS len;
         len_hostReady := 1 |} in
    let buf := {| buf_flags := MTK_DESC_ASYNC; buf_req := areq; buf_saPointer := saPointer |} in
    let* _ := modify_dev (fun d =>
                set_dma_buf (<[wptr := buf]> (dma_buf d))
                  (set_cdr_desc (<[wptr := cdesc]> (cdr_desc d)) d)) in
    ret wptr.

(** The [if (nextin) {...}] and [if (nextout) {...}] blocks are the same
    code on the two cursors. *)
Inductive cursor :=
| Cur_oops
| Cur_continue (sg : list scatterlist) (remain : Z)
| Cur_go (sg : list scatterlist) (remain addr offset : Z) (next : bool).

Definition sc_advance (next : bool) (sg : list scatterlist)
    (remain addr offset n : Z) : cursor :=
  if next then
    match tail sg with
    | [] => Cur_oops
    | s :: _ =>
        let remain := Z.min (sg_dma_len s) n in
        if remain =? 0 then Cur_continue (tail sg) remain
        else Cur_go (tail sg) remain (sg_dma_address s) 0 false
    end
  else Cur_go sg remain addr offset next.

(** The [do { ... } while (n)] loop; [continue] jumps to the test of [n]. *)
Fixpoint sc_loop (fuel : nat) (saRecord_base saState_base areq saPointer : Z)
    (sgsrc sgdst : list scatterlist)
    (remainin remainout offsetin offsetout saddr daddr : Z)
    (nextin nextout : bool) (n ndesc_cdr ndesc_rdr : Z) (buf : option Z)
    : M (option Z * Z * Z) :=
  match fuel with
  | O => fun _ => Diverge
  | S fuel =>
      let again sgsrc sgdst remainin remainout offsetin offsetout saddr daddr
                nextin nextout n ndesc_cdr ndesc_rdr buf :=
        if n =? 0 then ret (buf, ndesc_cdr, ndesc_rdr)
        else sc_loop fuel saRecord_base saState_base areq saPointer sgsrc sgdst
               remainin remainout offsetin offsetout saddr daddr
               nextin nextout n ndesc_cdr ndesc_rdr buf in
      match sc_advance nextin sgsrc remainin saddr offsetin n with
      | Cur_oops => oops
      | Cur_continue sgsrc remainin =>
          again sgsrc sgdst remainin remainout offsetin offsetout saddr daddr
                nextin nextout n ndesc_cdr ndesc_rdr buf
      | Cur_go sgsrc remainin saddr offsetin nextin =>
          match sc_advance nextout sgdst remainout daddr offsetout n with
          | Cur_oops => oops
          | Cur_continue sgdst remainout =>
              again sgsrc sgdst remainin remainout offsetin offsetout saddr daddr
                    nextin nextout n ndesc_cdr ndesc_rdr buf
          | Cur_go sgdst remainout daddr offsetout nextout =>
              if remainin =? remainout then
                let len := remainin in
                let* wptr := sc_emit saRecord_base saState_base areq saPointer
                               saddr offsetin daddr offsetout len in
                again sgsrc sgdst remainin remainout offsetin offsetout saddr daddr
                      true true (u32 (n - len)) (ndesc_cdr + 1) (ndesc_rdr + 1) (Some wptr)
              else if remainin <? remainout then
                let len := remainin in
                let* wptr := sc_emit saRecord_base saState_base areq saPointer
                               saddr offsetin daddr (s32 (offsetout + len)) len in
                again sgsrc sgdst remainin (u32 (remainout - len)) offsetin
                      (s32 (offsetout + len)) saddr daddr
                      true nextout (u32 (n - len)) (ndesc_cdr + 1) (ndesc_rdr + 1) (Some wptr)
              else
                let len := remainout in
                let* wptr := sc_emit saRecord_base saState_base areq saPointer
                               saddr (s32 (offsetin + len)) daddr offsetout len in
                again sgsrc sgdst (u32 (remainin - len)) remainout
                      (s32 (offsetin + len)) offsetout saddr daddr
                      nextin true (u32 (n - len)) (ndesc_cdr + 1) (ndesc_rdr + 1) (Some wptr)
          end
      end
  end.

Definition or_flag (bit : Z) (b : mtk_desc_buf) : mtk_desc_buf :=
  {| buf_flags := Z.lor (buf_flags b) bit; buf_req := buf_req b;
     buf_saPointer := buf_saPointer b |}.

(** Lines 293-306: flag the side-table entry of the last descriptor. *)
Definition sc_finish (buf : option Z) (complete : bool) : M unit :=
  match buf with
  | None => oops
  | Some i =>
      let* _ := modify_dev (fun d =>
                  set_dma_buf (<[i := or_flag MTK_DESC_LAST (buf_at d i)]> (dma_buf d)) d) in
      if complete then
        modify_dev (fun d =>
          set_dma_buf (<[i := or_flag MTK_DESC_FINISH (buf_at d i)]> (dma_buf d)) d)
      else ret tt
  end.

(** The loop never runs longer than the two lists together have entries:
    every iteration after the first moves a cursor to its next entry. *)
Definition mtk_scatter_combine (saRecord_base saState_base : Z)
    (sgsrc sgdst : list scatterlist) (datalen : Z) (complete : bool) (areq : Z)
    : M (Z * Z * Z) :=
  match sgsrc, sgdst with
  | s :: _, d :: _ =>
      let n := datalen in
      let remainin := Z.min (sg_dma_len s) n in
      let remainout := Z.min (sg_dma_len d) n in
      let saddr := sg_dma_address s in
      let daddr := sg_dma_address d in
      let* saPointer := mtk_ring_curr_wptr_index in
      let* (buf, ndesc_cdr, ndesc_rdr) :=
        sc_loop (length sgsrc + length sgdst) saRecord_base saState_base areq saPointer
          sgsrc sgdst remainin remainout 0 0 saddr daddr false false n 0 0 None in
      let* _ := sc_finish buf complete in
      ret (0, ndesc_cdr, ndesc_rdr)
  | _, _ => oops
  end.

(** ** Transform and request contexts *)

(** The software fallback cipher, an outside collaborator: only its return
    codes matter here. *)
Record sync_skcipher := {
  fb_setkey : list Z -> Z -> Z;
  fb_crypt : bool -> Z -> Z
}.

Record mtk_cipher_ctx := {
  ctx_aead : bool;
  ctx_sa : Z;
  ctx_fallback : option sync_skcipher;
  ctx_authsize : Z
}.

(** [ctr_src] / [ctr_dst] are the addresses of the two-entry arrays inside
    the request context. *)
Record mtk_cipher_reqctx := {
  rctx_flags : Z;
  rctx_textsize : Z;
  rctx_assoclen : Z;
  rctx_authsize : Z;
  rctx_ivsize : Z;
  rctx_sg_src : list scatterlist;
  rctx_sg_dst : list scatterlist;
  rctx_src_nents : Z;
  rctx_dst_nents : Z;
  rctx_ctr_src : Z;
  rctx_ctr_dst : Z
}.

Definition set_rctx_flags (v : Z) (r : mtk_cipher_reqctx) : mtk_cipher_reqctx :=
  {| rctx_flags := v; rctx_textsize := rctx_textsize r; rctx_assoclen := rctx_assoclen r;
     rctx_authsize := rctx_authsize r; rctx_ivsize := rctx_ivsize r;
     rctx_sg_src := rctx_sg_src r; rctx_sg_dst := rctx_sg_dst r;
     rctx_src_nents := rctx_src_nents r; rctx_dst_nents := rctx_dst_nents r;
     rctx_ctr_src := rctx_ctr_src r; rctx_ctr_dst := rctx_ctr_dst r |}.

Definition set_rctx_sizes (text assoc auth iv : Z) (r : mtk_cipher_reqctx) : mtk_cipher_reqctx :=
  {| rctx_flags := rctx_flags r; rctx_textsize := text; rctx_assoclen := assoc;
     rctx_authsize := auth; rctx_ivsize := iv;
     rctx_sg_src := rctx_sg_src r; rctx_sg_dst := rctx_sg_dst r;
     rctx_src_nents := rctx_src_nents r; rctx_dst_nents := rctx_dst_nents r;
     rctx_ctr_src := rctx_ctr_src r; rctx_ctr_dst := rctx_ctr_dst r |}.

Definition set_rctx_sg (src dst : list scatterlist) (r : mtk_cipher_reqctx) : mtk_cipher_reqctx :=
  {| rctx_flags := rctx_flags r; rctx_textsize := rctx_textsize r;
     rctx_assoclen := rctx_assoclen r;
     rctx_authsize := rctx_authsize r; rctx_ivsize := rctx_ivsize r;
     rctx_sg_src := src; rctx_sg_dst := dst;
     rctx_src_nents := rctx_src_nents r; rctx_dst_nents := rctx_dst_nents r;
     rctx_ctr_src := rctx_ctr_src r; rctx_ctr_dst := rctx_ctr_dst r |}.

Definition set_rctx_nents (sn dn : Z) (r : mtk_cipher_reqctx) : mtk_cipher_reqctx :=
  {| rctx_flags := rctx_flags r; rctx_textsize := rctx_textsize r;
     rctx_assoclen := rctx_assoclen r;
     rctx_authsize := rctx_authsize r; rctx_ivsize := rctx_ivsize r;
     rctx_sg_src := rctx_sg_src r; rctx_sg_dst := rctx_sg_dst r;
     rctx_src_nents := sn; rctx_dst_nents := dn;
     rctx_ctr_src := rctx_ctr_src r; rctx_ctr_dst := rctx_ctr_dst r |}.

(** ** mtk_send_req *)

(** The [switch (flags & MTK_ALG_MASK)] that picks the block size. *)
Definition send_req_blksize (flags : Z) : Z :=
  let alg := Z.land flags MTK_ALG_MASK in
  if alg =? MTK_ALG_AES then AES_BLOCK_SIZE
  else if alg =? MTK_ALG_DES then DES_BLOCK_SIZE
  else if alg =? MTK_ALG_3DES then DES3_EDE_BLOCK_SIZE
  else 1.

(** Lines 426-446: the counter-overflow test.  Result: [offset], the
    software IV and [complete]. *)
Definition ctr_overflow_split (overflow : bool) (totlen_src : Z) (iv : list Z)
    : Z * list Z * bool :=
  if overflow then
    let blocks := DIV_ROUND_UP totlen_src AES_BLOCK_SIZE in
    let ctr := be32_of_bytes (word_at 3 iv) in
    let start := ctr in
    let end_ := u32 (start + blocks - 1) in
    if end_ <? start then
      let offset := s32 (u32 (AES_BLOCK_SIZE * u32 (- start))) in
      let ctr := 4294967295 in
      let iv := set_word_at 3 (be32_bytes ctr) iv in
      let iv := crypto_inc (take 16 iv) ++ drop 16 iv in
      (offset, iv, false)
    else (0, iv, true)
  else (0, iv, true).

(** Lines 458-481: the ring slot receives a copy of the transform's record,
    and the per-request settings go into the copy. *)
Definition send_req_saRecord (sa : saRecord_s) (aead : bool) (flags aad authsize : Z)
    : saRecord_s :=
  let r := sa in
  let r := if IS_DECRYPT flags then with_saCmd0 (set_direction 1) r else r in
  let r := if aead then with_saCmd0 (set_opCode 1) r else r in
  if IS_HMAC flags then
    with_saCmd0 (set_digestLength (bitfield SA_DIGEST_LENGTH_BITS (authsize / 4)))
      (with_saCmd1 (set_hashCryptOffset (bitfield SA_HASH_CRYPT_OFFSET_BITS (aad / 4))) r)
  else r.

(** Lines 483-490: the IV put into the SA state slot. *)
Definition send_req_stateIv (sa : saRecord_s) (flags : Z) (overflow : bool)
    (reqiv iv old : list Z) : list Z :=
  if IS_CBC flags || overflow then memcpy old reqiv AES_BLOCK_SIZE
  else if IS_RFC3686 flags then
    set_word_at 3 (be32_bytes 1)
      (set_word_at 2 (word_at 1 iv)
        (set_word_at 1 (word_at 0 iv)
          (set_word_at 0 (saNonce sa) old)))
  else old.

Definition set_stateIv_slot (wptr : Z) (iv : list Z) : M unit :=
  modify_dev (fun d => set_saState (<[wptr := {| stateIv := iv |}]> (saState d)) d).

(** Map the destination, and the source unless it is the same list. *)
Definition send_req_map (src dst : list scatterlist)
    : M (list scatterlist * list scatterlist) :=
  let same := sg_ptr_eq src dst in
  let* dst := dma_map_sg dst DMA_BIDIRECTIONAL in
  if same then ret (dst, dst)
  else let* src := dma_map_sg src DMA_TO_DEVICE in ret (src, dst).

(** Lines 451-527, under [desc_lock]: fill the SA slots of the current
    write index and issue the descriptors, in two sub-requests when the
    counter overflow was detected ([complete = false]). *)
Definition send_req_submit (base : Z) (ctx : mtk_cipher_ctx) (reqiv : list Z)
    (rctx : mtk_cipher_reqctx) (flags aad authsize datalen : Z)
    (src dst : list scatterlist) (iv : list Z) (overflow : bool) (offset : Z)
    (complete : bool) : M (Z * mtk_cipher_reqctx * Z * Z) :=
  let* wptr := mtk_ring_curr_wptr_index in
  let* d := get_dev in
  let saState_base := u32 (dev_saState_base d + wptr * sizeof_saState) in
  let saRecord_base := u32 (dev_saRecord_base d + wptr * sizeof_saRecord) in
  let* sa := load_sa (ctx_sa ctx) in
  let* _ := modify_dev (fun d =>
              set_saRecord
                (<[wptr := send_req_saRecord sa (ctx_aead ctx) flags aad authsize]>
                   (saRecord d)) d) in
  let* _ := set_stateIv_slot wptr
              (send_req_stateIv sa flags overflow reqiv iv
                 (stateIv (saState_at d wptr))) in
  if negb complete then
    let src_ctr := src in
    let dst_ctr := dst in
    let* (_, ctr_cdr, ctr_rdr) :=
      mtk_scatter_combine saRecord_base saState_base src dst (u32 offset)
        complete base in
    match scatterwalk_ffwd (rctx_ctr_src rctx) src_ctr (u32 offset) with
    | None => oops
    | Some src =>
        match (if sg_ptr_eq src_ctr dst_ctr then Some src
               else scatterwalk_ffwd (rctx_ctr_dst rctx) dst_ctr (u32 offset)) with
        | None => oops
        | Some dst =>
            let* wptr := mtk_ring_curr_wptr_index in
            let* d := get_dev in
            let saState_base := u32 (dev_saState_base d + wptr * sizeof_saState) in
            let* _ := set_stateIv_slot wptr
                        (memcpy (stateIv (saState_at d wptr)) iv AES_BLOCK_SIZE) in
            let datalen := u32 (datalen - offset) in
            let complete := true in
            let* (src, dst) := send_req_map src dst in
            let* (_, ndesc_cdr, ndesc_rdr) :=
              mtk_scatter_combine saRecord_base saState_base src dst datalen
                complete base in
            ret (0, rctx, ndesc_cdr + ctr_cdr, ndesc_rdr + ctr_rdr)
        end
    end
  else
    let* (_, ndesc_cdr, ndesc_rdr) :=
      mtk_scatter_combine saRecord_base saState_base src dst datalen
        complete base in
    ret (0, rctx, ndesc_cdr, ndesc_rdr).

(** Lines 337-425: sizes, the block-size test, the buffer checks, bounce
    buffers and DMA mapping.  [inl] is an early [return err]; [inr] carries
    the request context and the lists to submit. *)
Definition send_req_prepare (ctx : mtk_cipher_ctx)
    (reqsrc reqdst : list scatterlist) (rctx : mtk_cipher_reqctx)
    : M (Z * mtk_cipher_reqctx + mtk_cipher_reqctx * list scatterlist * list scatterlist) :=
  let aad := rctx_assoclen rctx in
  let textsize := rctx_textsize rctx in
  let authsize := rctx_authsize rctx in
  let datalen := u32 (aad + textsize) in
  let flags := rctx_flags rctx in
  let blksize := send_req_blksize flags in
  let totlen_dst :=
    if ctx_aead ctx && IS_ENCRYPT flags then u32 (datalen + authsize) else datalen in
  let totlen_src :=
    if ctx_aead ctx && negb (IS_ENCRYPT flags) then u32 (datalen + authsize) else datalen in
  if negb (IS_CTR (rctx_flags rctx)) && negb (IS_ALIGNED textsize blksize) then
    ret (inl (- EINVAL, rctx))
  else
    let rctx := set_rctx_sg [] [] rctx in
    let src := reqsrc in
    let dst := reqdst in
    let src_nents := sg_nents_for_len src totlen_src in
    let dst_nents := sg_nents_for_len dst totlen_dst in
    let inplace := sg_ptr_eq src dst in
    let src_nents := if inplace then Z.max src_nents dst_nents else src_nents in
    let dst_nents := if inplace then src_nents else dst_nents in
    let rctx := set_rctx_nents src_nents dst_nents rctx in
    let too_small :=
      if inplace then
        (negb (totlen_src =? 0) || negb (totlen_dst =? 0)) && (src_nents <=? 0)
      else
        (negb (totlen_src =? 0) && (src_nents <=? 0))
        || (negb (totlen_dst =? 0) && (dst_nents <=? 0)) in
    if too_small then
      let* _ := emit EvDevErr in ret (inl (- EINVAL, rctx))
    else
      let src_align :=
        if ctx_aead ctx then false else mtk_is_sg_aligned src totlen_src blksize in
      let dst_align :=
        if ctx_aead ctx then false else mtk_is_sg_aligned reqdst totlen_dst blksize in
      let* (err, bounce_src) :=
        (if src_align then ret (0, [])
         else mtk_make_sg_cpy reqsrc totlen_src aad textsize authsize true) in
      let rctx := set_rctx_sg bounce_src (rctx_sg_dst rctx) rctx in
      if negb (err =? 0) then ret (inl (err, rctx))
      else
        let src := if src_align then src else bounce_src in
        let* (err, bounce_dst) :=
          (if dst_align then ret (0, [])
           else mtk_make_sg_cpy reqdst totlen_dst aad textsize authsize false) in
        let rctx := set_rctx_sg (rctx_sg_src rctx) bounce_dst rctx in
        if negb (err =? 0) then ret (inl (err, rctx))
        else
          let dst := if dst_align then dst else bounce_dst in
          let* (src, dst) := send_req_map src dst in
          ret (inr (rctx, src, dst)).

(** The source length [totlen_src] of a request. *)
Definition send_req_totlen_src (ctx : mtk_cipher_ctx) (rctx : mtk_cipher_reqctx) : Z :=
  let datalen := u32 (rctx_assoclen rctx + rctx_textsize rctx) in
  if ctx_aead ctx && negb (IS_ENCRYPT (rctx_flags rctx))
  then u32 (datalen + rctx_authsize rctx) else datalen.

(** Result: return value, request context, [*commands], [*results]. *)
Definition mtk_send_req (base : Z) (ctx : mtk_cipher_ctx)
    (reqsrc reqdst : list scatterlist) (reqiv : list Z) (rctx : mtk_cipher_reqctx)
    : M (Z * mtk_cipher_reqctx * Z * Z) :=
  let aad := rctx_assoclen rctx in
  let authsize := rctx_authsize rctx in
  let datalen := u32 (aad + rctx_textsize rctx) in
  let flags := rctx_flags rctx in
  let totlen_src := send_req_totlen_src ctx rctx in
  let* prepared := send_req_prepare ctx reqsrc reqdst rctx in
  match prepared with
  | inl (err, rctx) => ret (err, rctx, 0, 0)
  | inr (rctx, src, dst) =>
      let iv :=
        if IS_CBC flags || IS_CTR flags then memcpy (replicate 16 0) reqiv AES_BLOCK_SIZE
        else replicate 16 0 in
      let overflow := IS_CTR (rctx_flags rctx) && negb (IS_RFC3686 (rctx_flags rctx)) in
      let '(offset, iv, complete) := ctr_overflow_split overflow totlen_src iv in
      send_req_submit base ctx reqiv rctx flags aad authsize datalen src dst iv
        overflow offset complete
  end.

(** ** mtk_ctx_saRecord and mtk_skcipher_setkey *)

Definition mtk_ctx_saRecord (ctx : mtk_cipher_ctx) (key nonce : list Z)
    (keylen flags : Z) : M unit :=
  let* _ := emit EvCall_mtk_ctx_saRecord in
  let* sa := load_sa (ctx_sa ctx) in
  let alg := Z.land flags MTK_ALG_MASK in
  let hsh := Z.land flags MTK_HASH_MASK in
  let mode := Z.land flags MTK_MODE_MASK in
  let cmd0 :=
    {| ivSource := 2; saveIv := 1; opGroup := 0; opCode := 0;
       cipher := if alg =? MTK_ALG_AES then 3
                 else if alg =? MTK_ALG_3DES then 1
                 else if alg =? MTK_ALG_DES then 0 else 15;
       saveHash := if (hsh =? MTK_HASH_SHA256) || (hsh =? MTK_HASH_SHA224)
                      || (hsh =? MTK_HASH_SHA1) || (hsh =? MTK_HASH_MD5) then 1 else 0;
       hash := if hsh =? MTK_HASH_SHA256 then 3
               else if hsh =? MTK_HASH_SHA224 then 2
               else if hsh =? MTK_HASH_SHA1 then 1
               else if hsh =? MTK_HASH_MD5 then 0 else 15;
       hdrProc := 0; padType := 3; extPad := 0; scPad := 0;
       digestLength := 0; direction := direction (saCmd0 sa) |} in
  let cmd1 :=
    {| aesKeyLen := if alg =? MTK_ALG_AES then keylen / 8 else aesKeyLen (saCmd1 sa);
       cipherMode := if mode =? MTK_MODE_ECB then 0
                     else if mode =? MTK_MODE_CBC then 1
                     else if mode =? MTK_MODE_CTR then 2 else cipherMode (saCmd1 sa);
       byteOffset := 0; hashCryptOffset := 0; copyPayload := 0;
       hmac := if IS_HMAC flags then 1 else 0;
       copyDigest := if IS_HMAC flags then 1 else 0;
       copyHeader := if IS_HMAC flags then 1 else 0;
       seqNumCheck := 0 |} in
  let sa' :=
    {| saCmd0 := cmd0; saCmd1 := cmd1;
       saKey := memcpy (saKey sa) key keylen;
       saIDigest := saIDigest sa; saODigest := saODigest sa;
       saNonce := if IS_RFC3686 flags then nonce else saNonce sa;
       saSpi := 0; saSeqNumMask := (4294967295, 0) |} in
  store_sa (ctx_sa ctx) sa'.

(** [aes_expandkey] of the kernel library rejects every length but 16, 24
    and 32 bytes. *)
Definition aes_expandkey (key : list Z) (keylen : Z) : Z :=
  if (keylen =? AES_KEYSIZE_128) || (keylen =? AES_KEYSIZE_192) || (keylen =? AES_KEYSIZE_256)
  then 0 else - EINVAL.

(** The DES key checks of the crypto API look at the key bytes (weak keys)
    and take no length; they are services of the host framework. *)
Record crypto_api := {
  verify_skcipher_des_key : list Z -> Z;
  verify_skcipher_des3_key : list Z -> Z
}.

(** [key = None] is a NULL key pointer; [tflags] are the template's flags. *)
Definition mtk_skcipher_setkey (api : crypto_api) (tflags : Z) (ctx : mtk_cipher_ctx)
    (key : option (list Z)) (len : Z) : M Z :=
  let flags := tflags in
  let keylen := len in
  match key with
  | None => ret (- EINVAL)
  | Some key =>
      if keylen =? 0 then ret (- EINVAL)
      else
        let keylen := if IS_RFC3686 flags then u32 (keylen - CTR_RFC3686_NONCE_SIZE) else keylen in
        let nonce := if IS_RFC3686 flags
                     then take 4 (drop (Z.to_nat keylen) key) else replicate 4 0 in
        let alg := Z.land flags MTK_ALG_MASK in
        let ret_ :=
          if alg =? MTK_ALG_AES then aes_expandkey key keylen
          else if alg =? MTK_ALG_DES then verify_skcipher_des_key api key
          else if alg =? MTK_ALG_3DES then
            if negb (keylen =? DES3_EDE_KEY_SIZE) then - EINVAL
            else verify_skcipher_des3_key api key
          else 0 in
        if negb (ret_ =? 0) then
          let* _ := emit EvSetBadKeyLen in ret ret_
        else
          let* _ := mtk_ctx_saRecord ctx key nonce keylen flags in
          match ctx_fallback ctx with
          | Some fb =>
              let ret_ := fb_setkey fb key len in
              if negb (ret_ =? 0) then ret ret_ else ret 0
          | None => ret 0
          end
  end.

(** ** mtk_req_result: the completion reaper *)

(** What the engine presents in a result descriptor: the error status, and
    the two ready bits as seen by the n-th read (they are written by DMA
    while the driver polls). *)
Record hw_rdesc := {
  rd_errStatus : Z;
  rd_peReady : nat -> bool * bool
}.

(** Lines 566-576: [try = 0; while (try < 1000) { ... }]; [budget] is the
    number of iterations left.  Result: the final value of [try]. *)
Fixpoint poll_ready (budget : nat) (ready : nat -> bool * bool) (try : nat) : nat :=
  match budget with
  | O => try
  | S budget =>
      let '(done1, done2) := ready try in
      if negb done1 || negb done2 then poll_ready budget ready (S try)
      else try
  end.

Definition clear_flags (i : Z) : M unit :=
  modify_dev (fun d =>
    set_dma_buf (<[i := {| buf_flags := 0; buf_req := buf_req (buf_at d i);
                           buf_saPointer := buf_saPointer (buf_at d i) |}]> (dma_buf d)) d).

Record reap_vars := {
  rv_ndesc : Z;
  rv_buf : option mtk_desc_buf;
  rv_should_complete : bool;
  rv_last_entry : bool;
  rv_ret : Z;
  rv_tries : list nat
}.

(** Lines 556-604: the [while (ndesc < nreq)] loop.  [rv_tries] records the
    value of [try] after each wait (latest first). *)
Fixpoint reap_loop (fuel : nat) (hw : Z -> hw_rdesc) (nreq : Z) (v : reap_vars)
    : M reap_vars :=
  match fuel with
  | O => fun k => if rv_ndesc v <? nreq then Diverge else Done (v, k)
  | S fuel =>
      if negb (rv_ndesc v <? nreq) then ret v
      else
        let* d := get_dev in
        match mtk_ring_next_rptr (rdr d) with
        | (_, None) =>
            let* _ := emit EvDevErr in
            ret {| rv_ndesc := rv_ndesc v; rv_buf := rv_buf v;
                   rv_should_complete := rv_should_complete v;
                   rv_last_entry := rv_last_entry v; rv_ret := - ENOENT;
                   rv_tries := rv_tries v |}
        | (rptr, Some r) =>
            let* _ := modify_dev (set_rdr r) in
            let rdesc := hw rptr in
            let try := poll_ready 1000 (rd_peReady rdesc) 0 in
            let* ret_ := (if negb (rd_errStatus rdesc =? 0)
                          then let* _ := emit EvDevErr in ret (- EINVAL)
                          else ret (rv_ret v)) in
            let* d := get_dev in
            match mtk_ring_next_rptr (cdr d) with
            | (_, None) =>
                let* _ := emit EvDevErr in
                ret {| rv_ndesc := rv_ndesc v; rv_buf := rv_buf v;
                       rv_should_complete := rv_should_complete v;
                       rv_last_entry := rv_last_entry v; rv_ret := - ENOENT;
                       rv_tries := try :: rv_tries v |}
            | (rptr, Some c) =>
                let* _ := modify_dev (set_cdr c) in
                let buf := buf_at d rptr in
                let should_complete :=
                  if flag_set (buf_flags buf) MTK_DESC_FINISH then true
                  else rv_should_complete v in
                let last_entry :=
                  if flag_set (buf_flags buf) MTK_DESC_LAST then true
                  else rv_last_entry v in
                let* _ := clear_flags rptr in
                let v' := {| rv_ndesc := rv_ndesc v + 1; rv_buf := Some buf;
                             rv_should_complete := should_complete;
                             rv_last_entry := last_entry; rv_ret := ret_;
                             rv_tries := try :: rv_tries v |} in
                if last_entry then ret v' else reap_loop fuel hw nreq v'
            end
        end
  end.

(** [ntohl] applied in place to a 32-bit word of memory: on a little-endian
    CPU the four bytes are reversed, on a big-endian CPU nothing changes. *)
Definition ntohl_image (little_endian : bool) (w : list Z) : list Z :=
  if little_endian then rev w else w.

(** [for (i = 0; i < (authsize / 4); i++) otag[i] = ntohl(otag[i]);] *)
Fixpoint ntohl_words (little_endian : bool) (count i : nat) (otag : list Z) : list Z :=
  match count with
  | O => otag
  | S count =>
      ntohl_words little_endian count (S i)
        (set_word_at i (ntohl_image little_endian (word_at i otag)) otag)
  end.

(** Lines 627-634 on the bytes of the bounce buffer. *)
Definition fix_tag_endianness (little_endian : bool) (flags len authsize : Z)
    (bounce : list Z) : list Z :=
  if negb (authsize =? 0) then
    if negb (IS_HASH_MD5 flags) then
      take (Z.to_nat len) bounce
        ++ ntohl_words little_endian (Z.to_nat (authsize / 4)) 0 (drop (Z.to_nat len) bounce)
    else bounce
  else bounce.

Fixpoint sg_copy_from_buffer (sg : list scatterlist) (buf : list Z) (buflen : Z)
    : list scatterlist :=
  match sg with
  | [] => []
  | s :: rest =>
      let k := Z.to_nat (Z.min buflen (sg_length s)) in
      {| sg_addr := sg_addr s; sg_page := sg_page s; sg_offset := sg_offset s;
         sg_length := sg_length s; sg_dma_address := sg_dma_address s;
         sg_data := take k buf ++ drop (length (take k buf)) (sg_data s) |}
      :: sg_copy_from_buffer rest (drop k buf) (buflen - Z.of_nat k)
  end.

Definition bounce_data (sg : list scatterlist) : list Z :=
  match sg with [] => [] | s :: _ => sg_data s end.

Record req_result_out := {
  out_ndesc : Z;
  out_should_complete : bool;
  out_ret : Z;
  out_rctx : mtk_cipher_reqctx;
  out_reqdst : list scatterlist;
  out_reqiv : list Z;
  out_tries : list nat
}.

(** Lines 648-664, the label [update_iv]. *)
Definition req_result_update_iv (rctx : mtk_cipher_reqctx) (buf : option mtk_desc_buf)
    (reqiv : list Z) : M (list Z) :=
  let* reqiv :=
    (if negb (IS_RFC3686 (rctx_flags rctx))
        && (IS_CBC (rctx_flags rctx) || IS_CTR (rctx_flags rctx)) then
       match buf with
       | None => oops
       | Some b =>
           let* d := get_dev in
           ret (memcpy reqiv (stateIv (saState_at d (buf_saPointer b))) (rctx_ivsize rctx))
       end
     else ret reqiv) in
  if IS_BUSY (rctx_flags rctx) then
    match buf with
    | None => oops
    | Some b => let* _ := emit (EvComplete (buf_req b) (- EINPROGRESS)) in ret reqiv
    end
  else ret reqiv.

(** [nreq] is the value read from the result-count register. *)
Definition mtk_req_result (little_endian : bool) (hw : Z -> hw_rdesc) (rd_count : Z)
    (rctx : mtk_cipher_reqctx) (reqsrc reqdst : list scatterlist) (reqiv : list Z)
    : M req_result_out :=
  let aad := rctx_assoclen rctx in
  let len := u32 (aad + rctx_textsize rctx) in
  let authsize := rctx_authsize rctx in
  let nreq := Z.land rd_count (GENMASK 10 0) in
  let* v := reap_loop (Z.to_nat nreq) hw nreq
              {| rv_ndesc := 0; rv_buf := None; rv_should_complete := false;
                 rv_last_entry := false; rv_ret := 0; rv_tries := [] |} in
  let out rctx reqdst reqiv :=
    {| out_ndesc := rv_ndesc v; out_should_complete := rv_should_complete v;
       out_ret := rv_ret v; out_rctx := rctx; out_reqdst := reqdst;
       out_reqiv := reqiv; out_tries := rv_tries v |} in
  if negb (rv_last_entry v) then ret (out rctx reqdst reqiv)
  else if sg_is_null (rctx_sg_src rctx) && sg_is_null (rctx_sg_dst rctx)
          && sg_ptr_eq reqsrc reqdst then
    let* _ := dma_unmap_sg reqdst (rctx_dst_nents rctx) DMA_BIDIRECTIONAL in
    let* reqiv := req_result_update_iv rctx (rv_buf v) reqiv in
    ret (out rctx reqdst reqiv)
  else
    let* sg_src :=
      (if negb (sg_is_null (rctx_sg_src rctx)) then
         let* _ := dma_unmap_sg (rctx_sg_src rctx) (sg_nents (rctx_sg_src rctx))
                     DMA_TO_DEVICE in
         mtk_free_sg_cpy (u32 (len + authsize)) (rctx_sg_src rctx)
       else
         let* _ := dma_unmap_sg reqsrc (sg_nents reqsrc) DMA_TO_DEVICE in
         ret (rctx_sg_src rctx)) in
    let* (sg_dst, reqdst) :=
      (if negb (sg_is_null (rctx_sg_dst rctx)) then
         let* _ := dma_unmap_sg (rctx_sg_dst rctx) (sg_nents (rctx_sg_dst rctx))
                     DMA_FROM_DEVICE in
         let bounce := fix_tag_endianness little_endian (rctx_flags rctx) len authsize
                         (bounce_data (rctx_sg_dst rctx)) in
         let auth := if IS_ENCRYPT (rctx_flags rctx) then authsize else 0 in
         let reqdst := sg_copy_from_buffer reqdst bounce (u32 (len + auth)) in
         let* sg_dst := mtk_free_sg_cpy (u32 (len + authsize)) (rctx_sg_dst rctx) in
         ret (sg_dst, reqdst)
       else
         let* _ := dma_unmap_sg reqdst (sg_nents reqdst) DMA_FROM_DEVICE in
         ret (rctx_sg_dst rctx, reqdst)) in
    let rctx := set_rctx_sg sg_src sg_dst rctx in
    if negb (rv_should_complete v) then ret (out rctx reqdst reqiv)
    else
      let* reqiv := req_result_update_iv rctx (rv_buf v) reqiv in
      ret (out rctx reqdst reqiv).

(** ** Entry points: mtk_skcipher_crypt, mtk_aead_crypt *)

Record crypt_request := {
  req_base : Z;
  req_src : list scatterlist;
  req_dst : list scatterlist;
  req_cryptlen : Z;
  req_assoclen : Z;
  req_iv : list Z
}.

(** Lines 833-855 (and 1076-1098): account the new descriptors, program the
    ring threshold on an idle ring, start the DMA.  [pending_cap] is the
    [min_t(int, requests, 32)] of the skcipher path. *)
Definition crypt_kick (pending_cap : bool) (rctx : mtk_cipher_reqctx) (commands : Z)
    : M (Z * mtk_cipher_reqctx) :=
  let DescriptorCountDone := MTK_RING_SIZE - 1 in
  let DescriptorDoneTimeout := 15 in
  let* _ := modify_dev (fun d => set_requests (requests d + commands) d) in
  let* d := get_dev in
  let* _ :=
    (if negb (busy d) then
       let DescriptorPendingCount :=
         if pending_cap then Z.min (requests d) 32 else requests d in
       let* _ := emit (EvWritel
                   (Z.lor (Z.lor (Z.lor (BIT 31) (Z.land DescriptorCountDone (GENMASK 10 0)))
                      (Z.shiftl (Z.land (DescriptorPendingCount - 1) (GENMASK 10 0)) 16))
                      (Z.shiftl (Z.land DescriptorDoneTimeout (GENMASK 4 0)) 26))
                   EIP93_REG_PE_RING_THRESH) in
       modify_dev (set_busy true)
     else ret tt) in
  let (ret_, rctx) :=
    if MTK_RING_BUSY <? requests d
    then (- EBUSY, set_rctx_flags (Z.lor (rctx_flags rctx) MTK_BUSY) rctx)
    else (- EINPROGRESS, rctx) in
  let* _ := emit (EvWritel commands EIP93_REG_PE_CD_COUNT) in
  ret (ret_, rctx).

Definition mtk_skcipher_crypt (ivsize : Z) (ctx : mtk_cipher_ctx)
    (rctx : mtk_cipher_reqctx) (req : crypt_request) : M (Z * mtk_cipher_reqctx) :=
  if req_cryptlen req =? 0 then ret (0, rctx)
  else
    let rctx := set_rctx_sizes (req_cryptlen req) 0 0 ivsize rctx in
    match (if req_cryptlen req <? NUM_AES_BYPASS then ctx_fallback ctx else None) with
    | Some fb =>
        let* _ := emit (EvFallback (IS_ENCRYPT (rctx_flags rctx)) (req_cryptlen req)) in
        ret (fb_crypt fb (IS_ENCRYPT (rctx_flags rctx)) (req_cryptlen req), rctx)
    | None =>
        let* d := get_dev in
        if MTK_RING_BUSY <? requests d then ret (- EAGAIN, rctx)
        else
          let* (ret_, rctx, commands, results) :=
            mtk_send_req (req_base req) ctx (req_src req) (req_dst req) (req_iv req) rctx in
          if negb (ret_ =? 0) then
            let* _ := emit (EvComplete (req_base req) ret_) in ret (ret_, rctx)
          else if commands =? 0 then ret (0, rctx)
          else crypt_kick true rctx commands
    end.

Definition mtk_skcipher_encrypt (tflags ivsize : Z) (ctx : mtk_cipher_ctx)
    (rctx : mtk_cipher_reqctx) (req : crypt_request) : M (Z * mtk_cipher_reqctx) :=
  mtk_skcipher_crypt ivsize ctx (set_rctx_flags (Z.lor tflags MTK_ENCRYPT) rctx) req.

Definition mtk_skcipher_decrypt (tflags ivsize : Z) (ctx : mtk_cipher_ctx)
    (rctx : mtk_cipher_reqctx) (req : crypt_request) : M (Z * mtk_cipher_reqctx) :=
  mtk_skcipher_crypt ivsize ctx (set_rctx_flags (Z.lor tflags MTK_DECRYPT) rctx) req.

(** [authsize] and [ivsize] are what [crypto_aead_authsize] and
    [crypto_aead_ivsize] return for the transform. *)
Definition mtk_aead_crypt (authsize ivsize : Z) (ctx : mtk_cipher_ctx)
    (rctx : mtk_cipher_reqctx) (req : crypt_request) : M (Z * mtk_cipher_reqctx) :=
  let textsize :=
    if IS_DECRYPT (rctx_flags rctx) then u32 (req_cryptlen req - authsize)
    else req_cryptlen req in
  let rctx := set_rctx_sizes textsize (req_assoclen req) authsize ivsize rctx in
  if rctx_textsize rctx =? 0 then ret (0, rctx)
  else
    let* d := get_dev in
    if MTK_RING_BUSY <? requests d then ret (- EAGAIN, rctx)
    else
      let* (ret_, rctx, commands, results) :=
        mtk_send_req (req_base req) ctx (req_src req) (req_dst req) (req_iv req) rctx in
      if negb (ret_ =? 0) then
        let* _ := emit (EvComplete (req_base req) ret_) in ret (ret_, rctx)
      else if commands =? 0 then ret (0, rctx)
      else crypt_kick false rctx commands.

Definition mtk_aead_encrypt (tflags authsize ivsize : Z) (ctx : mtk_cipher_ctx)
    (rctx : mtk_cipher_reqctx) (req : crypt_request) : M (Z * mtk_cipher_reqctx) :=
  mtk_aead_crypt authsize ivsize ctx (set_rctx_flags (Z.lor tflags MTK_ENCRYPT) rctx) req.

Definition mtk_aead_decrypt (tflags authsize ivsize : Z) (ctx : mtk_cipher_ctx)
    (rctx : mtk_cipher_reqctx) (req : crypt_request) : M (Z * mtk_cipher_reqctx) :=
  mtk_aead_crypt authsize ivsize ctx (set_rctx_flags (Z.lor tflags MTK_DECRYPT) rctx) req.

(** ** Concrete configurations *)

(** An idle device with empty rings, one transform whose SA record lives at
    address 4096, and an allocator that grants four requests. *)
Definition ring_idle : mtk_desc_ring := {| ring_write := 0; ring_read := 0 |}.

Definition dev_idle : mtk_device :=
  {| cdr := ring_idle; rdr := ring_idle; cdr_desc := ∅; dma_buf := ∅;
     saState := ∅; saRecord := ∅; dev_saState_base := 65536;
     dev_saRecord_base := 131072; requests := 0; busy := false |}.

Definition k_idle : kstate :=
  {| dev := dev_idle; trace := [];
     allocs := [Some 8192; Some 1048576; Some 8320; Some 2097152];
     sa_mem := {[ 4096 := saRecord_zero ]} |}.


Definition ctx_skcipher : mtk_cipher_ctx :=
  {| ctx_aead := false; ctx_sa := 4096; ctx_fallback := None; ctx_authsize := 0 |}.

Definition ctx_aead_tfm : mtk_cipher_ctx :=
  {| ctx_aead := true; ctx_sa := 4096; ctx_fallback := None; ctx_authsize := 16 |}.

Definition rctx_fresh (flags : Z) : mtk_cipher_reqctx :=
  {| rctx_flags := flags; rctx_textsize := 0; rctx_assoclen := 0; rctx_authsize := 0;
     rctx_ivsize := 0; rctx_sg_src := []; rctx_sg_dst := []; rctx_src_nents := 0;
     rctx_dst_nents := 0; rctx_ctr_src := 12288; rctx_ctr_dst := 12352 |}.

(** A one-entry scatterlist at [addr] over a cache-line aligned buffer. *)
Definition sg_one (addr page len : Z) : list scatterlist :=
  [ {| sg_addr := addr; sg_page := page; sg_offset := 0; sg_length := len;
       sg_dma_address := 0; sg_data := replicate (Z.to_nat len) 0 |} ].

Definition api_accept : crypto_api :=
  {| verify_skcipher_des_key := fun _ => 0; verify_skcipher_des3_key := fun _ => 0 |}.


(** A mapped list with one entry per given length, laid out back to back
    from bus address [page]. *)
Fixpoint sg_chain (addr page : Z) (lens : list Z) : list scatterlist :=
  match lens with
  | [] => []
  | len :: rest =>
      {| sg_addr := addr; sg_page := page; sg_offset := 0; sg_length := len;
         sg_dma_address := page; sg_data := replicate (Z.to_nat len) 0 |}
      :: sg_chain (addr + 64) (page + len) rest
  end.

(** One descriptor pair outstanding at ring index 0, the last and only one
    of its request. *)
Definition dev_one_pending : mtk_device :=
  {| cdr := {| ring_write := 1; ring_read := 0 |};
     rdr := {| ring_write := 1; ring_read := 0 |};
     cdr_desc := ∅;
     dma_buf := {[ 0 := {| buf_flags := Z.lor (Z.lor MTK_DESC_ASYNC MTK_DESC_LAST)
                                              MTK_DESC_FINISH;
                           buf_req := 7; buf_saPointer := 0 |} ]};
     saState := {[ 0 := {| stateIv := replicate 16 9 |} ]};
     saRecord := ∅; dev_saState_base := 65536; dev_saRecord_base := 131072;
     requests := 1; busy := true |}.

Definition k_one_pending : kstate := set_dev dev_one_pending k_idle.

(** An engine whose ready bits never come up and that reports no error. *)
Definition hw_never_ready (i : Z) : hw_rdesc :=
  {| rd_errStatus := 0; rd_peReady := fun _ => (false, false) |}.

Definition hw_ready (i : Z) : hw_rdesc :=
  {| rd_errStatus := 0; rd_peReady := fun _ => (true, true) |}.

(** A counter-mode request of three AES blocks whose IV ends in the
    counter [0xFFFFFFFE]. *)
Definition ctr_flags : Z := Z.lor (Z.lor MTK_MODE_CTR MTK_ALG_AES) MTK_ENCRYPT.
Definition iv_fffffffe : list Z := replicate 12 7 ++ [255; 255; 255; 254].
Definition rctx_ctr48 : mtk_cipher_reqctx := set_rctx_sizes 48 0 0 16 (rctx_fresh ctr_flags).

(** An AEAD encryption (SHA1) whose result sits in a bounce buffer: 16
    bytes of text followed by a tag of 8 bytes. *)
Definition aead_sha1_flags : Z :=
  Z.lor (Z.lor (Z.lor (Z.lor MTK_HASH_HMAC MTK_HASH_SHA1) MTK_MODE_CBC) MTK_ALG_AES)
    MTK_ENCRYPT.

Definition bounce_dst : list scatterlist :=
  [ {| sg_addr := 8320; sg_page := 2097152; sg_offset := 0; sg_length := 24;
       sg_dma_address := 2097152;
       sg_data := replicate 16 170 ++ [1; 2; 3; 4; 5; 6; 7; 8] |} ].

Definition rctx_aead_done : mtk_cipher_reqctx :=
  set_rctx_sg [] bounce_dst (set_rctx_sizes 16 0 8 16 (rctx_fresh aead_sha1_flags)).

(** An AEAD decryption in counter mode: 32 bytes of text followed by a tag
    of 16 bytes, so that the source holds 48 bytes. *)
Definition aead_ctr_decrypt_flags : Z :=
  Z.lor (Z.lor (Z.lor (Z.lor MTK_HASH_HMAC MTK_HASH_SHA1) MTK_MODE_CTR) MTK_ALG_AES)
    MTK_DECRYPT.

Definition rctx_aead_ctr_decrypt : mtk_cipher_reqctx :=
  set_rctx_sizes 32 0 16 16 (rctx_fresh aead_ctr_decrypt_flags).

(** ** Specification vocabulary *)


(** The key length [mtk_skcipher_setkey] works with once the RFC3686 nonce
    is taken off. *)
Definition setkey_keylen (tflags len : Z) : Z :=
  if IS_RFC3686 tflags then u32 (len - CTR_RFC3686_NONCE_SIZE) else len.


(** *** The descriptors of one submission *)

(** What one pass of the loop body hands to the rings. *)
Record sc_desc := {
  pd_saddr : Z; pd_offsetin : Z; pd_daddr : Z; pd_offsetout : Z; pd_len : Z
}.

(** The cursor arithmetic of [sc_loop] alone: the list of descriptors the
    loop asks for, in order. *)
Fixpoint sc_plan (fuel : nat) (sgsrc sgdst : list scatterlist)
    (remainin remainout offsetin offsetout saddr daddr : Z)
    (nextin nextout : bool) (n : Z) : result (list sc_desc) :=
  match fuel with
  | O => Diverge
  | S fuel =>
      let again sgsrc sgdst remainin remainout offsetin offsetout saddr daddr
                nextin nextout n :=
        if n =? 0 then Done []
        else sc_plan fuel sgsrc sgdst remainin remainout offsetin offsetout
               saddr daddr nextin nextout n in
      let cons x r :=
        match r with Done l => Done (x :: l) | Oops => Oops | Diverge => Diverge end in
      match sc_advance nextin sgsrc remainin saddr offsetin n with
      | Cur_oops => Oops
      | Cur_continue sgsrc remainin =>
          again sgsrc sgdst remainin remainout offsetin offsetout saddr daddr
                nextin nextout n
      | Cur_go sgsrc remainin saddr offsetin nextin =>
          match sc_advance nextout sgdst remainout daddr offsetout n with
          | Cur_oops => Oops
          | Cur_continue sgdst remainout =>
              again sgsrc sgdst remainin remainout offsetin offsetout saddr daddr
                    nextin nextout n
          | Cur_go sgdst remainout daddr offsetout nextout =>
              if remainin =? remainout then
                let len := remainin in
                cons {| pd_saddr := saddr; pd_offsetin := offsetin; pd_daddr := daddr;
                        pd_offsetout := offsetout; pd_len := len |}
                  (again sgsrc sgdst remainin remainout offsetin offsetout saddr daddr
                         true true (u32 (n - len)))
              else if remainin <? remainout then
                let len := remainin in
                cons {| pd_saddr := saddr; pd_offsetin := offsetin; pd_daddr := daddr;
                        pd_offsetout := s32 (offsetout + len); pd_len := len |}
                  (again sgsrc sgdst remainin (u32 (remainout - len)) offsetin
                         (s32 (offsetout + len)) saddr daddr true nextout (u32 (n - len)))
              else
                let len := remainout in
                cons {| pd_saddr := saddr; pd_offsetin := s32 (offsetin + len);
                        pd_daddr := daddr; pd_offsetout := offsetout; pd_len := len |}
                  (again sgsrc sgdst (u32 (remainin - len)) remainout
                         (s32 (offsetin + len)) offsetout saddr daddr
                         nextin true (u32 (n - len)))
          end
      end
  end.

Definition cdr_full (k : kstate) : bool :=
  ring_succ (ring_write (cdr (dev k))) =? ring_read (cdr (dev k)).

(** The state after [sc_emit] has handed out one descriptor. *)
Definition push_desc (saRecord_base saState_base areq saPointer : Z) (x : sc_desc)
    (k : kstate) : kstate :=
  match sc_emit saRecord_base saState_base areq saPointer
          (pd_saddr x) (pd_offsetin x) (pd_daddr x) (pd_offsetout x) (pd_len x) k with
  | Done (_, k') => k'
  | _ => k
  end.

Fixpoint push_all (saRecord_base saState_base areq saPointer : Z) (l : list sc_desc)
    (k : kstate) : option kstate :=
  match l with
  | [] => Some k
  | x :: rest =>
      if cdr_full k then None
      else push_all saRecord_base saState_base areq saPointer rest
             (push_desc saRecord_base saState_base areq saPointer x k)
  end.

(** Ring index [j] places after [w]. *)
Definition ring_at (w : Z) (j : nat) : Z := (w + Z.of_nat j) mod MTK_RING_SIZE.

(** Side-table index of the last descriptor pushed ([buf] when none is). *)
Fixpoint last_wptr (saRecord_base saState_base areq saPointer : Z) (l : list sc_desc)
    (k : kstate) (buf : option Z) : option Z :=
  match l with
  | [] => buf
  | x :: rest =>
      last_wptr saRecord_base saState_base areq saPointer rest
        (push_desc saRecord_base saState_base areq saPointer x k)
        (Some (ring_write (cdr (dev k))))
  end.

(** How a run of [sc_loop] relates to its plan: the descriptors of the plan
    are pushed one by one; a full command ring, like a cursor that runs off
    its list, ends in [Oops]. *)
Definition sc_sim (saRecord_base saState_base areq saPointer : Z)
    (plan : result (list sc_desc)) (c r : Z) (buf : option Z) (k : kstate)
    (run : result (option Z * Z * Z * kstate)) : Prop :=
  match plan with
  | Done l =>
      match push_all saRecord_base saState_base areq saPointer l k with
      | Some k' =>
          run = Done ((last_wptr saRecord_base saState_base areq saPointer l k buf,
                       c + Z.of_nat (length l), r + Z.of_nat (length l)), k')
      | None => run = Oops
      end
  | Oops => run = Oops
  | Diverge => run = Oops \/ run = Diverge
  end.

(** Bytes a cursor still has before it: what is left of the current
    segment (unless the cursor is due to move on) and the segments after. *)
Definition cur (next : bool) (sg : list scatterlist) (remain : Z) : list Z :=
  if next then map sg_dma_len (tail sg) else remain :: map sg_dma_len (tail sg).

(** The command descriptor and the side-table entry one pass writes. *)
Definition desc_of (saRecord_base saState_base : Z) (x : sc_desc) : eip93_descriptor_s :=
  {| ctl_hostReady := 1; ctl_prngMode := 0; ctl_hashFinal := 1;
     ctl_padCrtlStat := 0; ctl_peReady := 0;
     srcAddr := u32 (pd_saddr x + pd_offsetin x);
     dstAddr := u32 (pd_daddr x + pd_offsetout x);
     saAddr := saRecord_base; stateAddr := saState_base; arc4Addr := saState_base;
     userId := 0; len_byPass := 0; len_length := bitfield PE_LENGTH_BITS (pd_len x);
     len_hostReady := 1 |}.

Definition buf_of (areq saPointer flags : Z) : mtk_desc_buf :=
  {| buf_flags := flags; buf_req := areq; buf_saPointer := saPointer |}.

(** Flags of the last side-table entry of a submission. *)
Definition last_flags (complete : bool) : Z :=
  if complete then Z.lor (Z.lor MTK_DESC_ASYNC MTK_DESC_LAST) MTK_DESC_FINISH
  else Z.lor MTK_DESC_ASYNC MTK_DESC_LAST.

(** Free slots of a ring. *)
Definition ring_free (r : mtk_desc_ring) : Z :=
  (ring_read r - ring_write r - 1) mod MTK_RING_SIZE.

Definition ring_wf (r : mtk_desc_ring) : Prop :=
  0 <= ring_write r < MTK_RING_SIZE /\ 0 <= ring_read r < MTK_RING_SIZE.

(** The two rings move in step. *)
Definition rings_sync (k : kstate) : Prop := cdr (dev k) = rdr (dev k).

(** Everything but the rings, their descriptors and the side table is the
    same in [k1] as in [k]. *)
Definition same_outside_rings (k k1 : kstate) : Prop :=
  saState (dev k1) = saState (dev k) /\ saRecord (dev k1) = saRecord (dev k)
  /\ sa_mem k1 = sa_mem k /\ trace k1 = trace k /\ allocs k1 = allocs k
  /\ requests (dev k1) = requests (dev k) /\ busy (dev k1) = busy (dev k)
  /\ dev_saState_base (dev k1) = dev_saState_base (dev k)
  /\ dev_saRecord_base (dev k1) = dev_saRecord_base (dev k).

(** [k1] is [k] after the descriptors [l] went into the rings at the write
    index [w] of [k]. *)
Definition pushed (saRecord_base saState_base areq saPointer : Z) (l : list sc_desc)
    (k k1 : kstate) : Prop :=
  let w := ring_write (cdr (dev k)) in
  rings_sync k1 /\ ring_wf (cdr (dev k1))
  /\ ring_write (cdr (dev k1)) = ring_at w (length l)
  /\ ring_read (cdr (dev k1)) = ring_read (cdr (dev k))
  /\ ring_free (cdr (dev k1)) = ring_free (cdr (dev k)) - Z.of_nat (length l)
  /\ (forall j x, l !! j = Some x ->
        cdr_desc (dev k1) !! ring_at w j = Some (desc_of saRecord_base saState_base x)
        /\ dma_buf (dev k1) !! ring_at w j = Some (buf_of areq saPointer MTK_DESC_ASYNC))
  /\ (forall i, (forall j, (j < length l)%nat -> i <> ring_at w j) ->
        cdr_desc (dev k1) !! i = cdr_desc (dev k) !! i
        /\ dma_buf (dev k1) !! i = dma_buf (dev k) !! i)
  /\ same_outside_rings k k1.

(** The state after lines 293-306 flagged side-table entry [i]. *)
Definition finish_state (areq saPointer i : Z) (complete : bool) (k1 : kstate) : kstate :=
  set_dev (set_dma_buf (<[i := buf_of areq saPointer (last_flags complete)]>
                          (dma_buf (dev k1))) (dev k1)) k1.

(** [k'] is [k] after one whole submission of the descriptors [l]. *)
Definition submitted (saRecord_base saState_base areq : Z) (complete : bool)
    (l : list sc_desc) (k k' : kstate) : Prop :=
  exists k1,
    pushed saRecord_base saState_base areq (ring_write (rdr (dev k))) l k k1
    /\ k' = finish_state areq (ring_write (rdr (dev k)))
              (ring_at (ring_write (cdr (dev k))) (length l - 1)) complete k1.

(** The plan of a call of [mtk_scatter_combine]. *)
Definition scatter_plan (sgsrc sgdst : list scatterlist) (datalen : Z)
    : result (list sc_desc) :=
  match sgsrc, sgdst with
  | s :: _, d :: _ =>
      sc_plan (length sgsrc + length sgdst) sgsrc sgdst
        (Z.min (sg_dma_len s) datalen) (Z.min (sg_dma_len d) datalen) 0 0
        (sg_dma_address s) (sg_dma_address d) false false datalen
  | _, _ => Oops
  end.

(** The SA slots of the device and the SA records of the transforms are
    the same in [k1] as in [k]. *)
Definition same_sa (k k1 : kstate) : Prop :=
  saState (dev k1) = saState (dev k) /\ saRecord (dev k1) = saRecord (dev k)
  /\ sa_mem k1 = sa_mem k.

(** Flags of side-table entry [j] of a submission of [n] descriptors. *)
Definition entry_flags (complete : bool) (n j : nat) : Z :=
  if (j =? n - 1)%nat then last_flags complete else MTK_DESC_ASYNC.

(** A result of the reaper without the record of its waits. *)
Definition forget_tries (o : req_result_out) : req_result_out :=
  {| out_ndesc := out_ndesc o; out_should_complete := out_should_complete o;
     out_ret := out_ret o; out_rctx := out_rctx o; out_reqdst := out_reqdst o;
     out_reqiv := out_reqiv o; out_tries := [] |}.

Definition forget_rv_tries (v : reap_vars) : reap_vars :=
  {| rv_ndesc := rv_ndesc v; rv_buf := rv_buf v;
     rv_should_complete := rv_should_complete v; rv_last_entry := rv_last_entry v;
     rv_ret := rv_ret v; rv_tries := [] |}.

Definition result_map {A B} (f : A -> B) (r : result (A * kstate)) : result (B * kstate) :=
  match r with
  | Done (a, k) => Done (f a, k)
  | Oops => Oops
  | Diverge => Diverge
  end.

(** The two-pointer merge in the words of the spec, on the lists of bytes
    still to go (current segment first): every pair covers the minimum of
    what is left in the current source and destination segment, and a
    cursor moves on when its segment is used up. *)
Inductive two_pointer_merge : list Z -> list Z -> list Z -> Prop :=
| tpm_done : two_pointer_merge [] [] []
| tpm_both a src dst out :
    two_pointer_merge src dst out ->
    two_pointer_merge (a :: src) (a :: dst) (Z.min a a :: out)
| tpm_src a b src dst out :
    a < b ->
    two_pointer_merge src ((b - a) :: dst) out ->
    two_pointer_merge (a :: src) (b :: dst) (Z.min a b :: out)
| tpm_dst a b src dst out :
    b < a ->
    two_pointer_merge ((a - b) :: src) dst out ->
    two_pointer_merge (a :: src) (b :: dst) (Z.min a b :: out).

Definition sum_list_Z (l : list Z) : Z := foldr Z.add 0 l.

(** A segment the walk passes over entirely: cache-line aligned start and a
    length that is a multiple of the block size. *)
Definition seg_passed (blksz : Z) (s : scatterlist) : Prop :=
  sg_offset s mod 32 = 0 /\ IS_ALIGNED (sg_length s) blksz = true.

(** [frame f m]: running [m] leaves the component [f] of the state alone. *)
Definition frame {A X} (f : kstate -> X) (m : M A) : Prop :=
  forall k a k', m k = Done (a, k') -> f k' = f k.

(** The device and the SA records of the transforms, the part of the state
    that buffer preparation has no business with. *)
Definition dev_and_sa (k : kstate) : mtk_device * gmap Z saRecord_s := (dev k, sa_mem k).

(** One pass of the reaping loop over a ring that is not empty. *)
Definition reaped (k : kstate) : mtk_device :=
  let r := ring_read (cdr (dev k)) in
  set_dma_buf (<[r := {| buf_flags := 0; buf_req := buf_req (buf_at (dev k) r);
                         buf_saPointer := buf_saPointer (buf_at (dev k) r) |}]>
                 (dma_buf (dev k)))
    (set_cdr {| ring_write := ring_write (cdr (dev k)); ring_read := ring_succ r |}
       (set_rdr {| ring_write := ring_write (rdr (dev k));
                   ring_read := ring_succ (ring_read (rdr (dev k))) |} (dev k))).

(** ** Further functions of eip93-cipher.c *)

(** The destination length [totlen_dst] of a request (lines 350-355). *)
Definition send_req_totlen_dst (ctx : mtk_cipher_ctx) (rctx : mtk_cipher_reqctx) : Z :=
  let datalen := u32 (rctx_assoclen rctx + rctx_textsize rctx) in
  if ctx_aead ctx && IS_ENCRYPT (rctx_flags rctx)
  then u32 (datalen + rctx_authsize rctx) else datalen.

(** The descriptors of a submission whose source and destination have the
    same segmentation: one per segment, from the start of the one segment
    to the start of the other, until [n] bytes are covered. *)
Fixpoint same_seg_plan (src dst : list scatterlist) (n : Z) : list sc_desc :=
  match src, dst with
  | s :: src', d :: dst' =>
      let len := Z.min (sg_dma_len s) n in
      {| pd_saddr := sg_dma_address s; pd_offsetin := 0;
         pd_daddr := sg_dma_address d; pd_offsetout := 0; pd_len := len |}
      :: (if n - len =? 0 then [] else same_seg_plan src' dst' (n - len))
  | _, _ => []
  end.

(** *** The reaper over the entries of one submission *)

(** The loop variables after the pass over the entry at the read index. *)
Definition reap_vars_next (hw : Z -> hw_rdesc) (k : kstate) (v : reap_vars) : reap_vars :=
  let r := ring_read (cdr (dev k)) in
  let b := buf_at (dev k) r in
  {| rv_ndesc := rv_ndesc v + 1; rv_buf := Some b;
     rv_should_complete :=
       if flag_set (buf_flags b) MTK_DESC_FINISH then true else rv_should_complete v;
     rv_last_entry :=
       if flag_set (buf_flags b) MTK_DESC_LAST then true else rv_last_entry v;
     rv_ret := if negb (rd_errStatus (hw r) =? 0) then - EINVAL else rv_ret v;
     rv_tries := poll_ready 1000 (rd_peReady (hw r)) 0 :: rv_tries v |}.

(** The state after that pass: the entry is retired, an error status is
    logged. *)
Definition reap_state_next (hw : Z -> hw_rdesc) (k : kstate) : kstate :=
  {| dev := reaped k;
     trace := if negb (rd_errStatus (hw (ring_read (cdr (dev k)))) =? 0)
              then EvDevErr :: trace k else trace k;
     allocs := allocs k; sa_mem := sa_mem k |}.

(** Whether one of the [c] result descriptors from index [r] on reports an
    error status. *)
Definition any_err (hw : Z -> hw_rdesc) (r : Z) (c : nat) : bool :=
  existsb (fun j => negb (rd_errStatus (hw (ring_at r j)) =? 0)) (seq 0 c).

(** Descriptors outstanding in a ring. *)
Definition ring_used (r : mtk_desc_ring) : Z :=
  (ring_write r - ring_read r) mod MTK_RING_SIZE.

(** [k'] is [k] after the reaper retired the [c] entries at the read index:
    both read indices moved on by [c], the flags of the entries are
    cleared, nothing else changed. *)
Definition retired (c : nat) (k k' : kstate) : Prop :=
  let r := ring_read (cdr (dev k)) in
  rings_sync k' /\ ring_wf (cdr (dev k'))
  /\ ring_read (cdr (dev k')) = ring_at r c
  /\ ring_write (cdr (dev k')) = ring_write (cdr (dev k))
  /\ ring_used (cdr (dev k')) = ring_used (cdr (dev k)) - Z.of_nat c
  /\ (forall j, (j < c)%nat ->
        buf_at (dev k') (ring_at r j)
        = {| buf_flags := 0; buf_req := buf_req (buf_at (dev k) (ring_at r j));
             buf_saPointer := buf_saPointer (buf_at (dev k) (ring_at r j)) |})
  /\ (forall i, (forall j, (j < c)%nat -> i <> ring_at r j) ->
        dma_buf (dev k') !! i = dma_buf (dev k) !! i)
  /\ cdr_desc (dev k') = cdr_desc (dev k)
  /\ saState (dev k') = saState (dev k) /\ saRecord (dev k') = saRecord (dev k)
  /\ requests (dev k') = requests (dev k) /\ busy (dev k') = busy (dev k)
  /\ sa_mem k' = sa_mem k /\ allocs k' = allocs k.

(** The device, the SA records of the transforms and the allocator: what
    the reaper leaves alone once its loop is over. *)
Definition dev_sa_allocs (k : kstate) : mtk_device * gmap Z saRecord_s * list (option Z) :=
  (dev k, sa_mem k, allocs k).



(** The one-entry list [mtk_make_sg_cpy] builds at [addr] over the pages at
    [virt], holding [data]. *)
Definition bounce_sg (addr virt totallen : Z) (data : list Z) : list scatterlist :=
  [ {| sg_addr := addr; sg_page := virt; sg_offset := 0; sg_length := u32 totallen;
       sg_dma_address := 0; sg_data := data |} ].

(** The word written to the ring threshold register for [pending]
    descriptors (lines 838-841 and 1081-1084). *)
Definition ring_thresh_word (pending : Z) : Z :=
  Z.lor (Z.lor (Z.lor (BIT 31) (Z.land (MTK_RING_SIZE - 1) (GENMASK 10 0)))
           (Z.shiftl (Z.land (pending - 1) (GENMASK 10 0)) 16))
    (Z.shiftl (Z.land 15 (GENMASK 4 0)) 26).

(** What the entry points do to the device once descriptors were issued. *)
Definition kicked (commands : Z) (d : mtk_device) : mtk_device :=
  set_busy true (set_requests (requests d + commands) d).

(** The outstanding count and the busy flag of the ring. *)
Definition ring_account (k : kstate) : Z * bool := (requests (dev k), busy (dev k)).

(** A CBC request of three AES blocks from one aligned list to another. *)
Definition req_cbc48 : crypt_request :=
  {| req_base := 7; req_src := sg_one 256 16384 48; req_dst := sg_one 320 32768 48;
     req_cryptlen := 48; req_assoclen := 0; req_iv := replicate 16 0 |}.

Definition cbc_flags : Z := Z.lor (Z.lor MTK_MODE_CBC MTK_ALG_AES) MTK_ENCRYPT.

(** ** Transform set-up and the AEAD key *)

(** Lines 690-715.  [fallback] is what [crypto_alloc_sync_skcipher] found
    ([None]: an error pointer, which the function replaces by NULL).  A
    record from [kzalloc] is zeroed; when [kzalloc] fails the function
    prints a message, leaves [ctx->sa] NULL (address 0) and goes on. *)
Definition mtk_skcipher_cra_init (fallback : option sync_skcipher)
    : M (Z * mtk_cipher_ctx) :=
  let* p := alloc in
  let* sa := match p with
             | Some a => let* _ := store_sa a saRecord_zero in ret a
             | None => let* _ := emit EvPrintk in ret 0
             end in
  ret (0, {| ctx_aead := false; ctx_sa := sa; ctx_fallback := fallback;
             ctx_authsize := 0 |}).

Definition AES_MAX_KEY_SIZE : Z := 32.
Definition SHA512_BLOCK_SIZE : Z := 128.
Definition SHA256_DIGEST_SIZE : Z := 32.
Definition HMAC_IPAD_VALUE : Z := 54.
Definition HMAC_OPAD_VALUE : Z := 92.

(** [struct crypto_authenc_keys]. *)
Record crypto_authenc_keys := {
  authkey : list Z;
  authkeylen : Z;
  enckey : list Z;
  enckeylen : Z
}.

(** The software hash behind [ctx->shash], a service of the host framework.
    A descriptor state is an opaque value of the hash; every call returns
    its error code first. *)
Record crypto_shash := {
  shash_blocksize : Z;
  shash_digestsize : Z;
  shash_digest : list Z -> Z * list Z;
  shash_init : Z * list Z;
  shash_update : list Z -> list Z -> Z * list Z;
  shash_export : list Z -> Z * list Z
}.

(** A store of [bytes] at offset [off] of a buffer. *)
Definition buf_write (buf : list Z) (off : Z) (bytes : list Z) : list Z :=
  take (Z.to_nat off) buf ++ bytes ++ drop (Z.to_nat off + length bytes) buf.

Definition buf_read (buf : list Z) (off n : Z) : list Z :=
  take (Z.to_nat n) (drop (Z.to_nat off) buf).

(** [for (i = 0; i < bs; i++) buf[off + i] ^= v]. *)
Definition buf_xor (buf : list Z) (off bs v : Z) : list Z :=
  buf_write buf off (map (fun b => Z.lxor b v) (buf_read buf off bs)).

(** Lines 999-1004: [init ?: update ?: export] on one pad; the exported
    image goes over the pad.  Result: the error code and the buffer. *)
Definition shash_pad_state (sh : crypto_shash) (buf : list Z) (off bs : Z) : Z * list Z :=
  let '(e, st) := shash_init sh in
  if negb (e =? 0) then (e, buf)
  else
    let '(e, st) := shash_update sh st (buf_read buf off bs) in
    if negb (e =? 0) then (e, buf)
    else
      let '(e, img) := shash_export sh st in
      if negb (e =? 0) then (e, buf) else (0, buf_write buf off img).

(** Lines 977-1004: the two pads.  [ipad] and [opad] are the two halves of
    one zeroed allocation of 256 bytes, at offsets 0 and 128.  Result: the
    error code and the buffer, whose halves then start with the exported
    states of the inner and the outer hash.  The two pad loops and the
    copy from [ipad] to [opad] are written one after the other; this is
    the code's behaviour for block sizes up to 128, the half of the
    buffer. *)
Definition aead_setkey_pads (sh : crypto_shash) (keys : crypto_authenc_keys)
    : Z * list Z :=
  let bs := shash_blocksize sh in
  let ds := shash_digestsize sh in
  let buf := replicate (Z.to_nat (2 * SHA512_BLOCK_SIZE)) 0 in
  let ipad := 0 in
  let opad := SHA512_BLOCK_SIZE in
  let '(err, buf, authkeylen) :=
    if bs <? authkeylen keys then
      let '(e, d) := shash_digest sh (take (Z.to_nat (authkeylen keys)) (authkey keys)) in
      (e, buf_write buf ipad d, ds)
    else (0, buf_write buf ipad (take (Z.to_nat (authkeylen keys)) (authkey keys)),
          authkeylen keys) in
  if negb (err =? 0) then (err, buf)
  else
    let buf := buf_write buf (ipad + authkeylen)
                 (replicate (Z.to_nat (bs - authkeylen)) 0) in
    let buf := buf_write buf opad (buf_read buf ipad bs) in
    let buf := buf_xor (buf_xor buf ipad bs HMAC_IPAD_VALUE) opad bs HMAC_OPAD_VALUE in
    let '(err, buf) := shash_pad_state sh buf ipad bs in
    if negb (err =? 0) then (err, buf)
    else shash_pad_state sh buf opad bs.

(** Lines 937-1021.  [extract] is [crypto_authenc_extractkeys] ([None]: a
    non-zero return), [sh] the hash behind [ctx->shash], [tflags] the flags
    of the template.  Without RFC3686 the nonce is not set by the code and
    not read by [mtk_ctx_saRecord]. *)
Definition mtk_aead_setkey (extract : list Z -> Z -> option crypto_authenc_keys)
    (sh : crypto_shash) (tflags : Z) (ctx : mtk_cipher_ctx) (key : list Z) (keylen : Z)
    : M Z :=
  let flags := tflags in
  let badkey := let* _ := emit EvSetBadKeyLen in ret (- EINVAL) in
  match extract key keylen with
  | None => badkey
  | Some keys =>
      if IS_RFC3686 flags && (keylen <? CTR_RFC3686_NONCE_SIZE) then ret (- EINVAL)
      else
        let keylen := if IS_RFC3686 flags then keylen - CTR_RFC3686_NONCE_SIZE else keylen in
        let nonce := if IS_RFC3686 flags
                     then take 4 (drop (Z.to_nat keylen) key) else replicate 4 0 in
        if AES_MAX_KEY_SIZE <? enckeylen keys then badkey
        else
          let* p := alloc in
          match p with
          | None => ret (- ENOMEM)
          | Some _ =>
              let '(err, buf) := aead_setkey_pads sh keys in
              if negb (err =? 0) then ret err
              else
                let* _ := mtk_ctx_saRecord ctx (enckey keys) nonce (enckeylen keys)
                            flags in
                let* sa := load_sa (ctx_sa ctx) in
                let sa :=
                  {| saCmd0 := saCmd0 sa; saCmd1 := saCmd1 sa; saKey := saKey sa;
                     saIDigest := memcpy (saIDigest sa)
                                    (buf_read buf 0 SHA256_DIGEST_SIZE)
                                    SHA256_DIGEST_SIZE;
                     saODigest := memcpy (saODigest sa)
                                    (buf_read buf SHA512_BLOCK_SIZE SHA256_DIGEST_SIZE)
                                    SHA256_DIGEST_SIZE;
                     saSpi := saSpi sa; saSeqNumMask := saSeqNumMask sa;
                     saNonce := saNonce sa |} in
                let* _ := store_sa (ctx_sa ctx) sa in
                ret 0
          end
  end.

(** An authenc key blob read as: 20 bytes of authentication key, the rest
    the encryption key; and a stand-in hash with 64-byte blocks whose state
    is the data fed so far. *)
Definition extract_auth20 (key : list Z) (keylen : Z) : option crypto_authenc_keys :=
  if keylen <? 20 then None
  else Some {| authkey := take 20 key; authkeylen := 20;
               enckey := drop 20 key; enckeylen := keylen - 20 |}.

Definition shash_echo : crypto_shash :=
  {| shash_blocksize := 64; shash_digestsize := 20;
     shash_digest := fun d => (0, take 20 (d ++ replicate 20 0));
     shash_init := (0, []);
     shash_update := fun st d => (0, st ++ d);
     shash_export := fun st => (0, take 40 (st ++ replicate 40 0)) |}.

(** The block that HMAC hashes first for a key [K] no longer than the block
    size [bs]: the key, filled up with zero bytes, every byte xor-ed with
    [c] (0x36 for the inner, 0x5c for the outer hash). *)
Definition hmac_pad_block (K : list Z) (bs c : Z) : list Z :=
  map (fun b => Z.lxor b c) (K ++ replicate (Z.to_nat bs - length K) 0).

(** Lines 1023-1034: the tag length is stored in the transform context. *)
Definition mtk_aead_setauthsize (ctx : mtk_cipher_ctx) (authsize : Z)
    : Z * mtk_cipher_ctx :=
  (0, {| ctx_aead := ctx_aead ctx; ctx_sa := ctx_sa ctx;
         ctx_fallback := ctx_fallback ctx; ctx_authsize := authsize |}).

(** Two descriptor pairs outstanding at ring indices 0 and 1: the two
    halves of one request, of one descriptor each. *)
Definition dev_split_pending : mtk_device :=
  {| cdr := {| ring_write := 2; ring_read := 0 |};
     rdr := {| ring_write := 2; ring_read := 0 |};
     cdr_desc := ∅;
     dma_buf := {[ 0 := {| buf_flags := Z.lor MTK_DESC_ASYNC MTK_DESC_LAST;
                           buf_req := 7; buf_saPointer := 0 |};
                   1 := {| buf_flags := Z.lor (Z.lor MTK_DESC_ASYNC MTK_DESC_LAST)
                                              MTK_DESC_FINISH;
                           buf_req := 7; buf_saPointer := 0 |} ]};
     saState := {[ 0 := {| stateIv := replicate 16 9 |} ]};
     saRecord := ∅; dev_saState_base := 65536; dev_saRecord_base := 131072;
     requests := 2; busy := true |}.

Definition k_split_pending : kstate := set_dev dev_split_pending k_idle.

(** A counter-mode request of 48 bytes that was sent through two bounce
    buffers. *)
Definition rctx_ctr_bounce : mtk_cipher_reqctx :=
  set_rctx_sg (bounce_sg 8192 1048576 48 (replicate 48 1))
    (bounce_sg 8320 2097152 48 (replicate 48 2)) rctx_ctr48.

(** One request of two descriptor pairs outstanding at ring indices 0 and
    1. *)
Definition dev_two_pending : mtk_device :=
  {| cdr := {| ring_write := 2; ring_read := 0 |};
     rdr := {| ring_write := 2; ring_read := 0 |};
     cdr_desc := ∅;
     dma_buf := {[ 0 := {| buf_flags := MTK_DESC_ASYNC; buf_req := 7;
                           buf_saPointer := 0 |};
                   1 := {| buf_flags := Z.lor (Z.lor MTK_DESC_ASYNC MTK_DESC_LAST)
                                              MTK_DESC_FINISH;
                           buf_req := 7; buf_saPointer := 0 |} ]};
     saState := {[ 0 := {| stateIv := replicate 16 9 |} ]};
     saRecord := ∅; dev_saState_base := 65536; dev_saRecord_base := 131072;
     requests := 2; busy := true |}.

Definition k_two_pending : kstate := set_dev dev_two_pending k_idle.


(** ** The skcipher registrations *)














(** ** Further configurations *)



(** An AEAD transform (HMAC-SHA1, AES-128 in CBC mode) after its key was
    set, and a decryption of 16 bytes of text behind 8 bytes of associated
    data, with a tag of 16 bytes. *)
Definition sa_aead_keyed : saRecord_s :=
  {| saCmd0 := {| opCode := 0; direction := 0; opGroup := 0; padType := 3; cipher := 3;
                  hash := 1; scPad := 0; extPad := 0; hdrProc := 0; digestLength := 0;
                  ivSource := 2; saveIv := 1; saveHash := 1 |};
     saCmd1 := {| copyDigest := 1; copyHeader := 1; copyPayload := 0; cipherMode := 1;
                  hmac := 1; byteOffset := 0; hashCryptOffset := 0; aesKeyLen := 2;
                  seqNumCheck := 0 |};
     saKey := replicate 16 5 ++ replicate 16 0;
     saIDigest := replicate 20 6 ++ replicate 12 0;
     saODigest := replicate 20 7 ++ replicate 12 0;
     saSpi := 0; saSeqNumMask := (4294967295, 0); saNonce := replicate 4 0 |}.

Definition k_aead_keyed : kstate :=
  {| dev := dev_idle; trace := [];
     allocs := [Some 8192; Some 1048576; Some 8320; Some 2097152];
     sa_mem := {[ 4096 := sa_aead_keyed ]} |}.

Definition aead_cbc_decrypt_flags : Z :=
  Z.lor (Z.lor (Z.lor (Z.lor MTK_HASH_HMAC MTK_HASH_SHA1) MTK_MODE_CBC) MTK_ALG_AES)
    MTK_DECRYPT.

Definition rctx_aead_cbc_decrypt : mtk_cipher_reqctx :=
  set_rctx_sizes 16 8 16 16 (rctx_fresh aead_cbc_decrypt_flags).
(** ** Properties of the alignment walk *)

Lemma IS_ALIGNED_32 (x : Z) : IS_ALIGNED x 32 = (x mod 32 =? 0).
Proof.
  unfold IS_ALIGNED. change (u32 (32 - 1)) with (Z.ones 5).
  rewrite Z.land_ones by lia. reflexivity.
Qed.

Lemma IS_ALIGNED_pow2 (x k : Z) :
  0 <= k < 32 -> IS_ALIGNED x (2 ^ k) = (x mod 2 ^ k =? 0).
Proof.
  intros Hk. unfold IS_ALIGNED, u32.
  assert (0 < 2 ^ k < 2 ^ 32) by (split; [lia | apply Z.pow_lt_mono_r; lia]).
  rewrite Z.mod_small by lia.
  replace (2 ^ k - 1) with (Z.ones k) by (rewrite Z.ones_equiv; lia).
  rewrite Z.land_ones by lia. reflexivity.
Qed.

Lemma mtk_is_sg_aligned_true (sg : list scatterlist) (len blksz : Z) :
  0 <= len < 2 ^ 32 ->
  Forall (fun s => 0 <= sg_length s) sg ->
  mtk_is_sg_aligned sg len blksz = true ->
  exists before cut after,
    sg = before ++ cut :: after /\
    Forall (seg_passed blksz) before /\
    (forall p s q, before = p ++ s :: q -> sg_length s < len - sum_len p) /\
    sg_offset cut mod 32 = 0 /\
    0 <= len - sum_len before <= sg_length cut /\
    IS_ALIGNED (len - sum_len before) blksz = true.
Proof.
  revert len. induction sg as [|s rest IH]; intros len Hlen Hpos Hal; simpl in Hal.
  - discriminate.
  - inversion Hpos as [|? ? Hs Hrest]; subst.
    rewrite IS_ALIGNED_32 in Hal.
    destruct (sg_offset s mod 32 =? 0) eqn:Hoff; simpl in Hal; [|discriminate].
    apply Z.eqb_eq in Hoff.
    destruct (len <=? sg_length s) eqn:Hle.
    + apply Z.leb_le in Hle.
      destruct (IS_ALIGNED len blksz) eqn:Hb; simpl in Hal; [|discriminate].
      exists [], s, rest. simpl. rewrite Z.sub_0_r.
      repeat split; auto; try lia.
      intros p s' q Hp. destruct p; discriminate.
    + apply Z.leb_gt in Hle.
      destruct (IS_ALIGNED (sg_length s) blksz) eqn:Hb; simpl in Hal; [|discriminate].
      assert (Hu : u32 (len - sg_length s) = len - sg_length s)
        by (unfold u32; apply Z.mod_small; lia).
      rewrite Hu in Hal.
      destruct (IH (len - sg_length s)) as (before & cut & after & -> & Hbef & Hfull & Hoffc & Hrng & Hcut);
        [lia | assumption | assumption |].
      exists (s :: before), cut, after. simpl.
      replace (len - (sg_length s + sum_len before))
        with (len - sg_length s - sum_len before) by lia.
      repeat split; auto; try lia.
      * constructor; [split; assumption | assumption].
      * intros p s' q Hp. destruct p as [|s0 p]; simpl in *.
        -- injection Hp as -> _. lia.
        -- injection Hp as -> Hp. specialize (Hfull p s' q Hp). lia.
Qed.

(** C3: a list whose first segment starts off a 32-byte boundary is never
    aligned, whatever [len]; and the walk answers true only if every segment
    before the one holding the cut point starts on a 32-byte boundary and
    has a block-size-aligned length, the cut segment itself starts on a
    32-byte boundary, and the length consumed inside it is block-size
    aligned. *)
Theorem mtk_is_sg_aligned_contract (sg : list scatterlist) (len blksz : Z) :
  0 <= len < 2 ^ 32 ->
  Forall (fun s => 0 <= sg_length s) sg ->
  (forall s rest, sg = s :: rest -> sg_offset s mod 32 <> 0 ->
     mtk_is_sg_aligned sg len blksz = false) /\
  (mtk_is_sg_aligned sg len blksz = true ->
     exists before cut after,
       sg = before ++ cut :: after /\
       Forall (seg_passed blksz) before /\
       (forall p s q, before = p ++ s :: q -> sg_length s < len - sum_len p) /\
       sg_offset cut mod 32 = 0 /\
       0 <= len - sum_len before <= sg_length cut /\
       IS_ALIGNED (len - sum_len before) blksz = true).
Proof.
  intros Hlen Hpos. split.
  - intros s rest -> Hoff. simpl. rewrite IS_ALIGNED_32.
    apply Z.eqb_neq in Hoff. rewrite Hoff. reflexivity.
  - apply mtk_is_sg_aligned_true; assumption.
Qed.

Lemma mtk_is_sg_aligned_contract_witness :
  exists before cut after,
    sg_chain 256 16384 [16; 32] = before ++ cut :: after
    /\ Forall (seg_passed 16) before
    /\ IS_ALIGNED (48 - sum_len before) 16 = true.
Proof.
  destruct (mtk_is_sg_aligned_contract (sg_chain 256 16384 [16; 32]) 48 16) as [_ H].
  - lia.
  - repeat constructor; simpl; lia.
  - destruct (H eq_refl) as (b & c & a & E & Hb & _ & _ & _ & Hc).
    exists b, c, a. split; [exact E|]. split; [exact Hb | exact Hc].
Defined.

(** ** Reasoning about the driver monad *)

Lemma bind_Done {A B} (m : M A) (f : A -> M B) (k : kstate) (b : B) (k' : kstate) :
  bind m f k = Done (b, k') ->
  exists a k1, m k = Done (a, k1) /\ f a k1 = Done (b, k').
Proof.
  unfold bind. destruct (m k) as [[a k1]| |]; try discriminate.
  intros H. exists a, k1. split; [reflexivity | exact H].
Qed.

Lemma frame_ret {A X} (f : kstate -> X) (a : A) : frame f (ret a).
Proof. intros k a' k' H. injection H as _ <-. reflexivity. Qed.

Lemma frame_bind {A B X} (f : kstate -> X) (m : M A) (g : A -> M B) :
  frame f m -> (forall a, frame f (g a)) -> frame f (bind m g).
Proof.
  intros Hm Hg k b k' H. apply bind_Done in H as (a & k1 & H1 & H2).
  rewrite (Hg a _ _ _ H2). apply (Hm _ _ _ H1).
Qed.

Lemma frame_oops {A X} (f : kstate -> X) : frame f (@oops A).
Proof. intros k a k' H. discriminate. Qed.

Lemma frame_if {A X} (f : kstate -> X) (b : bool) (m1 m2 : M A) :
  frame f m1 -> frame f m2 -> frame f (if b then m1 else m2).
Proof. destruct b; auto. Qed.

Lemma frame_emit {X} (f : kstate -> X) (e : event) :
  (forall k, f {| dev := dev k; trace := e :: trace k; allocs := allocs k;
                   sa_mem := sa_mem k |} = f k) ->
  frame f (emit e).
Proof. intros Hf k a k' H. injection H as _ <-. apply Hf. Qed.

Lemma frame_modify_dev {X} (f : kstate -> X) (g : mtk_device -> mtk_device) :
  (forall k, f (set_dev (g (dev k)) k) = f k) -> frame f (modify_dev g).
Proof. intros Hf k a k' H. injection H as _ <-. apply Hf. Qed.

Lemma frame_get_dev {X} (f : kstate -> X) : frame f get_dev.
Proof. intros k a k' H. injection H as _ <-. reflexivity. Qed.

Lemma frame_alloc {X} (f : kstate -> X) :
  (forall k l, f {| dev := dev k; trace := trace k; allocs := l; sa_mem := sa_mem k |} = f k) ->
  frame f alloc.
Proof.
  intros Hf k a k' H. unfold alloc in H. destruct (allocs k) eqn:E.
  - injection H as _ <-. reflexivity.
  - injection H as _ <-. apply Hf.
Qed.

Lemma frame_load_sa {X} (f : kstate -> X) (p : Z) : frame f (load_sa p).
Proof.
  intros k a k' H. unfold load_sa in H. destruct (sa_mem k !! p); [|discriminate].
  injection H as _ <-. reflexivity.
Qed.

Lemma frame_curr_wptr {X} (f : kstate -> X) : frame f mtk_ring_curr_wptr_index.
Proof. intros k a k' H. injection H as _ <-. reflexivity. Qed.

(** ** Block sizes *)

Lemma send_req_blksize_cases (flags : Z) :
  send_req_blksize flags = 2 ^ 4 \/ send_req_blksize flags = 2 ^ 3
  \/ send_req_blksize flags = 2 ^ 0.
Proof.
  unfold send_req_blksize.
  repeat match goal with |- context [if ?c then _ else _] => destruct c end; auto.
Qed.

Lemma IS_ALIGNED_blksize (x flags : Z) :
  IS_ALIGNED x (send_req_blksize flags) = (x mod send_req_blksize flags =? 0).
Proof.
  destruct (send_req_blksize_cases flags) as [-> | [-> | ->]];
    apply IS_ALIGNED_pow2; lia.
Qed.

(** ** Early rejection of partial blocks *)

(** C10: in a mode other than CTR, a text length that is not a multiple of
    the cipher's block size makes [mtk_send_req] return [-EINVAL] at once:
    the request context, the device (rings, SA slots), the allocator and the
    trace of kernel calls (no allocation, no DMA mapping) are exactly as
    before. *)
Theorem mtk_send_req_partial_block_einval (base : Z) (ctx : mtk_cipher_ctx)
    (reqsrc reqdst : list scatterlist) (reqiv : list Z) (rctx : mtk_cipher_reqctx)
    (k : kstate) :
  IS_CTR (rctx_flags rctx) = false ->
  rctx_textsize rctx mod send_req_blksize (rctx_flags rctx) <> 0 ->
  mtk_send_req base ctx reqsrc reqdst reqiv rctx k = Done ((- EINVAL, rctx, 0, 0), k).
Proof.
  intros Hctr Hmod. unfold mtk_send_req, send_req_prepare, bind.
  rewrite Hctr, IS_ALIGNED_blksize.
  apply Z.eqb_neq in Hmod. rewrite Hmod. reflexivity.
Qed.

Lemma mtk_send_req_partial_block_einval_witness :
  mtk_send_req 7 ctx_skcipher (sg_one 256 16384 17) (sg_one 320 32768 17)
    (replicate 16 0)
    (set_rctx_sizes 17 0 0 16 (rctx_fresh (Z.lor (Z.lor MTK_MODE_CBC MTK_ALG_AES) MTK_ENCRYPT)))
    k_idle
  = Done ((- EINVAL,
           set_rctx_sizes 17 0 0 16
             (rctx_fresh (Z.lor (Z.lor MTK_MODE_CBC MTK_ALG_AES) MTK_ENCRYPT)), 0, 0), k_idle).
Proof.
  apply mtk_send_req_partial_block_einval.
  - reflexivity.
  - vm_compute. discriminate.
Defined.

(** ** Backpressure at the entry points *)




(** ** Key lengths at mtk_skcipher_setkey *)





(** ** The descriptor loop and its plan *)

Lemma sc_emit_spec (sab ssb areq sap saddr oin daddr oout len : Z) (k : kstate) :
  sc_emit sab ssb areq sap saddr oin daddr oout len k
  = if cdr_full k then Oops
    else Done (ring_write (cdr (dev k)),
               push_desc sab ssb areq sap
                 {| pd_saddr := saddr; pd_offsetin := oin; pd_daddr := daddr;
                    pd_offsetout := oout; pd_len := len |} k).
Proof.
  unfold push_desc, cdr_full. simpl.
  unfold sc_emit, bind, mtk_add_rdesc, mtk_add_cdesc, mtk_ring_next_wptr.
  destruct (ring_succ (ring_write (rdr (dev k))) =? ring_read (rdr (dev k)));
    simpl;
    destruct (ring_succ (ring_write (cdr (dev k))) =? ring_read (cdr (dev k)));
    reflexivity.
Qed.

Lemma sc_sim_cons (sab ssb areq sap : Z) (x : sc_desc) (plan : result (list sc_desc))
    (c r : Z) (buf : option Z) (k : kstate) (run : result (option Z * Z * Z * kstate)) :
  (cdr_full k = true -> run = Oops) ->
  (cdr_full k = false ->
   sc_sim sab ssb areq sap plan (c + 1) (r + 1) (Some (ring_write (cdr (dev k))))
     (push_desc sab ssb areq sap x k) run) ->
  sc_sim sab ssb areq sap
    (match plan with Done l => Done (x :: l) | Oops => Oops | Diverge => Diverge end)
    c r buf k run.
Proof.
  intros Hfull Hok. destruct (cdr_full k) eqn:E.
  - specialize (Hfull eq_refl). subst run.
    destruct plan; simpl; auto. rewrite E. reflexivity.
  - specialize (Hok eq_refl). destruct plan as [l| |]; simpl in *; auto.
    rewrite E.
    destruct (push_all sab ssb areq sap l (push_desc sab ssb areq sap x k)); auto.
    rewrite Hok. simpl length. rewrite !Nat2Z.inj_succ, <- !Z.add_1_l, !Z.add_assoc.
    reflexivity.
Qed.

Lemma sc_loop_sim (sab ssb areq sap : Z) (fuel : nat) :
  forall sgsrc sgdst remainin remainout offsetin offsetout saddr daddr
         nextin nextout n c r buf k,
    sc_sim sab ssb areq sap
      (sc_plan fuel sgsrc sgdst remainin remainout offsetin offsetout saddr daddr
         nextin nextout n)
      c r buf k
      (sc_loop fuel sab ssb areq sap sgsrc sgdst remainin remainout offsetin offsetout
         saddr daddr nextin nextout n c r buf k).
Proof.
  induction fuel as [|fuel IH]; intros; simpl.
  - right. reflexivity.
  - assert (Hagain : forall sgsrc sgdst remainin remainout offsetin offsetout saddr daddr
                            nextin nextout n c r buf k,
      sc_sim sab ssb areq sap
        (if n =? 0 then Done []
         else sc_plan fuel sgsrc sgdst remainin remainout offsetin offsetout saddr daddr
                nextin nextout n)
        c r buf k
        ((if n =? 0 then ret (buf, c, r)
          else sc_loop fuel sab ssb areq sap sgsrc sgdst remainin remainout offsetin
                 offsetout saddr daddr nextin nextout n c r buf) k)).
    { intros. destruct (n0 =? 0).
      - simpl. unfold ret. rewrite !Z.add_0_r. reflexivity.
      - apply IH. }
    destruct (sc_advance nextin sgsrc remainin saddr offsetin n)
      as [|sgsrc' remainin'|sgsrc' remainin' saddr' offsetin' nextin']; simpl.
    + reflexivity.
    + apply Hagain.
    + destruct (sc_advance nextout sgdst remainout daddr offsetout n)
        as [|sgdst' remainout'|sgdst' remainout' daddr' offsetout' nextout']; simpl.
      * reflexivity.
      * apply Hagain.
      * destruct (remainin' =? remainout'); [|destruct (remainin' <? remainout')];
          (apply sc_sim_cons; unfold bind; rewrite sc_emit_spec; intros ->;
           [reflexivity | apply Hagain]).
Qed.

Lemma sum_list_Z_pos (l : list Z) : Forall (fun x => 0 < x) l -> 0 <= sum_list_Z l.
Proof. induction 1; simpl; lia. Qed.

Lemma sum_list_Z_pos_nil (l : list Z) :
  Forall (fun x => 0 < x) l -> sum_list_Z l <= 0 -> l = [].
Proof.
  intros H. destruct H as [|x l Hx Hl]; [reflexivity|]. simpl.
  pose proof (sum_list_Z_pos l Hl). lia.
Qed.

(** With bytes still to go and data ahead, a cursor always finds a
    non-empty current segment. *)
Lemma sc_advance_go (next : bool) (sg : list scatterlist) (remain addr offset n : Z) :
  0 < n ->
  Forall (fun x => 0 < x) (cur next sg remain) ->
  n <= sum_list_Z (cur next sg remain) ->
  (next = false -> remain <= n) ->
  exists h rest sg' addr' offset',
    sc_advance next sg remain addr offset n = Cur_go sg' (Z.min h n) addr' offset' false
    /\ cur next sg remain = h :: rest
    /\ map sg_dma_len (tail sg') = rest.
Proof.
  intros Hn Hpos Hsum Hrem. unfold sc_advance, cur in *. destruct next.
  - destruct (tail sg) as [|s rest] eqn:E; simpl in *; [lia|].
    inversion Hpos as [|? ? Hs Hrest]; subst.
    destruct (Z.min (sg_dma_len s) n =? 0) eqn:Hz; [apply Z.eqb_eq in Hz; lia|].
    exists (sg_dma_len s), (map sg_dma_len rest), (s :: rest), (sg_dma_address s), 0.
    repeat split; reflexivity.
  - specialize (Hrem eq_refl).
    exists remain, (map sg_dma_len (tail sg)), sg, addr, offset.
    rewrite Z.min_l by lia. repeat split; reflexivity.
Qed.

(** The plan of a submission whose lists hold at least [n] more bytes:
    it exists, its lengths add up to [n], it has fewer pairs than segments
    ahead, and when both lists hold exactly [n] bytes it is the two-pointer
    merge of the spec. *)
Lemma sc_plan_total (fuel : nat) :
  forall sgsrc sgdst remainin remainout offsetin offsetout saddr daddr nextin nextout n,
    0 < n < 2 ^ 32 ->
    Forall (fun x => 0 < x) (cur nextin sgsrc remainin) ->
    Forall (fun x => 0 < x) (cur nextout sgdst remainout) ->
    n <= sum_list_Z (cur nextin sgsrc remainin) ->
    n <= sum_list_Z (cur nextout sgdst remainout) ->
    (nextin = false -> remainin <= n) ->
    (nextout = false -> remainout <= n) ->
    (length (cur nextin sgsrc remainin) + length (cur nextout sgdst remainout) <= fuel)%nat ->
    exists l,
      sc_plan fuel sgsrc sgdst remainin remainout offsetin offsetout saddr daddr
        nextin nextout n = Done l
      /\ sum_list_Z (map pd_len l) = n
      /\ (length l + 1 <= length (cur nextin sgsrc remainin)
                          + length (cur nextout sgdst remainout))%nat
      /\ Forall (fun x => 0 < pd_len x) l
      /\ (sum_list_Z (cur nextin sgsrc remainin) = n ->
          sum_list_Z (cur nextout sgdst remainout) = n ->
          two_pointer_merge (cur nextin sgsrc remainin) (cur nextout sgdst remainout)
            (map pd_len l)).
Proof.
  induction fuel as [|fuel IH]; intros * Hn Hps Hpd Hss Hsd Hri Hro Hfuel.
  - destruct (cur nextin sgsrc remainin); simpl in *; lia.
  - destruct (sc_advance_go nextin sgsrc remainin saddr offsetin n)
      as (hs & rs & sgsrc' & saddr' & offsetin' & Eas & Ecs & Ers); try assumption; try lia.
    destruct (sc_advance_go nextout sgdst remainout daddr offsetout n)
      as (hd & rd & sgdst' & daddr' & offsetout' & Ead & Ecd & Erd); try assumption; try lia.
    rewrite Ecs, Ecd in *. clear Ecs Ecd. subst rs rd.
    apply Forall_cons in Hps as [Hhs Hprs].
    apply Forall_cons in Hpd as [Hhd Hprd].
    pose proof (sum_list_Z_pos _ Hprs) as Hsrs.
    pose proof (sum_list_Z_pos _ Hprd) as Hsrd.
    simpl in Hss, Hsd, Hfuel |- *.
    rewrite Eas, Ead. clear Eas Ead.
    set (a := Z.min hs n). set (b := Z.min hd n).
    assert (Ha : 0 < a <= n) by (unfold a; lia).
    assert (Hb : 0 < b <= n) by (unfold b; lia).
    destruct (a =? b) eqn:Eab; [|destruct (a <? b) eqn:Elt].
    + apply Z.eqb_eq in Eab.
      assert (Hu : u32 (n - a) = n - a) by (unfold u32; apply Z.mod_small; lia).
      rewrite Hu. destruct (n - a =? 0) eqn:Ez.
      * apply Z.eqb_eq in Ez. eexists. split; [reflexivity|]. simpl.
        repeat split; try lia.
        -- repeat constructor; simpl; lia.
        -- intros Es Ed.
           assert (hs = n) by lia. assert (hd = n) by lia. subst hs hd.
           rewrite (sum_list_Z_pos_nil (map sg_dma_len (tail sgsrc'))),
             (sum_list_Z_pos_nil (map sg_dma_len (tail sgdst')))
             by (assumption || lia).
           replace a with (Z.min n n) by (unfold a; reflexivity).
           constructor. constructor.
      * apply Z.eqb_neq in Ez.
        destruct (IH sgsrc' sgdst' a b offsetin' offsetout' saddr' daddr' true true (n - a))
          as (l & El & Hsum & Hlen & Hpl & Hmerge); unfold cur;
          try assumption; try lia.
        rewrite El. eexists. split; [reflexivity|]. simpl.
        unfold cur in Hlen, Hmerge.
        repeat split; try lia.
        -- constructor; [simpl; lia | assumption].
        -- intros Es Ed.
           assert (Ehs : a = hs) by (unfold a; lia).
           assert (Ehd : b = hd) by (unfold b; lia).
           clearbody a b. subst a b. subst hd.
           replace hs with (Z.min hs hs) at 3 by lia.
           constructor. apply Hmerge; lia.
    + apply Z.eqb_neq in Eab. apply Z.ltb_lt in Elt.
      assert (Hu : u32 (n - a) = n - a) by (unfold u32; apply Z.mod_small; lia).
      assert (Hv : u32 (b - a) = b - a) by (unfold u32; apply Z.mod_small; lia).
      rewrite Hu, Hv.
      destruct (n - a =? 0) eqn:Ez; [apply Z.eqb_eq in Ez; lia|].
      destruct (IH sgsrc' sgdst' a (b - a) offsetin' (s32 (offsetout' + a)) saddr' daddr'
                  true false (n - a))
        as (l & El & Hsum & Hlen & Hpl & Hmerge); unfold cur;
        try (constructor; [lia | assumption]); try assumption; simpl; try lia.
      rewrite El. eexists. split; [reflexivity|]. simpl.
      unfold cur in Hlen, Hmerge. simpl in Hlen, Hmerge.
      repeat split; try lia.
      * constructor; [simpl; lia | assumption].
      * intros Es Ed.
        assert (Ehs : a = hs) by (unfold a; lia).
        assert (Ehd : b = hd) by (unfold b; lia).
        clearbody a b. subst a b.
        replace hs with (Z.min hs hd) at 2 by lia.
        apply tpm_src; [lia|]. apply Hmerge; lia.
    + apply Z.eqb_neq in Eab. apply Z.ltb_ge in Elt.
      assert (Hu : u32 (n - b) = n - b) by (unfold u32; apply Z.mod_small; lia).
      assert (Hv : u32 (a - b) = a - b) by (unfold u32; apply Z.mod_small; lia).
      rewrite Hu, Hv.
      destruct (n - b =? 0) eqn:Ez; [apply Z.eqb_eq in Ez; lia|].
      destruct (IH sgsrc' sgdst' (a - b) b (s32 (offsetin' + b)) offsetout' saddr' daddr'
                  false true (n - b))
        as (l & El & Hsum & Hlen & Hpl & Hmerge); unfold cur;
        try (constructor; [lia | assumption]); try assumption; simpl; try lia.
      rewrite El. eexists. split; [reflexivity|]. simpl.
      unfold cur in Hlen, Hmerge. simpl in Hlen, Hmerge.
      repeat split; try lia.
      * constructor; [simpl; lia | assumption].
      * intros Es Ed.
        assert (Ehs : a = hs) by (unfold a; lia).
        assert (Ehd : b = hd) by (unfold b; lia).
        clearbody a b. subst a b.
        replace hd with (Z.min hs hd) at 2 by lia.
        apply tpm_dst; [lia|]. apply Hmerge; lia.
Qed.

(** ** Ring arithmetic *)

Lemma ring_succ_mod (i : Z) :
  0 <= i < MTK_RING_SIZE -> ring_succ i = (i + 1) mod MTK_RING_SIZE.
Proof.
  unfold ring_succ, MTK_RING_SIZE. intros H.
  destruct (i + 1 =? 512) eqn:E.
  - apply Z.eqb_eq in E. rewrite E. reflexivity.
  - apply Z.eqb_neq in E. rewrite Z.mod_small; lia.
Qed.

Lemma ring_at_0 (w : Z) : 0 <= w < MTK_RING_SIZE -> ring_at w 0 = w.
Proof. intros H. unfold ring_at. rewrite Z.add_0_r. apply Z.mod_small. exact H. Qed.

Lemma ring_at_succ (w : Z) (j : nat) :
  0 <= w < MTK_RING_SIZE -> ring_at (ring_succ w) j = ring_at w (S j).
Proof.
  intros H. rewrite ring_succ_mod by exact H. unfold ring_at.
  rewrite Zplus_mod_idemp_l. f_equal. lia.
Qed.

Lemma ring_at_range (w : Z) (j : nat) : 0 <= ring_at w j < MTK_RING_SIZE.
Proof. unfold ring_at. apply Z.mod_pos_bound. reflexivity. Qed.

Lemma ring_at_inj (w : Z) (i j : nat) :
  (i < 512)%nat -> (j < 512)%nat -> ring_at w i = ring_at w j -> i = j.
Proof.
  unfold ring_at, MTK_RING_SIZE. intros Hi Hj E.
  assert (H : (Z.of_nat i - Z.of_nat j) mod 512 = 0).
  { replace (Z.of_nat i - Z.of_nat j) with ((w + Z.of_nat i) - (w + Z.of_nat j)) by lia.
    rewrite Zminus_mod, E, Z.sub_diag. reflexivity. }
  apply Z.mod_divide in H; [|lia]. destruct H as [q Hq].
  assert (q = 0) by lia. lia.
Qed.

Lemma ring_free_range (r : mtk_desc_ring) : 0 <= ring_free r < MTK_RING_SIZE.
Proof. unfold ring_free. apply Z.mod_pos_bound. reflexivity. Qed.

Lemma ring_full_free (r : mtk_desc_ring) :
  ring_wf r ->
  (ring_succ (ring_write r) =? ring_read r) = (ring_free r =? 0).
Proof.
  intros [Hw Hr]. rewrite ring_succ_mod by exact Hw.
  unfold ring_free, MTK_RING_SIZE in *.
  destruct ((ring_read r - ring_write r - 1) mod 512 =? 0) eqn:E.
  - apply Z.eqb_eq in E. apply Z.eqb_eq. Z.div_mod_to_equations. lia.
  - apply Z.eqb_neq in E. apply Z.eqb_neq. Z.div_mod_to_equations. lia.
Qed.

Lemma ring_free_succ (r : mtk_desc_ring) :
  ring_wf r -> ring_free r <> 0 ->
  ring_free {| ring_write := ring_succ (ring_write r); ring_read := ring_read r |}
  = ring_free r - 1.
Proof.
  intros [Hw Hr] Hne. unfold ring_free in *. simpl.
  rewrite ring_succ_mod by exact Hw. unfold MTK_RING_SIZE in *.
  Z.div_mod_to_equations. lia.
Qed.

(** ** Pushing descriptors into the rings *)

Lemma same_outside_rings_refl (k : kstate) : same_outside_rings k k.
Proof. unfold same_outside_rings. repeat split; reflexivity. Qed.

Lemma same_outside_rings_trans (k1 k2 k3 : kstate) :
  same_outside_rings k1 k2 -> same_outside_rings k2 k3 -> same_outside_rings k1 k3.
Proof. unfold same_outside_rings. intuition congruence. Qed.

Lemma push_desc_sync (sab ssb areq sap : Z) (x : sc_desc) (k : kstate) :
  rings_sync k -> cdr_full k = false ->
  let w := ring_write (cdr (dev k)) in
  let r' := {| ring_write := ring_succ w; ring_read := ring_read (cdr (dev k)) |} in
  push_desc sab ssb areq sap x k
  = set_dev (set_dma_buf (<[w := buf_of areq sap MTK_DESC_ASYNC]> (dma_buf (dev k)))
              (set_cdr_desc (<[w := desc_of sab ssb x]> (cdr_desc (dev k)))
                 (set_cdr r' (set_rdr r' (dev k))))) k.
Proof.
  unfold rings_sync, cdr_full. intros Hsync Hfull. simpl.
  unfold push_desc, sc_emit, bind, mtk_add_rdesc, mtk_add_cdesc, mtk_ring_next_wptr.
  rewrite <- Hsync, Hfull. simpl. rewrite Hfull. simpl. reflexivity.
Qed.

Lemma push_all_spec (sab ssb areq sap : Z) (l : list sc_desc) :
  forall k,
    rings_sync k -> ring_wf (cdr (dev k)) ->
    Z.of_nat (length l) <= ring_free (cdr (dev k)) ->
    exists k1, push_all sab ssb areq sap l k = Some k1 /\ pushed sab ssb areq sap l k k1.
Proof.
  induction l as [|x l IH]; intros k Hsync Hwf Hfree.
  - exists k. split; [reflexivity|]. unfold pushed. simpl.
    rewrite ring_at_0 by apply Hwf. rewrite Z.sub_0_r.
    split_and!; auto using same_outside_rings_refl; try apply Hwf.
    intros j x Hj. rewrite lookup_nil in Hj. discriminate.
  - simpl length in Hfree.
    assert (Hnf : cdr_full k = false).
    { unfold cdr_full. rewrite ring_full_free by exact Hwf. apply Z.eqb_neq. lia. }
    simpl. rewrite Hnf.
    pose proof (push_desc_sync sab ssb areq sap x k Hsync Hnf) as Hp. simpl in Hp.
    set (k2 := push_desc sab ssb areq sap x k) in *.
    assert (Hcdr2 : cdr (dev k2) = {| ring_write := ring_succ (ring_write (cdr (dev k)));
                                      ring_read := ring_read (cdr (dev k)) |})
      by (rewrite Hp; reflexivity).
    assert (Hsync2 : rings_sync k2) by (unfold rings_sync; rewrite Hp; reflexivity).
    assert (Hwf2 : ring_wf (cdr (dev k2))).
    { rewrite Hcdr2. destruct Hwf as [Hw Hr]. split; simpl; [|exact Hr].
      rewrite ring_succ_mod by exact Hw. apply Z.mod_pos_bound. reflexivity. }
    assert (Hfree2 : ring_free (cdr (dev k2)) = ring_free (cdr (dev k)) - 1).
    { rewrite Hcdr2. apply ring_free_succ; [exact Hwf | lia]. }
    destruct (IH k2 Hsync2 Hwf2) as (k1 & Hrun & Hpush); [lia|].
    exists k1. split; [exact Hrun|].
    destruct Hpush as (Hs1 & Hw1 & Hwr & Hrd & Hfr & Hin & Hout & Hsame).
    pose proof (ring_free_range (cdr (dev k))) as Hrange. unfold MTK_RING_SIZE in Hrange.
    destruct Hwf as [Hw Hr].
    rewrite Hcdr2 in Hwr, Hrd, Hin, Hout. simpl in Hwr, Hrd, Hin, Hout.
    unfold pushed. simpl length.
    split; [exact Hs1|]. split; [exact Hw1|].
    split; [rewrite Hwr; apply ring_at_succ; exact Hw|].
    split; [exact Hrd|].
    split; [rewrite Hfr, Hfree2; lia|].
    split; [|split].
    + intros j y Hj. destruct j as [|j]; simpl in Hj.
      * injection Hj as <-. rewrite ring_at_0 by exact Hw.
        destruct (Hout (ring_write (cdr (dev k)))) as [Hc Hb].
        { intros j Hjl. rewrite ring_at_succ by exact Hw.
          rewrite <- (ring_at_0 (ring_write (cdr (dev k)))) at 1 by exact Hw.
          intros E. apply ring_at_inj in E; lia. }
        rewrite Hc, Hb, Hp. simpl. rewrite !lookup_insert_eq. split; reflexivity.
      * rewrite <- ring_at_succ by exact Hw. apply Hin. exact Hj.
    + intros i Hi. destruct (Hout i) as [Hc Hb].
      { intros j Hjl. rewrite ring_at_succ by exact Hw. apply Hi. lia. }
      rewrite Hc, Hb, Hp. simpl.
      assert (Hne : ring_write (cdr (dev k)) <> i).
      { intros E. apply (Hi 0%nat); [lia|]. rewrite ring_at_0 by exact Hw. auto. }
      rewrite !lookup_insert_ne by exact Hne. split; reflexivity.
    + eapply same_outside_rings_trans; [|exact Hsame].
      rewrite Hp. unfold same_outside_rings. simpl. repeat split; reflexivity.
Qed.

Lemma last_wptr_spec (sab ssb areq sap : Z) (l : list sc_desc) :
  forall k buf,
    rings_sync k -> ring_wf (cdr (dev k)) ->
    Z.of_nat (length l) <= ring_free (cdr (dev k)) ->
    last_wptr sab ssb areq sap l k buf
    = match l with
      | [] => buf
      | _ :: rest => Some (ring_at (ring_write (cdr (dev k))) (length rest))
      end.
Proof.
  induction l as [|x l IH]; intros k buf Hsync Hwf Hfree; [reflexivity|].
  simpl length in Hfree. simpl.
  assert (Hnf : cdr_full k = false).
  { unfold cdr_full. rewrite ring_full_free by exact Hwf. apply Z.eqb_neq. lia. }
  destruct (push_all_spec sab ssb areq sap [x] k Hsync Hwf) as (k2 & Hrun & Hp).
  { simpl. lia. }
  simpl in Hrun. rewrite Hnf in Hrun. injection Hrun as Hk2. rewrite Hk2.
  destruct Hp as (Hs2 & Hwf2 & Hw2 & _ & Hf2 & _).
  rewrite IH; [|exact Hs2|exact Hwf2|simpl in Hf2; lia].
  destruct l as [|y l]; simpl.
  - rewrite ring_at_0 by apply Hwf. reflexivity.
  - rewrite Hw2. simpl length. unfold ring_at. rewrite Zplus_mod_idemp_l.
    do 2 f_equal. lia.
Qed.

Lemma push_all_Some_free (sab ssb areq sap : Z) (l : list sc_desc) :
  forall k k1,
    rings_sync k -> ring_wf (cdr (dev k)) ->
    push_all sab ssb areq sap l k = Some k1 ->
    Z.of_nat (length l) <= ring_free (cdr (dev k)).
Proof.
  induction l as [|x l IH]; intros k k1 Hsync Hwf Hrun.
  - simpl. apply ring_free_range.
  - simpl in Hrun. destruct (cdr_full k) eqn:Hnf; [discriminate|].
    assert (Hne : ring_free (cdr (dev k)) <> 0).
    { unfold cdr_full in Hnf. rewrite ring_full_free in Hnf by exact Hwf.
      apply Z.eqb_neq in Hnf. exact Hnf. }
    pose proof (ring_free_range (cdr (dev k))) as Hrange.
    destruct (push_all_spec sab ssb areq sap [x] k Hsync Hwf) as (k2 & Hrun2 & Hp).
    { simpl. lia. }
    simpl in Hrun2. rewrite Hnf in Hrun2. injection Hrun2 as Hk2. rewrite Hk2 in Hrun.
    destruct Hp as (Hs2 & Hwf2 & _ & _ & Hf2 & _).
    specialize (IH k2 k1 Hs2 Hwf2 Hrun). simpl in Hf2. simpl length. lia.
Qed.

Lemma sc_finish_pushed (sab ssb areq sap : Z) (l : list sc_desc) (x : sc_desc)
    (complete : bool) (k k1 : kstate) :
  pushed sab ssb areq sap (l ++ [x]) k k1 ->
  sc_finish (Some (ring_at (ring_write (cdr (dev k))) (length l))) complete k1
  = Done (tt, finish_state areq sap (ring_at (ring_write (cdr (dev k))) (length l))
                complete k1).
Proof.
  intros (_ & _ & _ & _ & _ & Hin & _).
  destruct (Hin (length l) x) as [_ Hb].
  { rewrite lookup_app_r by lia. rewrite Nat.sub_diag. reflexivity. }
  unfold sc_finish, bind, modify_dev, finish_state, last_flags.
  destruct complete; simpl; unfold buf_at; simpl.
  - rewrite lookup_insert_eq, Hb. simpl. rewrite insert_insert_eq. reflexivity.
  - rewrite Hb. reflexivity.
Qed.

Lemma last_index_app (l0 : list sc_desc) (x0 : sc_desc) (w : Z) :
  match l0 ++ [x0] with
  | [] => None
  | _ :: rest => Some (ring_at w (length rest))
  end = Some (ring_at w (length l0)).
Proof.
  destruct l0; simpl; [reflexivity|]. rewrite length_app. simpl. do 2 f_equal. lia.
Qed.

(** A call of [mtk_scatter_combine] that returns has run its plan. *)
Lemma mtk_scatter_combine_Done (sab ssb : Z) (sgsrc sgdst : list scatterlist)
    (datalen : Z) (complete : bool) (areq : Z) (k : kstate)
    (r c rr : Z) (k' : kstate) :
  rings_sync k -> ring_wf (cdr (dev k)) ->
  mtk_scatter_combine sab ssb sgsrc sgdst datalen complete areq k = Done ((r, c, rr), k') ->
  exists l,
    scatter_plan sgsrc sgdst datalen = Done l /\ l <> []
    /\ Z.of_nat (length l) <= ring_free (cdr (dev k))
    /\ r = 0 /\ c = Z.of_nat (length l) /\ rr = Z.of_nat (length l)
    /\ submitted sab ssb areq complete l k k'.
Proof.
  intros Hsync Hwf Hrun. unfold mtk_scatter_combine in Hrun. unfold scatter_plan.
  destruct sgsrc as [|s sgsrc]; [discriminate|].
  destruct sgdst as [|d sgdst]; [discriminate|].
  unfold bind at 1 in Hrun. unfold mtk_ring_curr_wptr_index at 1 in Hrun.
  apply bind_Done in Hrun as ([[buf c'] rr'] & k1 & Hloop & Hfin).
  pose proof (sc_loop_sim sab ssb areq (ring_write (rdr (dev k)))
                (length (s :: sgsrc) + length (d :: sgdst)) (s :: sgsrc) (d :: sgdst)
                (Z.min (sg_dma_len s) datalen) (Z.min (sg_dma_len d) datalen) 0 0
                (sg_dma_address s) (sg_dma_address d) false false datalen 0 0 None k)
    as Hsim.
  rewrite Hloop in Hsim. unfold sc_sim in Hsim.
  destruct (sc_plan _ _ _ _ _ _ _ _ _ _ _ _) as [l| |];
    [|discriminate|destruct Hsim; discriminate].
  destruct (push_all sab ssb areq (ring_write (rdr (dev k))) l k) as [k1'|] eqn:Hpush;
    [|discriminate].
  injection Hsim as Hbuf Hc Hrr Hk1. subst k1' c' rr'.
  pose proof (push_all_Some_free _ _ _ _ _ _ _ Hsync Hwf Hpush) as Hfree.
  destruct (push_all_spec sab ssb areq (ring_write (rdr (dev k))) l k Hsync Hwf Hfree)
    as (k1'' & Hpush' & Hpushed).
  rewrite Hpush in Hpush'. injection Hpush' as <-.
  rewrite (last_wptr_spec _ _ _ _ l k None Hsync Hwf Hfree) in Hbuf.
  exists l. split; [reflexivity|].
  destruct l as [|x0 l0] using rev_ind.
  { subst buf. simpl in Hfin. discriminate. }
  clear IHl0. rewrite last_index_app in Hbuf. rewrite Hbuf in Hfin.
  apply bind_Done in Hfin as ([] & k2 & Hfin & Hret).
  rewrite (sc_finish_pushed sab ssb areq _ l0 x0 complete k k1 Hpushed) in Hfin.
  injection Hfin as <-. injection Hret as <- <- <- <-.
  split; [destruct l0; discriminate|].
  split; [exact Hfree|].
  split; [reflexivity|]. split; [lia|]. split; [lia|].
  exists k1. split; [exact Hpushed|].
  rewrite length_app. simpl. do 2 f_equal. lia.
Qed.

(** A plan that fits into the rings is carried out. *)
Lemma mtk_scatter_combine_run (sab ssb : Z) (sgsrc sgdst : list scatterlist)
    (datalen : Z) (complete : bool) (areq : Z) (k : kstate) (l : list sc_desc) :
  rings_sync k -> ring_wf (cdr (dev k)) ->
  scatter_plan sgsrc sgdst datalen = Done l -> l <> [] ->
  Z.of_nat (length l) <= ring_free (cdr (dev k)) ->
  exists k',
    mtk_scatter_combine sab ssb sgsrc sgdst datalen complete areq k
      = Done ((0, Z.of_nat (length l), Z.of_nat (length l)), k')
    /\ submitted sab ssb areq complete l k k'.
Proof.
  intros Hsync Hwf Hplan Hne Hfree. unfold mtk_scatter_combine. unfold scatter_plan in Hplan.
  destruct sgsrc as [|s sgsrc]; [discriminate|].
  destruct sgdst as [|d sgdst]; [discriminate|].
  unfold bind at 1. unfold mtk_ring_curr_wptr_index at 1.
  pose proof (sc_loop_sim sab ssb areq (ring_write (rdr (dev k)))
                (length (s :: sgsrc) + length (d :: sgdst)) (s :: sgsrc) (d :: sgdst)
                (Z.min (sg_dma_len s) datalen) (Z.min (sg_dma_len d) datalen) 0 0
                (sg_dma_address s) (sg_dma_address d) false false datalen 0 0 None k)
    as Hsim.
  rewrite Hplan in Hsim. unfold sc_sim in Hsim.
  destruct (push_all_spec sab ssb areq (ring_write (rdr (dev k))) l k Hsync Hwf Hfree)
    as (k1 & Hpush & Hpushed).
  rewrite Hpush in Hsim.
  rewrite (last_wptr_spec _ _ _ _ l k None Hsync Hwf Hfree) in Hsim.
  destruct l as [|x0 l0] using rev_ind; [contradiction|]. clear IHl0.
  unfold bind. rewrite Hsim.
  rewrite last_index_app.
  rewrite (sc_finish_pushed sab ssb areq _ l0 x0 complete k k1 Hpushed).
  eexists. split.
  - unfold ret. rewrite !Z.add_0_l. reflexivity.
  - exists k1. split; [exact Hpushed|].
    rewrite length_app. simpl. do 2 f_equal. lia.
Qed.

(** ** The two-pointer merge of mtk_scatter_combine *)

Lemma sum_list_Z_dma_len (sg : list scatterlist) :
  sum_list_Z (map sg_dma_len sg) = sum_len sg.
Proof. induction sg as [|s sg IH]; simpl; [reflexivity|]. rewrite IH. reflexivity. Qed.

Lemma sum_list_Z_nonempty (l : list Z) : 0 < sum_list_Z l -> l <> [].
Proof. intros H E. subst. simpl in H. lia. Qed.

Lemma Forall_dma_len_pos (sg : list scatterlist) :
  Forall (fun s => 0 < sg_dma_len s) sg -> Forall (fun x => 0 < x) (map sg_dma_len sg).
Proof. induction 1; simpl; constructor; assumption. Qed.

(** Lists of non-empty segments that hold at least [datalen] bytes each have
    a plan; its lengths add up to [datalen], and there are at most
    [m + n - 1] of them. *)
Lemma scatter_plan_total (sgsrc sgdst : list scatterlist) (datalen : Z) :
  0 < datalen < 2 ^ 32 ->
  Forall (fun s => 0 < sg_dma_len s) sgsrc ->
  Forall (fun s => 0 < sg_dma_len s) sgdst ->
  datalen <= sum_len sgsrc -> datalen <= sum_len sgdst ->
  exists l,
    scatter_plan sgsrc sgdst datalen = Done l
    /\ l <> []
    /\ sum_list_Z (map pd_len l) = datalen
    /\ (length l + 1 <= length sgsrc + length sgdst)%nat
    /\ Forall (fun x => 0 < pd_len x) l
    /\ (sum_len sgsrc = datalen -> sum_len sgdst = datalen ->
        two_pointer_merge (map sg_dma_len sgsrc) (map sg_dma_len sgdst) (map pd_len l)).
Proof.
  intros Hn Hps Hpd Hss Hsd. unfold scatter_plan.
  destruct sgsrc as [|s sgsrc]; [simpl in Hss; lia|].
  destruct sgdst as [|d sgdst]; [simpl in Hsd; lia|].
  apply Forall_cons in Hps as [Hs Hps]. apply Forall_cons in Hpd as [Hd Hpd].
  apply Forall_dma_len_pos in Hps, Hpd.
  pose proof (sum_list_Z_pos _ Hps) as H1. pose proof (sum_list_Z_pos _ Hpd) as H2.
  rewrite sum_list_Z_dma_len in H1, H2.
  simpl in Hss, Hsd. unfold sg_dma_len in Hs, Hd.
  destruct (sc_plan_total (length (s :: sgsrc) + length (d :: sgdst)) (s :: sgsrc)
              (d :: sgdst) (Z.min (sg_dma_len s) datalen) (Z.min (sg_dma_len d) datalen)
              0 0 (sg_dma_address s) (sg_dma_address d) false false datalen)
    as (l & Hplan & Hsum & Hlen & Hpos & Hmerge).
  - exact Hn.
  - unfold cur. simpl. constructor; [unfold sg_dma_len; lia | exact Hps].
  - unfold cur. simpl. constructor; [unfold sg_dma_len; lia | exact Hpd].
  - unfold cur. simpl. rewrite sum_list_Z_dma_len. unfold sg_dma_len. lia.
  - unfold cur. simpl. rewrite sum_list_Z_dma_len. unfold sg_dma_len. lia.
  - intros _. lia.
  - intros _. lia.
  - unfold cur. simpl. rewrite !length_map. lia.
  - exists l. split; [exact Hplan|].
    split; [intros ->; simpl in Hsum; lia|].
    split; [exact Hsum|].
    split; [unfold cur in Hlen; simpl in Hlen; rewrite !length_map in Hlen; simpl; lia|].
    split; [exact Hpos|].
    intros Es Ed. unfold cur in Hmerge. simpl in Hmerge, Es, Ed.
    rewrite !sum_list_Z_dma_len in Hmerge.
    rewrite !Z.min_l in Hmerge by (unfold sg_dma_len; lia).
    simpl. apply Hmerge; unfold sg_dma_len; lia.
Qed.

Lemma submitted_cdr_desc (sab ssb areq : Z) (complete : bool) (l : list sc_desc)
    (k k' : kstate) (j : nat) (x : sc_desc) :
  submitted sab ssb areq complete l k k' -> l !! j = Some x ->
  cdr_desc (dev k') !! ring_at (ring_write (cdr (dev k))) j = Some (desc_of sab ssb x).
Proof.
  intros (k1 & (_ & _ & _ & _ & _ & Hin & _) & ->) Hj. simpl.
  apply (Hin j x Hj).
Qed.

(** A merge step is never longer than the segment it comes from: a bound on
    the segments of either list bounds every step. *)
Lemma two_pointer_merge_le_src (B : Z) (src dst out : list Z) :
  two_pointer_merge src dst out ->
  Forall (fun a => a <= B) src -> Forall (fun b => 0 < b) dst ->
  Forall (fun o => o <= B) out.
Proof.
  induction 1 as [|a src dst out _ IH|a b src dst out Hab _ IH|a b src dst out Hba _ IH];
    intros Hs Hd.
  - constructor.
  - apply Forall_cons in Hs as [Ha Hs]. apply Forall_cons in Hd as [_ Hd].
    constructor; [lia | apply IH; assumption].
  - apply Forall_cons in Hs as [Ha Hs]. apply Forall_cons in Hd as [Hb Hd].
    constructor; [lia|]. apply IH; [assumption|]. constructor; [lia | assumption].
  - apply Forall_cons in Hs as [Ha Hs]. apply Forall_cons in Hd as [Hb Hd].
    constructor; [lia|]. apply IH; [|assumption]. constructor; [lia | assumption].
Qed.

Lemma two_pointer_merge_le_dst (B : Z) (src dst out : list Z) :
  two_pointer_merge src dst out ->
  Forall (fun a => 0 < a) src -> Forall (fun b => b <= B) dst ->
  Forall (fun o => o <= B) out.
Proof.
  induction 1 as [|a src dst out _ IH|a b src dst out Hab _ IH|a b src dst out Hba _ IH];
    intros Hs Hd.
  - constructor.
  - apply Forall_cons in Hs as [_ Hs]. apply Forall_cons in Hd as [Hb Hd].
    constructor; [lia | apply IH; assumption].
  - apply Forall_cons in Hs as [Ha Hs]. apply Forall_cons in Hd as [Hb Hd].
    constructor; [lia|]. apply IH; [assumption|]. constructor; [lia | assumption].
  - apply Forall_cons in Hs as [Ha Hs]. apply Forall_cons in Hd as [Hb Hd].
    constructor; [lia|]. apply IH; [|assumption]. constructor; [lia | assumption].
Qed.

Lemma bitfield_small (w x : Z) : 0 <= x < 2 ^ w -> bitfield w x = x.
Proof. intros H. unfold bitfield. apply Z.mod_small. exact H. Qed.

(** The length field of a descriptor is 20 bits wide: a merge step of 2^20
    bytes leaves 0 in it.  Two lists of one segment of 2^20 bytes each get
    one descriptor whose length field is 0, so that the lengths of the
    descriptors do not add up to [datalen]. *)
Lemma merge_length_field_wraps :
  exists k' d,
    mtk_scatter_combine 131072 65536
      [ {| sg_addr := 256; sg_page := 16384; sg_offset := 0; sg_length := 1048576;
           sg_dma_address := 16384; sg_data := [] |} ]
      [ {| sg_addr := 320; sg_page := 2097152; sg_offset := 0; sg_length := 1048576;
           sg_dma_address := 2097152; sg_data := [] |} ]
      1048576 true 7 k_idle = Done ((0, 1, 1), k')
    /\ cdr_desc (dev k') !! 0 = Some d
    /\ len_length d = 0
    /\ len_length d <> Z.min 1048576 1048576
    /\ sum_list_Z [len_length d] <> 1048576.
Proof.
  eexists _, _. split; [vm_compute; reflexivity|].
  split; [vm_compute; reflexivity|].
  split; [reflexivity|]. split; discriminate.
Qed.

(** C2, as the code has it: two lists of [m] and [n] non-empty DMA segments
    that both hold exactly [datalen > 0] bytes are turned into at most
    [m + n - 1] command/result descriptor pairs (the rings having that much
    room); the steps are those of the two-pointer merge, each the minimum
    of what is left in the current source and the current destination
    segment, and they add up to [datalen].  The descriptors are in the
    command ring from the old write index on; the length field of each
    holds its step cut to 20 bits, which is the step itself when it is
    below 2^20 bytes, and so for every descriptor when the segments of one
    of the lists are all shorter than 2^20 bytes. *)
Theorem mtk_scatter_combine_merge_bound (sab ssb : Z) (sgsrc sgdst : list scatterlist)
    (datalen : Z) (complete : bool) (areq : Z) (k : kstate) :
  0 < datalen < 2 ^ 32 ->
  Forall (fun s => 0 < sg_dma_len s) sgsrc ->
  Forall (fun s => 0 < sg_dma_len s) sgdst ->
  sum_len sgsrc = datalen -> sum_len sgdst = datalen ->
  rings_sync k -> ring_wf (cdr (dev k)) ->
  Z.of_nat (length sgsrc + length sgdst - 1) <= ring_free (cdr (dev k)) ->
  exists l k',
    mtk_scatter_combine sab ssb sgsrc sgdst datalen complete areq k
      = Done ((0, Z.of_nat (length l), Z.of_nat (length l)), k')
    /\ (1 <= length l <= length sgsrc + length sgdst - 1)%nat
    /\ two_pointer_merge (map sg_dma_len sgsrc) (map sg_dma_len sgdst) (map pd_len l)
    /\ sum_list_Z (map pd_len l) = datalen
    /\ (forall j x, l !! j = Some x ->
          exists d, cdr_desc (dev k') !! ring_at (ring_write (cdr (dev k))) j = Some d
                    /\ len_length d = bitfield PE_LENGTH_BITS (pd_len x)
                    /\ (pd_len x < 2 ^ PE_LENGTH_BITS -> len_length d = pd_len x)
                    /\ (Forall (fun s => sg_dma_len s < 2 ^ PE_LENGTH_BITS) sgsrc
                        \/ Forall (fun s => sg_dma_len s < 2 ^ PE_LENGTH_BITS) sgdst ->
                        len_length d = pd_len x)).
Proof.
  intros Hn Hps Hpd Es Ed Hsync Hwf Hfree.
  destruct (scatter_plan_total sgsrc sgdst datalen Hn Hps Hpd)
    as (l & Hplan & Hne & Hsum & Hlen & Hpos & Hmerge); try lia.
  destruct (mtk_scatter_combine_run sab ssb sgsrc sgdst datalen complete areq k l
              Hsync Hwf Hplan Hne) as (k' & Hrun & Hsub); [lia|].
  specialize (Hmerge Es Ed).
  exists l, k'. split; [exact Hrun|].
  split; [destruct l; [contradiction | simpl in *; lia]|].
  split; [exact Hmerge|].
  split; [exact Hsum|].
  intros j x Hj. eexists. split; [eapply submitted_cdr_desc; eassumption|].
  split; [reflexivity|].
  split.
  { intros Hsmall. cbn [desc_of len_length]. apply bitfield_small.
    rewrite Forall_lookup in Hpos. specialize (Hpos j x Hj). cbv beta in Hpos. lia. }
  intros Hshort. cbn [desc_of len_length]. apply bitfield_small.
  assert (Hps' : Forall (fun a => 0 < a) (map sg_dma_len sgsrc))
    by (apply Forall_map; exact Hps).
  assert (Hpd' : Forall (fun a => 0 < a) (map sg_dma_len sgdst))
    by (apply Forall_map; exact Hpd).
  assert (Hle : Forall (fun o => o <= 2 ^ PE_LENGTH_BITS - 1) (map pd_len l)).
  { destruct Hshort as [Hs | Hd].
    - apply (two_pointer_merge_le_src _ _ _ _ Hmerge); [|exact Hpd'].
      apply Forall_map. eapply Forall_impl; [exact Hs|]. intros s Hlt.
      unfold compose. cbv beta in Hlt. lia.
    - apply (two_pointer_merge_le_dst _ _ _ _ Hmerge); [exact Hps'|].
      apply Forall_map. eapply Forall_impl; [exact Hd|]. intros s Hlt.
      unfold compose. cbv beta in Hlt. lia. }
  rewrite Forall_map in Hle.
  rewrite Forall_lookup in Hle, Hpos.
  specialize (Hle j x Hj). specialize (Hpos j x Hj). cbv beta in Hle, Hpos.
  unfold PE_LENGTH_BITS in *. lia.
Qed.

Lemma mtk_scatter_combine_merge_bound_witness :
  exists l k',
    mtk_scatter_combine 131072 65536 (sg_chain 256 16384 [16; 32])
      (sg_chain 512 32768 [8; 8; 32]) 48 true 7 k_idle
      = Done ((0, Z.of_nat (length l), Z.of_nat (length l)), k')
    /\ (1 <= length l <= 2 + 3 - 1)%nat
    /\ sum_list_Z (map pd_len l) = 48
    /\ (forall j x, l !! j = Some x ->
          exists d, cdr_desc (dev k') !! ring_at 0 j = Some d /\ len_length d = pd_len x).
Proof.
  destruct (mtk_scatter_combine_merge_bound 131072 65536 (sg_chain 256 16384 [16; 32])
              (sg_chain 512 32768 [8; 8; 32]) 48 true 7 k_idle)
    as (l & k' & Hrun & Hlen & _ & Hsum & Hdesc).
  - lia.
  - repeat constructor.
  - repeat constructor.
  - reflexivity.
  - reflexivity.
  - reflexivity.
  - vm_compute. intuition discriminate.
  - vm_compute. discriminate.
  - exists l, k'. split; [exact Hrun|]. split; [exact Hlen|]. split; [exact Hsum|].
    intros j x Hj. destruct (Hdesc j x Hj) as (d & Hd & _ & _ & Hshort).
    exists d. split; [exact Hd|]. apply Hshort. left.
    repeat constructor.
Defined.

(** ** The state after a submission *)

Lemma pushed_length (sab ssb areq sap : Z) (l : list sc_desc) (k k1 : kstate) :
  pushed sab ssb areq sap l k k1 -> (length l < 512)%nat.
Proof.
  intros (_ & _ & _ & _ & Hfree & _).
  pose proof (ring_free_range (cdr (dev k))) as H1.
  pose proof (ring_free_range (cdr (dev k1))) as H2.
  unfold MTK_RING_SIZE in *. lia.
Qed.

Lemma submitted_dma_buf (sab ssb areq : Z) (complete : bool) (l : list sc_desc)
    (k k' : kstate) (j : nat) :
  submitted sab ssb areq complete l k k' -> (j < length l)%nat ->
  dma_buf (dev k') !! ring_at (ring_write (cdr (dev k))) j
  = Some (buf_of areq (ring_write (rdr (dev k))) (entry_flags complete (length l) j)).
Proof.
  intros (k1 & Hp & ->) Hj. pose proof (pushed_length _ _ _ _ _ _ _ Hp) as Hlen.
  destruct Hp as (_ & _ & _ & _ & _ & Hin & _).
  unfold finish_state, entry_flags. simpl.
  destruct (Nat.eqb_spec j (length l - 1)) as [->|Hne].
  - rewrite lookup_insert_eq. reflexivity.
  - rewrite lookup_insert_ne.
    + destruct (lookup_lt_is_Some_2 l j Hj) as [x Hx]. apply (Hin j x Hx).
    + intros E. apply ring_at_inj in E; lia.
Qed.

Lemma submitted_state (sab ssb areq : Z) (complete : bool) (l : list sc_desc)
    (k k' : kstate) :
  submitted sab ssb areq complete l k k' -> l <> [] ->
  rings_sync k' /\ ring_wf (cdr (dev k'))
  /\ ring_write (cdr (dev k')) = ring_at (ring_write (cdr (dev k))) (length l)
  /\ ring_read (cdr (dev k')) = ring_read (cdr (dev k))
  /\ ring_free (cdr (dev k')) = ring_free (cdr (dev k)) - Z.of_nat (length l)
  /\ same_outside_rings k k'
  /\ (forall i, (forall j, (j < length l)%nat -> i <> ring_at (ring_write (cdr (dev k))) j) ->
        cdr_desc (dev k') !! i = cdr_desc (dev k) !! i
        /\ dma_buf (dev k') !! i = dma_buf (dev k) !! i).
Proof.
  intros (k1 & Hp & ->) Hne.
  destruct Hp as (Hs & Hwf & Hw & Hr & Hf & Hin & Hout & Hsame).
  unfold finish_state, rings_sync in *. simpl.
  split_and!; try assumption.
  intros i Hi. destruct (Hout i Hi) as [Hc Hb]. split; [exact Hc|].
  rewrite lookup_insert_ne; [exact Hb|].
  intros E. apply (Hi (length l - 1)%nat); [destruct l; [contradiction|simpl; lia]|].
  symmetry. exact E.
Qed.

Lemma same_sa_refl (k : kstate) : same_sa k k.
Proof. unfold same_sa. auto. Qed.

Lemma same_sa_trans (k1 k2 k3 : kstate) :
  same_sa k1 k2 -> same_sa k2 k3 -> same_sa k1 k3.
Proof. unfold same_sa. intuition congruence. Qed.

Lemma push_desc_same_sa (sab ssb areq sap : Z) (x : sc_desc) (k : kstate) :
  same_sa k (push_desc sab ssb areq sap x k).
Proof.
  unfold push_desc, sc_emit, bind, mtk_add_rdesc, mtk_add_cdesc, mtk_ring_next_wptr.
  destruct (ring_succ (ring_write (rdr (dev k))) =? ring_read (rdr (dev k)));
    simpl;
    destruct (ring_succ (ring_write (cdr (dev k))) =? ring_read (cdr (dev k)));
    simpl; unfold same_sa; simpl; auto.
Qed.

Lemma push_all_same_sa (sab ssb areq sap : Z) (l : list sc_desc) :
  forall k k1, push_all sab ssb areq sap l k = Some k1 -> same_sa k k1.
Proof.
  induction l as [|x l IH]; intros k k1 H; simpl in H.
  - injection H as <-. apply same_sa_refl.
  - destruct (cdr_full k); [discriminate|].
    eapply same_sa_trans; [apply push_desc_same_sa | apply (IH _ _ H)].
Qed.

(** [mtk_scatter_combine] writes descriptors and side-table entries only. *)
Lemma mtk_scatter_combine_same_sa (sab ssb : Z) (sgsrc sgdst : list scatterlist)
    (datalen : Z) (complete : bool) (areq : Z) (k : kstate)
    (res : Z * Z * Z) (k' : kstate) :
  mtk_scatter_combine sab ssb sgsrc sgdst datalen complete areq k = Done (res, k') ->
  same_sa k k'.
Proof.
  intros Hrun. unfold mtk_scatter_combine in Hrun.
  destruct sgsrc as [|s sgsrc]; [discriminate|].
  destruct sgdst as [|d sgdst]; [discriminate|].
  unfold bind at 1 in Hrun. unfold mtk_ring_curr_wptr_index at 1 in Hrun.
  apply bind_Done in Hrun as ([[buf c'] rr'] & k1 & Hloop & Hfin).
  pose proof (sc_loop_sim sab ssb areq (ring_write (rdr (dev k)))
                (length (s :: sgsrc) + length (d :: sgdst)) (s :: sgsrc) (d :: sgdst)
                (Z.min (sg_dma_len s) datalen) (Z.min (sg_dma_len d) datalen) 0 0
                (sg_dma_address s) (sg_dma_address d) false false datalen 0 0 None k)
    as Hsim.
  rewrite Hloop in Hsim. unfold sc_sim in Hsim.
  destruct (sc_plan _ _ _ _ _ _ _ _ _ _ _ _) as [l| |];
    [|discriminate|destruct Hsim; discriminate].
  destruct (push_all sab ssb areq (ring_write (rdr (dev k))) l k) as [k1'|] eqn:Hpush;
    [|discriminate].
  injection Hsim as _ _ _ <-.
  apply push_all_same_sa in Hpush.
  eapply same_sa_trans; [exact Hpush|].
  apply bind_Done in Hfin as ([] & k2 & Hfin & Hret). injection Hret as _ <-.
  unfold sc_finish in Hfin. destruct buf as [i|]; [|discriminate].
  apply bind_Done in Hfin as ([] & k3 & Hm & Hfin).
  injection Hm as <-.
  destruct complete.
  - injection Hfin as <-. unfold same_sa. simpl. auto.
  - injection Hfin as <-. unfold same_sa. simpl. auto.
Qed.

(** ** The SA record at submission time *)

Ltac frame_tac :=
  repeat first
    [ apply frame_ret | apply frame_oops | apply frame_get_dev | apply frame_load_sa
    | apply frame_curr_wptr
    | (apply frame_emit; intros; reflexivity)
    | (apply frame_alloc; intros; reflexivity)
    | (apply frame_modify_dev; intros; reflexivity)
    | (apply frame_bind; [|intros])
    | match goal with
      | |- frame _ (if ?b then _ else _) => destruct b
      | |- frame _ (match ?x with _ => _ end) => destruct x
      end ].

Lemma mtk_make_sg_cpy_frame (src : list scatterlist) (len a t au : Z) (copy : bool) :
  frame dev_and_sa (mtk_make_sg_cpy src len a t au copy).
Proof. unfold mtk_make_sg_cpy. cbv zeta. frame_tac. Qed.

Lemma send_req_map_frame (src dst : list scatterlist) :
  frame dev_and_sa (send_req_map src dst).
Proof. unfold send_req_map, dma_map_sg. cbv zeta. frame_tac. Qed.

Lemma send_req_prepare_frame (ctx : mtk_cipher_ctx) (reqsrc reqdst : list scatterlist)
    (rctx : mtk_cipher_reqctx) :
  frame dev_and_sa (send_req_prepare ctx reqsrc reqdst rctx).
Proof.
  unfold send_req_prepare. cbv zeta.
  repeat first
    [ apply mtk_make_sg_cpy_frame | apply send_req_map_frame
    | apply frame_ret
    | (apply frame_emit; intros; reflexivity)
    | (apply frame_bind; [|intros])
    | match goal with
      | |- frame _ (if ?b then _ else _) => destruct b
      | |- frame _ (match ?x with _ => _ end) => destruct x
      end ].
Qed.

Lemma mtk_make_sg_cpy_err (src : list scatterlist) (len a t au : Z) (copy : bool)
    (k : kstate) (err : Z) (sg : list scatterlist) (k' : kstate) :
  mtk_make_sg_cpy src len a t au copy k = Done ((err, sg), k') ->
  err = 0 \/ err = - ENOMEM.
Proof.
  unfold mtk_make_sg_cpy, bind, alloc, emit, ret. cbv zeta.
  destruct (allocs k) as [|[a1|] rest]; simpl;
    try (intros H; injection H as <- _ _; auto; fail).
  destruct rest as [|[a2|] rest']; simpl; intros H; injection H as <- _ _; auto.
Qed.

(** An early return of the preparation carries an error code. *)
Lemma send_req_prepare_inl (ctx : mtk_cipher_ctx) (reqsrc reqdst : list scatterlist)
    (rctx : mtk_cipher_reqctx) (k : kstate) (err : Z) (rctx' : mtk_cipher_reqctx)
    (k' : kstate) :
  send_req_prepare ctx reqsrc reqdst rctx k = Done (inl (err, rctx'), k') -> err <> 0.
Proof.
  unfold send_req_prepare. cbv zeta.
  destruct (negb (IS_CTR (rctx_flags rctx)) && _).
  { intros H. injection H as <- _ _. discriminate. }
  match goal with |- context [if ?c then bind (emit EvDevErr) _ else _] => destruct c end.
  { intros H. injection H as <- _ _. discriminate. }
  intros H. apply bind_Done in H as ([e1 b1] & k1 & H1 & H).
  destruct (negb (e1 =? 0)) eqn:E1.
  { injection H as <- _ _. apply negb_true_iff, Z.eqb_neq in E1. exact E1. }
  apply bind_Done in H as ([e2 b2] & k2 & H2 & H).
  destruct (negb (e2 =? 0)) eqn:E2.
  { injection H as <- _ _. apply negb_true_iff, Z.eqb_neq in E2. exact E2. }
  apply bind_Done in H as ([s1 d1] & k3 & H3 & H). discriminate.
Qed.

Lemma set_stateIv_slot_same (wptr : Z) (iv : list Z) (k : kstate) :
  set_stateIv_slot wptr iv k
  = Done (tt, set_dev (set_saState (<[wptr := {| stateIv := iv |}]> (saState (dev k)))
                         (dev k)) k).
Proof. reflexivity. Qed.

(** The submit stage reads the transform's record, writes the ring slot of
    the current write index, and changes no SA record of any transform. *)
Lemma send_req_submit_saRecord (base : Z) (ctx : mtk_cipher_ctx) (reqiv : list Z)
    (rctx : mtk_cipher_reqctx) (flags aad authsize datalen : Z)
    (src dst : list scatterlist) (iv : list Z) (overflow : bool) (offset : Z)
    (complete : bool) (k : kstate) (res : Z * mtk_cipher_reqctx * Z * Z) (k' : kstate) :
  send_req_submit base ctx reqiv rctx flags aad authsize datalen src dst iv overflow
    offset complete k = Done (res, k') ->
  sa_mem k' = sa_mem k
  /\ exists sa,
       sa_mem k !! ctx_sa ctx = Some sa
       /\ saRecord (dev k')
          = <[ring_write (rdr (dev k)) := send_req_saRecord sa (ctx_aead ctx) flags aad authsize]>
              (saRecord (dev k)).
Proof.
  unfold send_req_submit. intros H.
  unfold bind at 1, mtk_ring_curr_wptr_index at 1 in H.
  unfold bind at 1, get_dev at 1 in H.
  apply bind_Done in H as (sa & k1 & Hsa & H).
  unfold load_sa in Hsa. destruct (sa_mem k !! ctx_sa ctx) as [sa'|] eqn:Esa; [|discriminate].
  injection Hsa as <- <-.
  unfold bind at 1, modify_dev at 1 in H.
  unfold bind at 1 in H. rewrite set_stateIv_slot_same in H.
  match type of H with context [if negb complete then _ else _] =>
    match type of H with _ ?k0 = _ => set (kA := k0) in * end end.
  assert (HA : saRecord (dev k') = saRecord (dev kA) /\ sa_mem k' = sa_mem kA ->
               sa_mem k' = sa_mem k
            /\ exists sa, Some sa' = Some sa
                 /\ saRecord (dev k')
                    = <[ring_write (rdr (dev k)) :=
                          send_req_saRecord sa (ctx_aead ctx) flags aad authsize]>
                        (saRecord (dev k))).
  { intros (Hrec & Hmem). split; [rewrite Hmem; reflexivity|].
    exists sa'. split; [reflexivity|]. rewrite Hrec. reflexivity. }
  apply HA. clear HA.
  destruct complete; simpl negb in H; cbv iota in H.
  - apply bind_Done in H as ([[r1 c1] rr1] & k2 & Hsc & H). injection H as _ <-.
    apply mtk_scatter_combine_same_sa in Hsc. destruct Hsc as (_ & Hr1 & Hm1). auto.
  - apply bind_Done in H as ([[r1 c1] rr1] & k2 & Hsc & H).
    apply mtk_scatter_combine_same_sa in Hsc.
    destruct (scatterwalk_ffwd (rctx_ctr_src rctx) src (u32 offset)) as [src'|];
      [|discriminate].
    destruct (if sg_ptr_eq src dst then Some src'
              else scatterwalk_ffwd (rctx_ctr_dst rctx) dst (u32 offset)) as [dst'|];
      [|discriminate].
    unfold bind at 1, mtk_ring_curr_wptr_index at 1 in H.
    unfold bind at 1, get_dev at 1 in H.
    unfold bind at 1 in H. rewrite set_stateIv_slot_same in H.
    apply bind_Done in H as ([s2 d2] & k3 & Hmap & H).
    apply send_req_map_frame in Hmap. unfold dev_and_sa in Hmap. simpl in Hmap.
    injection Hmap as Hdev Hmem.
    apply bind_Done in H as ([[r3 c3] rr3] & k4 & Hsc2 & H). injection H as _ <-.
    apply mtk_scatter_combine_same_sa in Hsc2.
    destruct Hsc as (Hs1 & Hr1 & Hm1). destruct Hsc2 as (Hs2 & Hr2 & Hm2).
    rewrite Hr2, Hm2, Hdev, Hmem. simpl. auto.
Qed.

(** Lines 458-481, field by field: the slot's copy differs from the
    transform's record in the direction bit (decryption), the opcode (AEAD),
    and the HMAC offset and digest length, each cut to its bit-field. *)
Lemma send_req_saRecord_copy (sa : saRecord_s) (aead : bool) (flags aad authsize : Z) :
  let slot := send_req_saRecord sa aead flags aad authsize in
  saCmd0 slot
  = {| opCode := if aead then 1 else opCode (saCmd0 sa);
       direction := if IS_DECRYPT flags then 1 else direction (saCmd0 sa);
       opGroup := opGroup (saCmd0 sa); padType := padType (saCmd0 sa);
       cipher := cipher (saCmd0 sa); hash := hash (saCmd0 sa);
       scPad := scPad (saCmd0 sa); extPad := extPad (saCmd0 sa);
       hdrProc := hdrProc (saCmd0 sa);
       digestLength := if IS_HMAC flags
                       then bitfield SA_DIGEST_LENGTH_BITS (authsize / 4)
                       else digestLength (saCmd0 sa);
       ivSource := ivSource (saCmd0 sa); saveIv := saveIv (saCmd0 sa);
       saveHash := saveHash (saCmd0 sa) |}
  /\ saCmd1 slot
     = {| copyDigest := copyDigest (saCmd1 sa); copyHeader := copyHeader (saCmd1 sa);
          copyPayload := copyPayload (saCmd1 sa); cipherMode := cipherMode (saCmd1 sa);
          hmac := hmac (saCmd1 sa); byteOffset := byteOffset (saCmd1 sa);
          hashCryptOffset := if IS_HMAC flags
                             then bitfield SA_HASH_CRYPT_OFFSET_BITS (aad / 4)
                             else hashCryptOffset (saCmd1 sa);
          aesKeyLen := aesKeyLen (saCmd1 sa); seqNumCheck := seqNumCheck (saCmd1 sa) |}
  /\ saKey slot = saKey sa /\ saIDigest slot = saIDigest sa
  /\ saODigest slot = saODigest sa /\ saSpi slot = saSpi sa
  /\ saSeqNumMask slot = saSeqNumMask sa /\ saNonce slot = saNonce sa.
Proof.
  destruct sa as [[] [] ? ? ? ? ? ?]. unfold send_req_saRecord.
  destruct aead, (IS_DECRYPT flags), (IS_HMAC flags); cbn; repeat split; reflexivity.
Qed.

(** C9: [mtk_send_req] leaves the SA record of every transform as it was.  A
    submission that succeeds has put into the ring slot of the current write
    index a copy of the transform's record with the per-request settings:
    the direction bit is 1 for a decryption, the opcode is 1 for an AEAD
    transform, and for an HMAC request the hash/crypt offset is [aad / 4]
    and the digest length [authsize / 4], each cut to its bit-field; every
    other field of the slot (the remaining command bits, key, digests, SPI,
    sequence number mask and nonce) is that of the transform's record.  A
    call that fails has not written any SA slot. *)
Theorem mtk_send_req_sa_copy (base : Z) (ctx : mtk_cipher_ctx)
    (reqsrc reqdst : list scatterlist) (reqiv : list Z) (rctx : mtk_cipher_reqctx)
    (k : kstate) (r : Z) (rctx' : mtk_cipher_reqctx) (c res : Z) (k' : kstate) :
  mtk_send_req base ctx reqsrc reqdst reqiv rctx k = Done ((r, rctx', c, res), k') ->
  sa_mem k' = sa_mem k
  /\ (r = 0 ->
      exists sa slot,
        sa_mem k !! ctx_sa ctx = Some sa
        /\ saRecord (dev k') = <[ring_write (rdr (dev k)) := slot]> (saRecord (dev k))
        /\ saCmd0 slot
           = {| opCode := if ctx_aead ctx then 1 else opCode (saCmd0 sa);
                direction := if IS_DECRYPT (rctx_flags rctx) then 1
                             else direction (saCmd0 sa);
                opGroup := opGroup (saCmd0 sa); padType := padType (saCmd0 sa);
                cipher := cipher (saCmd0 sa); hash := hash (saCmd0 sa);
                scPad := scPad (saCmd0 sa); extPad := extPad (saCmd0 sa);
                hdrProc := hdrProc (saCmd0 sa);
                digestLength := if IS_HMAC (rctx_flags rctx)
                                then bitfield SA_DIGEST_LENGTH_BITS (rctx_authsize rctx / 4)
                                else digestLength (saCmd0 sa);
                ivSource := ivSource (saCmd0 sa); saveIv := saveIv (saCmd0 sa);
                saveHash := saveHash (saCmd0 sa) |}
        /\ saCmd1 slot
           = {| copyDigest := copyDigest (saCmd1 sa);
                copyHeader := copyHeader (saCmd1 sa);
                copyPayload := copyPayload (saCmd1 sa);
                cipherMode := cipherMode (saCmd1 sa);
                hmac := hmac (saCmd1 sa); byteOffset := byteOffset (saCmd1 sa);
                hashCryptOffset := if IS_HMAC (rctx_flags rctx)
                                   then bitfield SA_HASH_CRYPT_OFFSET_BITS
                                          (rctx_assoclen rctx / 4)
                                   else hashCryptOffset (saCmd1 sa);
                aesKeyLen := aesKeyLen (saCmd1 sa);
                seqNumCheck := seqNumCheck (saCmd1 sa) |}
        /\ saKey slot = saKey sa /\ saIDigest slot = saIDigest sa
        /\ saODigest slot = saODigest sa /\ saSpi slot = saSpi sa
        /\ saSeqNumMask slot = saSeqNumMask sa /\ saNonce slot = saNonce sa)
  /\ (r <> 0 -> saRecord (dev k') = saRecord (dev k)).
Proof.
  unfold mtk_send_req. cbv zeta. intros H.
  apply bind_Done in H as (p & k1 & Hprep & H).
  pose proof (send_req_prepare_frame _ _ _ _ _ _ _ Hprep) as Hfr.
  unfold dev_and_sa in Hfr. injection Hfr as Hdev Hmem.
  destruct p as [[err rc]|[[rc src] dst]].
  - injection H as <- _ _ _ <-.
    apply send_req_prepare_inl in Hprep.
    split; [exact Hmem|]. split; [intros E; contradiction|].
    intros _. rewrite Hdev. reflexivity.
  - destruct (ctr_overflow_split _ _ _) as [[offset iv] complete].
    pose proof H as Hrun.
    apply send_req_submit_saRecord in H as (Hm & sa & Hsa & Hrec).
    rewrite Hmem in Hm, Hsa. rewrite Hdev in Hrec.
    split; [exact Hm|]. split.
    + intros _. exists sa. eexists. split; [exact Hsa|]. split; [exact Hrec|].
      apply send_req_saRecord_copy.
    + intros Hr. exfalso. apply Hr. revert Hrun. clear.
      unfold send_req_submit. intros H.
      repeat match type of H with
             | bind _ _ _ = Done _ => apply bind_Done in H as (? & ? & _ & H)
             | (if ?b then _ else _) _ = Done _ => destruct b
             | (match ?x with _ => _ end) _ = Done _ => destruct x
             | (let (_, _) := ?x in _) _ = Done _ => destruct x
             | oops _ = Done _ => discriminate
             | ret _ _ = Done _ => injection H as <- _ _ _ _
             end; reflexivity.
Qed.

(** The AEAD decryption of [rctx_aead_cbc_decrypt] on the keyed transform:
    the slot at ring index 0 has direction 1, opcode 1, offset 2 and digest
    length 4 and the key of the transform, whose own record still has
    direction 0, opcode 0, offset 0 and digest length 0. *)
Lemma mtk_send_req_sa_copy_witness :
  exists rctx' c res k' slot,
    mtk_send_req 7 ctx_aead_tfm (sg_one 256 16384 40) (sg_one 320 32768 24)
      (replicate 16 3) rctx_aead_cbc_decrypt k_aead_keyed = Done ((0, rctx', c, res), k')
    /\ sa_mem k' !! 4096 = Some sa_aead_keyed
    /\ saRecord (dev k') !! 0 = Some slot
    /\ direction (saCmd0 slot) = 1 /\ opCode (saCmd0 slot) = 1
    /\ hashCryptOffset (saCmd1 slot) = 2 /\ digestLength (saCmd0 slot) = 4
    /\ cipher (saCmd0 slot) = 3 /\ aesKeyLen (saCmd1 slot) = 2
    /\ saKey slot = saKey sa_aead_keyed
    /\ direction (saCmd0 sa_aead_keyed) = 0 /\ opCode (saCmd0 sa_aead_keyed) = 0
    /\ hashCryptOffset (saCmd1 sa_aead_keyed) = 0
    /\ digestLength (saCmd0 sa_aead_keyed) = 0.
Proof.
  assert (E : exists rc c res k',
             mtk_send_req 7 ctx_aead_tfm (sg_one 256 16384 40) (sg_one 320 32768 24)
               (replicate 16 3) rctx_aead_cbc_decrypt k_aead_keyed
             = Done ((0, rc, c, res), k'))
    by (eexists _, _, _, _; vm_compute; reflexivity).
  destruct E as (rc & c & res & k' & E).
  destruct (mtk_send_req_sa_copy _ _ _ _ _ _ _ _ _ _ _ _ E) as (Hmem & Hok & _).
  destruct (Hok eq_refl) as (sa & slot & Hsa & Hrec & Hc0 & Hc1 & Hkey & _).
  change (sa_mem k_aead_keyed !! ctx_sa ctx_aead_tfm) with (Some sa_aead_keyed) in Hsa.
  injection Hsa as <-.
  exists rc, c, res, k', slot. split; [exact E|].
  split; [rewrite Hmem; reflexivity|].
  split; [rewrite Hrec; apply lookup_insert_eq|].
  rewrite Hc0, Hc1, Hkey. repeat split; reflexivity.
Defined.

(** ** The wait for the ready bits *)

Lemma poll_ready_bound (budget : nat) (ready : nat -> bool * bool) (try : nat) :
  (poll_ready budget ready try <= try + budget)%nat.
Proof.
  revert try. induction budget as [|b IH]; intros try; simpl; [lia|].
  destruct (ready try) as [d1 d2].
  destruct (negb d1 || negb d2); [specialize (IH (S try)); lia | lia].
Qed.

Arguments poll_ready : simpl never.

Lemma reap_loop_tries (fuel : nat) (hw : Z -> hw_rdesc) (nreq : Z) :
  forall v k v' k',
    reap_loop fuel hw nreq v k = Done (v', k') ->
    Forall (fun t => (t <= 1000)%nat) (rv_tries v) ->
    Forall (fun t => (t <= 1000)%nat) (rv_tries v').
Proof.
  induction fuel as [|fuel IH]; intros v k v' k' H Hv; simpl in H.
  - destruct (rv_ndesc v <? nreq); [discriminate|]. injection H as <- _. exact Hv.
  - destruct (negb (rv_ndesc v <? nreq)); [injection H as <- _; exact Hv|].
    unfold bind at 1, get_dev at 1 in H. unfold mtk_ring_next_rptr in H.
    destruct (ring_write (rdr (dev k)) =? ring_read (rdr (dev k))).
    { apply bind_Done in H as ([] & k1 & _ & H). injection H as <- _. exact Hv. }
    pose proof (poll_ready_bound 1000 (rd_peReady (hw (ring_read (rdr (dev k))))) 0) as Hb.
    assert (Hv' : Forall (fun t => (t <= 1000)%nat)
                    (poll_ready 1000 (rd_peReady (hw (ring_read (rdr (dev k))))) 0
                     :: rv_tries v))
      by (constructor; [lia | exact Hv]).
    apply bind_Done in H as ([] & k1 & _ & H).
    apply bind_Done in H as (ret_ & k2 & _ & H).
    unfold bind at 1, get_dev at 1 in H.
    destruct (ring_write (cdr (dev k2)) =? ring_read (cdr (dev k2))).
    { apply bind_Done in H as ([] & k3 & _ & H). injection H as <- _. exact Hv'. }
    apply bind_Done in H as ([] & k3 & _ & H).
    apply bind_Done in H as ([] & k4 & _ & H).
    match type of H with (if ?b then _ else _) _ = _ => destruct b end.
    + injection H as <- _. exact Hv'.
    + apply IH in H; [exact H | exact Hv'].
Qed.

(** The reaping loop takes nothing from the ready bits but the count of its
    polls. *)
Lemma reap_loop_ready_blind (fuel : nat) (hw hw' : Z -> hw_rdesc) (nreq : Z) :
  (forall i, rd_errStatus (hw i) = rd_errStatus (hw' i)) ->
  forall v v' k,
    forget_rv_tries v = forget_rv_tries v' ->
    result_map forget_rv_tries (reap_loop fuel hw nreq v k)
    = result_map forget_rv_tries (reap_loop fuel hw' nreq v' k).
Proof.
  intros Herr. induction fuel as [|fuel IH]; intros v v' k Hv.
  - destruct v as [nd bf sc le rt tr], v' as [nd' bf' sc' le' rt' tr'].
    unfold forget_rv_tries in Hv. simpl in Hv. injection Hv as <- <- <- <- <-.
    simpl. destruct (nd <? nreq); reflexivity.
  - destruct v as [nd bf sc le rt tr], v' as [nd' bf' sc' le' rt' tr'].
    unfold forget_rv_tries in Hv. simpl in Hv. injection Hv as <- <- <- <- <-.
    simpl. destruct (negb (nd <? nreq)); [reflexivity|].
    unfold mtk_ring_next_rptr, bind, get_dev, modify_dev, emit, ret, clear_flags. simpl.
    destruct (ring_write (rdr (dev k)) =? ring_read (rdr (dev k))); [reflexivity|].
    rewrite <- (Herr (ring_read (rdr (dev k)))).
    destruct (negb (rd_errStatus (hw (ring_read (rdr (dev k)))) =? 0)); simpl;
      (destruct (ring_write (cdr (dev k)) =? ring_read (cdr (dev k))); [reflexivity|]);
      (match goal with
       | |- result_map _ ((if ?b then _ else _) _) = _ => destruct b
       end; [reflexivity | apply IH; reflexivity]).
Qed.

Lemma bind_result_map {A A' B B'} (fa : A -> A') (fb : B -> B')
    (m m' : M A) (F F' : A -> M B) (k : kstate) :
  (forall a k1 a' , m k = Done (a, k1) -> m' k = Done (a', k1) -> fa a = fa a' ->
     result_map fb (F a k1) = result_map fb (F' a' k1)) ->
  result_map fa (m k) = result_map fa (m' k) ->
  result_map fb (bind m F k) = result_map fb (bind m' F' k).
Proof.
  intros HF Hm. unfold bind.
  destruct (m k) as [[a k1]| |], (m' k) as [[a' k1']| |]; simpl in Hm;
    try discriminate; try reflexivity.
  injection Hm as Ha <-. apply HF; auto.
Qed.

(** The reaper's answer does not depend on the ready bits. *)
Lemma mtk_req_result_ready_blind (little_endian : bool) (hw hw' : Z -> hw_rdesc)
    (rd_count : Z) (rctx : mtk_cipher_reqctx) (reqsrc reqdst : list scatterlist)
    (reqiv : list Z) (k : kstate) :
  (forall i, rd_errStatus (hw i) = rd_errStatus (hw' i)) ->
  result_map forget_tries
    (mtk_req_result little_endian hw rd_count rctx reqsrc reqdst reqiv k)
  = result_map forget_tries
      (mtk_req_result little_endian hw' rd_count rctx reqsrc reqdst reqiv k).
Proof.
  intros Herr. unfold mtk_req_result. cbv zeta.
  apply (bind_result_map forget_rv_tries forget_tries).
  2:{ apply reap_loop_ready_blind; [exact Herr | reflexivity]. }
  intros v k1 v' _ _ Hv.
  destruct v as [nd bf sc le rt tr], v' as [nd' bf' sc' le' rt' tr'].
  unfold forget_rv_tries in Hv. simpl in Hv. injection Hv as <- <- <- <- <-.
  cbn [rv_ndesc rv_buf rv_should_complete rv_last_entry rv_ret rv_tries].
  destruct le; cbn [negb]; [|reflexivity].
  unfold bind, dma_unmap_sg, emit, mtk_free_sg_cpy, req_result_update_iv, ret, get_dev,
    oops.
  repeat match goal with
         | |- context [if ?b then _ else _] => destruct b
         | |- context [match ?x with _ => _ end] => destruct x
         end; reflexivity.
Qed.

(** The reaping loop returns: every pass that goes on retires one
    descriptor, and [nreq] passes are enough. *)
Lemma reap_loop_returns (hw : Z -> hw_rdesc) (nreq : Z) (fuel : nat) :
  forall v k,
    nreq - rv_ndesc v <= Z.of_nat fuel ->
    exists v' k', reap_loop fuel hw nreq v k = Done (v', k').
Proof.
  induction fuel as [|fuel IH]; intros v k Hf; simpl.
  - destruct (rv_ndesc v <? nreq) eqn:E; [apply Z.ltb_lt in E; lia | eauto].
  - destruct (rv_ndesc v <? nreq) eqn:E; cbn [negb]; [|unfold ret; eauto].
    unfold bind at 1, get_dev at 1. unfold mtk_ring_next_rptr.
    destruct (ring_write (rdr (dev k)) =? ring_read (rdr (dev k))).
    { unfold bind, emit, ret. eauto. }
    unfold bind at 1, modify_dev at 1.
    match goal with |- context [bind ?m _ ?kk] => set (k1 := kk) end.
    assert (Hret : exists r k2,
               (if negb (rd_errStatus (hw (ring_read (rdr (dev k)))) =? 0)
                then bind (emit EvDevErr) (fun _ => ret (- EINVAL))
                else ret (rv_ret v)) k1 = Done (r, k2)).
    { destruct (negb _); unfold bind, emit, ret; eauto. }
    destruct Hret as (r & k2 & Hret).
    unfold bind at 1. rewrite Hret.
    unfold bind at 1, get_dev at 1.
    destruct (ring_write (cdr (dev k2)) =? ring_read (cdr (dev k2))).
    { unfold bind, emit, ret. eauto. }
    unfold bind at 1, modify_dev at 1. unfold bind at 1, clear_flags, modify_dev.
    match goal with |- context [if ?b then _ else _] => destruct b end.
    + unfold ret. eauto.
    + apply IH. cbn [rv_ndesc]. lia.
Qed.

(** Once the loop has seen a last entry it holds the side-table entry of a
    descriptor. *)
Lemma reap_loop_last_buf (hw : Z -> hw_rdesc) (nreq : Z) (fuel : nat) :
  forall v k v' k',
    reap_loop fuel hw nreq v k = Done (v', k') ->
    (rv_last_entry v = true -> rv_buf v <> None) ->
    rv_last_entry v' = true -> rv_buf v' <> None.
Proof.
  induction fuel as [|fuel IH]; intros v k v' k' H Hv; simpl in H.
  - destruct (rv_ndesc v <? nreq); [discriminate|]. injection H as <- _. exact Hv.
  - destruct (negb (rv_ndesc v <? nreq)); [injection H as <- _; exact Hv|].
    unfold bind at 1, get_dev at 1 in H. unfold mtk_ring_next_rptr in H.
    destruct (ring_write (rdr (dev k)) =? ring_read (rdr (dev k))).
    { apply bind_Done in H as ([] & k1 & _ & H). injection H as <- _. exact Hv. }
    apply bind_Done in H as ([] & k1 & _ & H).
    apply bind_Done in H as (ret_ & k2 & _ & H).
    unfold bind at 1, get_dev at 1 in H.
    destruct (ring_write (cdr (dev k2)) =? ring_read (cdr (dev k2))).
    { apply bind_Done in H as ([] & k3 & _ & H). injection H as <- _. exact Hv. }
    apply bind_Done in H as ([] & k3 & _ & H).
    apply bind_Done in H as ([] & k4 & _ & H).
    match type of H with (if ?b then _ else _) _ = _ => destruct b end.
    + injection H as <- _. intros _. discriminate.
    + eapply IH; [exact H | intros _; discriminate].
Qed.

Lemma req_result_update_iv_returns (rctx : mtk_cipher_reqctx) (b : mtk_desc_buf)
    (reqiv : list Z) (k : kstate) :
  exists iv k', req_result_update_iv rctx (Some b) reqiv k = Done (iv, k').
Proof.
  unfold req_result_update_iv, bind, get_dev, emit, ret.
  destruct (negb _ && _); destruct (IS_BUSY _); eauto.
Qed.

Lemma mtk_free_sg_cpy_returns (len : Z) (sg : list scatterlist) (k : kstate) :
  exists sg' k', mtk_free_sg_cpy len sg k = Done (sg', k').
Proof.
  unfold mtk_free_sg_cpy, bind, emit, ret.
  destruct sg; [eauto|]. destruct (len =? 0); eauto.
Qed.

(** What the reaper does after a loop that ended in [v], [k1]. *)
Lemma mtk_req_result_after_loop (little_endian : bool) (hw : Z -> hw_rdesc) (rd_count : Z)
    (rctx : mtk_cipher_reqctx) (reqsrc reqdst : list scatterlist) (reqiv : list Z)
    (k : kstate) (v : reap_vars) (k1 : kstate) :
  reap_loop (Z.to_nat (Z.land rd_count (GENMASK 10 0))) hw (Z.land rd_count (GENMASK 10 0))
    {| rv_ndesc := 0; rv_buf := None; rv_should_complete := false;
       rv_last_entry := false; rv_ret := 0; rv_tries := [] |} k = Done (v, k1) ->
  exists out k',
    mtk_req_result little_endian hw rd_count rctx reqsrc reqdst reqiv k = Done (out, k').
Proof.
  intros Hloop.
  pose proof (reap_loop_last_buf _ _ _ _ _ _ _ Hloop) as Hbuf. cbn [rv_last_entry] in Hbuf.
  unfold mtk_req_result. cbv zeta. unfold bind at 1. rewrite Hloop.
  destruct (rv_last_entry v) eqn:Hlast; cbn [negb]; [|unfold ret; eauto].
  destruct (rv_buf v) as [b|] eqn:Hb;
    [|exfalso; apply Hbuf; [discriminate | reflexivity | reflexivity]].
  match goal with |- context [if ?c then _ else _] => destruct c end.
  - unfold bind at 1, dma_unmap_sg, emit.
    match goal with |- context [bind (req_result_update_iv ?r (Some b) ?iv) _ ?kk] =>
      destruct (req_result_update_iv_returns r b iv kk) as (iv' & k2 & Hiv) end.
    unfold bind. rewrite Hiv. unfold ret. eauto.
  - match goal with |- exists out k', bind ?m _ k1 = _ =>
      assert (Hsrc : exists a k2, m k1 = Done (a, k2)) end.
    { destruct (negb (sg_is_null (rctx_sg_src rctx))).
      - unfold bind at 1, dma_unmap_sg, emit. apply mtk_free_sg_cpy_returns.
      - unfold bind, dma_unmap_sg, emit, ret. eauto. }
    destruct Hsrc as (a & k2 & Hsrc). unfold bind at 1. rewrite Hsrc.
    match goal with |- exists out k', bind ?m _ k2 = _ =>
      assert (Hdst : exists a k3, m k2 = Done (a, k3)) end.
    { destruct (negb (sg_is_null (rctx_sg_dst rctx))).
      - unfold bind at 1, dma_unmap_sg, emit.
        match goal with |- context [bind (mtk_free_sg_cpy ?l ?s) _ ?kk] =>
          destruct (mtk_free_sg_cpy_returns l s kk) as (sd & k3 & Hfree) end.
        unfold bind. rewrite Hfree. unfold ret. eauto.
      - unfold bind, dma_unmap_sg, emit, ret. eauto. }
    destruct Hdst as ([sd rd] & k3 & Hdst). unfold bind at 1. rewrite Hdst.
    destruct (negb (rv_should_complete v)); [unfold ret; eauto|].
    match goal with |- context [bind (req_result_update_iv ?r (Some b) ?iv) _ ?kk] =>
      destruct (req_result_update_iv_returns r b iv kk) as (iv' & k4 & Hiv) end.
    unfold bind. rewrite Hiv. unfold ret. eauto.
Qed.

(** The reaper returns, whatever the hardware wrote. *)
Lemma mtk_req_result_returns (little_endian : bool) (hw : Z -> hw_rdesc) (rd_count : Z)
    (rctx : mtk_cipher_reqctx) (reqsrc reqdst : list scatterlist) (reqiv : list Z)
    (k : kstate) :
  exists out k',
    mtk_req_result little_endian hw rd_count rctx reqsrc reqdst reqiv k = Done (out, k').
Proof.
  destruct (reap_loop_returns hw (Z.land rd_count (GENMASK 10 0))
              (Z.to_nat (Z.land rd_count (GENMASK 10 0)))
              {| rv_ndesc := 0; rv_buf := None; rv_should_complete := false;
                 rv_last_entry := false; rv_ret := 0; rv_tries := [] |} k)
    as (v & k1 & Hloop); [cbn [rv_ndesc]; lia|].
  exact (mtk_req_result_after_loop little_endian hw rd_count rctx reqsrc reqdst reqiv k v k1
           Hloop).
Qed.

(** One descriptor whose ready bits never come up: the wait ends after 1000
    polls and the reaper goes on as after a completed operation; no error is
    returned or logged and completion is signalled. *)
Lemma reaper_proceeds_when_never_ready :
  exists out k',
    mtk_req_result true hw_never_ready 1
      (set_rctx_sizes 16 0 0 16 (rctx_fresh (Z.lor (Z.lor MTK_MODE_CBC MTK_ALG_AES) MTK_ENCRYPT)))
      (sg_one 256 16384 16) (sg_one 256 16384 16) (replicate 16 0) k_one_pending
    = Done (out, k')
    /\ out_tries out = [1000%nat]
    /\ out_ret out = 0
    /\ out_should_complete out = true
    /\ out_ndesc out = 1
    /\ ~ In EvDevErr (trace k').
Proof.
  eexists _, _. split; [vm_compute; reflexivity|]. simpl.
  repeat split; auto. intros [H|[]]. discriminate.
Qed.

(** C5, as the code has it: the reaper returns, and its wait for the two
    ready bits of a result descriptor is bounded by 1000 polls; when the
    bound is used up the reaper goes on with the descriptor, and what it
    returns, signals and leaves in the rings is the same whatever the ready
    bits did: an error is reported only through the error-status field (or
    a ring error). *)
Theorem reaper_wait_bounded_not_checked (little_endian : bool) (hw hw' : Z -> hw_rdesc)
    (rd_count : Z) (rctx : mtk_cipher_reqctx) (reqsrc reqdst : list scatterlist)
    (reqiv : list Z) (k : kstate) :
  (forall i, rd_errStatus (hw i) = rd_errStatus (hw' i)) ->
  (exists out k',
     mtk_req_result little_endian hw rd_count rctx reqsrc reqdst reqiv k = Done (out, k')
     /\ Forall (fun t => (t <= 1000)%nat) (out_tries out))
  /\ result_map forget_tries
       (mtk_req_result little_endian hw rd_count rctx reqsrc reqdst reqiv k)
     = result_map forget_tries
         (mtk_req_result little_endian hw' rd_count rctx reqsrc reqdst reqiv k).
Proof.
  intros Herr. split; [|apply mtk_req_result_ready_blind; exact Herr].
  destruct (mtk_req_result_returns little_endian hw rd_count rctx reqsrc reqdst reqiv k)
    as (out & k' & H).
  exists out, k'. split; [exact H|].
  unfold mtk_req_result in H. cbv zeta in H.
  apply bind_Done in H as (v & k1 & Hloop & H).
  apply reap_loop_tries in Hloop; [|constructor].
  assert (Hout : out_tries out = rv_tries v).
  { revert H. clear.
    destruct (negb (rv_last_entry v)); [intros H; injection H as <- _; reflexivity|].
    match goal with |- (if ?b then _ else _) _ = _ -> _ => destruct b end; intros H.
    - apply bind_Done in H as (? & ? & _ & H). apply bind_Done in H as (? & ? & _ & H).
      injection H as <- _. reflexivity.
    - apply bind_Done in H as (? & ? & _ & H). apply bind_Done in H as ([? ?] & ? & _ & H).
      destruct (negb (rv_should_complete v)); [injection H as <- _; reflexivity|].
      apply bind_Done in H as (? & ? & _ & H). injection H as <- _. reflexivity. }
  rewrite Hout. exact Hloop.
Qed.

Lemma reaper_wait_bounded_not_checked_witness :
  result_map forget_tries
    (mtk_req_result true hw_never_ready 1
       (set_rctx_sizes 16 0 0 16 (rctx_fresh (Z.lor (Z.lor MTK_MODE_CBC MTK_ALG_AES) MTK_ENCRYPT)))
       (sg_one 256 16384 16) (sg_one 256 16384 16) (replicate 16 0) k_one_pending)
  = result_map forget_tries
      (mtk_req_result true hw_ready 1
         (set_rctx_sizes 16 0 0 16 (rctx_fresh (Z.lor (Z.lor MTK_MODE_CBC MTK_ALG_AES) MTK_ENCRYPT)))
         (sg_one 256 16384 16) (sg_one 256 16384 16) (replicate 16 0) k_one_pending).
Proof.
  apply (reaper_wait_bounded_not_checked true hw_never_ready hw_ready).
  intros i. reflexivity.
Defined.

(** ** Tag endianness on retirement *)

Lemma lookup_set_word_at (i : nat) (w buf : list Z) (n : nat) :
  (4 * i + 4 <= length buf)%nat -> length w = 4%nat ->
  set_word_at i w buf !! n
  = if decide (4 * i <= n < 4 * i + 4)%nat then w !! (n - 4 * i)%nat else buf !! n.
Proof.
  intros Hlen Hw. unfold set_word_at.
  destruct (decide (4 * i <= n < 4 * i + 4)%nat) as [Hin|Hout].
  - rewrite lookup_app_r by (rewrite length_take; lia).
    rewrite length_take, Nat.min_l by lia.
    rewrite lookup_app_l by lia. reflexivity.
  - destruct (decide (n < 4 * i)%nat) as [Hlt|Hge].
    + rewrite lookup_app_l by (rewrite length_take; lia).
      apply lookup_take_lt. exact Hlt.
    + rewrite lookup_app_r by (rewrite length_take; lia).
      rewrite length_take, Nat.min_l by lia.
      rewrite lookup_app_r by lia. rewrite lookup_drop. f_equal. lia.
Qed.

Lemma length_set_word_at (i : nat) (w buf : list Z) :
  (4 * i + 4 <= length buf)%nat -> length w = 4%nat ->
  length (set_word_at i w buf) = length buf.
Proof.
  intros Hlen Hw. unfold set_word_at.
  rewrite !length_app, length_take, length_drop. lia.
Qed.

Lemma lookup_word_at (j : nat) (buf : list Z) (m : nat) :
  word_at j buf !! m = if decide (m < 4)%nat then buf !! (4 * j + m)%nat else None.
Proof.
  unfold word_at. destruct (decide (m < 4)%nat).
  - rewrite lookup_take_lt by assumption. apply lookup_drop.
  - apply lookup_take_ge. lia.
Qed.

Lemma length_word_at (j : nat) (buf : list Z) :
  (4 * j + 4 <= length buf)%nat -> length (word_at j buf) = 4%nat.
Proof. intros H. unfold word_at. rewrite length_take, length_drop. lia. Qed.

Lemma word_at_set_word_at (i j : nat) (w buf : list Z) :
  (4 * i + 4 <= length buf)%nat -> length w = 4%nat ->
  word_at j (set_word_at i w buf) = if decide (j = i) then w else word_at j buf.
Proof.
  intros Hlen Hw. apply list_eq. intros m.
  rewrite lookup_word_at. destruct (decide (j = i)) as [->|Hne].
  - destruct (decide (m < 4)%nat).
    + rewrite lookup_set_word_at by assumption.
      rewrite decide_True by lia. f_equal. lia.
    + symmetry. apply lookup_ge_None. lia.
  - rewrite lookup_word_at. destruct (decide (m < 4)%nat); [|reflexivity].
    rewrite lookup_set_word_at by assumption.
    rewrite decide_False by lia. reflexivity.
Qed.

Lemma length_ntohl_image (le : bool) (w : list Z) :
  length (ntohl_image le w) = length w.
Proof. destruct le; simpl; [apply length_rev | reflexivity]. Qed.

(** The loop applies [ntohl] to the words [i .. i + count - 1], each once,
    and leaves every other word alone. *)
Lemma ntohl_words_spec (le : bool) (count : nat) :
  forall i otag,
    (4 * (i + count) <= length otag)%nat ->
    length (ntohl_words le count i otag) = length otag
    /\ forall j, word_at j (ntohl_words le count i otag)
                 = if decide (i <= j < i + count)%nat
                   then ntohl_image le (word_at j otag) else word_at j otag.
Proof.
  induction count as [|count IH]; intros i otag Hlen; simpl.
  - split; [reflexivity|]. intros j. rewrite decide_False by lia. reflexivity.
  - assert (Hw : length (ntohl_image le (word_at i otag)) = 4%nat)
      by (rewrite length_ntohl_image; apply length_word_at; lia).
    destruct (IH (S i) (set_word_at i (ntohl_image le (word_at i otag)) otag)) as [Hl Hj].
    { rewrite length_set_word_at by (assumption || lia). lia. }
    rewrite length_set_word_at in Hl by (assumption || lia).
    split; [exact Hl|]. intros j. rewrite Hj.
    rewrite word_at_set_word_at by (assumption || lia).
    destruct (decide (j = i)) as [->|Hne].
    + rewrite decide_False by lia. rewrite decide_True by lia. reflexivity.
    + destruct (decide (S i <= j < S i + count)%nat).
      * rewrite decide_True by lia. reflexivity.
      * rewrite decide_False by lia. reflexivity.
Qed.

Lemma mtk_free_sg_cpy_trace (len : Z) (sg : list scatterlist) (k : kstate)
    (r : list scatterlist) (k' : kstate) :
  mtk_free_sg_cpy len sg k = Done (r, k') -> dev k' = dev k.
Proof.
  unfold mtk_free_sg_cpy. destruct sg; [intros H; injection H as _ <-; reflexivity|].
  destruct (len =? 0); intros H; [injection H as _ <-; reflexivity|].
  apply bind_Done in H as ([] & k1 & H1 & H). injection H1 as <-. injection H as _ <-.
  reflexivity.
Qed.

(** C7: when the reaper retires the last descriptor of a submission and the
    request has a bounce destination and a tag, the bytes it copies back to
    the caller's list are those of the bounce buffer after [ntohl] went over
    the [authsize / 4] words at offset [assoclen + textsize], unless the hash
    is MD5, in which case the buffer is copied as it is.  On a little-endian
    CPU [ntohl] reverses the four bytes of every such word. *)
Theorem mtk_req_result_tag_endianness (little_endian : bool) (hw : Z -> hw_rdesc)
    (rd_count : Z) (rctx : mtk_cipher_reqctx) (reqsrc reqdst : list scatterlist)
    (reqiv : list Z) (k : kstate) (v : reap_vars) (k1 : kstate) :
  let nreq := Z.land rd_count (GENMASK 10 0) in
  let len := u32 (rctx_assoclen rctx + rctx_textsize rctx) in
  let authsize := rctx_authsize rctx in
  let bounce := bounce_data (rctx_sg_dst rctx) in
  let words := Z.to_nat (authsize / 4) in
  let tag := drop (Z.to_nat len) bounce in
  let fixed := if IS_HASH_MD5 (rctx_flags rctx) then bounce
               else take (Z.to_nat len) bounce ++ ntohl_words little_endian words 0 tag in
  reap_loop (Z.to_nat nreq) hw nreq
    {| rv_ndesc := 0; rv_buf := None; rv_should_complete := false;
       rv_last_entry := false; rv_ret := 0; rv_tries := [] |} k = Done (v, k1) ->
  rv_last_entry v = true ->
  rctx_sg_dst rctx <> [] ->
  authsize <> 0 ->
  (exists out k',
     mtk_req_result little_endian hw rd_count rctx reqsrc reqdst reqiv k = Done (out, k')
     /\ out_reqdst out
        = sg_copy_from_buffer reqdst fixed
            (u32 (len + (if IS_ENCRYPT (rctx_flags rctx) then authsize else 0))))
  /\ ((4 * words <= length tag)%nat ->
      forall j, (j < words)%nat ->
        word_at j (ntohl_words true words 0 tag) = rev (word_at j tag)).
Proof.
  intros nreq len authsize bounce words tag fixed Hloop Hlast Hdst Hauth.
  split.
  - destruct (mtk_req_result_after_loop little_endian hw rd_count rctx reqsrc reqdst reqiv
                k v k1 Hloop) as (out & k' & Hrun).
    exists out, k'. split; [exact Hrun|].
    unfold mtk_req_result in Hrun. cbv zeta in Hrun.
    fold nreq in Hrun. unfold bind at 1 in Hrun. rewrite Hloop in Hrun.
    rewrite Hlast in Hrun. cbn [negb] in Hrun.
    assert (Hnn : sg_is_null (rctx_sg_dst rctx) = false)
      by (destruct (rctx_sg_dst rctx); [contradiction | reflexivity]).
    rewrite Hnn, andb_false_r in Hrun. cbn [negb andb] in Hrun.
    apply bind_Done in Hrun as (sg_src' & k2 & _ & Hrun).
    apply bind_Done in Hrun as ([sg_dst' reqdst'] & k3 & Hd & Hrun).
    assert (Hreqdst : reqdst'
              = sg_copy_from_buffer reqdst fixed
                  (u32 (len + (if IS_ENCRYPT (rctx_flags rctx) then authsize else 0)))).
    { apply bind_Done in Hd as ([] & k4 & _ & Hd).
      apply bind_Done in Hd as (sd & k5 & _ & Hd). injection Hd as _ <- _.
      unfold fixed, fix_tag_endianness. fold authsize len bounce.
      apply Z.eqb_neq in Hauth. rewrite Hauth. cbn [negb].
      destruct (IS_HASH_MD5 (rctx_flags rctx)); reflexivity. }
    rewrite <- Hreqdst.
    destruct (negb (rv_should_complete v)).
    + injection Hrun as <- _. reflexivity.
    + apply bind_Done in Hrun as (iv' & k6 & _ & Hrun). injection Hrun as <- _. reflexivity.
  - intros Hlen j Hj.
    destruct (ntohl_words_spec true words 0 tag) as [_ Hw]; [lia|].
    rewrite Hw. rewrite decide_True by lia. reflexivity.
Qed.

Lemma mtk_req_result_tag_endianness_witness :
  exists out k',
    mtk_req_result true hw_ready 1 rctx_aead_done (sg_one 256 16384 24)
      (sg_one 320 32768 24) (replicate 16 0) k_one_pending = Done (out, k')
    /\ out_reqdst out
       = sg_copy_from_buffer (sg_one 320 32768 24)
           (replicate 16 170 ++ ntohl_words true 2 0 [1; 2; 3; 4; 5; 6; 7; 8]) 24.
Proof.
  refine (proj1 (mtk_req_result_tag_endianness true hw_ready 1 rctx_aead_done
                   (sg_one 256 16384 24) (sg_one 320 32768 24) (replicate 16 0)
                   k_one_pending _ _ _ _ _ _)).
  - vm_compute. reflexivity.
  - reflexivity.
  - discriminate.
  - discriminate.
Defined.

(** ** Flags of a submission and the signal of completion *)

Lemma flag_set_entry_last (complete : bool) (n j : nat) :
  (0 < n)%nat ->
  flag_set (entry_flags complete n j) MTK_DESC_LAST = (j =? n - 1)%nat.
Proof.
  intros Hn. unfold entry_flags. destruct (j =? n - 1)%nat; [|reflexivity].
  destruct complete; reflexivity.
Qed.

Lemma flag_set_entry_finish (complete : bool) (n j : nat) :
  flag_set (entry_flags complete n j) MTK_DESC_FINISH = (j =? n - 1)%nat && complete.
Proof.
  unfold entry_flags. destruct (j =? n - 1)%nat; [|reflexivity].
  destruct complete; reflexivity.
Qed.

Lemma buf_at_reaped (k : kstate) (i : Z) :
  buf_flags (buf_at (reaped k) i)
  = if decide (i = ring_read (cdr (dev k))) then 0 else buf_flags (buf_at (dev k) i).
Proof.
  unfold reaped, buf_at. simpl. destruct (decide (i = ring_read (cdr (dev k)))) as [->|Hne].
  - rewrite lookup_insert_eq. reflexivity.
  - rewrite lookup_insert_ne by auto. reflexivity.
Qed.

(** What the loop does with the entry at the read index, when both rings
    have one: the general step of [reap_loop]. *)
Lemma reap_loop_step (fuel : nat) (hw : Z -> hw_rdesc) (nreq : Z) (v : reap_vars)
    (k : kstate) (v' : reap_vars) (k' : kstate) :
  reap_loop (S fuel) hw nreq v k = Done (v', k') ->
  (v' = v /\ k' = k /\ ~ rv_ndesc v < nreq)
  \/ (rv_ndesc v' = rv_ndesc v /\ rv_should_complete v' = rv_should_complete v
      /\ rv_last_entry v' = rv_last_entry v)
  \/ exists k1 v1,
       dev k1 = reaped k
       /\ rv_ndesc v1 = rv_ndesc v + 1
       /\ rv_should_complete v1
          = (if flag_set (buf_flags (buf_at (dev k) (ring_read (cdr (dev k)))))
                  MTK_DESC_FINISH then true else rv_should_complete v)
       /\ rv_last_entry v1
          = (if flag_set (buf_flags (buf_at (dev k) (ring_read (cdr (dev k)))))
                  MTK_DESC_LAST then true else rv_last_entry v)
       /\ ((rv_last_entry v1 = true /\ v' = v1 /\ k' = k1)
           \/ (rv_last_entry v1 = false /\ reap_loop fuel hw nreq v1 k1 = Done (v', k'))).
Proof.
  intros H. simpl in H.
  destruct (rv_ndesc v <? nreq) eqn:Hlt; cbn [negb] in H.
  2:{ left. injection H as <- <-. apply Z.ltb_ge in Hlt. repeat split; auto. lia. }
  unfold bind at 1, get_dev at 1 in H. unfold mtk_ring_next_rptr in H.
  destruct (ring_write (rdr (dev k)) =? ring_read (rdr (dev k))).
  { right. left. apply bind_Done in H as ([] & k1 & _ & H). injection H as <- _.
    simpl. auto. }
  apply bind_Done in H as ([] & k1 & H1 & H). injection H1 as <-.
  apply bind_Done in H as (ret_ & k2 & H2 & H).
  assert (Hk2 : dev k2 = set_rdr {| ring_write := ring_write (rdr (dev k));
                                    ring_read := ring_succ (ring_read (rdr (dev k))) |}
                          (dev k)).
  { destruct (negb (rd_errStatus (hw (ring_read (rdr (dev k)))) =? 0)).
    - apply bind_Done in H2 as ([] & k3 & H3 & H2). injection H3 as <-.
      injection H2 as _ <-. reflexivity.
    - injection H2 as _ <-. reflexivity. }
  unfold bind at 1, get_dev at 1 in H.
  rewrite Hk2 in H. cbn [cdr set_rdr] in H.
  destruct (ring_write (cdr (dev k)) =? ring_read (cdr (dev k))).
  { right. left. apply bind_Done in H as ([] & k3 & _ & H). injection H as <- _.
    simpl. auto. }
  apply bind_Done in H as ([] & k3 & H3 & H). injection H3 as <-.
  apply bind_Done in H as ([] & k4 & H4 & H). injection H4 as <-.
  right. right.
  match type of H with (if ?b then _ else _) _ = _ => destruct b eqn:Hlast end.
  - exists k', v'. injection H as <- <-. cbn [rv_ndesc rv_should_complete rv_last_entry].
    split; [simpl; rewrite Hk2; reflexivity|].
    split; [reflexivity|]. split; [reflexivity|].
    split; [first [reflexivity | symmetry; exact Hlast]|].
    left. split; [reflexivity|]. split; reflexivity.
  - match type of H with reap_loop _ _ _ ?v1 ?k1 = _ => exists k1, v1 end.
    cbn [rv_ndesc rv_should_complete rv_last_entry].
    split; [simpl; rewrite Hk2; reflexivity|].
    split; [reflexivity|]. split; [reflexivity|].
    split; [first [reflexivity | symmetry; exact Hlast]|].
    right. split; [first [reflexivity | exact Hlast] | exact H].
Qed.

Lemma reaped_wf (k : kstate) : ring_wf (cdr (dev k)) -> ring_wf (cdr (reaped k)).
Proof.
  intros [Hw Hr]. unfold reaped. simpl. split; simpl; [exact Hw|].
  rewrite ring_succ_mod by exact Hr. apply Z.mod_pos_bound. reflexivity.
Qed.

(** The loop sets [should_complete] only at an entry that carries the
    submission-complete flag. *)
Lemma reap_loop_finish_seen (hw : Z -> hw_rdesc) (nreq : Z) (fuel : nat) :
  forall v k v' k',
    ring_wf (cdr (dev k)) ->
    reap_loop fuel hw nreq v k = Done (v', k') ->
    rv_should_complete v' = true ->
    rv_should_complete v = true
    \/ exists j,
         Z.of_nat j < rv_ndesc v' - rv_ndesc v
         /\ flag_set (buf_flags (buf_at (dev k) (ring_at (ring_read (cdr (dev k))) j)))
              MTK_DESC_FINISH = true.
Proof.
  induction fuel as [|fuel IH]; intros v k v' k' Hwf H Hsc.
  - simpl in H. destruct (rv_ndesc v <? nreq); [discriminate|].
    injection H as <- _. left. exact Hsc.
  - apply reap_loop_step in H
      as [(-> & _ & _) | [(_ & Hs & _) | (k1 & v1 & Hk1 & Hn1 & Hs1 & Hl1 & Hrest)]].
    + left. exact Hsc.
    + left. rewrite <- Hs. exact Hsc.
    + assert (Hhere : rv_should_complete v1 = true ->
                rv_should_complete v = true
                \/ flag_set (buf_flags (buf_at (dev k) (ring_at (ring_read (cdr (dev k))) 0)))
                     MTK_DESC_FINISH = true).
      { rewrite Hs1, ring_at_0 by apply Hwf.
        destruct (flag_set _ MTK_DESC_FINISH); auto. }
      destruct Hrest as [(_ & -> & ->) | (_ & Hloop)].
      * destruct (Hhere Hsc) as [Hv|Hf]; [left; exact Hv|].
        right. exists 0%nat. split; [lia | exact Hf].
      * assert (Hwf1 : ring_wf (cdr (dev k1))) by (rewrite Hk1; apply reaped_wf; exact Hwf).
        destruct (IH v1 k1 v' k' Hwf1 Hloop Hsc) as [Hv1|(j & Hj & Hf)].
        -- destruct (Hhere Hv1) as [Hv|Hf]; [left; exact Hv|].
           right. exists 0%nat. split; [|exact Hf].
           clear - Hloop Hn1 IH Hwf1.
           assert (rv_ndesc v1 <= rv_ndesc v'); [|lia].
           revert Hloop. clear. revert v1 k1. induction fuel as [|fuel IHf]; intros v1 k1 H.
           ++ simpl in H. destruct (rv_ndesc v1 <? nreq); [discriminate|].
              injection H as <- _. lia.
           ++ apply reap_loop_step in H
                as [(-> & _ & _) | [(Hn & _ & _) | (k2 & v2 & _ & Hn2 & _ & _ & Hrest)]];
                [lia | lia |].
              destruct Hrest as [(_ & -> & _) | (_ & Hloop)]; [lia|].
              apply IHf in Hloop. lia.
        -- right. exists (S j). split; [lia|].
           rewrite Hk1 in Hf. rewrite buf_at_reaped in Hf.
           unfold reaped in Hf. cbn [cdr set_dma_buf set_cdr ring_read] in Hf.
           rewrite ring_at_succ in Hf by apply Hwf.
           destruct (decide (ring_at (ring_read (cdr (dev k))) (S j)
                             = ring_read (cdr (dev k)))); [discriminate | exact Hf].
Qed.

Lemma entry_flags_shift (complete : bool) (c j : nat) :
  (1 < c)%nat -> entry_flags complete c (S j) = entry_flags complete (c - 1) j.
Proof.
  intros Hc. unfold entry_flags.
  destruct (Nat.eqb_spec (S j) (c - 1)), (Nat.eqb_spec j (c - 1 - 1)); try reflexivity; lia.
Qed.

(** Over the descriptors of a submission that is not the final one the loop
    stops at the segment boundary and does not signal completion. *)
Lemma reap_loop_deferred (hw : Z -> hw_rdesc) (nreq : Z) (fuel : nat) :
  forall c v k v' k',
    ring_wf (cdr (dev k)) -> (0 < c < 512)%nat ->
    (forall j, (j < c)%nat ->
       buf_flags (buf_at (dev k) (ring_at (ring_read (cdr (dev k))) j))
       = entry_flags false c j) ->
    rv_should_complete v = false ->
    reap_loop fuel hw nreq v k = Done (v', k') ->
    rv_should_complete v' = false /\ rv_ndesc v' <= rv_ndesc v + Z.of_nat c.
Proof.
  induction fuel as [|fuel IH]; intros c v k v' k' Hwf Hc Hflags Hsc H.
  - simpl in H. destruct (rv_ndesc v <? nreq); [discriminate|].
    injection H as <- _. split; [exact Hsc | lia].
  - apply reap_loop_step in H
      as [(-> & _ & _) | [(Hn & Hs & _) | (k1 & v1 & Hk1 & Hn1 & Hs1 & Hl1 & Hrest)]].
    + split; [exact Hsc | lia].
    + split; [rewrite Hs; exact Hsc | lia].
    + pose proof (Hflags 0%nat ltac:(lia)) as H0.
      rewrite ring_at_0 in H0 by apply Hwf.
      rewrite H0, flag_set_entry_finish, andb_false_r in Hs1.
      rewrite H0, flag_set_entry_last in Hl1 by lia.
      destruct Hrest as [(_ & -> & ->) | (Hnl & Hloop)].
      * split; [rewrite Hs1; exact Hsc | lia].
      * rewrite Hl1 in Hnl.
        destruct (Nat.eqb_spec 0 (c - 1)) as [|Hc1]; [discriminate|].
        destruct (IH (c - 1)%nat v1 k1 v' k') as [Hf Hn]; try assumption.
        -- rewrite Hk1. apply reaped_wf. exact Hwf.
        -- lia.
        -- intros j Hj. rewrite Hk1, buf_at_reaped.
           unfold reaped. cbn [cdr set_dma_buf set_cdr ring_read].
           rewrite ring_at_succ by apply Hwf.
           destruct (decide (ring_at (ring_read (cdr (dev k))) (S j)
                             = ring_read (cdr (dev k)))) as [E|_].
           ++ rewrite <- (ring_at_0 (ring_read (cdr (dev k)))) in E at 2 by apply Hwf.
              apply ring_at_inj in E; lia.
           ++ rewrite Hflags by lia. apply entry_flags_shift. lia.
        -- rewrite Hs1. exact Hsc.
        -- split; [exact Hf | lia].
Qed.

Lemma mtk_req_result_loop (little_endian : bool) (hw : Z -> hw_rdesc) (rd_count : Z)
    (rctx : mtk_cipher_reqctx) (reqsrc reqdst : list scatterlist) (reqiv : list Z)
    (k : kstate) (out : req_result_out) (k' : kstate) :
  mtk_req_result little_endian hw rd_count rctx reqsrc reqdst reqiv k = Done (out, k') ->
  exists v k1,
    reap_loop (Z.to_nat (Z.land rd_count (GENMASK 10 0))) hw
      (Z.land rd_count (GENMASK 10 0))
      {| rv_ndesc := 0; rv_buf := None; rv_should_complete := false;
         rv_last_entry := false; rv_ret := 0; rv_tries := [] |} k = Done (v, k1)
    /\ out_should_complete out = rv_should_complete v
    /\ out_ndesc out = rv_ndesc v.
Proof.
  intros H. unfold mtk_req_result in H. cbv zeta in H.
  apply bind_Done in H as (v & k1 & Hloop & H). exists v, k1. split; [exact Hloop|].
  revert H. clear.
  destruct (negb (rv_last_entry v)); [intros H; injection H as <- _; auto|].
  match goal with |- (if ?b then _ else _) _ = _ -> _ => destruct b end; intros H.
  - apply bind_Done in H as (? & ? & _ & H). apply bind_Done in H as (? & ? & _ & H).
    injection H as <- _. auto.
  - apply bind_Done in H as (? & ? & _ & H). apply bind_Done in H as ([? ?] & ? & _ & H).
    destruct (negb (rv_should_complete v)); [injection H as <- _; auto|].
    apply bind_Done in H as (? & ? & _ & H). injection H as <- _. auto.
Qed.

(** C8: of the side-table entries of one submission only the last carries
    [MTK_DESC_LAST], and it carries [MTK_DESC_FINISH] exactly when the
    submission is the final one; the reaper signals completion only if one
    of the entries it drained carried [MTK_DESC_FINISH]; so over the entries
    of a submission that is not final (the first half of a counter-overflow
    split) it returns at the boundary without signalling completion. *)
Theorem last_and_finish_flags :
  (forall sab ssb sgsrc sgdst datalen complete areq k r c rr k',
      rings_sync k -> ring_wf (cdr (dev k)) ->
      mtk_scatter_combine sab ssb sgsrc sgdst datalen complete areq k
        = Done ((r, c, rr), k') ->
      0 < c /\
      forall j, Z.of_nat j < c ->
        let b := buf_at (dev k') (ring_at (ring_write (cdr (dev k))) j) in
        buf_flags b = entry_flags complete (Z.to_nat c) j
        /\ flag_set (buf_flags b) MTK_DESC_LAST = (Z.of_nat j =? c - 1)
        /\ flag_set (buf_flags b) MTK_DESC_FINISH = (Z.of_nat j =? c - 1) && complete)
  /\ (forall little_endian hw rd_count rctx reqsrc reqdst reqiv k out k',
        ring_wf (cdr (dev k)) ->
        mtk_req_result little_endian hw rd_count rctx reqsrc reqdst reqiv k
          = Done (out, k') ->
        out_should_complete out = true ->
        exists j,
          Z.of_nat j < out_ndesc out
          /\ flag_set (buf_flags (buf_at (dev k) (ring_at (ring_read (cdr (dev k))) j)))
               MTK_DESC_FINISH = true)
  /\ (forall little_endian hw rd_count rctx reqsrc reqdst reqiv k c,
        ring_wf (cdr (dev k)) -> (0 < c < 512)%nat ->
        (forall j, (j < c)%nat ->
           buf_flags (buf_at (dev k) (ring_at (ring_read (cdr (dev k))) j))
           = entry_flags false c j) ->
        exists out k',
          mtk_req_result little_endian hw rd_count rctx reqsrc reqdst reqiv k
            = Done (out, k')
          /\ out_should_complete out = false /\ out_ndesc out <= Z.of_nat c).
Proof.
  split; [|split].
  - intros * Hsync Hwf Hrun.
    destruct (mtk_scatter_combine_Done _ _ _ _ _ _ _ _ _ _ _ _ Hsync Hwf Hrun)
      as (l & _ & Hne & _ & _ & -> & _ & Hsub).
    assert (Hlen : (0 < length l)%nat) by (destruct l; [contradiction | simpl; lia]).
    split; [lia|]. intros j Hj b.
    assert (Hb : buf_flags b = entry_flags complete (length l) j).
    { unfold b, buf_at. rewrite (submitted_dma_buf _ _ _ _ _ _ _ j Hsub) by lia.
      reflexivity. }
    rewrite Nat2Z.id. split; [exact Hb|]. rewrite Hb.
    rewrite flag_set_entry_last by lia. rewrite flag_set_entry_finish.
    assert (E : (j =? length l - 1)%nat = (Z.of_nat j =? Z.of_nat (length l) - 1)).
    { destruct (Nat.eqb_spec j (length l - 1)), (Z.eqb_spec (Z.of_nat j) (Z.of_nat (length l) - 1));
        try reflexivity; lia. }
    rewrite E. split; reflexivity.
  - intros * Hwf Hrun Hsc.
    apply mtk_req_result_loop in Hrun as (v & k1 & Hloop & Hs & Hn).
    rewrite Hs in Hsc. rewrite Hn.
    destruct (reap_loop_finish_seen _ _ _ _ _ _ _ Hwf Hloop Hsc) as [Hv|(j & Hj & Hf)];
      [discriminate|].
    exists j. simpl in Hj. split; [lia | exact Hf].
  - intros * Hwf Hc Hflags.
    destruct (mtk_req_result_returns little_endian hw rd_count rctx reqsrc reqdst reqiv k)
      as (out & k' & Hrun).
    exists out, k'. split; [exact Hrun|].
    apply mtk_req_result_loop in Hrun as (v & k1 & Hloop & Hs & Hn).
    rewrite Hs, Hn.
    pose proof (fun E => reap_loop_deferred _ _ _ c _ _ _ _ Hwf Hc Hflags E Hloop) as Hd.
    destruct (Hd eq_refl) as [Hf Hnd].
    split; [exact Hf | simpl in Hnd; lia].
Qed.

Lemma last_and_finish_flags_witness :
  exists c k',
    mtk_scatter_combine 131072 65536 (sg_chain 256 16384 [16; 32])
      (sg_chain 512 32768 [8; 8; 32]) 48 false 7 k_idle = Done ((0, c, c), k')
    /\ 0 < c.
Proof.
  destruct (mtk_scatter_combine 131072 65536 (sg_chain 256 16384 [16; 32])
              (sg_chain 512 32768 [8; 8; 32]) 48 false 7 k_idle)
    as [[[[r c] rr] k']| |] eqn:E; [|vm_compute in E; discriminate|vm_compute in E; discriminate].
  assert (Hr : r = 0 /\ rr = c) by (vm_compute in E; injection E as <- <- <- _; auto).
  destruct Hr as [-> ->].
  exists c, k'. split; [reflexivity|].
  refine (proj1 (proj1 last_and_finish_flags _ _ _ _ _ _ _ _ _ _ _ _ _ _ E)).
  - reflexivity.
  - vm_compute. intuition discriminate.
Defined.

(** ** The counter-overflow split *)

Lemma length_crypto_inc_rev (l : list Z) : length (crypto_inc_rev l) = length l.
Proof.
  induction l as [|b l IH]; simpl; [reflexivity|].
  destruct ((b + 1) mod 256 =? 0); simpl; [rewrite IH|]; reflexivity.
Qed.

Lemma length_crypto_inc (l : list Z) : length (crypto_inc l) = length l.
Proof. unfold crypto_inc. rewrite length_rev, length_crypto_inc_rev, length_rev. reflexivity. Qed.

(** Incrementing past a counter word of all ones clears the word and
    carries into the bytes before it. *)
Lemma crypto_inc_wrap (p : list Z) :
  crypto_inc (p ++ [255; 255; 255; 255]) = crypto_inc p ++ [0; 0; 0; 0].
Proof.
  unfold crypto_inc. rewrite rev_app_distr. simpl.
  rewrite <- !app_assoc. reflexivity.
Qed.

(** Lines 426-446 on an IV whose last word is the counter [0xFFFFFFFE], for
    a source of three blocks: the overflow is detected, the first part is
    [AES_BLOCK_SIZE * (2^32 - ctr0)] = 32 bytes, and the software IV after
    the wrap has counter word 0. *)
Lemma ctr_overflow_split_fffffffe (p : list Z) (totlen_src : Z) :
  length p = 12%nat ->
  DIV_ROUND_UP totlen_src AES_BLOCK_SIZE = 3 ->
  ctr_overflow_split true totlen_src (p ++ be32_bytes 4294967294)
  = (AES_BLOCK_SIZE * (2 ^ 32 - 4294967294), crypto_inc p ++ [0; 0; 0; 0], false).
Proof.
  intros Hp Hblocks. unfold ctr_overflow_split. rewrite Hblocks.
  assert (Hw : word_at 3 (p ++ be32_bytes 4294967294) = [255; 255; 255; 254]).
  { unfold word_at. rewrite drop_app_length' by (rewrite Hp; reflexivity). reflexivity. }
  rewrite Hw.
  change (be32_of_bytes [255; 255; 255; 254]) with 4294967294.
  change (u32 (4294967294 + 3 - 1) <? 4294967294) with true. cbv iota.
  assert (Hs : set_word_at 3 (be32_bytes 4294967295) (p ++ be32_bytes 4294967294)
               = p ++ [255; 255; 255; 255]).
  { unfold set_word_at. rewrite take_app_length' by (rewrite Hp; reflexivity).
    rewrite drop_ge by (rewrite length_app, Hp; simpl; lia).
    rewrite app_nil_r. reflexivity. }
  rewrite Hs.
  rewrite take_ge by (rewrite length_app, Hp; simpl; lia).
  rewrite drop_ge by (rewrite length_app, Hp; simpl; lia).
  rewrite app_nil_r, crypto_inc_wrap. reflexivity.
Qed.

Lemma scatterwalk_ffwd_spec (addr : Z) (src : list scatterlist) :
  forall len,
    0 < len < sum_len src ->
    Forall (fun s => 0 < sg_dma_len s) src ->
    exists src',
      scatterwalk_ffwd addr src len = Some src'
      /\ Forall (fun s => 0 < sg_dma_len s) src'
      /\ sum_len src' = sum_len src - len
      /\ (length src' <= length src)%nat.
Proof.
  induction src as [|s rest IH]; intros len Hlen Hpos; simpl in Hlen; [lia|].
  apply Forall_cons in Hpos as [Hs Hrest]. unfold sg_dma_len in Hs.
  simpl. destruct (len =? 0) eqn:E0; [apply Z.eqb_eq in E0; lia|].
  destruct (len <? sg_length s) eqn:Elt.
  - apply Z.ltb_lt in Elt. eexists. split; [reflexivity|].
    split; [|split]; simpl; try lia.
    constructor; [unfold sg_dma_len; simpl; lia | exact Hrest].
  - apply Z.ltb_ge in Elt.
    destruct (Z.eq_dec (len - sg_length s) 0) as [Ez|Ez].
    + exists rest. split.
      * destruct rest; simpl; rewrite Ez; reflexivity.
      * split; [exact Hrest|]. split; [lia | lia].
    + destruct (IH (len - sg_length s)) as (src' & Hrun & Hp & Hsum & Hl);
        [lia | exact Hrest |].
      exists src'. split; [exact Hrun|]. split; [exact Hp|]. split; lia.
Qed.

Lemma dma_map_entries_sum (sg : list scatterlist) :
  sum_len (dma_map_entries sg) = sum_len sg.
Proof. induction sg as [|s sg IH]; simpl; [reflexivity|]. rewrite IH. reflexivity. Qed.

Lemma dma_map_entries_pos (sg : list scatterlist) :
  Forall (fun s => 0 < sg_dma_len s) sg ->
  Forall (fun s => 0 < sg_dma_len s) (dma_map_entries sg).
Proof. induction 1; simpl; constructor; assumption. Qed.

Lemma dma_map_entries_length (sg : list scatterlist) :
  length (dma_map_entries sg) = length sg.
Proof. unfold dma_map_entries. apply length_map. Qed.

Lemma send_req_map_run (src dst : list scatterlist) (k : kstate) :
  exists k',
    send_req_map src dst k
    = Done ((if sg_ptr_eq src dst then dma_map_entries dst else dma_map_entries src,
             dma_map_entries dst), k')
    /\ dev k' = dev k /\ sa_mem k' = sa_mem k.
Proof.
  unfold send_req_map, dma_map_sg, bind, emit, ret.
  destruct (sg_ptr_eq src dst); eexists; split; try reflexivity; simpl; auto.
Qed.

(** The submit stage of a request that is split at the counter overflow:
    two submissions, the first not final, each with its own SA state slot. *)
Lemma send_req_submit_split_run (base : Z) (ctx : mtk_cipher_ctx) (reqiv : list Z)
    (rctx : mtk_cipher_reqctx) (flags aad authsize datalen : Z)
    (src dst : list scatterlist) (iv : list Z) (offset : Z) (k : kstate)
    (sa : saRecord_s) (l1 l2 : list sc_desc) (src1 dst1 : list scatterlist) :
  rings_sync k -> ring_wf (cdr (dev k)) ->
  sa_mem k !! ctx_sa ctx = Some sa ->
  scatter_plan src dst (u32 offset) = Done l1 -> l1 <> [] ->
  scatterwalk_ffwd (rctx_ctr_src rctx) src (u32 offset) = Some src1 ->
  (if sg_ptr_eq src dst then Some src1
   else scatterwalk_ffwd (rctx_ctr_dst rctx) dst (u32 offset)) = Some dst1 ->
  scatter_plan (if sg_ptr_eq src1 dst1 then dma_map_entries dst1 else dma_map_entries src1)
    (dma_map_entries dst1) (u32 (datalen - offset)) = Done l2 -> l2 <> [] ->
  Z.of_nat (length l1 + length l2) <= ring_free (cdr (dev k)) ->
  let w0 := ring_write (cdr (dev k)) in
  let w1 := ring_at w0 (length l1) in
  let ssb0 := u32 (dev_saState_base (dev k) + w0 * sizeof_saState) in
  let ssb1 := u32 (dev_saState_base (dev k) + w1 * sizeof_saState) in
  let sab := u32 (dev_saRecord_base (dev k) + w0 * sizeof_saRecord) in
  exists k',
    send_req_submit base ctx reqiv rctx flags aad authsize datalen src dst iv true
      offset false k
    = Done ((0, rctx, Z.of_nat (length l2) + Z.of_nat (length l1),
             Z.of_nat (length l2) + Z.of_nat (length l1)), k')
    /\ (forall j x, l1 !! j = Some x ->
          cdr_desc (dev k') !! ring_at w0 j = Some (desc_of sab ssb0 x)
          /\ buf_flags (buf_at (dev k') (ring_at w0 j)) = entry_flags false (length l1) j)
    /\ (forall j y, l2 !! j = Some y ->
          cdr_desc (dev k') !! ring_at w1 j = Some (desc_of sab ssb1 y)
          /\ buf_flags (buf_at (dev k') (ring_at w1 j)) = entry_flags true (length l2) j)
    /\ w1 <> w0
    /\ stateIv (saState_at (dev k') w0)
       = memcpy (stateIv (saState_at (dev k) w0)) reqiv AES_BLOCK_SIZE
    /\ stateIv (saState_at (dev k') w1)
       = memcpy (stateIv (saState_at (dev k) w1)) iv AES_BLOCK_SIZE.
Proof.
  intros Hsync Hwf Hsa Hplan1 Hne1 Hff1 Hff2 Hplan2 Hne2 Hfree w0 w1 ssb0 ssb1 sab.
  pose proof Hsync as Hsync'. unfold rings_sync in Hsync'.
  unfold send_req_submit.
  unfold bind at 1, mtk_ring_curr_wptr_index at 1.
  unfold bind at 1, get_dev at 1.
  unfold bind at 1, load_sa at 1. rewrite Hsa.
  unfold bind at 1, modify_dev at 1.
  unfold bind at 1. rewrite set_stateIv_slot_same.
  cbn [negb]. rewrite <- Hsync'. fold w0. fold ssb0. fold sab.
  match goal with |- exists k', _ ?kk = Done _ /\ _ => set (kA := kk) end.
  assert (HdA : cdr (dev kA) = cdr (dev k)) by reflexivity.
  assert (HrA : rdr (dev kA) = rdr (dev k)) by reflexivity.
  assert (HsyncA : rings_sync kA) by (unfold rings_sync; rewrite HdA, HrA; exact Hsync).
  assert (HwfA : ring_wf (cdr (dev kA))) by (rewrite HdA; exact Hwf).
  destruct (mtk_scatter_combine_run sab ssb0 src dst (u32 offset) false base kA l1
              HsyncA HwfA Hplan1 Hne1) as (k2 & Hrun1 & Hsub1).
  { rewrite HdA. lia. }
  unfold bind at 1. rewrite Hrun1. cbv beta iota.
  rewrite Hff1. cbv beta iota. rewrite Hff2. cbv beta iota.
  destruct (submitted_state _ _ _ _ _ _ _ Hsub1 Hne1)
    as (Hsync2 & Hwf2 & Hw2 & Hr2 & Hf2 & Hsame2 & Hout2).
  rewrite HdA in Hw2, Hr2, Hf2. fold w0 in Hw2. fold w1 in Hw2.
  unfold bind at 1, mtk_ring_curr_wptr_index at 1.
  unfold bind at 1, get_dev at 1.
  unfold bind at 1. rewrite set_stateIv_slot_same.
  pose proof Hsync2 as Hsync2'. unfold rings_sync in Hsync2'.
  rewrite <- Hsync2', Hw2.
  destruct Hsame2 as (HsS & HsR & HsM & HsT & HsA & HsQ & HsB & HsSb & HsRb).
  rewrite HsSb. change (dev_saState_base (dev kA)) with (dev_saState_base (dev k)).
  fold ssb1.
  match goal with |- exists k', _ ?kk = Done _ /\ _ => set (kB := kk) end.
  destruct (send_req_map_run src1 dst1 kB) as (kB' & Hmap & HdevB & HmemB).
  unfold bind at 1. rewrite Hmap. cbv beta iota.
  assert (HcB : cdr (dev kB') = cdr (dev k2)) by (rewrite HdevB; reflexivity).
  assert (HrB : rdr (dev kB') = rdr (dev k2)) by (rewrite HdevB; reflexivity).
  assert (HsyncB : rings_sync kB') by (unfold rings_sync; rewrite HcB, HrB; exact Hsync2).
  assert (HwfB : ring_wf (cdr (dev kB'))) by (rewrite HcB; exact Hwf2).
  destruct (mtk_scatter_combine_run sab ssb1 _ _ (u32 (datalen - offset)) true base kB' l2
              HsyncB HwfB Hplan2 Hne2) as (k' & Hrun2 & Hsub2).
  { rewrite HcB, Hf2. lia. }
  unfold bind at 1. rewrite Hrun2. cbv beta iota.
  exists k'. split; [reflexivity|].
  destruct (submitted_state _ _ _ _ _ _ _ Hsub2 Hne2)
    as (Hsync3 & Hwf3 & Hw3 & Hr3 & Hf3 & Hsame3 & Hout3).
  rewrite HcB, Hw2 in Hout3.
  pose proof (ring_free_range (cdr (dev k))) as Hrange. unfold MTK_RING_SIZE in Hrange.
  assert (Hne01 : w1 <> w0).
  { unfold w1. rewrite <- (ring_at_0 w0) at 2 by apply Hwf.
    intros E. apply ring_at_inj in E; try lia.
    destruct l1; [contradiction | simpl in E; lia]. }
  split; [|split; [|split; [exact Hne01|split]]].
  - intros j x Hj.
    assert (Hjl : (j < length l1)%nat) by (apply lookup_lt_is_Some; eauto).
    destruct (Hout3 (ring_at w0 j)) as [Hc Hb].
    { intros j' Hj' E. unfold w1, ring_at in E. rewrite Zplus_mod_idemp_l in E.
      replace (w0 + Z.of_nat (length l1) + Z.of_nat j')
        with (w0 + Z.of_nat (length l1 + j')) in E by lia.
      apply (ring_at_inj w0) in E; lia. }
    pose proof (submitted_cdr_desc _ _ _ _ _ _ _ _ _ Hsub1 Hj) as Hc1.
    pose proof (submitted_dma_buf _ _ _ _ _ _ _ j Hsub1 Hjl) as Hb1.
    change (ring_write (cdr (dev kA))) with w0 in Hc1, Hb1.
    unfold buf_at. rewrite Hc, Hb, HdevB. simpl.
    rewrite Hc1, Hb1. split; reflexivity.
  - intros j y Hj.
    assert (Hjl : (j < length l2)%nat) by (apply lookup_lt_is_Some; eauto).
    pose proof (submitted_cdr_desc _ _ _ _ _ _ _ _ _ Hsub2 Hj) as Hc.
    pose proof (submitted_dma_buf _ _ _ _ _ _ _ j Hsub2 Hjl) as Hb.
    rewrite HcB, Hw2 in Hc, Hb. unfold buf_at. rewrite Hc, Hb. split; reflexivity.
  - destruct Hsame3 as (HsS3 & _). unfold saState_at. rewrite HsS3, HdevB. simpl.
    rewrite lookup_insert_ne by exact Hne01. rewrite HsS. simpl.
    rewrite lookup_insert_eq. simpl. unfold send_req_stateIv.
    rewrite orb_true_r. reflexivity.
  - destruct Hsame3 as (HsS3 & _). unfold saState_at. rewrite HsS3, HdevB. simpl.
    rewrite lookup_insert_eq. simpl. unfold saState_at. rewrite HsS. simpl.
    rewrite lookup_insert_ne by auto. reflexivity.
Qed.

Lemma DIV_ROUND_UP_3 (n : Z) :
  0 <= n < 2 ^ 32 -> DIV_ROUND_UP n AES_BLOCK_SIZE = 3 -> 33 <= n <= 48.
Proof.
  unfold DIV_ROUND_UP, u32, AES_BLOCK_SIZE. change (2 ^ 32) with 4294967296.
  intros Hn H. Z.div_mod_to_equations. lia.
Qed.

Lemma u32_range (x : Z) : 0 <= u32 x < 2 ^ 32.
Proof. unfold u32. apply Z.mod_pos_bound. reflexivity. Qed.

(** The preparation does not touch the flags of the request. *)
Lemma send_req_prepare_flags (ctx : mtk_cipher_ctx) (reqsrc reqdst : list scatterlist)
    (rctx : mtk_cipher_reqctx) (k : kstate) (rctx1 : mtk_cipher_reqctx)
    (src dst : list scatterlist) (k1 : kstate) :
  send_req_prepare ctx reqsrc reqdst rctx k = Done (inr (rctx1, src, dst), k1) ->
  rctx_flags rctx1 = rctx_flags rctx /\ rctx_ctr_src rctx1 = rctx_ctr_src rctx
  /\ rctx_ctr_dst rctx1 = rctx_ctr_dst rctx.
Proof.
  unfold send_req_prepare. cbv zeta.
  destruct (negb (IS_CTR (rctx_flags rctx)) && _); [discriminate|].
  match goal with |- context [if ?c then bind (emit EvDevErr) _ else _] => destruct c end.
  { intros H. apply bind_Done in H as (? & ? & _ & H). discriminate. }
  intros H. apply bind_Done in H as ([e1 b1] & k2 & H1 & H).
  destruct (negb (e1 =? 0)); [discriminate|].
  apply bind_Done in H as ([e2 b2] & k3 & H2 & H).
  destruct (negb (e2 =? 0)); [discriminate|].
  apply bind_Done in H as ([s1 d1] & k4 & H3 & H). injection H as <- _ _ _.
  simpl. auto.
Qed.

Lemma memcpy_whole (old src : list Z) :
  length src = 16%nat -> memcpy old src AES_BLOCK_SIZE = src ++ drop 16 old.
Proof.
  intros H. unfold memcpy, AES_BLOCK_SIZE. change (Z.to_nat 16) with 16%nat.
  rewrite take_ge by lia. reflexivity.
Qed.

(** Every descriptor length of a plan whose lengths are positive lies
    between 1 and the plan's total. *)
Lemma sum_list_Z_elem_le (l : list Z) (j : nat) (x : Z) :
  Forall (fun x => 0 < x) l -> l !! j = Some x -> 0 < x <= sum_list_Z l.
Proof.
  revert j. induction l as [|a l IH]; intros j Hp Hj; [discriminate|].
  apply Forall_cons in Hp as [Ha Hp]. pose proof (sum_list_Z_pos l Hp) as Hs.
  destruct j as [|j]; simpl in Hj |- *.
  - injection Hj as <-. lia.
  - specialize (IH j Hp Hj). lia.
Qed.

Lemma desc_of_len_small (sab ssb : Z) (l : list sc_desc) (j : nat) (x : sc_desc) :
  Forall (fun x => 0 < pd_len x) l -> sum_list_Z (map pd_len l) < 2 ^ PE_LENGTH_BITS ->
  l !! j = Some x -> len_length (desc_of sab ssb x) = pd_len x.
Proof.
  intros Hp Hs Hj. unfold desc_of. cbn [len_length]. apply bitfield_small.
  assert (Hj' : map pd_len l !! j = Some (pd_len x)) by (rewrite list_lookup_fmap, Hj; reflexivity).
  assert (Hp' : Forall (fun x => 0 < x) (map pd_len l)) by (apply Forall_map; exact Hp).
  pose proof (sum_list_Z_elem_le _ _ _ Hp' Hj'). lia.
Qed.

(** C1: the code at an AEAD decryption in counter mode,
    authenc(hmac(sha1),ctr(aes)) with 32 bytes of text followed by a tag of
    16 bytes and no associated data.  The IV ends in the counter
    [0xFFFFFFFE], the source (text and tag) spans three blocks and the
    overflow is detected; the first sub-request covers 32 bytes, and the
    second sub-request is a single descriptor of 0 bytes, not of one
    block. *)
Lemma ctr_split_aead_decrypt_empty_second :
  IS_CTR (rctx_flags rctx_aead_ctr_decrypt) = true
  /\ IS_RFC3686 (rctx_flags rctx_aead_ctr_decrypt) = false
  /\ be32_of_bytes (word_at 3 iv_fffffffe) = 4294967294
  /\ DIV_ROUND_UP (send_req_totlen_src ctx_aead_tfm rctx_aead_ctr_decrypt) AES_BLOCK_SIZE = 3
  /\ exists rctx' k' d0 d1,
       mtk_send_req 7 ctx_aead_tfm (sg_one 256 16384 48) (sg_one 320 32768 32)
         iv_fffffffe rctx_aead_ctr_decrypt k_idle = Done ((0, rctx', 2, 2), k')
       /\ cdr_desc (dev k') !! 0 = Some d0 /\ len_length d0 = 32
       /\ cdr_desc (dev k') !! 1 = Some d1 /\ len_length d1 = 0
       /\ DIV_ROUND_UP (len_length d1) AES_BLOCK_SIZE <> 1.
Proof.
  split; [reflexivity|]. split; [reflexivity|]. split; [reflexivity|].
  split; [reflexivity|].
  eexists _, _, _, _. split; [vm_compute; reflexivity|].
  split; [vm_compute; reflexivity|]. split; [reflexivity|].
  split; [vm_compute; reflexivity|]. split; [reflexivity|].
  vm_compute. discriminate.
Qed.

(** X27: a counter-mode skcipher request (no associated data, no tag)
    without RFC3686 nonce whose IV ends in the big-endian counter
    [0xFFFFFFFE] and whose text spans three AES blocks, with buffers that
    hold the data and rings that have room.  [mtk_send_req] returns 0 after
    two submissions: the descriptors of the first cover exactly 32 bytes,
    that is [AES_BLOCK_SIZE * (2^32 - ctr0)], two blocks, and point to an SA
    state slot that holds the original IV; those of the second cover the
    remaining bytes, one block, and point to the next free SA state slot,
    whose IV has counter word 0. *)
Theorem mtk_send_req_ctr_overflow_split (base : Z) (ctx : mtk_cipher_ctx)
    (reqsrc reqdst : list scatterlist) (p : list Z) (rctx : mtk_cipher_reqctx)
    (k : kstate) (rctx1 : mtk_cipher_reqctx) (src dst : list scatterlist)
    (k1 : kstate) (sa : saRecord_s) :
  let reqiv := p ++ be32_bytes 4294967294 in
  let datalen := u32 (rctx_assoclen rctx + rctx_textsize rctx) in
  let w0 := ring_write (cdr (dev k)) in
  let ssb0 := u32 (dev_saState_base (dev k) + w0 * sizeof_saState) in
  IS_CTR (rctx_flags rctx) = true ->
  IS_RFC3686 (rctx_flags rctx) = false ->
  length p = 12%nat ->
  ctx_aead ctx = false ->
  rctx_assoclen rctx = 0 ->
  DIV_ROUND_UP datalen AES_BLOCK_SIZE = 3 ->
  send_req_prepare ctx reqsrc reqdst rctx k = Done (inr (rctx1, src, dst), k1) ->
  Forall (fun s => 0 < sg_dma_len s) src ->
  Forall (fun s => 0 < sg_dma_len s) dst ->
  datalen <= sum_len src -> datalen <= sum_len dst ->
  sa_mem k !! ctx_sa ctx = Some sa ->
  rings_sync k -> ring_wf (cdr (dev k)) ->
  Z.of_nat (3 * (length src + length dst)) <= ring_free (cdr (dev k)) ->
  exists l1 l2 k',
    let w1 := ring_at w0 (length l1) in
    let ssb1 := u32 (dev_saState_base (dev k) + w1 * sizeof_saState) in
    mtk_send_req base ctx reqsrc reqdst reqiv rctx k
      = Done ((0, rctx1, Z.of_nat (length l2) + Z.of_nat (length l1),
               Z.of_nat (length l2) + Z.of_nat (length l1)), k')
    /\ sum_list_Z (map pd_len l1) = AES_BLOCK_SIZE * (2 ^ 32 - 4294967294)
    /\ AES_BLOCK_SIZE * (2 ^ 32 - 4294967294) = 2 * AES_BLOCK_SIZE
    /\ (forall j x, l1 !! j = Some x ->
          exists d, cdr_desc (dev k') !! ring_at w0 j = Some d
                    /\ len_length d = pd_len x /\ stateAddr d = ssb0
                    /\ buf_flags (buf_at (dev k') (ring_at w0 j))
                       = entry_flags false (length l1) j)
    /\ take 16 (stateIv (saState_at (dev k') w0)) = reqiv
    /\ sum_list_Z (map pd_len l2) = datalen - 2 * AES_BLOCK_SIZE
    /\ DIV_ROUND_UP (datalen - 2 * AES_BLOCK_SIZE) AES_BLOCK_SIZE = 1
    /\ (forall j y, l2 !! j = Some y ->
          exists d, cdr_desc (dev k') !! ring_at w1 j = Some d
                    /\ len_length d = pd_len y /\ stateAddr d = ssb1
                    /\ buf_flags (buf_at (dev k') (ring_at w1 j))
                       = entry_flags true (length l2) j)
    /\ w1 <> w0
    /\ be32_of_bytes (word_at 3 (stateIv (saState_at (dev k') w1))) = 0.
Proof.
  intros reqiv datalen w0 ssb0 Hctr Hrfc Hp Hsk Haad Hblocks Hprep Hps Hpd Hcs Hcd Hsa
    Hsync Hwf Hfree.
  assert (Htot : send_req_totlen_src ctx rctx = datalen).
  { unfold send_req_totlen_src. rewrite Hsk. reflexivity. }
  pose proof (DIV_ROUND_UP_3 datalen (u32_range _) Hblocks) as Hlen.
  pose proof (send_req_prepare_frame _ _ _ _ _ _ _ Hprep) as Hfr.
  unfold dev_and_sa in Hfr. injection Hfr as Hdev Hmem.
  destruct (send_req_prepare_flags _ _ _ _ _ _ _ _ _ Hprep) as (Hfl & Hcsrc & Hcdst).
  assert (Hreqiv : length reqiv = 16%nat) by (unfold reqiv; rewrite length_app, Hp; reflexivity).
  (* the two plans *)
  destruct (scatter_plan_total src dst 32) as (l1 & Hplan1 & Hne1 & Hsum1 & Hl1 & Hpos1 & _);
    try assumption; try lia.
  destruct (scatterwalk_ffwd_spec (rctx_ctr_src rctx1) src 32)
    as (src1 & Hff1 & Hps1 & Hs1 & Hls1); [lia | exact Hps |].
  assert (Hdst1 : exists dst1,
             (if sg_ptr_eq src dst then Some src1
              else scatterwalk_ffwd (rctx_ctr_dst rctx1) dst 32) = Some dst1
             /\ Forall (fun s => 0 < sg_dma_len s) dst1
             /\ datalen - 32 <= sum_len dst1
             /\ (length dst1 <= length src + length dst)%nat).
  { destruct (sg_ptr_eq src dst).
    - exists src1. split; [reflexivity|]. split; [exact Hps1|]. split; lia.
    - destruct (scatterwalk_ffwd_spec (rctx_ctr_dst rctx1) dst 32)
        as (dst1 & Hff2 & Hpd1 & Hd1 & Hld1); [lia | exact Hpd |].
      exists dst1. split; [exact Hff2|]. split; [exact Hpd1|]. split; lia. }
  destruct Hdst1 as (dst1 & Hff2 & Hpd1 & Hd1 & Hld1).
  set (src2 := if sg_ptr_eq src1 dst1 then dma_map_entries dst1 else dma_map_entries src1).
  assert (Hsrc2 : Forall (fun s => 0 < sg_dma_len s) src2 /\ datalen - 32 <= sum_len src2
                  /\ (length src2 <= length src + length dst)%nat).
  { unfold src2. destruct (sg_ptr_eq src1 dst1).
    - rewrite dma_map_entries_sum, dma_map_entries_length.
      split; [apply dma_map_entries_pos; exact Hpd1|]. split; lia.
    - rewrite dma_map_entries_sum, dma_map_entries_length.
      split; [apply dma_map_entries_pos; exact Hps1|]. split; lia. }
  destruct Hsrc2 as (Hps2 & Hs2 & Hls2).
  destruct (scatter_plan_total src2 (dma_map_entries dst1) (datalen - 32))
    as (l2 & Hplan2 & Hne2 & Hsum2 & Hl2 & Hpos2 & _);
    try assumption; try lia.
  { apply dma_map_entries_pos. exact Hpd1. }
  { rewrite dma_map_entries_sum. exact Hd1. }
  rewrite dma_map_entries_length in Hl2.
  (* the run *)
  assert (Hsync1 : rings_sync k1) by (unfold rings_sync; rewrite Hdev; exact Hsync).
  assert (Hwf1 : ring_wf (cdr (dev k1))) by (rewrite Hdev; exact Hwf).
  assert (Hsa1 : sa_mem k1 !! ctx_sa ctx = Some sa) by (rewrite Hmem; exact Hsa).
  assert (Hu : u32 (datalen - AES_BLOCK_SIZE * (2 ^ 32 - 4294967294)) = datalen - 32).
  { unfold u32. apply Z.mod_small. change (AES_BLOCK_SIZE * (2 ^ 32 - 4294967294)) with 32.
    lia. }
  destruct (send_req_submit_split_run base ctx reqiv rctx1 (rctx_flags rctx)
              (rctx_assoclen rctx) (rctx_authsize rctx) datalen src dst
              (crypto_inc p ++ [0; 0; 0; 0]) (AES_BLOCK_SIZE * (2 ^ 32 - 4294967294))
              k1 sa l1 l2 src1 dst1 Hsync1 Hwf1 Hsa1)
    as (k' & Hrun & Hd1s & Hd2s & Hne01 & Hiv0 & Hiv1); try assumption.
  { rewrite Hu. exact Hplan2. }
  { rewrite Hdev. lia. }
  rewrite Hdev in Hd1s, Hd2s, Hne01, Hiv0, Hiv1. fold w0 in Hd1s, Hd2s, Hne01, Hiv0, Hiv1.
  exists l1, l2, k'. cbv zeta.
  split.
  { unfold mtk_send_req. cbv zeta. unfold bind at 1. rewrite Hprep. cbv beta iota.
    rewrite Hfl, Hctr, Hrfc. cbn [orb andb negb].
    rewrite orb_true_r, Htot. fold datalen.
    rewrite memcpy_whole by exact Hreqiv. change (drop 16 (replicate 16 0)) with (@nil Z).
    rewrite app_nil_r. unfold reqiv.
    rewrite ctr_overflow_split_fffffffe by assumption.
    exact Hrun. }
  split; [exact Hsum1|]. split; [reflexivity|].
  split.
  { intros j x Hj. destruct (Hd1s j x Hj) as [Hc Hb].
    eexists. split; [exact Hc|].
    split; [apply (desc_of_len_small _ _ l1 j); [exact Hpos1 | | exact Hj]|].
    - rewrite Hsum1. unfold PE_LENGTH_BITS. lia.
    - split; [reflexivity | exact Hb]. }
  split.
  { rewrite Hiv0, memcpy_whole by exact Hreqiv.
    rewrite take_app_length' by (symmetry; exact Hreqiv). reflexivity. }
  split; [exact Hsum2|].
  split.
  { unfold DIV_ROUND_UP, u32, AES_BLOCK_SIZE. change (2 ^ 32) with 4294967296.
    Z.div_mod_to_equations. lia. }
  split.
  { intros j y Hj. destruct (Hd2s j y Hj) as [Hc Hb].
    eexists. split; [exact Hc|].
    split; [apply (desc_of_len_small _ _ l2 j); [exact Hpos2 | | exact Hj]|].
    - rewrite Hsum2. unfold PE_LENGTH_BITS. lia.
    - split; [reflexivity | exact Hb]. }
  split; [exact Hne01|].
  rewrite Hiv1, memcpy_whole by (rewrite length_app, length_crypto_inc, Hp; reflexivity).
  unfold word_at. rewrite <- app_assoc.
  rewrite drop_app_length' by (rewrite length_crypto_inc, Hp; reflexivity).
  reflexivity.
Qed.

Lemma mtk_send_req_ctr_overflow_split_witness :
  exists rctx1 l1 l2 k',
    mtk_send_req 7 ctx_skcipher (sg_one 256 16384 48) (sg_one 320 32768 48)
      (replicate 12 7 ++ be32_bytes 4294967294) rctx_ctr48 k_idle
    = Done ((0, rctx1, Z.of_nat (length l2) + Z.of_nat (length l1),
             Z.of_nat (length l2) + Z.of_nat (length l1)), k')
    /\ sum_list_Z (map pd_len l1) = 32
    /\ sum_list_Z (map pd_len l2) = 16
    /\ be32_of_bytes
         (word_at 3 (stateIv (saState_at (dev k') (ring_at 0 (length l1))))) = 0.
Proof.
  edestruct (mtk_send_req_ctr_overflow_split 7 ctx_skcipher (sg_one 256 16384 48)
               (sg_one 320 32768 48) (replicate 12 7) rctx_ctr48 k_idle)
    as (l1 & l2 & k' & Hrun & Hs1 & _ & _ & _ & Hs2 & _ & _ & _ & Hctr).
  - reflexivity.
  - reflexivity.
  - reflexivity.
  - reflexivity.
  - reflexivity.
  - reflexivity.
  - cbv. reflexivity.
  - repeat constructor.
  - repeat constructor.
  - vm_compute. discriminate.
  - vm_compute. discriminate.
  - reflexivity.
  - reflexivity.
  - unfold ring_wf, MTK_RING_SIZE. simpl. lia.
  - vm_compute. discriminate.
  - eexists _, l1, l2, k'. split; [exact Hrun|].
    split; [exact Hs1|]. split; [exact Hs2 | exact Hctr].
Defined.

(** ** More on the alignment walk *)

(** X1: the walk answers true whenever the segments before the cut start on
    a 32-byte boundary, have block-size-aligned lengths and are passed over
    entirely, the cut segment starts on a 32-byte boundary, and the length
    consumed inside it is block-size aligned. *)
Theorem mtk_is_sg_aligned_sufficient (blksz : Z) (before : list scatterlist) :
  forall (len : Z) (cut : scatterlist) (after : list scatterlist),
    0 <= len < 2 ^ 32 ->
    Forall (fun s => 0 <= sg_length s) before ->
    Forall (seg_passed blksz) before ->
    (forall p s q, before = p ++ s :: q -> sg_length s < len - sum_len p) ->
    sg_offset cut mod 32 = 0 ->
    len - sum_len before <= sg_length cut ->
    IS_ALIGNED (len - sum_len before) blksz = true ->
    mtk_is_sg_aligned (before ++ cut :: after) len blksz = true.
Proof.
  induction before as [|s b IH]; intros len cut after Hlen Hnn Hpass Hlong Hoff Hcut Hal;
    simpl in *.
  - rewrite IS_ALIGNED_32. apply Z.eqb_eq in Hoff. rewrite Hoff. cbn [negb].
    rewrite Z.sub_0_r in Hcut, Hal.
    apply Z.leb_le in Hcut. rewrite Hcut, Hal. reflexivity.
  - apply Forall_cons in Hnn as [Hs Hnn]. apply Forall_cons in Hpass as [[Ho Hl] Hpass].
    rewrite IS_ALIGNED_32. apply Z.eqb_eq in Ho. rewrite Ho. cbn [negb].
    pose proof (Hlong [] s b eq_refl) as H0. simpl in H0.
    destruct (len <=? sg_length s) eqn:E; [apply Z.leb_le in E; lia|].
    rewrite Hl. cbn [negb].
    assert (Hu : u32 (len - sg_length s) = len - sg_length s)
      by (unfold u32; apply Z.mod_small; lia).
    rewrite Hu. apply IH; try assumption; try lia.
    + intros p x q Hb. specialize (Hlong (s :: p) x q). simpl in Hlong.
      rewrite Hb in Hlong. specialize (Hlong eq_refl). lia.
    + replace (len - sg_length s - sum_len b) with (len - (sg_length s + sum_len b)) by lia.
      exact Hal.
Qed.

Lemma mtk_is_sg_aligned_sufficient_witness :
  mtk_is_sg_aligned (sg_chain 256 16384 [16; 32] ++
                     {| sg_addr := 512; sg_page := 32768; sg_offset := 64; sg_length := 64;
                        sg_dma_address := 0; sg_data := [] |} :: []) 64 16 = true.
Proof.
  apply (mtk_is_sg_aligned_sufficient 16 (sg_chain 256 16384 [16; 32])).
  - lia.
  - repeat constructor; simpl; lia.
  - repeat constructor.
  - intros p s q H.
    destruct p as [|a [|b [|c p]]]; simpl in H; inversion H; subst; simpl; lia.
  - reflexivity.
  - simpl. lia.
  - reflexivity.
Defined.

Lemma sum_len_nonneg (sg : list scatterlist) :
  Forall (fun s => 0 <= sg_length s) sg -> 0 <= sum_len sg.
Proof. induction 1; simpl; lia. Qed.

(** X2: a list that holds fewer than [len] bytes is never aligned, whatever
    its segments look like; in particular the NULL list is not. *)
Theorem mtk_is_sg_aligned_short_list (blksz : Z) (sg : list scatterlist) :
  forall len : Z,
    len < 2 ^ 32 ->
    Forall (fun s => 0 <= sg_length s) sg ->
    sum_len sg < len ->
    mtk_is_sg_aligned sg len blksz = false.
Proof.
  induction sg as [|s rest IH]; intros len Hlen Hnn Hshort; simpl in *; [reflexivity|].
  apply Forall_cons in Hnn as [Hs Hnn].
  pose proof (sum_len_nonneg rest Hnn) as Hrest.
  destruct (negb (IS_ALIGNED (sg_offset s) 32)); [reflexivity|].
  destruct (len <=? sg_length s) eqn:E; [apply Z.leb_le in E; lia|].
  destruct (negb (IS_ALIGNED (sg_length s) blksz)); [reflexivity|].
  assert (Hu : u32 (len - sg_length s) = len - sg_length s)
    by (unfold u32; apply Z.mod_small; lia).
  rewrite Hu. apply IH; [lia | exact Hnn | lia].
Qed.

Lemma mtk_is_sg_aligned_short_list_witness :
  mtk_is_sg_aligned (sg_chain 256 16384 [16; 32]) 64 16 = false.
Proof.
  apply mtk_is_sg_aligned_short_list.
  - lia.
  - repeat constructor; simpl; lia.
  - simpl. lia.
Defined.
(** ** The counter-overflow test in general *)

Lemma testbit_255 (m : Z) : Z.testbit 255 m = (0 <=? m) && (m <? 8).
Proof.
  change 255 with (Z.ones 8). destruct (Z.leb_spec 0 m).
  - rewrite Z.testbit_ones_nonneg by lia. reflexivity.
  - rewrite Z.testbit_neg_r by lia. reflexivity.
Qed.

Lemma testbit_byte_of (c k n : Z) :
  0 <= k -> 0 <= n ->
  Z.testbit (Z.shiftl (Z.land (Z.shiftr c k) 255) k) n
  = Z.testbit c n && ((k <=? n) && (n <? k + 8)).
Proof.
  intros Hk Hn. rewrite Z.shiftl_spec by lia.
  destruct (Z.leb_spec k n).
  - rewrite Z.land_spec, Z.shiftr_spec, testbit_255 by lia.
    replace (n - k + k) with n by lia.
    replace (0 <=? n - k) with true by (symmetry; apply Z.leb_le; lia).
    destruct (Z.ltb_spec (n - k) 8), (Z.ltb_spec n (k + 8)); try lia; reflexivity.
  - rewrite Z.testbit_neg_r by lia. rewrite andb_false_r. reflexivity.
Qed.

(** Storing a 32-bit value big-endian and loading it again gives it back. *)
Lemma be32_of_bytes_be32_bytes (c : Z) :
  0 <= c < 2 ^ 32 -> be32_of_bytes (be32_bytes c) = c.
Proof.
  intros Hc. unfold be32_of_bytes, be32_bytes.
  apply Z.bits_inj'. intros n Hn.
  rewrite !Z.lor_spec, !testbit_byte_of by lia.
  rewrite Z.land_spec, testbit_255.
  assert (Hhigh : 32 <= n -> Z.testbit c n = false).
  { intros H. destruct (Z.eq_dec c 0) as [->|Hc0]; [apply Z.testbit_0_l|].
    apply Z.bits_above_log2; [lia|]. apply Z.log2_lt_pow2; [lia|].
    apply Z.lt_le_trans with (2 ^ 32); [lia | apply Z.pow_le_mono_r; lia]. }
  destruct (Z.testbit c n) eqn:Hb; [|reflexivity]. cbn [andb].
  assert (n < 32) by (destruct (Z.ltb_spec n 32); [assumption | specialize (Hhigh ltac:(lia)); congruence]).
  destruct (Z.leb_spec 24 n), (Z.ltb_spec n (24 + 8)), (Z.leb_spec 16 n),
    (Z.ltb_spec n (16 + 8)), (Z.leb_spec 8 n), (Z.ltb_spec n (8 + 8)),
    (Z.leb_spec 0 n), (Z.ltb_spec n 8); try lia; reflexivity.
Qed.

Lemma length_be32_bytes (c : Z) : length (be32_bytes c) = 4%nat.
Proof. reflexivity. Qed.

(** The image of the IV after lines 437-441 on an IV of twelve bytes and a
    counter word. *)
Lemma ctr_wrapped_iv (p w : list Z) :
  length p = 12%nat -> length w = 4%nat ->
  crypto_inc (take 16 (set_word_at 3 (be32_bytes 4294967295) (p ++ w)))
    ++ drop 16 (set_word_at 3 (be32_bytes 4294967295) (p ++ w))
  = crypto_inc p ++ [0; 0; 0; 0].
Proof.
  intros Hp Hw.
  assert (Hs : set_word_at 3 (be32_bytes 4294967295) (p ++ w) = p ++ [255; 255; 255; 255]).
  { unfold set_word_at. change (4 * 3)%nat with 12%nat. change (12 + 4)%nat with 16%nat.
    rewrite take_app_length' by (symmetry; exact Hp).
    rewrite drop_ge by (rewrite length_app, Hp, Hw; simpl; lia).
    rewrite app_nil_r. reflexivity. }
  rewrite Hs.
  rewrite take_ge by (rewrite length_app, Hp; simpl; lia).
  rewrite drop_ge by (rewrite length_app, Hp; simpl; lia).
  rewrite app_nil_r. apply crypto_inc_wrap.
Qed.

(** X3: the counter-overflow test of [mtk_send_req] on an IV with counter
    word [c], for a source that is not empty and has fewer than 2^31 bytes.  If the counter of the
    last block, [c + blocks - 1], still fits 32 bits the request is left in
    one piece with its IV.  Otherwise it is cut after
    [AES_BLOCK_SIZE * (2^32 - c)] bytes, the blocks whose counters run from
    [c] to [0xFFFFFFFF]; the cut lies strictly inside the source, and the IV
    for the rest has counter word 0 and the 96 bits before it incremented. *)
Theorem ctr_overflow_split_spec (p : list Z) (c totlen_src : Z) :
  length p = 12%nat ->
  0 <= c < 2 ^ 32 ->
  0 < totlen_src < 2 ^ 31 ->
  let blocks := DIV_ROUND_UP totlen_src AES_BLOCK_SIZE in
  let iv := p ++ be32_bytes c in
  (c + blocks - 1 < 2 ^ 32 ->
   ctr_overflow_split true totlen_src iv = (0, iv, true))
  /\ (2 ^ 32 <= c + blocks - 1 ->
      ctr_overflow_split true totlen_src iv
      = (AES_BLOCK_SIZE * (2 ^ 32 - c), crypto_inc p ++ [0; 0; 0; 0], false)
      /\ 0 < AES_BLOCK_SIZE * (2 ^ 32 - c) < totlen_src).
Proof.
  intros Hp Hc Ht blocks iv.
  assert (Hw : word_at 3 iv = be32_bytes c).
  { unfold word_at, iv. rewrite drop_app_length' by (rewrite Hp; reflexivity).
    reflexivity. }
  assert (Hblocks : 16 * blocks <= totlen_src + 15 < 16 * blocks + 16).
  { unfold blocks, DIV_ROUND_UP, u32, AES_BLOCK_SIZE.
    change (2 ^ 32) with 4294967296. change (2 ^ 31) with 2147483648 in Ht.
    Z.div_mod_to_equations. lia. }
  change (2 ^ 32) with 4294967296 in *. change (2 ^ 31) with 2147483648 in Ht.
  unfold ctr_overflow_split. fold blocks. rewrite Hw.
  rewrite be32_of_bytes_be32_bytes by (change (2 ^ 32) with 4294967296; lia).
  split.
  - intros Hfit.
    assert (Hend : u32 (c + blocks - 1) = c + blocks - 1)
      by (unfold u32; apply Z.mod_small; change (2 ^ 32) with 4294967296; lia).
    rewrite Hend.
    destruct (Z.ltb_spec (c + blocks - 1) c); [lia | reflexivity].
  - intros Hover.
    assert (Hend : u32 (c + blocks - 1) = c + blocks - 1 - 4294967296).
    { unfold u32. change (2 ^ 32) with 4294967296.
      Z.div_mod_to_equations. lia. }
    rewrite Hend.
    destruct (Z.ltb_spec (c + blocks - 1 - 4294967296) c); [|lia].
    assert (Hneg : u32 (- c) = 4294967296 - c).
    { unfold u32. change (2 ^ 32) with 4294967296. Z.div_mod_to_equations. lia. }
    rewrite Hneg.
    assert (Hoff : s32 (u32 (AES_BLOCK_SIZE * (4294967296 - c)))
                   = AES_BLOCK_SIZE * (4294967296 - c)).
    { unfold s32, u32, AES_BLOCK_SIZE. change (2 ^ 32) with 4294967296.
      change (2 ^ 31) with 2147483648.
      assert (E : (16 * (4294967296 - c)) mod 4294967296 = 16 * (4294967296 - c))
        by (apply Z.mod_small; lia).
      rewrite !E.
      destruct (Z.ltb_spec (16 * (4294967296 - c)) 2147483648); lia. }
    rewrite Hoff. unfold iv.
    rewrite ctr_wrapped_iv by (assumption || reflexivity).
    split; [reflexivity|]. unfold AES_BLOCK_SIZE. lia.
Qed.

Lemma ctr_overflow_split_spec_witness :
  ctr_overflow_split true 32 (replicate 12 7 ++ be32_bytes 4294967295)
  = (16, crypto_inc (replicate 12 7) ++ [0; 0; 0; 0], false).
Proof.
  refine (proj1 (proj2 (ctr_overflow_split_spec (replicate 12 7) 4294967295 32 _ _ _) _)).
  - reflexivity.
  - lia.
  - lia.
  - vm_compute. discriminate.
Defined.
(** ** Error returns of mtk_send_req *)





Lemma send_req_prepare_inl_codes (ctx : mtk_cipher_ctx) (reqsrc reqdst : list scatterlist)
    (rctx : mtk_cipher_reqctx) (k : kstate) (err : Z) (rctx' : mtk_cipher_reqctx)
    (k' : kstate) :
  send_req_prepare ctx reqsrc reqdst rctx k = Done (inl (err, rctx'), k') ->
  err = - EINVAL \/ err = - ENOMEM.
Proof.
  unfold send_req_prepare. cbv zeta.
  destruct (negb (IS_CTR (rctx_flags rctx)) && _).
  { intros H. injection H as <- _ _. auto. }
  match goal with |- context [if ?c then bind (emit EvDevErr) _ else _] => destruct c end.
  { intros H. injection H as <- _ _. auto. }
  intros H. apply bind_Done in H as ([e1 b1] & k1 & H1 & H).
  assert (He1 : e1 = 0 \/ e1 = - ENOMEM).
  { match type of H1 with (if ?c then _ else _) _ = _ => destruct c end.
    - injection H1 as <- _ _. auto.
    - apply (mtk_make_sg_cpy_err _ _ _ _ _ _ _ _ _ _ H1). }
  destruct (negb (e1 =? 0)) eqn:E1.
  { injection H as <- _ _. apply negb_true_iff, Z.eqb_neq in E1.
    destruct He1; [contradiction | auto]. }
  apply bind_Done in H as ([e2 b2] & k2 & H2 & H).
  assert (He2 : e2 = 0 \/ e2 = - ENOMEM).
  { match type of H2 with (if ?c then _ else _) _ = _ => destruct c end.
    - injection H2 as <- _ _. auto.
    - apply (mtk_make_sg_cpy_err _ _ _ _ _ _ _ _ _ _ H2). }
  destruct (negb (e2 =? 0)) eqn:E2.
  { injection H as <- _ _. apply negb_true_iff, Z.eqb_neq in E2.
    destruct He2; [contradiction | auto]. }
  apply bind_Done in H as ([s1 d1] & k3 & _ & H). discriminate.
Qed.

Lemma send_req_submit_ret (base : Z) (ctx : mtk_cipher_ctx) (reqiv : list Z)
    (rctx : mtk_cipher_reqctx) (flags aad authsize datalen : Z)
    (src dst : list scatterlist) (iv : list Z) (overflow : bool) (offset : Z)
    (complete : bool) (k : kstate) (r : Z) (rctx' : mtk_cipher_reqctx) (c res : Z)
    (k' : kstate) :
  send_req_submit base ctx reqiv rctx flags aad authsize datalen src dst iv overflow
    offset complete k = Done ((r, rctx', c, res), k') ->
  r = 0.
Proof.
  unfold send_req_submit. intros H.
  apply bind_Done in H as (w & k1 & _ & H).
  apply bind_Done in H as (d & k2 & _ & H).
  apply bind_Done in H as (sa & k3 & _ & H).
  apply bind_Done in H as ([] & k4 & _ & H).
  apply bind_Done in H as ([] & k5 & _ & H).
  destruct (negb complete).
  - apply bind_Done in H as ([[r1 c1] rr1] & k6 & _ & H).
    destruct (scatterwalk_ffwd _ _ _); [|discriminate].
    match type of H with match ?x with _ => _ end _ = _ => destruct x end; [|discriminate].
    apply bind_Done in H as (w2 & k7 & _ & H).
    apply bind_Done in H as (d2 & k8 & _ & H).
    apply bind_Done in H as ([] & k9 & _ & H).
    apply bind_Done in H as ([s2 d3] & k10 & _ & H).
    apply bind_Done in H as ([[r2 c2] rr2] & k11 & _ & H).
    injection H as <- _ _ _ _. reflexivity.
  - apply bind_Done in H as ([[r1 c1] rr1] & k6 & _ & H).
    injection H as <- _ _ _ _. reflexivity.
Qed.

(** X5: the only error codes of [mtk_send_req] are [-EINVAL] and [-ENOMEM],
    and a call that returns one of them has submitted nothing: the device
    (rings, descriptors, side table, SA slots, counters) and the SA records
    of the transforms are as before and both descriptor counts are 0. *)
Theorem mtk_send_req_error_is_clean (base : Z) (ctx : mtk_cipher_ctx)
    (reqsrc reqdst : list scatterlist) (reqiv : list Z) (rctx : mtk_cipher_reqctx)
    (k : kstate) (r : Z) (rctx' : mtk_cipher_reqctx) (c res : Z) (k' : kstate) :
  mtk_send_req base ctx reqsrc reqdst reqiv rctx k = Done ((r, rctx', c, res), k') ->
  r <> 0 ->
  (r = - EINVAL \/ r = - ENOMEM)
  /\ c = 0 /\ res = 0 /\ dev k' = dev k /\ sa_mem k' = sa_mem k.
Proof.
  intros H Hr. unfold mtk_send_req in H. cbv zeta in H.
  apply bind_Done in H as (prep & k1 & Hprep & H).
  destruct prep as [[err rc] | [[rc src] dst]].
  - injection H as <- <- <- <- <-.
    pose proof (send_req_prepare_frame _ _ _ _ _ _ _ Hprep) as Hfr.
    unfold dev_and_sa in Hfr. injection Hfr as Hdev Hmem.
    split; [apply (send_req_prepare_inl_codes _ _ _ _ _ _ _ _ Hprep)|]. auto.
  - destruct (ctr_overflow_split _ _ _) as [[offset iv] complete].
    apply send_req_submit_ret in H. contradiction.
Qed.

(** An AEAD request when the allocator has nothing to give. *)
Lemma mtk_send_req_error_is_clean_witness :
  exists rctx' k',
    mtk_send_req 7 ctx_aead_tfm (sg_one 256 16384 48) (sg_one 320 32768 64)
      (replicate 16 0) rctx_aead_ctr_decrypt
      {| dev := dev_idle; trace := []; allocs := [None]; sa_mem := sa_mem k_idle |}
    = Done ((- ENOMEM, rctx', 0, 0), k')
    /\ dev k' = dev_idle.
Proof.
  destruct (mtk_send_req 7 ctx_aead_tfm (sg_one 256 16384 48) (sg_one 320 32768 64)
              (replicate 16 0) rctx_aead_ctr_decrypt
              {| dev := dev_idle; trace := []; allocs := [None]; sa_mem := sa_mem k_idle |})
    as [[[[[r rc] c] res] k']| |] eqn:E;
    [|vm_compute in E; discriminate|vm_compute in E; discriminate].
  assert (Hr : r = - ENOMEM) by (vm_compute in E; injection E as <- _ _ _ _; reflexivity).
  destruct (mtk_send_req_error_is_clean _ _ _ _ _ _ _ _ _ _ _ _ E) as (_ & -> & -> & Hdev & _).
  - rewrite Hr. discriminate.
  - exists rc, k'. rewrite Hr. split; [reflexivity | exact Hdev].
Defined.
(** ** One submission without a counter split *)

(** The submit stage on a request that goes out in one piece. *)
Lemma send_req_submit_single_run (base : Z) (ctx : mtk_cipher_ctx) (reqiv : list Z)
    (rctx : mtk_cipher_reqctx) (flags aad authsize datalen : Z)
    (src dst : list scatterlist) (iv : list Z) (overflow : bool) (offset : Z)
    (k : kstate) (sa : saRecord_s) (l : list sc_desc) :
  rings_sync k -> ring_wf (cdr (dev k)) ->
  sa_mem k !! ctx_sa ctx = Some sa ->
  scatter_plan src dst datalen = Done l -> l <> [] ->
  Z.of_nat (length l) <= ring_free (cdr (dev k)) ->
  let w0 := ring_write (cdr (dev k)) in
  let ssb := u32 (dev_saState_base (dev k) + w0 * sizeof_saState) in
  let sab := u32 (dev_saRecord_base (dev k) + w0 * sizeof_saRecord) in
  exists k',
    send_req_submit base ctx reqiv rctx flags aad authsize datalen src dst iv overflow
      offset true k
    = Done ((0, rctx, Z.of_nat (length l), Z.of_nat (length l)), k')
    /\ (forall j x, l !! j = Some x ->
          cdr_desc (dev k') !! ring_at w0 j = Some (desc_of sab ssb x)
          /\ dma_buf (dev k') !! ring_at w0 j
             = Some (buf_of base w0 (entry_flags true (length l) j)))
    /\ stateIv (saState_at (dev k') w0)
       = send_req_stateIv sa flags overflow reqiv iv (stateIv (saState_at (dev k) w0))
    /\ saRecord (dev k') !! w0
       = Some (send_req_saRecord sa (ctx_aead ctx) flags aad authsize)
    /\ rings_sync k' /\ ring_wf (cdr (dev k'))
    /\ ring_write (cdr (dev k')) = ring_at w0 (length l)
    /\ ring_read (cdr (dev k')) = ring_read (cdr (dev k))
    /\ requests (dev k') = requests (dev k) /\ busy (dev k') = busy (dev k)
    /\ trace k' = trace k /\ allocs k' = allocs k /\ sa_mem k' = sa_mem k.
Proof.
  intros Hsync Hwf Hsa Hplan Hne Hfree w0 ssb sab.
  pose proof Hsync as Hsync'. unfold rings_sync in Hsync'.
  unfold send_req_submit.
  unfold bind at 1, mtk_ring_curr_wptr_index at 1.
  unfold bind at 1, get_dev at 1.
  unfold bind at 1, load_sa at 1. rewrite Hsa.
  unfold bind at 1, modify_dev at 1.
  unfold bind at 1. rewrite set_stateIv_slot_same.
  cbn [negb]. rewrite <- Hsync'. fold w0. fold ssb. fold sab.
  match goal with |- exists k', bind _ _ ?kk = Done _ /\ _ => set (kA := kk) end.
  assert (HdA : cdr (dev kA) = cdr (dev k)) by reflexivity.
  assert (HrA : rdr (dev kA) = rdr (dev k)) by reflexivity.
  assert (HsyncA : rings_sync kA) by (unfold rings_sync; rewrite HdA, HrA; exact Hsync).
  assert (HwfA : ring_wf (cdr (dev kA))) by (rewrite HdA; exact Hwf).
  destruct (mtk_scatter_combine_run sab ssb src dst datalen true base kA l
              HsyncA HwfA Hplan Hne) as (k' & Hrun & Hsub).
  { rewrite HdA. exact Hfree. }
  unfold bind at 1. rewrite Hrun. cbv beta iota.
  exists k'. split; [reflexivity|].
  destruct (submitted_state _ _ _ _ _ _ _ Hsub Hne)
    as (Hsync2 & Hwf2 & Hw2 & Hr2 & Hf2 & Hsame2 & Hout2).
  destruct Hsame2 as (HsS & HsR & HsM & HsT & HsA & HsQ & HsB & HsSb & HsRb).
  split_and!; try assumption.
  - intros j x Hj.
    assert (Hjl : (j < length l)%nat) by (apply lookup_lt_is_Some; eauto).
    pose proof (submitted_cdr_desc _ _ _ _ _ _ _ _ _ Hsub Hj) as Hc.
    pose proof (submitted_dma_buf _ _ _ _ _ _ _ j Hsub Hjl) as Hb.
    change (ring_write (cdr (dev kA))) with w0 in Hc, Hb.
    change (ring_write (rdr (dev kA))) with (ring_write (rdr (dev k))) in Hb.
    rewrite <- Hsync' in Hb. split; assumption.
  - unfold saState_at. rewrite HsS. simpl. rewrite lookup_insert_eq. reflexivity.
  - rewrite HsR. simpl. apply lookup_insert_eq.
Qed.
(** ** Lists with the same segmentation *)

(** Passes of the descriptor loop after the first, both cursors due to
    move on. *)
Lemma sc_plan_same_seg_next (src dst : list scatterlist) :
  forall (fuel : nat) (ps pd : scatterlist) (ri ro oi oo sa da n : Z),
    (length src < fuel)%nat ->
    0 < n < 2 ^ 32 ->
    Forall (fun s => 0 < sg_dma_len s) src ->
    map sg_dma_len src = map sg_dma_len dst ->
    n <= sum_len src ->
    sc_plan fuel (ps :: src) (pd :: dst) ri ro oi oo sa da true true n
    = Done (same_seg_plan src dst n).
Proof.
  revert dst.
  induction src as [|s src IH];
    intros dst fuel ps pd ri ro oi oo sa da n Hfuel Hn Hpos Hmap Hsum.
  - simpl in Hsum. lia.
  - destruct dst as [|d dst]; [discriminate|].
    simpl in Hmap. injection Hmap as Hsd Hmap.
    apply Forall_cons in Hpos as [Hs Hpos].
    destruct fuel as [|fuel]; [simpl in Hfuel; lia|].
    simpl in Hsum. simpl in Hfuel.
    cbn [sc_plan sc_advance tail same_seg_plan]. rewrite <- Hsd.
    assert (Hmin : 0 < Z.min (sg_dma_len s) n) by lia.
    destruct (Z.min (sg_dma_len s) n =? 0) eqn:E0; [apply Z.eqb_eq in E0; lia|].
    rewrite Z.eqb_refl.
    assert (Hu : u32 (n - Z.min (sg_dma_len s) n) = n - Z.min (sg_dma_len s) n)
      by (unfold u32; apply Z.mod_small; lia).
    rewrite Hu.
    destruct (n - Z.min (sg_dma_len s) n =? 0) eqn:E; [reflexivity|].
    apply Z.eqb_neq in E.
    rewrite IH; [reflexivity | lia | lia | exact Hpos | exact Hmap |].
    unfold sg_dma_len in *. lia.
Qed.

Lemma scatter_plan_same_seg (src dst : list scatterlist) (n : Z) :
  0 < n < 2 ^ 32 ->
  Forall (fun s => 0 < sg_dma_len s) src ->
  map sg_dma_len src = map sg_dma_len dst ->
  n <= sum_len src ->
  scatter_plan src dst n = Done (same_seg_plan src dst n).
Proof.
  intros Hn Hpos Hmap Hsum. unfold scatter_plan.
  destruct src as [|s src]; [simpl in Hsum; lia|].
  destruct dst as [|d dst]; [discriminate|].
  simpl in Hmap. injection Hmap as Hsd Hmap.
  apply Forall_cons in Hpos as [Hs Hpos]. simpl in Hsum.
  cbn [length Nat.add sc_plan sc_advance same_seg_plan]. rewrite <- Hsd.
  rewrite Z.eqb_refl.
  assert (Hu : u32 (n - Z.min (sg_dma_len s) n) = n - Z.min (sg_dma_len s) n)
    by (unfold u32; apply Z.mod_small; lia).
  rewrite Hu.
  destruct (n - Z.min (sg_dma_len s) n =? 0) eqn:E; [reflexivity|].
  apply Z.eqb_neq in E.
  rewrite sc_plan_same_seg_next; [reflexivity | | lia | exact Hpos | exact Hmap |].
  - simpl. lia.
  - unfold sg_dma_len in *. lia.
Qed.

Lemma same_seg_plan_length (src dst : list scatterlist) :
  forall n, (length (same_seg_plan src dst n) <= length src)%nat.
Proof.
  revert dst. induction src as [|s src IH]; intros dst n; simpl; [lia|].
  destruct dst as [|d dst]; simpl; [lia|].
  destruct (n - Z.min (sg_dma_len s) n =? 0); simpl; [lia|].
  specialize (IH dst (n - Z.min (sg_dma_len s) n)). lia.
Qed.

Lemma same_seg_plan_nonempty (src dst : list scatterlist) (n : Z) :
  src <> [] -> length src = length dst -> same_seg_plan src dst n <> [].
Proof.
  destruct src as [|s src]; [contradiction|].
  destruct dst as [|d dst]; [discriminate|]. discriminate.
Qed.

(** Descriptor [j] of the plan: segment [j] of either list, the bytes that
    are still to go at that point cut to the segment. *)
Lemma same_seg_plan_lookup (src dst : list scatterlist) :
  forall (n : Z) (j : nat) (x : sc_desc),
    same_seg_plan src dst n !! j = Some x ->
    exists s d,
      src !! j = Some s /\ dst !! j = Some d
      /\ pd_saddr x = sg_dma_address s /\ pd_offsetin x = 0
      /\ pd_daddr x = sg_dma_address d /\ pd_offsetout x = 0
      /\ pd_len x = Z.min (sg_dma_len s) (n - sum_len (take j src)).
Proof.
  revert dst. induction src as [|s src IH]; intros dst n j x Hj; simpl in Hj.
  - rewrite lookup_nil in Hj. discriminate.
  - destruct dst as [|d dst]; [rewrite lookup_nil in Hj; discriminate|].
    destruct j as [|j].
    + simpl in Hj. injection Hj as <-. exists s, d. simpl.
      rewrite Z.sub_0_r. auto 10.
    + simpl in Hj.
      destruct (n - Z.min (sg_dma_len s) n =? 0) eqn:E;
        [rewrite lookup_nil in Hj; discriminate|].
      apply Z.eqb_neq in E.
      destruct (IH dst _ j x Hj) as (s' & d' & Hs & Hd & H1 & H2 & H3 & H4 & H5).
      exists s', d'. simpl. split_and!; try assumption.
      rewrite H5. f_equal. unfold sg_dma_len in *. lia.
Qed.

Lemma sum_len_pos (sg : list scatterlist) :
  Forall (fun s => 0 < sg_dma_len s) sg -> sg <> [] -> 0 < sum_len sg.
Proof.
  intros H Hne. destruct H as [|s sg Hs Hrest]; [contradiction|].
  assert (0 <= sum_len sg).
  { apply sum_len_nonneg. eapply Forall_impl; [exact Hrest|].
    intros a Ha. unfold sg_dma_len in Ha. lia. }
  unfold sg_dma_len in Hs. simpl. lia.
Qed.

Lemma same_seg_plan_cons (s d : scatterlist) (src dst : list scatterlist) (n : Z) :
  same_seg_plan (s :: src) (d :: dst) n
  = {| pd_saddr := sg_dma_address s; pd_offsetin := 0;
       pd_daddr := sg_dma_address d; pd_offsetout := 0;
       pd_len := Z.min (sg_dma_len s) n |}
    :: (if n - Z.min (sg_dma_len s) n =? 0 then []
        else same_seg_plan src dst (n - Z.min (sg_dma_len s) n)).
Proof. reflexivity. Qed.

(** When the lists hold exactly [n] bytes every segment gets a descriptor. *)
Lemma same_seg_plan_exact (src dst : list scatterlist) :
  forall n,
    Forall (fun s => 0 < sg_dma_len s) src ->
    length src = length dst ->
    sum_len src = n ->
    length (same_seg_plan src dst n) = length src.
Proof.
  revert dst. induction src as [|s src IH]; intros dst n Hpos Hlen Hsum; [reflexivity|].
  destruct dst as [|d dst]; [discriminate|].
  apply Forall_cons in Hpos as [Hs Hpos]. simpl in Hsum, Hlen.
  rewrite same_seg_plan_cons. unfold sg_dma_len in *.
  destruct (n - Z.min (sg_length s) n =? 0) eqn:E.
  - apply Z.eqb_eq in E. destruct src as [|s' src]; [reflexivity|].
    pose proof (sum_len_pos (s' :: src) Hpos ltac:(discriminate)). lia.
  - cbn [length]. f_equal. apply IH; [exact Hpos | lia |].
    pose proof (sum_len_nonneg src) as Hnn.
    assert (0 <= sum_len src).
    { apply Hnn. eapply Forall_impl; [exact Hpos|]. intros a Ha.
      unfold sg_dma_len in Ha. lia. }
    lia.
Qed.

Lemma same_seg_plan_pos (src dst : list scatterlist) :
  forall n,
    0 < n -> Forall (fun s => 0 < sg_dma_len s) src ->
    Forall (fun x => 0 < pd_len x) (same_seg_plan src dst n).
Proof.
  revert dst. induction src as [|s src IH]; intros dst n Hn Hpos; [constructor|].
  destruct dst as [|d dst]; [constructor|].
  apply Forall_cons in Hpos as [Hs Hpos]. rewrite same_seg_plan_cons.
  constructor; [simpl; lia|].
  destruct (n - Z.min (sg_dma_len s) n =? 0) eqn:E; [constructor|].
  apply Z.eqb_neq in E. apply IH; [lia | exact Hpos].
Qed.

(** X6: when source and destination have the same segment lengths (an
    in-place request, or two bounce buffers), [mtk_scatter_combine] issues
    one descriptor per segment until [datalen] bytes are covered: descriptor
    [j] goes from the bus address of source segment [j] to that of
    destination segment [j]; its length field holds the length of the
    segment, or what is left of [datalen] when that is less, cut to the 20
    bits of the field, which is that length itself for a segment shorter
    than 2^20 bytes.  Lists that hold exactly [datalen] bytes get one
    descriptor for every segment. *)
Theorem mtk_scatter_combine_same_segments (sab ssb : Z) (sgsrc sgdst : list scatterlist)
    (datalen : Z) (complete : bool) (areq : Z) (k : kstate) :
  0 < datalen < 2 ^ 32 ->
  Forall (fun s => 0 < sg_dma_len s) sgsrc ->
  map sg_dma_len sgsrc = map sg_dma_len sgdst ->
  datalen <= sum_len sgsrc ->
  rings_sync k -> ring_wf (cdr (dev k)) ->
  Z.of_nat (length sgsrc) <= ring_free (cdr (dev k)) ->
  exists c k',
    mtk_scatter_combine sab ssb sgsrc sgdst datalen complete areq k
      = Done ((0, Z.of_nat c, Z.of_nat c), k')
    /\ (1 <= c <= length sgsrc)%nat
    /\ (sum_len sgsrc = datalen -> c = length sgsrc)
    /\ (forall j, (j < c)%nat ->
          exists s d x,
            sgsrc !! j = Some s /\ sgdst !! j = Some d
            /\ cdr_desc (dev k') !! ring_at (ring_write (cdr (dev k))) j = Some x
            /\ srcAddr x = u32 (sg_dma_address s)
            /\ dstAddr x = u32 (sg_dma_address d)
            /\ len_length x
               = bitfield PE_LENGTH_BITS
                   (Z.min (sg_dma_len s) (datalen - sum_len (take j sgsrc)))
            /\ (sg_dma_len s < 2 ^ PE_LENGTH_BITS ->
                len_length x = Z.min (sg_dma_len s) (datalen - sum_len (take j sgsrc)))).
Proof.
  intros Hn Hpos Hmap Hsum Hsync Hwf Hfree.
  pose proof (scatter_plan_same_seg sgsrc sgdst datalen Hn Hpos Hmap Hsum) as Hplan.
  assert (Hlen : length sgsrc = length sgdst).
  { rewrite <- (length_map sg_dma_len sgsrc), Hmap. apply length_map. }
  assert (Hne0 : sgsrc <> []) by (intros ->; simpl in Hsum; lia).
  pose proof (same_seg_plan_nonempty sgsrc sgdst datalen Hne0 Hlen) as Hne.
  pose proof (same_seg_plan_length sgsrc sgdst datalen) as Hle.
  destruct (mtk_scatter_combine_run sab ssb sgsrc sgdst datalen complete areq k _
              Hsync Hwf Hplan Hne) as (k' & Hrun & Hsub); [lia|].
  exists (length (same_seg_plan sgsrc sgdst datalen)), k'.
  split; [exact Hrun|]. split.
  { destruct (same_seg_plan sgsrc sgdst datalen); [contradiction | simpl in *; lia]. }
  split; [intros Hex; apply same_seg_plan_exact; assumption|].
  intros j Hj.
  destruct (lookup_lt_is_Some_2 _ j Hj) as [x Hx].
  destruct (same_seg_plan_lookup _ _ _ _ _ Hx) as (s & d & Hs & Hd & H1 & H2 & H3 & H4 & H5).
  exists s, d, (desc_of sab ssb x).
  split; [exact Hs|]. split; [exact Hd|].
  split; [apply (submitted_cdr_desc _ _ _ _ _ _ _ _ _ Hsub Hx)|].
  assert (Hpx : 0 < pd_len x).
  { pose proof (same_seg_plan_pos sgsrc sgdst datalen ltac:(lia) Hpos) as Hall.
    rewrite Forall_lookup in Hall. exact (Hall j x Hx). }
  unfold desc_of. simpl. rewrite H1, H2, H3, H4, H5, !Z.add_0_r.
  split; [reflexivity|]. split; [reflexivity|]. split; [reflexivity|].
  intros Hsmall. apply bitfield_small. rewrite H5 in Hpx. lia.
Qed.

Lemma mtk_scatter_combine_same_segments_witness :
  exists c k',
    mtk_scatter_combine 131072 65536 (sg_chain 256 16384 [16; 32])
      (sg_chain 512 32768 [16; 32]) 48 true 7 k_idle
    = Done ((0, Z.of_nat c, Z.of_nat c), k')
    /\ c = 2%nat.
Proof.
  destruct (mtk_scatter_combine_same_segments 131072 65536 (sg_chain 256 16384 [16; 32])
              (sg_chain 512 32768 [16; 32]) 48 true 7 k_idle)
    as (c & k' & Hrun & _ & Hc & _).
  - lia.
  - repeat constructor.
  - reflexivity.
  - simpl. lia.
  - reflexivity.
  - unfold ring_wf, MTK_RING_SIZE. simpl. lia.
  - vm_compute. discriminate.
  - exists c, k'. split; [exact Hrun|]. apply Hc. reflexivity.
Defined.

(** X7: asked for 0 bytes, [mtk_scatter_combine] still runs its loop body
    once: it issues one descriptor of length 0 at the heads of the two
    lists and flags it as the last one of a submission (and as the
    finishing one when [complete] is set). *)
Theorem mtk_scatter_combine_zero_length (sab ssb : Z) (s d : scatterlist)
    (src dst : list scatterlist) (complete : bool) (areq : Z) (k : kstate) :
  0 <= sg_dma_len s -> 0 <= sg_dma_len d ->
  rings_sync k -> ring_wf (cdr (dev k)) ->
  0 < ring_free (cdr (dev k)) ->
  exists k' x,
    mtk_scatter_combine sab ssb (s :: src) (d :: dst) 0 complete areq k
      = Done ((0, 1, 1), k')
    /\ cdr_desc (dev k') !! ring_write (cdr (dev k)) = Some x
    /\ len_length x = 0
    /\ srcAddr x = u32 (sg_dma_address s) /\ dstAddr x = u32 (sg_dma_address d)
    /\ buf_flags (buf_at (dev k') (ring_write (cdr (dev k)))) = last_flags complete.
Proof.
  intros Hs Hd Hsync Hwf Hfree.
  set (x := {| pd_saddr := sg_dma_address s; pd_offsetin := 0;
               pd_daddr := sg_dma_address d; pd_offsetout := 0; pd_len := 0 |}).
  assert (Hplan : scatter_plan (s :: src) (d :: dst) 0 = Done [x]).
  { unfold scatter_plan. cbn [length Nat.add sc_plan sc_advance].
    replace (Z.min (sg_dma_len s) 0) with 0 by lia.
    replace (Z.min (sg_dma_len d) 0) with 0 by lia.
    reflexivity. }
  destruct (mtk_scatter_combine_run sab ssb (s :: src) (d :: dst) 0 complete areq k [x]
              Hsync Hwf Hplan ltac:(discriminate)) as (k' & Hrun & Hsub);
    [simpl; lia|].
  exists k', (desc_of sab ssb x). split; [exact Hrun|].
  pose proof (submitted_cdr_desc _ _ _ _ _ _ _ 0%nat x Hsub eq_refl) as Hc.
  pose proof (submitted_dma_buf _ _ _ _ _ _ _ 0%nat Hsub ltac:(simpl; lia)) as Hb.
  rewrite ring_at_0 in Hc, Hb by apply Hwf.
  split; [exact Hc|]. unfold buf_at. rewrite Hb. simpl.
  rewrite !Z.add_0_r. auto.
Qed.

Lemma mtk_scatter_combine_zero_length_witness :
  exists k' x,
    mtk_scatter_combine 131072 65536 (sg_chain 256 16384 [16]) (sg_chain 512 32768 [16]) 0
      true 7 k_idle = Done ((0, 1, 1), k')
    /\ cdr_desc (dev k') !! 0 = Some x /\ len_length x = 0.
Proof.
  destruct (mtk_scatter_combine_zero_length 131072 65536
              {| sg_addr := 256; sg_page := 16384; sg_offset := 0; sg_length := 16;
                 sg_dma_address := 16384; sg_data := replicate 16 0 |}
              {| sg_addr := 512; sg_page := 32768; sg_offset := 0; sg_length := 16;
                 sg_dma_address := 32768; sg_data := replicate 16 0 |}
              [] [] true 7 k_idle)
    as (k' & x & Hrun & Hc & Hl & _).
  - simpl. lia.
  - simpl. lia.
  - reflexivity.
  - unfold ring_wf, MTK_RING_SIZE. simpl. lia.
  - vm_compute. reflexivity.
  - exists k', x. split; [exact Hrun|]. split; [exact Hc | exact Hl].
Defined.
(** ** The reaper over one submission *)

(** One pass of the loop over rings that are in step and not empty. *)
Lemma reap_loop_forward_step (fuel : nat) (hw : Z -> hw_rdesc) (nreq : Z) (v : reap_vars)
    (k : kstate) :
  rv_ndesc v < nreq ->
  rings_sync k ->
  ring_write (cdr (dev k)) <> ring_read (cdr (dev k)) ->
  reap_loop (S fuel) hw nreq v k
  = if rv_last_entry (reap_vars_next hw k v) then
      Done (reap_vars_next hw k v, reap_state_next hw k)
    else reap_loop fuel hw nreq (reap_vars_next hw k v) (reap_state_next hw k).
Proof.
  intros Hlt Hsync Hne. unfold rings_sync in Hsync.
  apply Z.ltb_lt in Hlt. apply Z.eqb_neq in Hne.
  cbn [reap_loop]. rewrite Hlt. cbn [negb].
  unfold bind at 1, get_dev at 1. unfold mtk_ring_next_rptr.
  rewrite <- Hsync, Hne.
  unfold bind at 1, modify_dev at 1.
  unfold reap_vars_next, reap_state_next.
  destruct (negb (rd_errStatus (hw (ring_read (cdr (dev k)))) =? 0)) eqn:Herr.
  - unfold bind at 1. unfold bind at 1, emit at 1. unfold ret at 1.
    unfold bind at 1, get_dev at 1. cbn [dev set_dev cdr set_rdr]. rewrite Hne.
    unfold bind at 1, modify_dev at 1. unfold bind at 1, clear_flags, modify_dev.
    cbn [dev set_dev cdr set_rdr set_cdr buf_at dma_buf rv_last_entry].
    unfold reaped, buf_at. rewrite <- Hsync.
    destruct (if flag_set _ MTK_DESC_LAST then true else rv_last_entry v); reflexivity.
  - unfold bind at 1. unfold ret at 1.
    unfold bind at 1, get_dev at 1. cbn [dev set_dev cdr set_rdr]. rewrite Hne.
    unfold bind at 1, modify_dev at 1. unfold bind at 1, clear_flags, modify_dev.
    cbn [dev set_dev cdr set_rdr set_cdr buf_at dma_buf rv_last_entry].
    unfold reaped, buf_at. rewrite <- Hsync.
    destruct (if flag_set _ MTK_DESC_LAST then true else rv_last_entry v); reflexivity.
Qed.

Lemma ring_used_nonempty (r : mtk_desc_ring) :
  ring_wf r -> 0 < ring_used r -> ring_write r <> ring_read r.
Proof.
  intros [Hw Hr] Hu E. unfold ring_used in Hu. rewrite E, Z.sub_diag in Hu.
  change (0 mod MTK_RING_SIZE) with 0 in Hu. lia.
Qed.

Lemma ring_used_range (r : mtk_desc_ring) : 0 <= ring_used r < MTK_RING_SIZE.
Proof. unfold ring_used. apply Z.mod_pos_bound. reflexivity. Qed.

Lemma ring_used_succ (r : mtk_desc_ring) :
  ring_wf r -> 0 < ring_used r ->
  ring_used {| ring_write := ring_write r; ring_read := ring_succ (ring_read r) |}
  = ring_used r - 1.
Proof.
  intros [Hw Hr] Hu. unfold ring_used in *. simpl.
  rewrite ring_succ_mod by exact Hr. unfold MTK_RING_SIZE in *.
  Z.div_mod_to_equations. lia.
Qed.

Lemma reap_state_next_facts (hw : Z -> hw_rdesc) (k : kstate) :
  rings_sync k -> ring_wf (cdr (dev k)) -> 0 < ring_used (cdr (dev k)) ->
  rings_sync (reap_state_next hw k)
  /\ ring_wf (cdr (dev (reap_state_next hw k)))
  /\ ring_read (cdr (dev (reap_state_next hw k))) = ring_succ (ring_read (cdr (dev k)))
  /\ ring_write (cdr (dev (reap_state_next hw k))) = ring_write (cdr (dev k))
  /\ ring_used (cdr (dev (reap_state_next hw k))) = ring_used (cdr (dev k)) - 1.
Proof.
  intros Hsync Hwf Hu. unfold rings_sync in *.
  unfold reap_state_next, reaped. cbn [dev cdr rdr set_dma_buf set_cdr set_rdr].
  rewrite <- Hsync. split; [reflexivity|].
  split; [apply (reaped_wf k Hwf)|]. split; [reflexivity|]. split; [reflexivity|].
  apply ring_used_succ; assumption.
Qed.

Lemma last_flags_last (complete : bool) :
  flag_set (last_flags complete) MTK_DESC_LAST = true.
Proof. destruct complete; reflexivity. Qed.

Lemma last_flags_finish (complete : bool) :
  flag_set (last_flags complete) MTK_DESC_FINISH = complete.
Proof. destruct complete; reflexivity. Qed.

Lemma existsb_seq_shift (f : nat -> bool) (c : nat) :
  forall start, existsb f (seq (S start) c) = existsb (fun j => f (S j)) (seq start c).
Proof.
  induction c as [|c IH]; intros start; simpl; [reflexivity|].
  rewrite IH. reflexivity.
Qed.

Lemma any_err_S (hw : Z -> hw_rdesc) (r : Z) (c : nat) :
  0 <= r < MTK_RING_SIZE ->
  any_err hw r (S c)
  = negb (rd_errStatus (hw r) =? 0) || any_err hw (ring_succ r) c.
Proof.
  intros Hr. unfold any_err. cbn [seq existsb]. rewrite ring_at_0 by exact Hr.
  f_equal. rewrite existsb_seq_shift.
  induction (seq 0 c) as [|j l IH]; simpl; [reflexivity|].
  rewrite ring_at_succ by exact Hr. rewrite IH. reflexivity.
Qed.

(** The loop over the [c] entries of one submission that wait at the read
    index: it retires all of them and stops at the last. *)
Lemma reap_loop_submission (hw : Z -> hw_rdesc) (nreq : Z) (complete : bool) :
  forall (c fuel : nat) (v : reap_vars) (k : kstate),
    (0 < c)%nat -> (c <= fuel)%nat ->
    rv_ndesc v + Z.of_nat c <= nreq ->
    rv_last_entry v = false ->
    rings_sync k -> ring_wf (cdr (dev k)) ->
    Z.of_nat c <= ring_used (cdr (dev k)) ->
    (forall j, (j < c)%nat ->
       buf_flags (buf_at (dev k) (ring_at (ring_read (cdr (dev k))) j))
       = entry_flags complete c j) ->
    exists v' k',
      reap_loop fuel hw nreq v k = Done (v', k')
      /\ rv_ndesc v' = rv_ndesc v + Z.of_nat c
      /\ rv_last_entry v' = true
      /\ rv_should_complete v' = complete || rv_should_complete v
      /\ rv_buf v'
         = Some (buf_at (dev k) (ring_at (ring_read (cdr (dev k))) (c - 1)))
      /\ rv_ret v'
         = (if any_err hw (ring_read (cdr (dev k))) c then - EINVAL else rv_ret v)
      /\ (any_err hw (ring_read (cdr (dev k))) c = false -> trace k' = trace k)
      /\ retired c k k'.
Proof.
  induction c as [|c IH]; intros fuel v k Hc Hfuel Hn Hlast Hsync Hwf Hused Hflags; [lia|].
  destruct fuel as [|fuel]; [lia|].
  pose proof (ring_used_range (cdr (dev k))) as Hur. unfold MTK_RING_SIZE in Hur.
  assert (Hne : ring_write (cdr (dev k)) <> ring_read (cdr (dev k)))
    by (apply ring_used_nonempty; [exact Hwf | lia]).
  rewrite reap_loop_forward_step by (assumption || lia).
  pose proof (Hflags 0%nat ltac:(lia)) as H0. rewrite ring_at_0 in H0 by apply Hwf.
  destruct (reap_state_next_facts hw k Hsync Hwf ltac:(lia))
    as (Hsync1 & Hwf1 & Hr1 & Hw1 & Hu1).
  destruct Hwf as [Hww Hwr].
  rewrite any_err_S by exact Hwr.
  set (r := ring_read (cdr (dev k))) in *.
  destruct c as [|c].
  - (* the only entry *)
    unfold reap_vars_next. cbn [rv_last_entry]. fold r. rewrite H0.
    unfold entry_flags. cbn [Nat.sub Nat.eqb].
    rewrite last_flags_last, last_flags_finish.
    eexists _, _. split; [reflexivity|]. cbn [rv_ndesc rv_last_entry rv_should_complete
      rv_buf rv_ret]. fold r.
    split; [lia|]. split; [reflexivity|].
    split; [destruct complete; reflexivity|].
    split; [cbn [Nat.sub]; rewrite ring_at_0 by exact Hwr; reflexivity|].
    unfold any_err at 1 2. cbn [seq existsb]. rewrite orb_false_r.
    split; [reflexivity|].
    split.
    { intros He. unfold reap_state_next. cbn [trace]. fold r. rewrite He. reflexivity. }
    unfold retired. fold r.
    split; [exact Hsync1|]. split; [exact Hwf1|].
    split; [rewrite Hr1, ring_succ_mod by exact Hwr; reflexivity|].
    split; [exact Hw1|]. split; [rewrite Hu1; lia|].
    split.
    { intros j Hj. assert (j = 0%nat) by lia. subst j.
      rewrite ring_at_0 by exact Hwr. unfold reap_state_next, reaped, buf_at.
      cbn [dev dma_buf set_dma_buf]. fold r. rewrite lookup_insert_eq. reflexivity. }
    split.
    { intros i Hi. specialize (Hi 0%nat ltac:(lia)). rewrite ring_at_0 in Hi by exact Hwr.
      unfold reap_state_next, reaped. cbn [dev dma_buf set_dma_buf]. fold r.
      rewrite lookup_insert_ne by auto. reflexivity. }
    unfold reap_state_next, reaped. cbn. auto 10.
  - (* more entries follow *)
    assert (Hl0 : flag_set (buf_flags (buf_at (dev k) r)) MTK_DESC_LAST = false).
    { rewrite H0, flag_set_entry_last by lia. reflexivity. }
    assert (Hf0 : flag_set (buf_flags (buf_at (dev k) r)) MTK_DESC_FINISH = false).
    { rewrite H0, flag_set_entry_finish. reflexivity. }
    unfold reap_vars_next at 1. cbn [rv_last_entry]. fold r. rewrite Hl0, Hlast.
    set (v1 := reap_vars_next hw k v). set (k1 := reap_state_next hw k) in *.
    assert (Hflags1 : forall j, (j < S c)%nat ->
              buf_flags (buf_at (dev k1) (ring_at (ring_read (cdr (dev k1))) j))
              = entry_flags complete (S c) j).
    { intros j Hj. rewrite Hr1. fold r. rewrite ring_at_succ by exact Hwr.
      unfold k1, reap_state_next. cbn [dev]. rewrite buf_at_reaped. fold r.
      destruct (decide (ring_at r (S j) = r)) as [E|_].
      - rewrite <- (ring_at_0 r) in E at 2 by exact Hwr.
        apply ring_at_inj in E; lia.
      - rewrite Hflags by lia. rewrite entry_flags_shift by lia.
        replace (S (S c) - 1)%nat with (S c) by lia. reflexivity. }
    destruct (IH fuel v1 k1) as (v' & k' & Hrun & Hnd & Hle & Hsc & Hbuf & Hret & Htr & Hret');
      try assumption; try lia.
    { unfold v1, reap_vars_next. cbn [rv_ndesc]. lia. }
    { unfold v1, reap_vars_next. cbn [rv_last_entry]. fold r. rewrite Hl0. exact Hlast. }
    exists v', k'. split; [exact Hrun|].
    rewrite Hr1 in Hbuf, Hret, Htr. fold r in Hbuf, Hret, Htr.
    split; [rewrite Hnd; unfold v1, reap_vars_next; cbn [rv_ndesc]; lia|].
    split; [exact Hle|].
    split; [rewrite Hsc; unfold v1, reap_vars_next; cbn [rv_should_complete]; fold r;
            rewrite Hf0; reflexivity|].
    split.
    { rewrite Hbuf. f_equal. rewrite ring_at_succ by exact Hwr.
      replace (S (S c - 1)) with (S (S c) - 1)%nat by lia.
      unfold k1, reap_state_next, buf_at, reaped. cbn [dev dma_buf set_dma_buf]. fold r.
      rewrite lookup_insert_ne; [reflexivity|].
      intros E. rewrite <- (ring_at_0 r) in E at 1 by exact Hwr.
      apply ring_at_inj in E; lia. }
    split.
    { rewrite Hret. unfold v1, reap_vars_next. cbn [rv_ret]. fold r.
      destruct (negb (rd_errStatus (hw r) =? 0)); cbn [orb]; [|reflexivity].
      destruct (any_err hw (ring_succ r) (S c)); reflexivity. }
    split.
    { intros He. apply orb_false_iff in He as [He0 He1].
      rewrite (Htr He1). unfold k1, reap_state_next. cbn [trace]. fold r.
      rewrite He0. reflexivity. }
    destruct Hret' as (Hs' & Hwf' & Hr' & Hw' & Hu' & Hin' & Hout' & Hrest').
    rewrite Hr1 in Hr', Hin', Hout'. fold r in Hr', Hin', Hout'.
    unfold retired. fold r.
    split; [exact Hs'|]. split; [exact Hwf'|].
    split; [rewrite Hr'; apply ring_at_succ; exact Hwr|].
    split; [rewrite Hw'; exact Hw1|].
    split; [rewrite Hu', Hu1; lia|].
    split.
    { intros j Hj. destruct j as [|j].
      - rewrite ring_at_0 by exact Hwr.
        assert (Hk1 : buf_at (dev k1) r
                      = {| buf_flags := 0; buf_req := buf_req (buf_at (dev k) r);
                           buf_saPointer := buf_saPointer (buf_at (dev k) r) |}).
        { unfold k1, reap_state_next, reaped, buf_at. cbn [dev dma_buf set_dma_buf].
          fold r. rewrite lookup_insert_eq. reflexivity. }
        unfold buf_at at 1. rewrite Hout'.
        + fold (buf_at (dev k1) r). exact Hk1.
        + intros j Hj' E. rewrite ring_at_succ in E by exact Hwr.
          rewrite <- (ring_at_0 r) in E at 1 by exact Hwr.
          apply ring_at_inj in E; lia.
      - rewrite <- ring_at_succ by exact Hwr. rewrite Hin' by lia.
        rewrite ring_at_succ by exact Hwr.
        assert (Hsame : buf_at (dev k1) (ring_at r (S j)) = buf_at (dev k) (ring_at r (S j))).
        { unfold k1, reap_state_next, reaped, buf_at. cbn [dev dma_buf set_dma_buf].
          fold r. rewrite lookup_insert_ne; [reflexivity|].
          intros E. rewrite <- (ring_at_0 r) in E at 1 by exact Hwr.
          apply ring_at_inj in E; lia. }
        rewrite Hsame. reflexivity. }
    split.
    { intros i Hi. rewrite Hout'.
      - unfold k1, reap_state_next, reaped. cbn [dev dma_buf set_dma_buf]. fold r.
        rewrite lookup_insert_ne; [reflexivity|].
        specialize (Hi 0%nat ltac:(lia)). rewrite ring_at_0 in Hi by exact Hwr. auto.
      - intros j Hj. rewrite ring_at_succ by exact Hwr. apply Hi. lia. }
    destruct Hrest' as (H1 & H2 & H3 & H4 & H5 & H6 & H7).
    rewrite H1, H2, H3, H4, H5, H6, H7. unfold k1, reap_state_next, reaped. cbn. auto 10.
Qed.

(** After its loop the reaper only unmaps, frees and copies: the device is
    the one the loop left, and the counts and the return code are the
    loop's. *)
Lemma mtk_req_result_after (little_endian : bool) (hw : Z -> hw_rdesc) (rd_count : Z)
    (rctx : mtk_cipher_reqctx) (reqsrc reqdst : list scatterlist) (reqiv : list Z)
    (k : kstate) (out : req_result_out) (k' : kstate) :
  mtk_req_result little_endian hw rd_count rctx reqsrc reqdst reqiv k = Done (out, k') ->
  exists v k1,
    reap_loop (Z.to_nat (Z.land rd_count (GENMASK 10 0))) hw
      (Z.land rd_count (GENMASK 10 0))
      {| rv_ndesc := 0; rv_buf := None; rv_should_complete := false;
         rv_last_entry := false; rv_ret := 0; rv_tries := [] |} k = Done (v, k1)
    /\ dev_sa_allocs k' = dev_sa_allocs k1
    /\ out_ndesc out = rv_ndesc v
    /\ out_should_complete out = rv_should_complete v
    /\ out_ret out = rv_ret v.
Proof.
  intros H. unfold mtk_req_result in H. cbv zeta in H.
  apply bind_Done in H as (v & k1 & Hloop & H). exists v, k1. split; [exact Hloop|].
  split.
  - match type of H with ?m k1 = _ => assert (F : frame dev_sa_allocs m) end.
    { unfold dma_unmap_sg, mtk_free_sg_cpy, req_result_update_iv. frame_tac. }
    apply (F _ _ _ H).
  - revert H. clear.
    destruct (negb (rv_last_entry v)); [intros H; injection H as <- _; auto|].
    match goal with |- (if ?b then _ else _) _ = _ -> _ => destruct b end; intros H.
    + apply bind_Done in H as (? & ? & _ & H). apply bind_Done in H as (? & ? & _ & H).
      injection H as <- _. auto.
    + apply bind_Done in H as (? & ? & _ & H). apply bind_Done in H as ([? ?] & ? & _ & H).
      destruct (negb (rv_should_complete v)); [injection H as <- _; auto|].
      apply bind_Done in H as (? & ? & _ & H). injection H as <- _. auto.
Qed.

(** The entries of a submission into empty rings, seen from the read
    index. *)
Lemma submitted_reapable (sab ssb areq : Z) (complete : bool) (l : list sc_desc)
    (k k1 : kstate) :
  rings_sync k -> ring_wf (cdr (dev k)) ->
  ring_read (cdr (dev k)) = ring_write (cdr (dev k)) ->
  submitted sab ssb areq complete l k k1 -> l <> [] ->
  rings_sync k1 /\ ring_wf (cdr (dev k1))
  /\ ring_read (cdr (dev k1)) = ring_write (cdr (dev k))
  /\ ring_used (cdr (dev k1)) = Z.of_nat (length l)
  /\ (forall j, (j < length l)%nat ->
        buf_at (dev k1) (ring_at (ring_read (cdr (dev k1))) j)
        = buf_of areq (ring_write (cdr (dev k))) (entry_flags complete (length l) j)).
Proof.
  intros Hsync Hwf Hempty Hsub Hne.
  destruct (submitted_state _ _ _ _ _ _ _ Hsub Hne)
    as (Hsync1 & Hwf1 & Hw1 & Hr1 & Hf1 & _ & _).
  assert (Hlen : (length l < 512)%nat).
  { destruct Hsub as (k0 & Hp & _). apply (pushed_length _ _ _ _ _ _ _ Hp). }
  split; [exact Hsync1|]. split; [exact Hwf1|].
  split; [rewrite Hr1; exact Hempty|].
  split.
  { unfold ring_used. rewrite Hw1, Hr1, Hempty. destruct Hwf as [Hw _].
    unfold ring_at, MTK_RING_SIZE in *. Z.div_mod_to_equations. lia. }
  intros j Hj. rewrite Hr1, Hempty. unfold buf_at.
  rewrite (submitted_dma_buf _ _ _ _ _ _ _ j Hsub Hj).
  unfold rings_sync in Hsync. rewrite <- Hsync. reflexivity.
Qed.

(** X8: submission and retirement fit together.  After [mtk_scatter_combine]
    put [c] descriptors into empty rings, a run of the reaper that is told
    of at least [c] results retires exactly these [c]: it reports [c], it
    signals completion exactly when the submission was flagged as the
    finishing one, its code is [-EINVAL] exactly when one of the [c] result
    descriptors carries an error status, and it leaves the rings empty
    again, in step, with the flags of the [c] side-table entries cleared. *)
Theorem mtk_req_result_reaps_submission (sab ssb : Z) (sgsrc sgdst : list scatterlist)
    (datalen : Z) (complete : bool) (areq : Z) (k : kstate) (c : Z) (k1 : kstate)
    (little_endian : bool) (hw : Z -> hw_rdesc) (rd_count : Z)
    (rctx : mtk_cipher_reqctx) (reqsrc reqdst : list scatterlist) (reqiv : list Z) :
  rings_sync k -> ring_wf (cdr (dev k)) ->
  ring_read (cdr (dev k)) = ring_write (cdr (dev k)) ->
  mtk_scatter_combine sab ssb sgsrc sgdst datalen complete areq k = Done ((0, c, c), k1) ->
  c <= Z.land rd_count (GENMASK 10 0) ->
  exists out k2,
    mtk_req_result little_endian hw rd_count rctx reqsrc reqdst reqiv k1 = Done (out, k2)
    /\ out_ndesc out = c
    /\ out_should_complete out = complete
    /\ out_ret out
       = (if any_err hw (ring_write (cdr (dev k))) (Z.to_nat c) then - EINVAL else 0)
    /\ rings_sync k2
    /\ ring_read (cdr (dev k2)) = ring_write (cdr (dev k2))
    /\ ring_write (cdr (dev k2)) = ring_write (cdr (dev k1))
    /\ (forall j, (j < Z.to_nat c)%nat ->
          buf_flags (buf_at (dev k2) (ring_at (ring_write (cdr (dev k))) j)) = 0).
Proof.
  intros Hsync Hwf Hempty Hrun Hc.
  destruct (mtk_scatter_combine_Done _ _ _ _ _ _ _ _ _ _ _ _ Hsync Hwf Hrun)
    as (l & _ & Hne & _ & _ & -> & _ & Hsub).
  rewrite Nat2Z.id.
  destruct (submitted_reapable _ _ _ _ _ _ _ Hsync Hwf Hempty Hsub Hne)
    as (Hsync1 & Hwf1 & Hr1 & Hu1 & Hfl).
  assert (Hpos : (0 < length l)%nat) by (destruct l; [contradiction | simpl; lia]).
  destruct (reap_loop_submission hw (Z.land rd_count (GENMASK 10 0)) complete (length l)
              (Z.to_nat (Z.land rd_count (GENMASK 10 0)))
              {| rv_ndesc := 0; rv_buf := None; rv_should_complete := false;
                 rv_last_entry := false; rv_ret := 0; rv_tries := [] |} k1)
    as (v & kl & Hloop & Hnd & Hle & Hsc & Hbuf & Hret & _ & Hretired);
    try assumption; try (cbn [rv_ndesc]; lia); try reflexivity.
  { intros j Hj. rewrite (Hfl j Hj). reflexivity. }
  destruct (mtk_req_result_after_loop little_endian hw rd_count rctx reqsrc reqdst reqiv
              k1 v kl Hloop) as (out & k2 & Hres).
  exists out, k2. split; [exact Hres|].
  destruct (mtk_req_result_after _ _ _ _ _ _ _ _ _ _ Hres)
    as (v' & kl' & Hloop' & Hfr & Ho1 & Ho2 & Ho3).
  rewrite Hloop in Hloop'. injection Hloop' as <- <-.
  unfold dev_sa_allocs in Hfr. injection Hfr as Hdev _ _.
  destruct Hretired as (Hs2 & Hwf2 & Hrd2 & Hw2 & Hu2 & Hin2 & _).
  rewrite Hr1 in Hret, Hrd2, Hin2.
  split; [rewrite Ho1, Hnd; cbn [rv_ndesc]; lia|].
  split; [rewrite Ho2, Hsc; cbn [rv_should_complete]; apply orb_false_r|].
  split; [rewrite Ho3, Hret; reflexivity|].
  split; [unfold rings_sync in *; rewrite Hdev; exact Hs2|].
  rewrite Hdev.
  split.
  { rewrite Hrd2, Hw2.
    destruct (submitted_state _ _ _ _ _ _ _ Hsub Hne) as (_ & _ & Hw1 & _).
    rewrite Hw1. reflexivity. }
  split; [exact Hw2|].
  intros j Hj. rewrite (Hin2 j Hj). reflexivity.
Qed.

Lemma mtk_req_result_reaps_submission_witness :
  exists k1 out k2,
    mtk_scatter_combine 131072 65536 (sg_chain 256 16384 [16; 32])
      (sg_chain 512 32768 [8; 8; 32]) 48 true 7 k_idle = Done ((0, 3, 3), k1)
    /\ mtk_req_result true hw_ready 3 (rctx_fresh ctr_flags) (sg_chain 256 16384 [16; 32])
         (sg_chain 512 32768 [8; 8; 32]) (replicate 16 0) k1 = Done (out, k2)
    /\ out_ndesc out = 3 /\ out_should_complete out = true
    /\ ring_read (cdr (dev k2)) = ring_write (cdr (dev k2)).
Proof.
  destruct (mtk_scatter_combine 131072 65536 (sg_chain 256 16384 [16; 32])
              (sg_chain 512 32768 [8; 8; 32]) 48 true 7 k_idle)
    as [[[[r c] rr] k1]| |] eqn:E; [|vm_compute in E; discriminate|vm_compute in E; discriminate].
  assert (Hr : r = 0 /\ c = 3 /\ rr = 3) by (vm_compute in E; injection E as <- <- <- _; auto).
  destruct Hr as (-> & -> & ->).
  destruct (mtk_req_result_reaps_submission 131072 65536 (sg_chain 256 16384 [16; 32])
              (sg_chain 512 32768 [8; 8; 32]) 48 true 7 k_idle 3 k1 true hw_ready 3
              (rctx_fresh ctr_flags) (sg_chain 256 16384 [16; 32])
              (sg_chain 512 32768 [8; 8; 32]) (replicate 16 0))
    as (out & k2 & Hres & Hn & Hs & _ & _ & Hempty & _).
  - reflexivity.
  - unfold ring_wf, MTK_RING_SIZE. simpl. lia.
  - reflexivity.
  - exact E.
  - vm_compute. discriminate.
  - exists k1, out, k2. auto.
Defined.
(** ** Requests that go out in one piece *)

(** [mtk_send_req] on a request that is not subject to the counter test,
    once the buffers are prepared. *)
Lemma mtk_send_req_single_run (base : Z) (ctx : mtk_cipher_ctx)
    (reqsrc reqdst : list scatterlist) (reqiv : list Z) (rctx : mtk_cipher_reqctx)
    (k : kstate) (rctx1 : mtk_cipher_reqctx) (src dst : list scatterlist) (k1 : kstate)
    (sa : saRecord_s) (l : list sc_desc) :
  IS_CTR (rctx_flags rctx) = false \/ IS_RFC3686 (rctx_flags rctx) = true ->
  send_req_prepare ctx reqsrc reqdst rctx k = Done (inr (rctx1, src, dst), k1) ->
  sa_mem k !! ctx_sa ctx = Some sa ->
  rings_sync k -> ring_wf (cdr (dev k)) ->
  scatter_plan src dst (u32 (rctx_assoclen rctx + rctx_textsize rctx)) = Done l ->
  l <> [] ->
  Z.of_nat (length l) <= ring_free (cdr (dev k)) ->
  let flags := rctx_flags rctx in
  let w0 := ring_write (cdr (dev k)) in
  let ssb := u32 (dev_saState_base (dev k) + w0 * sizeof_saState) in
  let sab := u32 (dev_saRecord_base (dev k) + w0 * sizeof_saRecord) in
  let iv := if IS_CBC flags || IS_CTR flags
            then memcpy (replicate 16 0) reqiv AES_BLOCK_SIZE else replicate 16 0 in
  exists k',
    mtk_send_req base ctx reqsrc reqdst reqiv rctx k
    = Done ((0, rctx1, Z.of_nat (length l), Z.of_nat (length l)), k')
    /\ (forall j x, l !! j = Some x ->
          cdr_desc (dev k') !! ring_at w0 j = Some (desc_of sab ssb x)
          /\ dma_buf (dev k') !! ring_at w0 j
             = Some (buf_of base w0 (entry_flags true (length l) j)))
    /\ stateIv (saState_at (dev k') w0)
       = send_req_stateIv sa flags false reqiv iv (stateIv (saState_at (dev k) w0))
    /\ saRecord (dev k') !! w0
       = Some (send_req_saRecord sa (ctx_aead ctx) flags (rctx_assoclen rctx)
                 (rctx_authsize rctx))
    /\ rings_sync k' /\ ring_wf (cdr (dev k'))
    /\ ring_write (cdr (dev k')) = ring_at w0 (length l)
    /\ ring_read (cdr (dev k')) = ring_read (cdr (dev k))
    /\ requests (dev k') = requests (dev k) /\ busy (dev k') = busy (dev k)
    /\ trace k' = trace k1 /\ allocs k' = allocs k1 /\ sa_mem k' = sa_mem k.
Proof.
  intros Hmode Hprep Hsa Hsync Hwf Hplan Hne Hfree flags w0 ssb sab iv.
  pose proof (send_req_prepare_frame _ _ _ _ _ _ _ Hprep) as Hfr.
  unfold dev_and_sa in Hfr. injection Hfr as Hdev Hmem.
  destruct (send_req_prepare_flags _ _ _ _ _ _ _ _ _ Hprep) as (Hfl & _ & _).
  assert (Hover : IS_CTR (rctx_flags rctx1) && negb (IS_RFC3686 (rctx_flags rctx1)) = false).
  { rewrite Hfl. destruct Hmode as [-> | ->]; [reflexivity | apply andb_false_r]. }
  assert (Hsync1 : rings_sync k1) by (unfold rings_sync; rewrite Hdev; exact Hsync).
  assert (Hwf1 : ring_wf (cdr (dev k1))) by (rewrite Hdev; exact Hwf).
  assert (Hsa1 : sa_mem k1 !! ctx_sa ctx = Some sa) by (rewrite Hmem; exact Hsa).
  destruct (send_req_submit_single_run base ctx reqiv rctx1 flags (rctx_assoclen rctx)
              (rctx_authsize rctx) (u32 (rctx_assoclen rctx + rctx_textsize rctx))
              src dst iv false 0 k1 sa l Hsync1 Hwf1 Hsa1 Hplan Hne)
    as (k' & Hrun & Hd & Hiv & Hrec & Hs' & Hw' & Hwr & Hrd & Hq & Hb & Ht & Ha & Hm).
  { rewrite Hdev. exact Hfree. }
  rewrite Hdev in Hd, Hiv, Hrec, Hwr, Hrd, Hq, Hb.
  exists k'. split.
  { unfold mtk_send_req. cbv zeta. unfold bind at 1. rewrite Hprep. cbv beta iota.
    rewrite Hover. unfold ctr_overflow_split. exact Hrun. }
  split_and!; try assumption. congruence.
Qed.

Lemma sg_nents_for_len_loop_pos (sg : list scatterlist) :
  forall len nents total,
    0 <= nents -> len <= total + sum_len sg -> sg <> [] ->
    Forall (fun s => 0 <= sg_length s) sg ->
    0 < sg_nents_for_len_loop sg len nents total.
Proof.
  induction sg as [|s rest IH]; intros len nents total Hn Hlen Hne Hnn; [contradiction|].
  apply Forall_cons in Hnn as [Hs Hnn]. simpl in *.
  destruct (len <=? total + sg_length s) eqn:E; [lia|].
  apply Z.leb_gt in E.
  destruct rest as [|s' rest]; [simpl in Hlen; lia|].
  apply IH; [lia | lia | discriminate | exact Hnn].
Qed.

Lemma sg_nents_for_len_pos (sg : list scatterlist) (len : Z) :
  0 < len <= sum_len sg ->
  Forall (fun s => 0 <= sg_length s) sg ->
  0 < sg_nents_for_len sg len.
Proof.
  intros Hlen Hnn. unfold sg_nents_for_len.
  destruct (len =? 0) eqn:E; [apply Z.eqb_eq in E; lia|].
  apply sg_nents_for_len_loop_pos; [lia | lia | | exact Hnn].
  intros ->. simpl in Hlen. lia.
Qed.

Lemma sg_ptr_eq_refl (sg : list scatterlist) : sg_ptr_eq sg sg = true.
Proof. destruct sg; simpl; [reflexivity | apply Z.eqb_refl]. Qed.

(** Buffer preparation for a plain cipher request on one aligned list used
    in place: no bounce buffer, one bidirectional mapping. *)
Lemma send_req_prepare_in_place (ctx : mtk_cipher_ctx) (sg : list scatterlist)
    (rctx : mtk_cipher_reqctx) (k : kstate) :
  let datalen := u32 (rctx_assoclen rctx + rctx_textsize rctx) in
  let blksize := send_req_blksize (rctx_flags rctx) in
  ctx_aead ctx = false ->
  IS_CTR (rctx_flags rctx) = true \/ rctx_textsize rctx mod blksize = 0 ->
  0 < datalen <= sum_len sg ->
  Forall (fun s => 0 <= sg_length s) sg ->
  mtk_is_sg_aligned sg datalen blksize = true ->
  exists rctx1,
    send_req_prepare ctx sg sg rctx k
    = Done (inr (rctx1, dma_map_entries sg, dma_map_entries sg),
            {| dev := dev k;
               trace := EvDmaMap (head_addr sg) (sg_nents sg) DMA_BIDIRECTIONAL :: trace k;
               allocs := allocs k; sa_mem := sa_mem k |})
    /\ rctx_sg_src rctx1 = [] /\ rctx_sg_dst rctx1 = []
    /\ 0 < rctx_dst_nents rctx1.
Proof.
  intros datalen blksize Haead Hblk Hlen Hnn Hal.
  unfold send_req_prepare. cbv zeta. rewrite Haead. cbn [andb].
  fold datalen. fold blksize.
  assert (Hfirst : negb (IS_CTR (rctx_flags rctx))
                   && negb (IS_ALIGNED (rctx_textsize rctx) blksize) = false).
  { destruct Hblk as [-> | Hmod]; [reflexivity|].
    unfold blksize in *. rewrite IS_ALIGNED_blksize. apply Z.eqb_eq in Hmod.
    rewrite Hmod. apply andb_false_r. }
  rewrite Hfirst, sg_ptr_eq_refl.
  pose proof (sg_nents_for_len_pos sg datalen Hlen Hnn) as Hpos.
  rewrite Z.max_id.
  replace (sg_nents_for_len sg datalen <=? 0) with false
    by (symmetry; apply Z.leb_gt; exact Hpos).
  rewrite andb_false_r, Hal.
  unfold bind at 1, ret at 1. cbn [negb Z.eqb].
  unfold bind at 1, ret at 1. cbn [negb Z.eqb].
  unfold send_req_map. rewrite sg_ptr_eq_refl.
  unfold bind, dma_map_sg, emit, ret. cbn.
  eexists. split; [reflexivity|]. cbn. auto.
Qed.

Lemma dma_map_entries_lookup (sg : list scatterlist) (j : nat) (m : scatterlist) :
  dma_map_entries sg !! j = Some m ->
  exists s, sg !! j = Some s /\ sg_dma_address m = sg_page s + sg_offset s
            /\ sg_dma_len m = sg_length s.
Proof.
  unfold dma_map_entries. rewrite list_lookup_fmap.
  destruct (sg !! j) as [s|]; [|discriminate].
  intros H. injection H as <-. exists s. auto.
Qed.

Lemma dma_map_entries_take (sg : list scatterlist) (j : nat) :
  sum_len (take j (dma_map_entries sg)) = sum_len (take j sg).
Proof.
  revert j. induction sg as [|s sg IH]; intros [|j]; simpl; try reflexivity.
  rewrite IH. reflexivity.
Qed.

(** X9: a plain cipher request (no AEAD) in a mode without counter test,
    given in place on one aligned list, is served without any copy.
    [mtk_send_req] allocates nothing, leaves both bounce pointers NULL, maps
    the list once (bidirectional) and issues one descriptor per segment
    until the data is covered, each reading and writing the caller's own
    buffer at the segment's bus address; its length field holds the length
    of the segment, or what is left of the data when that is less, cut to
    the 20 bits of the field, which is that length itself for a segment
    shorter than 2^20 bytes; the last one is flagged as the end of the
    request. *)
Theorem mtk_send_req_in_place_zero_copy (base : Z) (ctx : mtk_cipher_ctx)
    (sg : list scatterlist) (reqiv : list Z) (rctx : mtk_cipher_reqctx) (k : kstate)
    (sa : saRecord_s) :
  let datalen := u32 (rctx_assoclen rctx + rctx_textsize rctx) in
  let blksize := send_req_blksize (rctx_flags rctx) in
  let w0 := ring_write (cdr (dev k)) in
  ctx_aead ctx = false ->
  IS_CTR (rctx_flags rctx) = false ->
  rctx_textsize rctx mod blksize = 0 ->
  0 < datalen <= sum_len sg ->
  Forall (fun s => 0 < sg_length s) sg ->
  mtk_is_sg_aligned sg datalen blksize = true ->
  sa_mem k !! ctx_sa ctx = Some sa ->
  rings_sync k -> ring_wf (cdr (dev k)) ->
  Z.of_nat (length sg) <= ring_free (cdr (dev k)) ->
  exists (c : nat) rctx1 k',
    mtk_send_req base ctx sg sg reqiv rctx k
    = Done ((0, rctx1, Z.of_nat c, Z.of_nat c), k')
    /\ (1 <= c <= length sg)%nat
    /\ (sum_len sg = datalen -> c = length sg)
    /\ rctx_sg_src rctx1 = [] /\ rctx_sg_dst rctx1 = []
    /\ allocs k' = allocs k
    /\ trace k' = EvDmaMap (head_addr sg) (sg_nents sg) DMA_BIDIRECTIONAL :: trace k
    /\ (forall j, (j < c)%nat ->
          exists s x,
            sg !! j = Some s
            /\ cdr_desc (dev k') !! ring_at w0 j = Some x
            /\ srcAddr x = u32 (sg_page s + sg_offset s)
            /\ dstAddr x = u32 (sg_page s + sg_offset s)
            /\ len_length x
               = bitfield PE_LENGTH_BITS
                   (Z.min (sg_length s) (datalen - sum_len (take j sg)))
            /\ (sg_length s < 2 ^ PE_LENGTH_BITS ->
                len_length x = Z.min (sg_length s) (datalen - sum_len (take j sg)))
            /\ buf_flags (buf_at (dev k') (ring_at w0 j)) = entry_flags true c j).
Proof.
  intros datalen blksize w0 Haead Hctr Hmod Hlen Hpos Hal Hsa Hsync Hwf Hfree.
  assert (Hnn : Forall (fun s => 0 <= sg_length s) sg)
    by (eapply Forall_impl; [exact Hpos | intros a Ha; simpl in Ha; lia]).
  destruct (send_req_prepare_in_place ctx sg rctx k Haead (or_intror Hmod) Hlen Hnn Hal)
    as (rctx1 & Hprep & Hs1 & Hd1 & _).
  set (m := dma_map_entries sg) in *.
  assert (Hmpos : Forall (fun s => 0 < sg_dma_len s) m)
    by (apply dma_map_entries_pos; exact Hpos).
  assert (Hu : 0 < datalen < 2 ^ 32) by (split; [lia | apply u32_range]).
  assert (Hplan : scatter_plan m m datalen = Done (same_seg_plan m m datalen)).
  { apply scatter_plan_same_seg; try assumption; [reflexivity|].
    unfold m. rewrite dma_map_entries_sum. lia. }
  assert (Hmne : m <> []).
  { unfold m. intros E. apply (f_equal sum_len) in E. rewrite dma_map_entries_sum in E.
    simpl in E. lia. }
  pose proof (same_seg_plan_nonempty m m datalen Hmne eq_refl) as Hne.
  pose proof (same_seg_plan_length m m datalen) as Hle.
  assert (Hlm : length m = length sg) by (unfold m; apply dma_map_entries_length).
  rewrite Hlm in Hle.
  destruct (mtk_send_req_single_run base ctx sg sg reqiv rctx k rctx1 m m _ sa _
              (or_introl Hctr) Hprep Hsa Hsync Hwf Hplan Hne)
    as (k' & Hrun & Hdesc & _ & _ & _ & _ & _ & _ & _ & _ & Htr & Hall & _); [lia|].
  exists (length (same_seg_plan m m datalen)), rctx1, k'.
  split; [exact Hrun|]. split.
  { destruct (same_seg_plan m m datalen); [contradiction | simpl in *; lia]. }
  split.
  { intros Hex. rewrite <- Hlm.
    apply same_seg_plan_exact; [exact Hmpos | reflexivity |].
    unfold m. rewrite dma_map_entries_sum. exact Hex. }
  split; [exact Hs1|]. split; [exact Hd1|].
  split; [exact Hall|]. split; [exact Htr|].
  intros j Hj.
  destruct (lookup_lt_is_Some_2 _ j Hj) as [x Hx].
  destruct (same_seg_plan_lookup _ _ _ _ _ Hx) as (s' & d' & Hs & Hd & H1 & H2 & H3 & H4 & H5).
  rewrite Hs in Hd. injection Hd as <-.
  destruct (dma_map_entries_lookup sg j s' Hs) as (s & Hsg & Ha & Hl).
  destruct (Hdesc j x Hx) as [Hc Hb].
  exists s. eexists. split; [exact Hsg|]. split; [exact Hc|].
  assert (Hpx : 0 < pd_len x).
  { pose proof (same_seg_plan_pos m m datalen ltac:(lia) Hmpos) as Hpl.
    rewrite Forall_lookup in Hpl. exact (Hpl j x Hx). }
  unfold desc_of, buf_at, w0. rewrite Hb. simpl.
  rewrite H5 in Hpx. revert Hpx.
  rewrite H1, H2, H3, H4, H5, !Z.add_0_r, Ha, Hl.
  unfold m. rewrite dma_map_entries_take. intros Hpx.
  split; [reflexivity|]. split; [reflexivity|]. split; [reflexivity|].
  split; [|reflexivity].
  intros Hsmall. apply bitfield_small. lia.
Qed.

Lemma mtk_send_req_in_place_zero_copy_witness :
  exists (c : nat) rctx1 k',
    mtk_send_req 7 ctx_skcipher (sg_chain 256 16384 [16; 32]) (sg_chain 256 16384 [16; 32])
      (replicate 16 0)
      (set_rctx_sizes 48 0 0 16 (rctx_fresh (Z.lor (Z.lor MTK_MODE_CBC MTK_ALG_AES) MTK_ENCRYPT)))
      k_idle
    = Done ((0, rctx1, Z.of_nat c, Z.of_nat c), k')
    /\ c = 2%nat /\ allocs k' = allocs k_idle.
Proof.
  destruct (mtk_send_req_in_place_zero_copy 7 ctx_skcipher (sg_chain 256 16384 [16; 32])
              (replicate 16 0)
              (set_rctx_sizes 48 0 0 16
                 (rctx_fresh (Z.lor (Z.lor MTK_MODE_CBC MTK_ALG_AES) MTK_ENCRYPT)))
              k_idle saRecord_zero)
    as (c & rctx1 & k' & Hrun & _ & Hc & _ & _ & Ha & _).
  - reflexivity.
  - reflexivity.
  - reflexivity.
  - vm_compute. split; [reflexivity | discriminate].
  - repeat constructor.
  - reflexivity.
  - reflexivity.
  - reflexivity.
  - unfold ring_wf, MTK_RING_SIZE. simpl. lia.
  - vm_compute. discriminate.
  - exists c, rctx1, k'. split; [exact Hrun|]. split; [apply Hc; reflexivity | exact Ha].
Defined.




(** ** What the reaper does after the last descriptor *)

(** X11: retirement of a request that was served in place without bounce
    buffers.  Once the reaper has drained the entries of the submission it
    unmaps the list (bidirectional, with the entry count kept at submission
    time), copies the IV of the SA state slot named by the last entry into
    the request IV when the mode is CBC or counter mode without RFC3686, and
    calls the completion callback with [-EINPROGRESS] when the request had
    been accepted on a busy ring ([MTK_BUSY]).  No buffer is freed or
    copied. *)
Theorem mtk_req_result_in_place (little_endian : bool) (hw : Z -> hw_rdesc)
    (rd_count : Z) (rctx : mtk_cipher_reqctx) (reqsrc reqdst : list scatterlist)
    (reqiv : list Z) (k : kstate) (c : nat) (complete : bool) :
  let r := ring_read (cdr (dev k)) in
  let last := buf_at (dev k) (ring_at r (c - 1)) in
  let flags := rctx_flags rctx in
  (0 < c)%nat -> Z.of_nat c <= Z.land rd_count (GENMASK 10 0) ->
  rings_sync k -> ring_wf (cdr (dev k)) ->
  Z.of_nat c <= ring_used (cdr (dev k)) ->
  (forall j, (j < c)%nat ->
     buf_flags (buf_at (dev k) (ring_at r j)) = entry_flags complete c j) ->
  any_err hw r c = false ->
  rctx_sg_src rctx = [] -> rctx_sg_dst rctx = [] -> sg_ptr_eq reqsrc reqdst = true ->
  exists out k',
    mtk_req_result little_endian hw rd_count rctx reqsrc reqdst reqiv k = Done (out, k')
    /\ out_ndesc out = Z.of_nat c /\ out_ret out = 0
    /\ out_should_complete out = complete
    /\ out_rctx out = rctx /\ out_reqdst out = reqdst
    /\ out_reqiv out
       = (if negb (IS_RFC3686 flags) && (IS_CBC flags || IS_CTR flags)
          then memcpy reqiv (stateIv (saState_at (dev k) (buf_saPointer last)))
                 (rctx_ivsize rctx)
          else reqiv)
    /\ trace k'
       = (if IS_BUSY flags then [EvComplete (buf_req last) (- EINPROGRESS)] else [])
         ++ EvDmaUnmap (head_addr reqdst) (rctx_dst_nents rctx) DMA_BIDIRECTIONAL
         :: trace k.
Proof.
  intros r last flags Hc Hn Hsync Hwf Hused Hflags Herr Hsrc Hdst Hsame.
  destruct (reap_loop_submission hw (Z.land rd_count (GENMASK 10 0)) complete c
              (Z.to_nat (Z.land rd_count (GENMASK 10 0)))
              {| rv_ndesc := 0; rv_buf := None; rv_should_complete := false;
                 rv_last_entry := false; rv_ret := 0; rv_tries := [] |} k)
    as (v & kl & Hloop & Hnd & Hle & Hsc & Hbuf & Hret & Htr & Hretired);
    try assumption; try (cbn [rv_ndesc]; lia); try reflexivity.
  fold r in Hbuf, Hret, Htr. fold last in Hbuf. rewrite Herr in Hret.
  specialize (Htr Herr).
  destruct Hretired as (_ & _ & _ & _ & _ & _ & _ & _ & HsS & _).
  unfold mtk_req_result. cbv zeta. unfold bind at 1. rewrite Hloop.
  rewrite Hle. cbn [negb]. rewrite Hsrc, Hdst, Hsame. cbn [sg_is_null andb].
  unfold bind at 1, dma_unmap_sg, emit. unfold req_result_update_iv.
  rewrite Hbuf. fold flags.
  destruct (negb (IS_RFC3686 flags) && (IS_CBC flags || IS_CTR flags)) eqn:Hm;
    destruct (IS_BUSY flags) eqn:Hb;
    unfold bind, get_dev, emit, ret; cbn [dev trace];
    (eexists _, _; split; [reflexivity|]);
    cbn [out_ndesc out_ret out_should_complete out_rctx out_reqdst out_reqiv trace];
    rewrite Hnd, Hret, Hsc, Htr; cbn [rv_ndesc rv_ret rv_should_complete];
    unfold saState_at; rewrite ?HsS, ?orb_false_r;
    split_and!; try reflexivity; lia.
Qed.

Lemma mtk_req_result_in_place_witness :
  exists out k',
    mtk_req_result true hw_ready 1
      (set_rctx_sizes 16 0 0 16 (rctx_fresh (Z.lor (Z.lor MTK_MODE_CBC MTK_ALG_AES) MTK_ENCRYPT)))
      (sg_one 256 16384 16) (sg_one 256 16384 16) (replicate 16 0) k_one_pending
    = Done (out, k')
    /\ out_reqiv out = replicate 16 9.
Proof.
  destruct (mtk_req_result_in_place true hw_ready 1
              (set_rctx_sizes 16 0 0 16
                 (rctx_fresh (Z.lor (Z.lor MTK_MODE_CBC MTK_ALG_AES) MTK_ENCRYPT)))
              (sg_one 256 16384 16) (sg_one 256 16384 16) (replicate 16 0) k_one_pending
              1%nat true)
    as (out & k' & Hrun & _ & _ & _ & _ & _ & Hiv & _).
  - lia.
  - vm_compute. discriminate.
  - reflexivity.
  - unfold ring_wf, MTK_RING_SIZE. simpl. lia.
  - vm_compute. discriminate.
  - intros j Hj. assert (j = 0%nat) by lia. subst j. reflexivity.
  - reflexivity.
  - reflexivity.
  - reflexivity.
  - reflexivity.
  - exists out, k'. split; [exact Hrun|]. rewrite Hiv. reflexivity.
Defined.
(** ** Bounce buffers from submission to retirement *)

Lemma mtk_make_sg_cpy_run (src : list scatterlist) (len a t au : Z) (copy : bool)
    (k : kstate) (addr virt : Z) (rest : list (option Z)) :
  allocs k = Some addr :: Some virt :: rest ->
  exists data,
    mtk_make_sg_cpy src len a t au copy k
    = Done ((0, bounce_sg addr virt (s32 (a + t + au)) data),
            {| dev := dev k; trace := trace k; allocs := rest; sa_mem := sa_mem k |})
    /\ (copy = true ->
        take (length (sg_copy_to_buffer src len)) data = sg_copy_to_buffer src len).
Proof.
  intros Hal. unfold mtk_make_sg_cpy, bind, alloc, ret. rewrite Hal. cbn.
  eexists. split; [reflexivity|].
  intros ->. rewrite take_app_length. reflexivity.
Qed.

(** Buffer preparation for an AEAD request: both lists are replaced by
    bounce buffers, whatever their alignment. *)
Lemma send_req_prepare_aead (ctx : mtk_cipher_ctx) (reqsrc reqdst : list scatterlist)
    (rctx : mtk_cipher_reqctx) (k : kstate) (a1 v1 a2 v2 : Z) (rest : list (option Z)) :
  let totallen := s32 (rctx_assoclen rctx + rctx_textsize rctx + rctx_authsize rctx) in
  ctx_aead ctx = true ->
  IS_CTR (rctx_flags rctx) = true
  \/ rctx_textsize rctx mod send_req_blksize (rctx_flags rctx) = 0 ->
  sg_ptr_eq reqsrc reqdst = false ->
  0 < send_req_totlen_src ctx rctx <= sum_len reqsrc ->
  0 < send_req_totlen_dst ctx rctx <= sum_len reqdst ->
  Forall (fun s => 0 <= sg_length s) reqsrc ->
  Forall (fun s => 0 <= sg_length s) reqdst ->
  allocs k = Some a1 :: Some v1 :: Some a2 :: Some v2 :: rest ->
  a1 <> a2 ->
  exists rctx1 d1 d2 k1,
    send_req_prepare ctx reqsrc reqdst rctx k
    = Done (inr (rctx1, dma_map_entries (bounce_sg a1 v1 totallen d1),
                 dma_map_entries (bounce_sg a2 v2 totallen d2)), k1)
    /\ rctx_sg_src rctx1 = bounce_sg a1 v1 totallen d1
    /\ rctx_sg_dst rctx1 = bounce_sg a2 v2 totallen d2
    /\ rctx_flags rctx1 = rctx_flags rctx
    /\ rctx_assoclen rctx1 = rctx_assoclen rctx
    /\ rctx_textsize rctx1 = rctx_textsize rctx
    /\ rctx_authsize rctx1 = rctx_authsize rctx
    /\ rctx_ivsize rctx1 = rctx_ivsize rctx
    /\ dev k1 = dev k /\ sa_mem k1 = sa_mem k /\ allocs k1 = rest
    /\ trace k1 = EvDmaMap a1 1 DMA_TO_DEVICE :: EvDmaMap a2 1 DMA_BIDIRECTIONAL :: trace k.
Proof.
  intros totallen Haead Hblk Hne Hsrc Hdst Hns Hnd Hal Ha.
  unfold send_req_prepare. cbv zeta.
  fold (send_req_totlen_src ctx rctx). fold (send_req_totlen_dst ctx rctx).
  assert (Hfirst : negb (IS_CTR (rctx_flags rctx))
                   && negb (IS_ALIGNED (rctx_textsize rctx)
                              (send_req_blksize (rctx_flags rctx))) = false).
  { destruct Hblk as [-> | Hmod]; [reflexivity|].
    rewrite IS_ALIGNED_blksize. apply Z.eqb_eq in Hmod. rewrite Hmod.
    apply andb_false_r. }
  rewrite Hfirst, Hne, Haead.
  pose proof (sg_nents_for_len_pos reqsrc _ Hsrc Hns) as Hp1.
  pose proof (sg_nents_for_len_pos reqdst _ Hdst Hnd) as Hp2.
  replace (sg_nents_for_len reqsrc (send_req_totlen_src ctx rctx) <=? 0) with false
    by (symmetry; apply Z.leb_gt; exact Hp1).
  replace (sg_nents_for_len reqdst (send_req_totlen_dst ctx rctx) <=? 0) with false
    by (symmetry; apply Z.leb_gt; exact Hp2).
  rewrite !andb_false_r. cbn [orb].
  destruct (mtk_make_sg_cpy_run reqsrc (send_req_totlen_src ctx rctx) (rctx_assoclen rctx)
              (rctx_textsize rctx) (rctx_authsize rctx) true k a1 v1 _ Hal)
    as (d1 & Hmk1 & _).
  unfold bind at 1. rewrite Hmk1. cbn [negb Z.eqb].
  unfold bind at 1.
  match goal with |- context [mtk_make_sg_cpy _ _ _ _ _ false ?kk] => set (kA := kk) end.
  destruct (mtk_make_sg_cpy_run reqdst (send_req_totlen_dst ctx rctx) (rctx_assoclen rctx)
              (rctx_textsize rctx) (rctx_authsize rctx) false kA a2 v2 rest eq_refl)
    as (d2 & Hmk2 & _).
  rewrite Hmk2. cbn [negb Z.eqb].
  fold totallen.
  unfold send_req_map.
  assert (Hpe : sg_ptr_eq (bounce_sg a1 v1 totallen d1) (bounce_sg a2 v2 totallen d2) = false)
    by (simpl; apply Z.eqb_neq; exact Ha).
  rewrite Hpe. unfold bind, dma_map_sg, emit, ret. cbn.
  eexists _, d1, d2, _. split; [reflexivity|]. cbn. auto 20.
Qed.

(** The reaper at the last descriptor of a finishing submission whose
    request uses two bounce buffers. *)
Lemma mtk_req_result_bounce_run (little_endian : bool) (hw : Z -> hw_rdesc)
    (rd_count : Z) (rctx : mtk_cipher_reqctx) (reqsrc reqdst : list scatterlist)
    (reqiv : list Z) (k : kstate) (c : nat) (bs bd : scatterlist)
    (ts td : list scatterlist) :
  let r := ring_read (cdr (dev k)) in
  let last := buf_at (dev k) (ring_at r (c - 1)) in
  let flags := rctx_flags rctx in
  let len := u32 (rctx_assoclen rctx + rctx_textsize rctx) in
  let authsize := rctx_authsize rctx in
  (0 < c)%nat -> Z.of_nat c <= Z.land rd_count (GENMASK 10 0) ->
  rings_sync k -> ring_wf (cdr (dev k)) ->
  Z.of_nat c <= ring_used (cdr (dev k)) ->
  (forall j, (j < c)%nat ->
     buf_flags (buf_at (dev k) (ring_at r j)) = entry_flags true c j) ->
  any_err hw r c = false ->
  rctx_sg_src rctx = bs :: ts -> rctx_sg_dst rctx = bd :: td ->
  u32 (len + authsize) <> 0 ->
  exists out k',
    mtk_req_result little_endian hw rd_count rctx reqsrc reqdst reqiv k = Done (out, k')
    /\ out_ndesc out = Z.of_nat c /\ out_ret out = 0
    /\ out_should_complete out = true
    /\ out_rctx out = set_rctx_sg [] [] rctx
    /\ out_reqdst out
       = sg_copy_from_buffer reqdst
           (fix_tag_endianness little_endian flags len authsize (sg_data bd))
           (u32 (len + (if IS_ENCRYPT flags then authsize else 0)))
    /\ out_reqiv out
       = (if negb (IS_RFC3686 flags) && (IS_CBC flags || IS_CTR flags)
          then memcpy reqiv (stateIv (saState_at (dev k) (buf_saPointer last)))
                 (rctx_ivsize rctx)
          else reqiv)
    /\ trace k'
       = (if IS_BUSY flags then [EvComplete (buf_req last) (- EINPROGRESS)] else [])
         ++ EvFreePages (sg_page bd)
         :: EvDmaUnmap (sg_addr bd) (sg_nents (bd :: td)) DMA_FROM_DEVICE
         :: EvFreePages (sg_page bs)
         :: EvDmaUnmap (sg_addr bs) (sg_nents (bs :: ts)) DMA_TO_DEVICE
         :: trace k
    /\ sa_mem k' = sa_mem k /\ allocs k' = allocs k
    /\ ring_read (cdr (dev k')) = ring_at r c
    /\ ring_write (cdr (dev k')) = ring_write (cdr (dev k)).
Proof.
  intros r last flags len authsize Hc Hn Hsync Hwf Hused Hflags Herr Hsrc Hdst Hlen.
  destruct (reap_loop_submission hw (Z.land rd_count (GENMASK 10 0)) true c
              (Z.to_nat (Z.land rd_count (GENMASK 10 0)))
              {| rv_ndesc := 0; rv_buf := None; rv_should_complete := false;
                 rv_last_entry := false; rv_ret := 0; rv_tries := [] |} k)
    as (v & kl & Hloop & Hnd & Hle & Hsc & Hbuf & Hret & Htr & Hretired);
    try assumption; try (cbn [rv_ndesc]; lia); try reflexivity.
  fold r in Hbuf, Hret, Htr. fold last in Hbuf. rewrite Herr in Hret.
  specialize (Htr Herr).
  destruct Hretired as (_ & _ & Hrd & Hwr & _ & _ & _ & _ & HsS & _ & _ & _ & HsM & HsA).
  fold r in Hrd.
  unfold mtk_req_result. cbv zeta. unfold bind at 1. rewrite Hloop.
  rewrite Hle. cbn [negb]. rewrite Hsrc, Hdst. cbn [sg_is_null andb negb].
  fold len. fold authsize. fold flags.
  apply Z.eqb_neq in Hlen.
  unfold mtk_free_sg_cpy. rewrite Hlen.
  unfold bind at 1. unfold bind at 1, dma_unmap_sg at 1, emit at 1.
  unfold bind at 1, emit at 1, ret at 1.
  unfold bind at 1. unfold bind at 1, dma_unmap_sg at 1, emit at 1.
  unfold bind at 1. unfold bind at 1, emit at 1, ret at 1. unfold ret at 1.
  rewrite Hsc. cbn [orb negb].
  unfold req_result_update_iv. rewrite Hbuf.
  cbn [rctx_flags set_rctx_sg rctx_ivsize]. fold flags.
  destruct (negb (IS_RFC3686 flags) && (IS_CBC flags || IS_CTR flags)) eqn:Hm;
    destruct (IS_BUSY flags) eqn:Hb;
    unfold bind, get_dev, emit, ret; cbn [dev trace head_addr bounce_data];
    (eexists _, _; split; [reflexivity|]);
    cbn [out_ndesc out_ret out_should_complete out_rctx out_reqdst out_reqiv trace
         sa_mem allocs];
    rewrite Hnd, Hret, Htr; cbn [rv_ndesc rv_ret];
    unfold saState_at; rewrite ?HsS;
    split_and!; try reflexivity; try assumption; lia.
Qed.

Lemma ring_free_empty (r : mtk_desc_ring) :
  ring_wf r -> ring_read r = ring_write r -> ring_free r = 511.
Proof.
  intros [Hw Hr] E. unfold ring_free. rewrite E.
  replace (ring_write r - ring_write r - 1) with (-1) by lia. reflexivity.
Qed.

(** X12: an AEAD request from submission to retirement (a mode that is sent
    in one piece, source and destination two different lists, empty rings).
    [mtk_send_req] takes two bounce buffers from the allocator and issues
    one descriptor from the source bounce pages to the destination bounce
    pages whose length field holds [assoclen + textsize] cut to the 20 bits
    of the field, which is [assoclen + textsize] itself below 2^20 bytes;
    when the reaper retires that
    descriptor it signals completion, frees the pages of both bounce
    buffers, clears both pointers in the request context and leaves the
    rings empty. *)
Theorem aead_bounce_round_trip (base : Z) (ctx : mtk_cipher_ctx)
    (reqsrc reqdst : list scatterlist) (reqiv : list Z) (rctx : mtk_cipher_reqctx)
    (k : kstate) (sa : saRecord_s) (a1 v1 a2 v2 : Z) (rest : list (option Z))
    (little_endian : bool) (hw : Z -> hw_rdesc) (rd_count : Z) :
  let w0 := ring_write (cdr (dev k)) in
  ctx_aead ctx = true ->
  IS_CTR (rctx_flags rctx) = false ->
  rctx_textsize rctx mod send_req_blksize (rctx_flags rctx) = 0 ->
  0 <= rctx_assoclen rctx -> 0 < rctx_textsize rctx -> 0 <= rctx_authsize rctx ->
  rctx_assoclen rctx + rctx_textsize rctx + rctx_authsize rctx < 2 ^ 31 ->
  sg_ptr_eq reqsrc reqdst = false ->
  send_req_totlen_src ctx rctx <= sum_len reqsrc ->
  send_req_totlen_dst ctx rctx <= sum_len reqdst ->
  Forall (fun s => 0 <= sg_length s) reqsrc ->
  Forall (fun s => 0 <= sg_length s) reqdst ->
  allocs k = Some a1 :: Some v1 :: Some a2 :: Some v2 :: rest ->
  a1 <> a2 ->
  sa_mem k !! ctx_sa ctx = Some sa ->
  rings_sync k -> ring_wf (cdr (dev k)) ->
  ring_read (cdr (dev k)) = ring_write (cdr (dev k)) ->
  rd_errStatus (hw w0) = 0 ->
  1 <= Z.land rd_count (GENMASK 10 0) ->
  exists rctx1 k1 x out k2,
    mtk_send_req base ctx reqsrc reqdst reqiv rctx k = Done ((0, rctx1, 1, 1), k1)
    /\ cdr_desc (dev k1) !! w0 = Some x
    /\ srcAddr x = u32 v1 /\ dstAddr x = u32 v2
    /\ len_length x
       = bitfield PE_LENGTH_BITS (rctx_assoclen rctx + rctx_textsize rctx)
    /\ (rctx_assoclen rctx + rctx_textsize rctx < 2 ^ PE_LENGTH_BITS ->
        len_length x = rctx_assoclen rctx + rctx_textsize rctx)
    /\ mtk_req_result little_endian hw rd_count rctx1 reqsrc reqdst reqiv k1
       = Done (out, k2)
    /\ out_ndesc out = 1 /\ out_should_complete out = true /\ out_ret out = 0
    /\ rctx_sg_src (out_rctx out) = [] /\ rctx_sg_dst (out_rctx out) = []
    /\ In (EvFreePages v1) (trace k2) /\ In (EvFreePages v2) (trace k2)
    /\ allocs k2 = rest
    /\ ring_read (cdr (dev k2)) = ring_write (cdr (dev k2)).
Proof.
  intros w0 Haead Hctr Hmod Haad Htext Hauth Htot Hne Hsrc Hdst Hns Hnd Hal Ha Hsa
    Hsync Hwf Hempty Herr Hnreq.
  change (2 ^ 31) with 2147483648 in Htot.
  set (datalen := u32 (rctx_assoclen rctx + rctx_textsize rctx)).
  assert (Hdl : datalen = rctx_assoclen rctx + rctx_textsize rctx).
  { unfold datalen, u32. apply Z.mod_small. change (2 ^ 32) with 4294967296. lia. }
  assert (Htl : s32 (rctx_assoclen rctx + rctx_textsize rctx + rctx_authsize rctx)
                = rctx_assoclen rctx + rctx_textsize rctx + rctx_authsize rctx).
  { unfold s32, u32. change (2 ^ 32) with 4294967296. change (2 ^ 31) with 2147483648.
    rewrite Z.mod_small by lia.
    destruct (Z.ltb_spec (rctx_assoclen rctx + rctx_textsize rctx + rctx_authsize rctx)
                2147483648); lia. }
  assert (Hts : 0 < send_req_totlen_src ctx rctx).
  { unfold send_req_totlen_src. fold datalen.
    destruct (ctx_aead ctx && negb (IS_ENCRYPT (rctx_flags rctx))); [|lia].
    unfold u32. rewrite Z.mod_small; change (2 ^ 32) with 4294967296; lia. }
  assert (Htd : 0 < send_req_totlen_dst ctx rctx).
  { unfold send_req_totlen_dst. fold datalen.
    destruct (ctx_aead ctx && IS_ENCRYPT (rctx_flags rctx)); [|lia].
    unfold u32. rewrite Z.mod_small; change (2 ^ 32) with 4294967296; lia. }
  destruct (send_req_prepare_aead ctx reqsrc reqdst rctx k a1 v1 a2 v2 rest Haead
              (or_intror Hmod) Hne (conj Hts Hsrc) (conj Htd Hdst) Hns Hnd Hal Ha)
    as (rctx1 & d1 & d2 & kp & Hprep & Hs1 & Hd1 & Hf1 & Haad1 & Htx1 & Hau1 & Hiv1
        & Hdevp & Hmemp & Hallp & Htrp).
  rewrite Htl in Hprep, Hs1, Hd1.
  set (tot := rctx_assoclen rctx + rctx_textsize rctx + rctx_authsize rctx) in *.
  assert (Hut : u32 tot = tot)
    by (unfold u32; apply Z.mod_small; change (2 ^ 32) with 4294967296; unfold tot; lia).
  set (ms := dma_map_entries (bounce_sg a1 v1 tot d1)) in *.
  set (md := dma_map_entries (bounce_sg a2 v2 tot d2)) in *.
  set (x := {| pd_saddr := v1 + 0; pd_offsetin := 0; pd_daddr := v2 + 0;
               pd_offsetout := 0; pd_len := datalen |}).
  assert (Hplan : scatter_plan ms md datalen = Done [x]).
  { rewrite scatter_plan_same_seg.
    - unfold ms, md, bounce_sg. cbn [dma_map_entries map same_seg_plan sg_dma_len
        sg_length sg_dma_address sg_page sg_offset]. rewrite Hut.
      replace (Z.min tot datalen) with datalen by (unfold tot; lia).
      rewrite Z.sub_diag. reflexivity.
    - split; [lia | apply u32_range].
    - unfold ms, bounce_sg. repeat constructor. unfold sg_dma_len. simpl.
      rewrite Hut. unfold tot. lia.
    - reflexivity.
    - unfold ms, bounce_sg. simpl. rewrite Hut. unfold tot. lia. }
  pose proof (ring_free_empty _ Hwf Hempty) as Hfree.
  destruct (mtk_send_req_single_run base ctx reqsrc reqdst reqiv rctx k rctx1 ms md kp sa [x]
              (or_introl Hctr) Hprep Hsa Hsync Hwf Hplan ltac:(discriminate))
    as (k1 & Hrun & Hdesc & _ & _ & Hsync1 & Hwf1 & Hw1 & Hr1 & _ & _ & Htr1 & Hall1 & Hmem1).
  { simpl. lia. }
  destruct (Hdesc 0%nat x eq_refl) as [Hc Hb].
  fold w0 in Hc, Hb, Hw1. rewrite ring_at_0 in Hc, Hb by apply Hwf.
  assert (Hused1 : ring_used (cdr (dev k1)) = 1).
  { unfold ring_used. rewrite Hw1, Hr1, Hempty. fold w0. destruct Hwf as [Hw _].
    fold w0 in Hw. cbn [length]. change (Z.of_nat 1) with 1.
    unfold ring_at, MTK_RING_SIZE in *. change (Z.of_nat 1) with 1.
    Z.div_mod_to_equations. lia. }
  assert (Hrd1 : ring_read (cdr (dev k1)) = w0) by (rewrite Hr1; exact Hempty).
  edestruct (mtk_req_result_bounce_run little_endian hw rd_count rctx1 reqsrc reqdst reqiv
               k1 1%nat)
    as (out & k2 & Hres & Hn & Hret & Hsc & Hrc & _ & _ & Htr2 & Hmem2 & Hall2 & Hrd2 & Hwr2).
  { lia. }
  { exact Hnreq. }
  { exact Hsync1. }
  { exact Hwf1. }
  { rewrite Hused1. lia. }
  { intros j Hj. assert (j = 0%nat) by lia. subst j. rewrite Hrd1.
    rewrite ring_at_0 by apply Hwf. unfold buf_at. rewrite Hb. reflexivity. }
  { unfold any_err. cbn [seq existsb]. rewrite Hrd1, ring_at_0 by apply Hwf.
    rewrite Herr. reflexivity. }
  { exact Hs1. }
  { exact Hd1. }
  { rewrite Haad1, Htx1, Hau1. fold datalen. rewrite Hdl. fold tot. rewrite Hut.
    unfold tot. lia. }
  cbn [sg_page] in Htr2.
  exists rctx1, k1. eexists. exists out, k2.
  split; [exact Hrun|]. split; [exact Hc|].
  split; [simpl; rewrite !Z.add_0_r; reflexivity|].
  split; [simpl; rewrite !Z.add_0_r; reflexivity|].
  split; [unfold desc_of, x; cbn [len_length pd_len]; rewrite Hdl; reflexivity|].
  split.
  { intros Hsmall. unfold desc_of, x. cbn [len_length pd_len]. rewrite Hdl.
    apply bitfield_small. lia. }
  split; [exact Hres|]. split; [exact Hn|]. split; [exact Hsc|]. split; [exact Hret|].
  rewrite Hrc. split; [reflexivity|]. split; [reflexivity|].
  rewrite Htr2.
  split; [apply in_or_app; right; simpl; auto|].
  split; [apply in_or_app; right; simpl; auto|].
  split; [rewrite Hall2, Hall1; exact Hallp|].
  rewrite Hrd2, Hwr2, Hrd1, Hw1. reflexivity.
Qed.

Lemma aead_bounce_round_trip_witness :
  exists rctx1 k1 out k2,
    mtk_send_req 7 ctx_aead_tfm (sg_one 256 16384 16) (sg_one 320 32768 24)
      (replicate 16 0) (set_rctx_sizes 16 0 8 16 (rctx_fresh aead_sha1_flags)) k_idle
    = Done ((0, rctx1, 1, 1), k1)
    /\ mtk_req_result true hw_ready 1 rctx1 (sg_one 256 16384 16) (sg_one 320 32768 24)
         (replicate 16 0) k1 = Done (out, k2)
    /\ In (EvFreePages 1048576) (trace k2) /\ In (EvFreePages 2097152) (trace k2)
    /\ rctx_sg_src (out_rctx out) = [].
Proof.
  destruct (aead_bounce_round_trip 7 ctx_aead_tfm (sg_one 256 16384 16)
              (sg_one 320 32768 24) (replicate 16 0)
              (set_rctx_sizes 16 0 8 16 (rctx_fresh aead_sha1_flags)) k_idle saRecord_zero
              8192 1048576 8320 2097152 [] true hw_ready 1)
    as (rctx1 & k1 & x & out & k2 & Hrun & _ & _ & _ & _ & _ & Hres & _ & _ & _ & Hs & _
        & Hf1 & Hf2 & _).
  - reflexivity.
  - reflexivity.
  - reflexivity.
  - simpl. lia.
  - simpl. lia.
  - simpl. lia.
  - simpl. lia.
  - reflexivity.
  - vm_compute. discriminate.
  - vm_compute. discriminate.
  - repeat constructor. simpl. lia.
  - repeat constructor. simpl. lia.
  - reflexivity.
  - lia.
  - reflexivity.
  - reflexivity.
  - unfold ring_wf, MTK_RING_SIZE. simpl. lia.
  - reflexivity.
  - reflexivity.
  - vm_compute. discriminate.
  - exists rctx1, k1, out, k2. auto.
Defined.
(** ** Accounting at the entry points *)

Lemma crypt_kick_run (pending_cap : bool) (rctx : mtk_cipher_reqctx) (commands : Z)
    (k : kstate) :
  let n := requests (dev k) + commands in
  let pending := if pending_cap then Z.min n 32 else n in
  crypt_kick pending_cap rctx commands k
  = Done ((if MTK_RING_BUSY <? n then - EBUSY else - EINPROGRESS,
           if MTK_RING_BUSY <? n
           then set_rctx_flags (Z.lor (rctx_flags rctx) MTK_BUSY) rctx else rctx),
          {| dev := if busy (dev k) then set_requests n (dev k) else kicked commands (dev k);
             trace := EvWritel commands EIP93_REG_PE_CD_COUNT
                      :: (if busy (dev k) then trace k
                          else EvWritel (ring_thresh_word pending) EIP93_REG_PE_RING_THRESH
                               :: trace k);
             allocs := allocs k; sa_mem := sa_mem k |}).
Proof.
  intros n pending. unfold crypt_kick. cbv zeta.
  unfold bind at 1, modify_dev at 1. unfold bind at 1, get_dev at 1.
  cbn [dev set_dev set_requests requests busy]. fold n.
  destruct (busy (dev k)) eqn:Hb; cbn [negb].
  - unfold bind at 1, ret at 1.
    destruct (MTK_RING_BUSY <? n); unfold bind, emit, ret; cbn; reflexivity.
  - unfold bind at 1. unfold bind at 1, emit at 1. unfold modify_dev at 1.
    destruct (MTK_RING_BUSY <? n); unfold bind, emit, ret, kicked, ring_thresh_word;
      cbn [dev set_dev trace allocs sa_mem]; fold n; fold pending; reflexivity.
Qed.

Lemma frame_add_rdesc : frame ring_account mtk_add_rdesc.
Proof.
  intros k a k' H. unfold mtk_add_rdesc, mtk_ring_next_wptr in H.
  destruct (ring_succ (ring_write (rdr (dev k))) =? ring_read (rdr (dev k)));
    injection H as _ <-; reflexivity.
Qed.

Lemma frame_add_cdesc : frame ring_account mtk_add_cdesc.
Proof.
  intros k a k' H. unfold mtk_add_cdesc, mtk_ring_next_wptr in H.
  destruct (ring_succ (ring_write (cdr (dev k))) =? ring_read (cdr (dev k)));
    injection H as _ <-; reflexivity.
Qed.

Lemma frame_sc_emit (sab ssb areq sap saddr oi daddr oo len : Z) :
  frame ring_account (sc_emit sab ssb areq sap saddr oi daddr oo len).
Proof.
  unfold sc_emit.
  apply frame_bind; [apply frame_add_rdesc|]. intros [i rok].
  apply frame_bind; [frame_tac|]. intros _.
  apply frame_bind; [apply frame_add_cdesc|]. intros [w cok].
  frame_tac.
Qed.

Lemma frame_sc_loop (sab ssb areq sap : Z) (fuel : nat) :
  forall sgsrc sgdst ri ro oi oo sa da ni no n c r buf,
    frame ring_account
      (sc_loop fuel sab ssb areq sap sgsrc sgdst ri ro oi oo sa da ni no n c r buf).
Proof.
  induction fuel as [|fuel IH]; intros; [intros k a k' H; discriminate|].
  cbn [sc_loop].
  destruct (sc_advance ni sgsrc ri sa oi n); [apply frame_oops | |].
  - destruct (n =? 0); [apply frame_ret | apply IH].
  - destruct (sc_advance no sgdst ro da oo n); [apply frame_oops | |].
    + destruct (n =? 0); [apply frame_ret | apply IH].
    + destruct (remain =? remain0); [|destruct (remain <? remain0)];
        (apply frame_bind; [apply frame_sc_emit|]; intros w;
         match goal with |- frame _ (if ?b then _ else _) => destruct b end;
         [apply frame_ret | apply IH]).
Qed.

Lemma frame_scatter_combine (sab ssb : Z) (sgsrc sgdst : list scatterlist) (datalen : Z)
    (complete : bool) (areq : Z) :
  frame ring_account (mtk_scatter_combine sab ssb sgsrc sgdst datalen complete areq).
Proof.
  unfold mtk_scatter_combine.
  destruct sgsrc as [|s sgsrc]; [apply frame_oops|].
  destruct sgdst as [|d sgdst]; [apply frame_oops|].
  apply frame_bind; [apply frame_curr_wptr|]. intros sap.
  apply frame_bind; [apply frame_sc_loop|]. intros [[buf c] r].
  unfold sc_finish. frame_tac.
Qed.

Lemma frame_send_req (base : Z) (ctx : mtk_cipher_ctx) (reqsrc reqdst : list scatterlist)
    (reqiv : list Z) (rctx : mtk_cipher_reqctx) :
  frame ring_account (mtk_send_req base ctx reqsrc reqdst reqiv rctx).
Proof.
  unfold mtk_send_req. cbv zeta.
  apply frame_bind.
  { intros k a k' H. apply send_req_prepare_frame in H. unfold dev_and_sa in H.
    injection H as Hd _. unfold ring_account. rewrite Hd. reflexivity. }
  intros [[err rc] | [[rc src] dst]]; [apply frame_ret|].
  destruct (ctr_overflow_split _ _ _) as [[offset iv] complete].
  unfold send_req_submit, set_stateIv_slot, send_req_map, dma_map_sg.
  repeat first
    [ apply frame_scatter_combine
    | apply frame_ret | apply frame_oops | apply frame_get_dev | apply frame_load_sa
    | apply frame_curr_wptr
    | (apply frame_emit; intros; reflexivity)
    | (apply frame_modify_dev; intros; reflexivity)
    | (apply frame_bind; [|intros])
    | match goal with
      | |- frame _ (if ?b then _ else _) => destruct b
      | |- frame _ (match ?x with _ => _ end) => destruct x
      end ].
Qed.

(** X13: what the two entry points do once [mtk_send_req] has issued
    [c > 0] descriptors.  The outstanding count of the ring grows by [c];
    the ring is marked busy, and if it was idle the threshold register is
    programmed first (pending count: the new outstanding count, capped at
    32 on the plain cipher path); the return code is [-EINPROGRESS], or
    [-EBUSY] together with [MTK_BUSY] in the request flags when the new
    count exceeds [MTK_RING_BUSY]; writing [c] to the command count
    register is the last thing done.  Rings and descriptors stay as
    [mtk_send_req] left them. *)
Theorem crypt_submission_accounting (authsize ivsize : Z) (ctx : mtk_cipher_ctx)
    (rctx : mtk_cipher_reqctx) (req : crypt_request) (k : kstate)
    (rctx1 : mtk_cipher_reqctx) (c res : Z) (k1 : kstate) :
  let n := requests (dev k) + c in
  let ret_ := if MTK_RING_BUSY <? n then - EBUSY else - EINPROGRESS in
  let rctx' := if MTK_RING_BUSY <? n
               then set_rctx_flags (Z.lor (rctx_flags rctx1) MTK_BUSY) rctx1 else rctx1 in
  let after (cap : bool) (k' : kstate) :=
    requests (dev k') = n /\ busy (dev k') = true
    /\ trace k'
       = EvWritel c EIP93_REG_PE_CD_COUNT
         :: (if busy (dev k) then []
             else [EvWritel (ring_thresh_word (if cap then Z.min n 32 else n))
                     EIP93_REG_PE_RING_THRESH])
         ++ trace k1
    /\ cdr (dev k') = cdr (dev k1) /\ rdr (dev k') = rdr (dev k1)
    /\ cdr_desc (dev k') = cdr_desc (dev k1) /\ dma_buf (dev k') = dma_buf (dev k1)
    /\ saState (dev k') = saState (dev k1) /\ saRecord (dev k') = saRecord (dev k1) in
  requests (dev k) <= MTK_RING_BUSY -> c <> 0 ->
  (req_cryptlen req <> 0 ->
   (req_cryptlen req < NUM_AES_BYPASS -> ctx_fallback ctx = None) ->
   mtk_send_req (req_base req) ctx (req_src req) (req_dst req) (req_iv req)
     (set_rctx_sizes (req_cryptlen req) 0 0 ivsize rctx) k
   = Done ((0, rctx1, c, res), k1) ->
   exists k', mtk_skcipher_crypt ivsize ctx rctx req k = Done ((ret_, rctx'), k')
              /\ after true k')
  /\
  (let textsize := if IS_DECRYPT (rctx_flags rctx) then u32 (req_cryptlen req - authsize)
                   else req_cryptlen req in
   textsize <> 0 ->
   mtk_send_req (req_base req) ctx (req_src req) (req_dst req) (req_iv req)
     (set_rctx_sizes textsize (req_assoclen req) authsize ivsize rctx) k
   = Done ((0, rctx1, c, res), k1) ->
   exists k', mtk_aead_crypt authsize ivsize ctx rctx req k = Done ((ret_, rctx'), k')
              /\ after false k').
Proof.
  intros n ret_ rctx' after Hreq Hc.
  assert (Hnb : (MTK_RING_BUSY <? requests (dev k)) = false) by (apply Z.ltb_ge; exact Hreq).
  apply Z.eqb_neq in Hc.
  assert (Hkick : forall cap : bool,
            mtk_send_req (req_base req) ctx (req_src req) (req_dst req) (req_iv req)
              (if cap then set_rctx_sizes (req_cryptlen req) 0 0 ivsize rctx
               else set_rctx_sizes
                      (if IS_DECRYPT (rctx_flags rctx)
                       then u32 (req_cryptlen req - authsize) else req_cryptlen req)
                      (req_assoclen req) authsize ivsize rctx) k
            = Done ((0, rctx1, c, res), k1) ->
            exists k', crypt_kick cap rctx1 c k1 = Done ((ret_, rctx'), k') /\ after cap k').
  { intros cap Hsend.
    pose proof (frame_send_req _ _ _ _ _ _ _ _ _ Hsend) as Hacc.
    unfold ring_account in Hacc. injection Hacc as Hq Hb.
    rewrite crypt_kick_run. rewrite Hq, Hb. fold n.
    eexists. split; [reflexivity|]. unfold after. cbn [dev trace].
    destruct (busy (dev k)); unfold kicked; cbn; rewrite ?Hq; fold n; auto 10. }
  split.
  - intros Hlen Hfb Hsend. apply Z.eqb_neq in Hlen.
    unfold mtk_skcipher_crypt. rewrite Hlen.
    assert (Hnofb : (if req_cryptlen req <? NUM_AES_BYPASS then ctx_fallback ctx else None)
                    = None).
    { destruct (Z.ltb_spec (req_cryptlen req) NUM_AES_BYPASS); [auto | reflexivity]. }
    rewrite Hnofb. unfold bind at 1, get_dev at 1. rewrite Hnb.
    unfold bind at 1. rewrite Hsend. cbn [negb Z.eqb]. rewrite Hc.
    apply (Hkick true Hsend).
  - intros textsize Hlen Hsend. apply Z.eqb_neq in Hlen.
    unfold mtk_aead_crypt. cbv zeta. fold textsize.
    cbn [rctx_textsize set_rctx_sizes]. rewrite Hlen.
    unfold bind at 1, get_dev at 1. rewrite Hnb.
    unfold bind at 1. rewrite Hsend. cbn [negb Z.eqb]. rewrite Hc.
    apply (Hkick false Hsend).
Qed.

Lemma crypt_submission_accounting_witness :
  exists rctx' k',
    mtk_skcipher_crypt 16 ctx_skcipher (rctx_fresh cbc_flags) req_cbc48 k_idle
    = Done ((- EINPROGRESS, rctx'), k')
    /\ requests (dev k') = 1 /\ busy (dev k') = true.
Proof.
  destruct (mtk_send_req (req_base req_cbc48) ctx_skcipher (req_src req_cbc48)
              (req_dst req_cbc48) (req_iv req_cbc48)
              (set_rctx_sizes (req_cryptlen req_cbc48) 0 0 16 (rctx_fresh cbc_flags)) k_idle)
    as [[[[[r rc] c] res] k1]| |] eqn:E;
    [|vm_compute in E; discriminate|vm_compute in E; discriminate].
  assert (Hr : r = 0 /\ c = 1) by (vm_compute in E; injection E as <- _ <- _ _; auto).
  destruct Hr as [-> ->].
  destruct (proj1 (crypt_submission_accounting 0 16 ctx_skcipher (rctx_fresh cbc_flags)
                     req_cbc48 k_idle rc 1 res k1 ltac:(vm_compute; discriminate)
                     ltac:(discriminate))
              ltac:(discriminate) ltac:(reflexivity) E)
    as (k' & Hrun & Hq & Hb & _).
  exists rc, k'. split; [exact Hrun|]. split; [exact Hq | exact Hb].
Defined.

Lemma ring_thresh_word_sum_upto :
  forallb (fun j =>
             let p := Z.of_nat j in
             ring_thresh_word p
             =? 2 ^ 31 + 15 * 2 ^ 26 + (p - 1) * 2 ^ 16 + (MTK_RING_SIZE - 1))
    (seq 1 1024) = true.
Proof. vm_compute. reflexivity. Qed.

(** X14: for every pending count from 1 to 1024 the fields that the entry
    points combine into the ring threshold word do not collide: the word is
    bit 31, the timeout 15 from bit 26 on, the pending count less one from
    bit 16 on, and [MTK_RING_SIZE - 1] in the low bits. *)
Theorem ring_thresh_word_fields (pending : Z) :
  1 <= pending <= 1024 ->
  ring_thresh_word pending
  = 2 ^ 31 + 15 * 2 ^ 26 + (pending - 1) * 2 ^ 16 + (MTK_RING_SIZE - 1).
Proof.
  intros Hp.
  pose proof ring_thresh_word_sum_upto as H.
  rewrite forallb_forall in H.
  specialize (H (Z.to_nat pending)).
  rewrite Z2Nat.id in H by lia.
  apply Z.eqb_eq, H, in_seq. lia.
Qed.

Lemma ring_thresh_word_fields_witness :
  ring_thresh_word 32 = 2 ^ 31 + 15 * 2 ^ 26 + 31 * 2 ^ 16 + 511.
Proof.
  apply (ring_thresh_word_fields 32). lia.
Defined.

Lemma mtk_send_req_error_dev (base : Z) (ctx : mtk_cipher_ctx)
    (reqsrc reqdst : list scatterlist) (reqiv : list Z) (rctx : mtk_cipher_reqctx)
    (k : kstate) (r : Z) (rctx' : mtk_cipher_reqctx) (c res : Z) (k' : kstate) :
  mtk_send_req base ctx reqsrc reqdst reqiv rctx k = Done ((r, rctx', c, res), k') ->
  r <> 0 -> dev k' = dev k /\ sa_mem k' = sa_mem k.
Proof.
  intros H Hr. unfold mtk_send_req in H. cbv zeta in H.
  apply bind_Done in H as (prep & k1 & Hprep & H).
  destruct prep as [[err rc] | [[rc src] dst]].
  - injection H as <- <- <- <- <-.
    pose proof (send_req_prepare_frame _ _ _ _ _ _ _ Hprep) as Hfr.
    unfold dev_and_sa in Hfr. injection Hfr as Hdev Hmem. auto.
  - destruct (ctr_overflow_split _ _ _) as [[offset iv] complete].
    apply send_req_submit_ret in H. contradiction.
Qed.

(** X15: when [mtk_send_req] fails, the entry point hands the error to the
    completion callback of the request and returns the same error; the
    device is left as it was (outstanding count, busy flag, rings), and no
    register is written. *)
Theorem crypt_send_req_failure (authsize ivsize : Z) (ctx : mtk_cipher_ctx)
    (rctx : mtk_cipher_reqctx) (req : crypt_request) (k : kstate)
    (e : Z) (rctx1 : mtk_cipher_reqctx) (c res : Z) (k1 : kstate) :
  let failed := {| dev := dev k; trace := EvComplete (req_base req) e :: trace k1;
                   allocs := allocs k1; sa_mem := sa_mem k |} in
  requests (dev k) <= MTK_RING_BUSY -> e <> 0 ->
  (req_cryptlen req <> 0 ->
   (req_cryptlen req < NUM_AES_BYPASS -> ctx_fallback ctx = None) ->
   mtk_send_req (req_base req) ctx (req_src req) (req_dst req) (req_iv req)
     (set_rctx_sizes (req_cryptlen req) 0 0 ivsize rctx) k
   = Done ((e, rctx1, c, res), k1) ->
   mtk_skcipher_crypt ivsize ctx rctx req k = Done ((e, rctx1), failed))
  /\
  (let textsize := if IS_DECRYPT (rctx_flags rctx) then u32 (req_cryptlen req - authsize)
                   else req_cryptlen req in
   textsize <> 0 ->
   mtk_send_req (req_base req) ctx (req_src req) (req_dst req) (req_iv req)
     (set_rctx_sizes textsize (req_assoclen req) authsize ivsize rctx) k
   = Done ((e, rctx1, c, res), k1) ->
   mtk_aead_crypt authsize ivsize ctx rctx req k = Done ((e, rctx1), failed)).
Proof.
  intros failed Hreq He.
  assert (Hnb : (MTK_RING_BUSY <? requests (dev k)) = false) by (apply Z.ltb_ge; exact Hreq).
  assert (He' : negb (e =? 0) = true) by (apply negb_true_iff, Z.eqb_neq; exact He).
  split.
  - intros Hlen Hfb Hsend. apply Z.eqb_neq in Hlen.
    destruct (mtk_send_req_error_dev _ _ _ _ _ _ _ _ _ _ _ _ Hsend He) as [Hd Hm].
    unfold mtk_skcipher_crypt. rewrite Hlen.
    assert (Hnofb : (if req_cryptlen req <? NUM_AES_BYPASS then ctx_fallback ctx else None)
                    = None).
    { destruct (Z.ltb_spec (req_cryptlen req) NUM_AES_BYPASS); [auto | reflexivity]. }
    rewrite Hnofb. unfold bind at 1, get_dev at 1. rewrite Hnb.
    unfold bind at 1. rewrite Hsend. rewrite He'.
    unfold bind, emit, ret, failed. rewrite Hd, Hm. reflexivity.
  - intros textsize Hlen Hsend. apply Z.eqb_neq in Hlen.
    destruct (mtk_send_req_error_dev _ _ _ _ _ _ _ _ _ _ _ _ Hsend He) as [Hd Hm].
    unfold mtk_aead_crypt. cbv zeta. fold textsize.
    cbn [rctx_textsize set_rctx_sizes]. rewrite Hlen.
    unfold bind at 1, get_dev at 1. rewrite Hnb.
    unfold bind at 1. rewrite Hsend. rewrite He'.
    unfold bind, emit, ret, failed. rewrite Hd, Hm. reflexivity.
Qed.

Lemma crypt_send_req_failure_witness :
  exists rctx1 k',
    mtk_skcipher_crypt 16 ctx_skcipher (rctx_fresh cbc_flags)
      {| req_base := 7; req_src := sg_one 256 16384 17; req_dst := sg_one 320 32768 17;
         req_cryptlen := 17; req_assoclen := 0; req_iv := replicate 16 0 |} k_idle
    = Done ((- EINVAL, rctx1), k')
    /\ trace k' = [EvComplete 7 (- EINVAL)] /\ dev k' = dev k_idle.
Proof.
  eexists _, _. split.
  - apply (proj1 (crypt_send_req_failure 0 16 ctx_skcipher (rctx_fresh cbc_flags)
                    {| req_base := 7; req_src := sg_one 256 16384 17;
                       req_dst := sg_one 320 32768 17; req_cryptlen := 17;
                       req_assoclen := 0; req_iv := replicate 16 0 |} k_idle
                    (- EINVAL) _ 0 0 k_idle ltac:(vm_compute; discriminate)
                    ltac:(discriminate))).
    + discriminate.
    + reflexivity.
    + vm_compute. reflexivity.
  - split; reflexivity.
Defined.

(** ** What a successful setkey leaves in the SA record *)

Lemma setkey_keylen_rfc3686 (tflags len : Z) :
  IS_RFC3686 tflags = true -> 0 <= len < 2 ^ 32 ->
  setkey_keylen tflags len = AES_KEYSIZE_128 \/ setkey_keylen tflags len = AES_KEYSIZE_192
  \/ setkey_keylen tflags len = AES_KEYSIZE_256 ->
  len = setkey_keylen tflags len + CTR_RFC3686_NONCE_SIZE.
Proof.
  unfold setkey_keylen, u32, AES_KEYSIZE_128, AES_KEYSIZE_192, AES_KEYSIZE_256,
    CTR_RFC3686_NONCE_SIZE.
  intros -> Hlen H.
  assert (E : (len - 4) mod 2 ^ 32 = len - 4 \/ (len - 4) mod 2 ^ 32 = len - 4 + 2 ^ 32).
  { pose proof (Z.mod_pos_bound (len - 4) (2 ^ 32) ltac:(lia)).
    pose proof (Z.div_mod (len - 4) (2 ^ 32) ltac:(lia)). nia. }
  lia.
Qed.

Lemma setkey_aes_run (api : crypto_api) (tflags : Z)
    (ctx : mtk_cipher_ctx) (key : list Z) (len : Z) (k : kstate) (sa : saRecord_s) :
  let kl := setkey_keylen tflags len in
  Z.land tflags MTK_ALG_MASK = MTK_ALG_AES ->
  kl = AES_KEYSIZE_128 \/ kl = AES_KEYSIZE_192 \/ kl = AES_KEYSIZE_256 ->
  Z.of_nat (length key) = len -> len < 2 ^ 32 ->
  sa_mem k !! ctx_sa ctx = Some sa ->
  length (saKey sa) = 32%nat ->
  exists sa',
    mtk_skcipher_setkey api tflags ctx (Some key) len k
    = Done (match ctx_fallback ctx with Some fb => fb_setkey fb key len | None => 0 end,
            {| dev := dev k; trace := EvCall_mtk_ctx_saRecord :: trace k;
               allocs := allocs k; sa_mem := <[ctx_sa ctx := sa']> (sa_mem k) |})
    /\ saKey sa' = take (Z.to_nat kl) key ++ drop (Z.to_nat kl) (saKey sa)
    /\ length (saKey sa') = 32%nat
    /\ cipher (saCmd0 sa') = 3 /\ aesKeyLen (saCmd1 sa') = kl / 8
    /\ direction (saCmd0 sa') = direction (saCmd0 sa)
    /\ saIDigest sa' = saIDigest sa /\ saODigest sa' = saODigest sa
    /\ saNonce sa' = (if IS_RFC3686 tflags then drop (Z.to_nat kl) key else saNonce sa)
    /\ (IS_RFC3686 tflags = true -> length (drop (Z.to_nat kl) key) = 4%nat).
Proof.
  intros kl Halg Hkl Hlen Hmax Hsa Hsk.
  assert (Hlen0 : len <> 0).
  { intros ->. destruct key; [|discriminate]. clear Hlen.
    subst kl. unfold setkey_keylen in Hkl.
    destruct (IS_RFC3686 tflags); vm_compute in Hkl; intuition discriminate. }
  assert (Hfit : (Z.to_nat kl <= length key)%nat /\ (Z.to_nat kl <= 32)%nat).
  { destruct (IS_RFC3686 tflags) eqn:Hrfc.
    - pose proof (setkey_keylen_rfc3686 tflags len Hrfc ltac:(lia) Hkl) as E.
      fold kl in E. unfold CTR_RFC3686_NONCE_SIZE in E.
      unfold AES_KEYSIZE_128, AES_KEYSIZE_192, AES_KEYSIZE_256 in Hkl. lia.
    - assert (kl = len) by (subst kl; unfold setkey_keylen; rewrite Hrfc; reflexivity).
      unfold AES_KEYSIZE_128, AES_KEYSIZE_192, AES_KEYSIZE_256 in Hkl. lia. }
  assert (Hnonce : IS_RFC3686 tflags = true ->
                   take 4 (drop (Z.to_nat kl) key) = drop (Z.to_nat kl) key
                   /\ length (drop (Z.to_nat kl) key) = 4%nat).
  { intros Hrfc.
    pose proof (setkey_keylen_rfc3686 tflags len Hrfc ltac:(lia) Hkl) as E.
    fold kl in E. unfold CTR_RFC3686_NONCE_SIZE in E.
    unfold AES_KEYSIZE_128, AES_KEYSIZE_192, AES_KEYSIZE_256 in Hkl.
    assert (length (drop (Z.to_nat kl) key) = 4%nat) by (rewrite length_drop; lia).
    split; [apply take_ge; lia | assumption]. }
  eexists. split.
  - unfold mtk_skcipher_setkey.
    apply Z.eqb_neq in Hlen0. rewrite Hlen0.
    change (if IS_RFC3686 tflags then u32 (len - CTR_RFC3686_NONCE_SIZE) else len) with kl.
    rewrite Halg. change (MTK_ALG_AES =? MTK_ALG_AES) with true. cbv beta iota.
    assert (Hexp : aes_expandkey key kl = 0).
    { unfold aes_expandkey.
      destruct Hkl as [-> | [-> | ->]]; reflexivity. }
    rewrite Hexp. change (negb (0 =? 0)) with false. cbv beta iota.
    unfold mtk_ctx_saRecord. cbv zeta.
    unfold bind at 1. unfold bind at 1, emit at 1.
    unfold bind at 1, load_sa at 1. cbn [sa_mem]. rewrite Hsa.
    unfold store_sa. cbn [dev trace allocs sa_mem].
    destruct (ctx_fallback ctx) as [fb|].
    + destruct (negb (fb_setkey fb key len =? 0)) eqn:E.
      * unfold ret. reflexivity.
      * apply negb_false_iff, Z.eqb_eq in E. rewrite E. unfold ret. reflexivity.
    + reflexivity.
  - cbn [saKey saCmd0 saCmd1 cipher aesKeyLen direction saIDigest saODigest saNonce].
    rewrite Halg. change (MTK_ALG_AES =? MTK_ALG_AES) with true. cbv beta iota.
    unfold memcpy.
    split_and!; try reflexivity.
    + rewrite length_app, length_take, length_drop. lia.
    + destruct (IS_RFC3686 tflags) eqn:Hrfc; [|reflexivity].
      apply (Hnonce eq_refl).
    + intros Hrfc. apply (Hnonce Hrfc).
Qed.

(** X16: an AES key of an accepted length always goes into the SA record of
    the transform: the first [keylen] bytes of the key field are the key,
    the bytes behind them are what the field held before, the cipher code is
    3 and the key-length code [keylen / 8]; direction bit and digests are
    kept.  For RFC3686 the four bytes behind the AES key become the nonce.
    The value returned is the one of the fallback's setkey (0 without a
    fallback): when the fallback refuses the key, the record has been
    rewritten all the same. *)
Theorem mtk_skcipher_setkey_installs_key (api : crypto_api) (tflags : Z)
    (ctx : mtk_cipher_ctx) (key : list Z) (len : Z) (k : kstate) (sa : saRecord_s) :
  let kl := setkey_keylen tflags len in
  Z.land tflags MTK_ALG_MASK = MTK_ALG_AES ->
  kl = AES_KEYSIZE_128 \/ kl = AES_KEYSIZE_192 \/ kl = AES_KEYSIZE_256 ->
  Z.of_nat (length key) = len -> len < 2 ^ 32 ->
  sa_mem k !! ctx_sa ctx = Some sa ->
  length (saKey sa) = 32%nat ->
  exists sa',
    mtk_skcipher_setkey api tflags ctx (Some key) len k
    = Done (match ctx_fallback ctx with Some fb => fb_setkey fb key len | None => 0 end,
            {| dev := dev k; trace := EvCall_mtk_ctx_saRecord :: trace k;
               allocs := allocs k; sa_mem := <[ctx_sa ctx := sa']> (sa_mem k) |})
    /\ saKey sa' = take (Z.to_nat kl) key ++ drop (Z.to_nat kl) (saKey sa)
    /\ length (saKey sa') = 32%nat
    /\ cipher (saCmd0 sa') = 3 /\ aesKeyLen (saCmd1 sa') = kl / 8
    /\ direction (saCmd0 sa') = direction (saCmd0 sa)
    /\ saIDigest sa' = saIDigest sa /\ saODigest sa' = saODigest sa
    /\ saNonce sa' = (if IS_RFC3686 tflags then drop (Z.to_nat kl) key else saNonce sa)
    /\ (IS_RFC3686 tflags = true -> length (drop (Z.to_nat kl) key) = 4%nat).
Proof.
  intros kl Halg Hkl Hlen Hmax Hsa Hsk.
  destruct (setkey_aes_run api tflags ctx key len k sa Halg Hkl Hlen Hmax Hsa Hsk)
    as (sa' & Hrun & Hfields).
  exists sa'. split; [exact Hrun | exact Hfields].
Qed.

Lemma mtk_skcipher_setkey_installs_key_witness :
  exists sa' k',
    mtk_skcipher_setkey api_accept (Z.lor (Z.lor MTK_MODE_CTR MTK_ALG_AES) MTK_MODE_RFC3686)
      ctx_skcipher (Some (map Z.of_nat (seq 1 20))) 20 k_idle = Done (0, k')
    /\ sa_mem k' !! 4096 = Some sa'
    /\ saNonce sa' = [17; 18; 19; 20]
    /\ saKey sa' = map Z.of_nat (seq 1 16) ++ replicate 16 0.
Proof.
  destruct (mtk_skcipher_setkey_installs_key api_accept
              (Z.lor (Z.lor MTK_MODE_CTR MTK_ALG_AES) MTK_MODE_RFC3686)
              ctx_skcipher (map Z.of_nat (seq 1 20)) 20 k_idle saRecord_zero
              eq_refl (or_introl eq_refl) eq_refl eq_refl eq_refl eq_refl)
    as (sa' & Hrun & Hkey & _ & _ & _ & _ & _ & _ & Hnonce & _).
  eexists sa', _. split; [exact Hrun|].
  split; [cbn [sa_mem]; apply lookup_insert_eq|].
  split; [rewrite Hnonce; reflexivity | rewrite Hkey; reflexivity].
Defined.

(** ** From set-up to the engine *)

Lemma mtk_send_req_sa_slot (base : Z) (ctx : mtk_cipher_ctx)
    (reqsrc reqdst : list scatterlist) (reqiv : list Z) (rctx : mtk_cipher_reqctx)
    (k : kstate) (rctx' : mtk_cipher_reqctx) (c res : Z) (k' : kstate) :
  mtk_send_req base ctx reqsrc reqdst reqiv rctx k = Done ((0, rctx', c, res), k') ->
  exists sa,
    sa_mem k !! ctx_sa ctx = Some sa
    /\ saRecord (dev k') !! ring_write (rdr (dev k))
       = Some (send_req_saRecord sa (ctx_aead ctx) (rctx_flags rctx) (rctx_assoclen rctx)
                 (rctx_authsize rctx)).
Proof.
  unfold mtk_send_req. cbv zeta. intros H.
  apply bind_Done in H as (p & k1 & Hprep & H).
  pose proof (send_req_prepare_frame _ _ _ _ _ _ _ Hprep) as Hfr.
  unfold dev_and_sa in Hfr. injection Hfr as Hdev Hmem.
  destruct p as [[err rc]|[[rc src] dst]].
  - injection H as E _ _ _ _.
    apply send_req_prepare_inl in Hprep. congruence.
  - destruct (ctr_overflow_split _ _ _) as [[offset iv] complete].
    apply send_req_submit_saRecord in H as (Hm & sa & Hsa & Hrec).
    rewrite Hmem in Hsa. rewrite Hdev in Hrec.
    exists sa. split; [exact Hsa|]. rewrite Hrec. apply lookup_insert_eq.
Qed.

Lemma mtk_skcipher_cra_init_run (fallback : option sync_skcipher) (k : kstate) :
  mtk_skcipher_cra_init fallback k
  = match allocs k with
    | Some a :: rest =>
        Done ((0, {| ctx_aead := false; ctx_sa := a; ctx_fallback := fallback;
                     ctx_authsize := 0 |}),
              {| dev := dev k; trace := trace k; allocs := rest;
                 sa_mem := <[a := saRecord_zero]> (sa_mem k) |})
    | None :: rest =>
        Done ((0, {| ctx_aead := false; ctx_sa := 0; ctx_fallback := fallback;
                     ctx_authsize := 0 |}),
              {| dev := dev k; trace := EvPrintk :: trace k; allocs := rest;
                 sa_mem := sa_mem k |})
    | [] =>
        Done ((0, {| ctx_aead := false; ctx_sa := 0; ctx_fallback := fallback;
                     ctx_authsize := 0 |}),
              {| dev := dev k; trace := EvPrintk :: trace k; allocs := [];
                 sa_mem := sa_mem k |})
    end.
Proof.
  unfold mtk_skcipher_cra_init, bind, alloc, emit, store_sa, ret.
  destruct (allocs k) as [|[a|] rest] eqn:E; cbn; rewrite ?E; reflexivity.
Qed.

Lemma send_req_saRecord_fields (sa : saRecord_s) (aead : bool) (flags aad authsize : Z) :
  let r := send_req_saRecord sa aead flags aad authsize in
  saKey r = saKey sa /\ saNonce r = saNonce sa
  /\ saIDigest r = saIDigest sa /\ saODigest r = saODigest sa
  /\ cipher (saCmd0 r) = cipher (saCmd0 sa) /\ hash (saCmd0 r) = hash (saCmd0 sa)
  /\ aesKeyLen (saCmd1 r) = aesKeyLen (saCmd1 sa)
  /\ cipherMode (saCmd1 r) = cipherMode (saCmd1 sa)
  /\ direction (saCmd0 r) = (if IS_DECRYPT flags then 1 else direction (saCmd0 sa))
  /\ opCode (saCmd0 r) = (if aead then 1 else opCode (saCmd0 sa)).
Proof.
  unfold send_req_saRecord.
  destruct (IS_DECRYPT flags), aead, (IS_HMAC flags); cbn; repeat split; reflexivity.
Qed.

(** X17: from set-up to the engine.  A transform set up by
    [mtk_skcipher_cra_init] and keyed with an accepted AES key sends, with
    every request that [mtk_send_req] submits, an SA record whose key field
    is the key followed by zero bytes, with cipher code 3, key-length code
    [keylen / 8] and the direction bit of the request (1 to decrypt, 0 to
    encrypt).  This holds also when setkey returned the error of the
    fallback. *)
Theorem skcipher_key_reaches_engine (api : crypto_api)
    (fallback : option sync_skcipher) (tflags : Z) (key : list Z) (len : Z)
    (base : Z) (reqsrc reqdst : list scatterlist) (reqiv : list Z)
    (rctx : mtk_cipher_reqctx) (k : kstate) (a : Z) (rest : list (option Z))
    (ctx : mtk_cipher_ctx) (k1 : kstate) (r : Z) (k2 : kstate)
    (rctx' : mtk_cipher_reqctx) (c res : Z) (k3 : kstate) :
  let kl := setkey_keylen tflags len in
  Z.land tflags MTK_ALG_MASK = MTK_ALG_AES ->
  kl = AES_KEYSIZE_128 \/ kl = AES_KEYSIZE_192 \/ kl = AES_KEYSIZE_256 ->
  Z.of_nat (length key) = len -> len < 2 ^ 32 ->
  allocs k = Some a :: rest ->
  mtk_skcipher_cra_init fallback k = Done ((0, ctx), k1) ->
  mtk_skcipher_setkey api tflags ctx (Some key) len k1 = Done (r, k2) ->
  mtk_send_req base ctx reqsrc reqdst reqiv rctx k2 = Done ((0, rctx', c, res), k3) ->
  exists rec,
    saRecord (dev k3) !! ring_write (rdr (dev k)) = Some rec
    /\ saKey rec = take (Z.to_nat kl) key ++ replicate (32 - Z.to_nat kl) 0
    /\ cipher (saCmd0 rec) = 3 /\ aesKeyLen (saCmd1 rec) = kl / 8
    /\ direction (saCmd0 rec) = (if IS_DECRYPT (rctx_flags rctx) then 1 else 0).
Proof.
  intros kl Halg Hkl Hlen Hmax Hal Hinit Hset Hsend.
  rewrite mtk_skcipher_cra_init_run, Hal in Hinit.
  injection Hinit as <- <-.
  destruct (setkey_aes_run api tflags
              {| ctx_aead := false; ctx_sa := a; ctx_fallback := fallback;
                 ctx_authsize := 0 |} key len
              {| dev := dev k; trace := trace k; allocs := rest;
                 sa_mem := <[a := saRecord_zero]> (sa_mem k) |} saRecord_zero
              Halg Hkl Hlen Hmax (lookup_insert_eq _ _ _) eq_refl)
    as (sa' & Hrun & Hkey & _ & Hciph & Hkeylen & Hdir & _).
  rewrite Hrun in Hset. injection Hset as _ <-.
  apply mtk_send_req_sa_slot in Hsend as (sa & Hsa & Hslot).
  cbn [sa_mem ctx_sa dev ctx_aead] in Hsa, Hslot.
  rewrite lookup_insert_eq in Hsa. injection Hsa as <-.
  eexists. split; [exact Hslot|].
  destruct (send_req_saRecord_fields sa' false (rctx_flags rctx) (rctx_assoclen rctx)
              (rctx_authsize rctx))
    as (Ek & _ & _ & _ & Ec & _ & El & _ & Ed & _).
  rewrite Ek, Ec, El, Ed, Hkey, Hciph, Hkeylen, Hdir.
  split_and!; try reflexivity.
  f_equal. cbn [saKey saRecord_zero].
  fold kl. rewrite drop_replicate. reflexivity.
Qed.

Lemma skcipher_key_reaches_engine_witness :
  exists rec k3,
    saRecord (dev k3) !! 0 = Some rec
    /\ saKey rec = map Z.of_nat (seq 1 16) ++ replicate 16 0
    /\ direction (saCmd0 rec) = 1.
Proof.
  edestruct (skcipher_key_reaches_engine api_accept None
               (Z.lor MTK_MODE_CBC MTK_ALG_AES) (map Z.of_nat (seq 1 16)) 16 7
               (sg_one 256 16384 48) (sg_one 320 32768 48) (replicate 16 0)
               (set_rctx_sizes 48 0 0 16
                  (rctx_fresh (Z.lor (Z.lor MTK_MODE_CBC MTK_ALG_AES) MTK_DECRYPT)))
               k_idle 8192 [Some 1048576; Some 8320; Some 2097152])
    as (rec & Hslot & Hkey & _ & _ & Hdir).
  - reflexivity.
  - left. reflexivity.
  - reflexivity.
  - reflexivity.
  - reflexivity.
  - vm_compute. reflexivity.
  - vm_compute. reflexivity.
  - vm_compute. reflexivity.
  - eexists rec, _. split; [exact Hslot|].
    split; [exact Hkey | exact Hdir].
Defined.

(** X18: [mtk_skcipher_cra_init] returns 0 also when the SA record could not
    be allocated; the transform then has a NULL record.  With nothing mapped
    at address 0, setting an accepted AES key on it dereferences the NULL
    pointer, and no request on it is ever submitted by [mtk_send_req]. *)
Theorem mtk_skcipher_cra_init_without_sa (fallback : option sync_skcipher) (k : kstate) :
  (forall a rest, allocs k <> Some a :: rest) ->
  sa_mem k !! 0 = None ->
  exists ctx k1,
    mtk_skcipher_cra_init fallback k = Done ((0, ctx), k1)
    /\ ctx_sa ctx = 0 /\ sa_mem k1 = sa_mem k /\ dev k1 = dev k
    /\ (forall api tflags key len,
          len <> 0 ->
          Z.land tflags MTK_ALG_MASK = MTK_ALG_AES ->
          aes_expandkey key (setkey_keylen tflags len) = 0 ->
          mtk_skcipher_setkey api tflags ctx (Some key) len k1 = Oops)
    /\ (forall base reqsrc reqdst reqiv rctx rctx' c res k',
          mtk_send_req base ctx reqsrc reqdst reqiv rctx k1
          <> Done ((0, rctx', c, res), k')).
Proof.
  intros Hal Hnull.
  pose proof (mtk_skcipher_cra_init_run fallback k) as Hrun.
  destruct (allocs k) as [|[a|] rest] eqn:E.
  - eexists _, _. split; [exact Hrun|]. split_and!; try reflexivity.
    + intros api tflags key len Hlen Halg Hexp.
      unfold mtk_skcipher_setkey. apply Z.eqb_neq in Hlen. rewrite Hlen.
      fold (setkey_keylen tflags len).
      rewrite Halg. change (MTK_ALG_AES =? MTK_ALG_AES) with true. cbv beta iota.
      rewrite Hexp. change (negb (0 =? 0)) with false. cbv beta iota.
      unfold mtk_ctx_saRecord. cbv zeta.
      unfold bind at 1. unfold bind at 1, emit at 1.
      unfold bind at 1, load_sa at 1. cbn [sa_mem ctx_sa]. rewrite Hnull. reflexivity.
    + intros base reqsrc reqdst reqiv rctx rctx' c res k' Hsend.
      apply mtk_send_req_sa_slot in Hsend as (sa & Hsa & _).
      cbn [sa_mem ctx_sa] in Hsa. congruence.
  - exfalso. exact (Hal a rest eq_refl).
  - eexists _, _. split; [exact Hrun|]. split_and!; try reflexivity.
    + intros api tflags key len Hlen Halg Hexp.
      unfold mtk_skcipher_setkey. apply Z.eqb_neq in Hlen. rewrite Hlen.
      fold (setkey_keylen tflags len).
      rewrite Halg. change (MTK_ALG_AES =? MTK_ALG_AES) with true. cbv beta iota.
      rewrite Hexp. change (negb (0 =? 0)) with false. cbv beta iota.
      unfold mtk_ctx_saRecord. cbv zeta.
      unfold bind at 1. unfold bind at 1, emit at 1.
      unfold bind at 1, load_sa at 1. cbn [sa_mem ctx_sa]. rewrite Hnull. reflexivity.
    + intros base reqsrc reqdst reqiv rctx rctx' c res k' Hsend.
      apply mtk_send_req_sa_slot in Hsend as (sa & Hsa & _).
      cbn [sa_mem ctx_sa] in Hsa. congruence.
Qed.

Lemma mtk_skcipher_cra_init_without_sa_witness :
  exists ctx k1,
    mtk_skcipher_cra_init None
      {| dev := dev_idle; trace := []; allocs := [None]; sa_mem := ∅ |}
    = Done ((0, ctx), k1)
    /\ mtk_skcipher_setkey api_accept (Z.lor MTK_MODE_CBC MTK_ALG_AES) ctx
         (Some (replicate 16 1)) 16 k1 = Oops.
Proof.
  destruct (mtk_skcipher_cra_init_without_sa None
              {| dev := dev_idle; trace := []; allocs := [None]; sa_mem := ∅ |})
    as (ctx & k1 & Hrun & _ & _ & _ & Hset & _).
  - intros a rest. discriminate.
  - reflexivity.
  - exists ctx, k1. split; [exact Hrun|].
    apply Hset; [discriminate | reflexivity | reflexivity].
Defined.

(** ** The AEAD key *)

Lemma mtk_ctx_saRecord_run (ctx : mtk_cipher_ctx) (key nonce : list Z)
    (keylen flags : Z) (k : kstate) (u : unit) (k' : kstate) :
  mtk_ctx_saRecord ctx key nonce keylen flags k = Done (u, k') ->
  dev k' = dev k /\ trace k' = EvCall_mtk_ctx_saRecord :: trace k
  /\ allocs k' = allocs k
  /\ exists sa sa',
       sa_mem k !! ctx_sa ctx = Some sa
       /\ sa_mem k' = <[ctx_sa ctx := sa']> (sa_mem k)
       /\ saKey sa' = memcpy (saKey sa) key keylen
       /\ saNonce sa' = (if IS_RFC3686 flags then nonce else saNonce sa)
       /\ saIDigest sa' = saIDigest sa /\ saODigest sa' = saODigest sa
       /\ aesKeyLen (saCmd1 sa')
          = (if Z.land flags MTK_ALG_MASK =? MTK_ALG_AES then keylen / 8
             else aesKeyLen (saCmd1 sa))
       /\ direction (saCmd0 sa') = direction (saCmd0 sa).
Proof.
  unfold mtk_ctx_saRecord. cbv zeta. intros H.
  unfold bind at 1, emit at 1 in H.
  unfold bind at 1, load_sa at 1 in H. cbn [sa_mem] in H.
  destruct (sa_mem k !! ctx_sa ctx) as [sa|] eqn:Hsa; [|discriminate].
  unfold store_sa in H. cbn [dev trace allocs sa_mem] in H.
  injection H as _ <-. cbn [dev trace allocs sa_mem].
  split_and!; try reflexivity.
  eexists sa, _. split; [reflexivity|]. split; [reflexivity|].
  cbn. split_and!; reflexivity.
Qed.

(** X19: [mtk_aead_setkey] never touches the device, and it rewrites the SA
    record only when it returns 0: on every error return the records are
    as they were and [mtk_ctx_saRecord] was not entered.  The bad-key flag
    is raised only together with [-EINVAL]. *)
Theorem mtk_aead_setkey_failure_keeps_sa
    (extract : list Z -> Z -> option crypto_authenc_keys) (sh : crypto_shash)
    (tflags : Z) (ctx : mtk_cipher_ctx) (key : list Z) (keylen : Z)
    (k : kstate) (r : Z) (k' : kstate) :
  mtk_aead_setkey extract sh tflags ctx key keylen k = Done (r, k') ->
  dev k' = dev k
  /\ (r <> 0 ->
      sa_mem k' = sa_mem k
      /\ (trace k' = trace k \/ (trace k' = EvSetBadKeyLen :: trace k /\ r = - EINVAL)))
  /\ (r = 0 ->
      trace k' = EvCall_mtk_ctx_saRecord :: trace k
      /\ exists sa', sa_mem k' !! ctx_sa ctx = Some sa').
Proof.
  unfold mtk_aead_setkey. cbv zeta. intros H.
  assert (Hbad : forall k0 r0 k0',
            (let* _ := emit EvSetBadKeyLen in ret (- EINVAL)) k0 = Done (r0, k0') ->
            dev k0' = dev k0 /\ sa_mem k0' = sa_mem k0
            /\ trace k0' = EvSetBadKeyLen :: trace k0 /\ r0 = - EINVAL).
  { intros k0 r0 k0' E. unfold bind, emit, ret in E. injection E as <- <-. auto. }
  assert (Hret : forall (e : Z) k0 r0 k0',
            ret e k0 = Done (r0, k0') -> r0 = e /\ k0' = k0).
  { intros e k0 r0 k0' E. unfold ret in E. injection E as <- <-. auto. }
  destruct (extract key keylen) as [keys|].
  2:{ apply Hbad in H as (Hd & Hm & Ht & ->).
      split; [exact Hd|]. split; [intros _; auto|]. intros E. discriminate. }
  destruct (IS_RFC3686 tflags && (keylen <? CTR_RFC3686_NONCE_SIZE)).
  { apply Hret in H as [-> ->].
    split; [reflexivity|]. split; [intros _; auto|]. intros E. discriminate. }
  destruct (AES_MAX_KEY_SIZE <? enckeylen keys).
  { apply Hbad in H as (Hd & Hm & Ht & ->).
    split; [exact Hd|]. split; [intros _; auto|]. intros E. discriminate. }
  apply bind_Done in H as (p & k1 & Hal & H).
  assert (Hk1 : dev k1 = dev k /\ sa_mem k1 = sa_mem k /\ trace k1 = trace k).
  { unfold alloc in Hal. destruct (allocs k); injection Hal as _ <-; auto. }
  destruct Hk1 as (Hd1 & Hm1 & Ht1).
  destruct p as [p|].
  2:{ apply Hret in H as [-> ->].
      split; [exact Hd1|]. split; [intros _; auto|]. intros E. discriminate. }
  destruct (aead_setkey_pads sh keys) as [err buf].
  destruct (negb (err =? 0)) eqn:Herr.
  { apply Hret in H as [-> ->]. apply negb_true_iff, Z.eqb_neq in Herr.
    split; [exact Hd1|]. split; [intros _; auto|]. intros E. contradiction. }
  apply bind_Done in H as (u & k2 & Hsa & H).
  apply mtk_ctx_saRecord_run in Hsa as (Hd2 & Ht2 & _ & _).
  apply bind_Done in H as (sa & k3 & Hld & H).
  unfold load_sa in Hld. destruct (sa_mem k2 !! ctx_sa ctx); [|discriminate].
  injection Hld as _ <-.
  unfold bind, store_sa, ret in H. injection H as <- <-. cbn [dev trace sa_mem].
  split; [congruence|]. split; [intros E; contradiction|].
  intros _. split; [congruence|]. eexists. apply lookup_insert_eq.
Qed.

Lemma mtk_aead_setkey_failure_keeps_sa_witness :
  exists r k',
    mtk_aead_setkey extract_auth20 shash_echo
      (Z.lor (Z.lor (Z.lor MTK_HASH_HMAC MTK_HASH_SHA1) MTK_MODE_CBC) MTK_ALG_AES)
      ctx_aead_tfm (replicate 60 1) 60 k_idle = Done (r, k')
    /\ dev k' = dev k_idle
    /\ (r <> 0 -> sa_mem k' = sa_mem k_idle).
Proof.
  destruct (mtk_aead_setkey extract_auth20 shash_echo
              (Z.lor (Z.lor (Z.lor MTK_HASH_HMAC MTK_HASH_SHA1) MTK_MODE_CBC) MTK_ALG_AES)
              ctx_aead_tfm (replicate 60 1) 60 k_idle) as [[r k']| |] eqn:E.
  - exists r, k'. split; [reflexivity|].
    destruct (mtk_aead_setkey_failure_keeps_sa _ _ _ _ _ _ _ _ _ E) as (Hd & Hf & _).
    split; [exact Hd|]. intros Hr. apply (Hf Hr).
  - vm_compute in E. discriminate.
  - vm_compute in E. discriminate.
Defined.

(** *** The pad buffer *)

Lemma buf_write_app_l (I O X : list Z) (off : Z) :
  (Z.to_nat off + length X <= length I)%nat ->
  buf_write (I ++ O) off X = buf_write I off X ++ O.
Proof.
  intros H. unfold buf_write.
  rewrite take_app_le by lia. rewrite drop_app_le by lia.
  rewrite <- !app_assoc. reflexivity.
Qed.

Lemma buf_write_app_r (I O X : list Z) (off : Z) :
  Z.to_nat off = length I ->
  buf_write (I ++ O) off X = I ++ buf_write O 0 X.
Proof.
  intros H. unfold buf_write. rewrite H.
  rewrite take_app_length. change (Z.to_nat 0) with 0%nat.
  rewrite take_0. cbn [app Nat.add].
  rewrite drop_app_ge by lia.
  replace (length I + length X - length I)%nat with (length X) by lia.
  reflexivity.
Qed.

Lemma buf_read_app_l (I O : list Z) (n : Z) :
  (Z.to_nat n <= length I)%nat -> buf_read (I ++ O) 0 n = take (Z.to_nat n) I.
Proof.
  intros H. unfold buf_read. change (Z.to_nat 0) with 0%nat. rewrite drop_0.
  apply take_app_le. exact H.
Qed.

Lemma buf_read_app_r (I O : list Z) (off n : Z) :
  Z.to_nat off = length I -> buf_read (I ++ O) off n = take (Z.to_nat n) O.
Proof.
  intros H. unfold buf_read. rewrite H, drop_app_length. reflexivity.
Qed.

Lemma buf_write_0 (B X : list Z) :
  buf_write B 0 X = X ++ drop (length X) B.
Proof. reflexivity. Qed.

Lemma length_buf_write (B X : list Z) (off : Z) :
  (Z.to_nat off + length X <= length B)%nat ->
  length (buf_write B off X) = length B.
Proof.
  intros H. unfold buf_write.
  rewrite !length_app, length_take, length_drop. lia.
Qed.

Lemma pad_buffer_layout (K : list Z) (bs : Z) :
  let nb := Z.to_nat bs in
  let P := K ++ replicate (nb - length K) 0 in
  let buf := replicate (Z.to_nat (2 * SHA512_BLOCK_SIZE)) 0 in
  let buf := buf_write buf 0 K in
  let buf := buf_write buf (0 + Z.of_nat (length K))
               (replicate (Z.to_nat (bs - Z.of_nat (length K))) 0) in
  let buf := buf_write buf SHA512_BLOCK_SIZE (buf_read buf 0 bs) in
  (length K <= nb)%nat -> (nb <= 128)%nat ->
  buf_xor (buf_xor buf 0 bs HMAC_IPAD_VALUE) SHA512_BLOCK_SIZE bs HMAC_OPAD_VALUE
  = (hmac_pad_block K bs HMAC_IPAD_VALUE ++ replicate (128 - nb) 0)
    ++ (hmac_pad_block K bs HMAC_OPAD_VALUE ++ replicate (128 - nb) 0).
Proof.
  intros nb P. cbv zeta. intros HK Hnb.
  assert (HP : length P = nb) by (unfold P; rewrite length_app, length_replicate; lia).
  change (Z.to_nat (2 * SHA512_BLOCK_SIZE)) with 256%nat.
  assert (E2 : buf_write (buf_write (replicate 256 0) 0 K) (0 + Z.of_nat (length K))
                 (replicate (Z.to_nat (bs - Z.of_nat (length K))) 0)
               = (P ++ replicate (128 - nb) 0) ++ replicate 128 0).
  { rewrite buf_write_0, drop_replicate.
    unfold buf_write.
    replace (Z.to_nat (0 + Z.of_nat (length K))) with (length K) by lia.
    rewrite take_app_length.
    replace (Z.to_nat (bs - Z.of_nat (length K))) with (nb - length K)%nat by lia.
    rewrite length_replicate.
    rewrite drop_app_ge by lia. rewrite drop_replicate.
    unfold P. rewrite <- !app_assoc. do 2 f_equal.
    rewrite <- replicate_add. f_equal. lia. }
  rewrite E2. clear E2.
  assert (HD : forall X : list Z, drop nb (P ++ X) = X)
    by (intros X; rewrite <- HP; apply drop_app_length).
  assert (HT : forall X : list Z, take nb (P ++ X) = P)
    by (intros X; rewrite <- HP; apply take_app_length).
  assert (HI : length (P ++ replicate (128 - nb) 0) = 128%nat)
    by (rewrite length_app, length_replicate; lia).
  rewrite buf_read_app_l by (rewrite HI; lia). fold nb. rewrite HT.
  rewrite buf_write_app_r by (rewrite HI; reflexivity).
  rewrite buf_write_0, HP, drop_replicate.
  unfold buf_xor at 2.
  rewrite buf_read_app_l by (rewrite HI; lia). fold nb. rewrite HT.
  rewrite buf_write_app_l
    by (change (Z.to_nat 0) with 0%nat; rewrite length_map, HI, HP; lia).
  rewrite buf_write_0, length_map, HP, HD.
  assert (HI' : length (map (fun b => Z.lxor b HMAC_IPAD_VALUE) P
                        ++ replicate (128 - nb) 0) = 128%nat).
  { rewrite length_app, length_map, HP, length_replicate. lia. }
  unfold buf_xor.
  rewrite buf_read_app_r by (rewrite HI'; reflexivity).
  fold nb. rewrite HT.
  rewrite buf_write_app_r by (rewrite HI'; reflexivity).
  rewrite buf_write_0, length_map, HP, HD.
  reflexivity.
Qed.

Lemma shash_pad_state_run (sh : crypto_shash) (buf : list Z) (off bs : Z)
    (st0 st img : list Z) :
  shash_init sh = (0, st0) ->
  shash_update sh st0 (buf_read buf off bs) = (0, st) ->
  shash_export sh st = (0, img) ->
  shash_pad_state sh buf off bs = (0, buf_write buf off img).
Proof.
  intros Hi Hu He. unfold shash_pad_state. rewrite Hi. cbn. rewrite Hu. cbn.
  rewrite He. reflexivity.
Qed.

(** The key that goes into the pads: the authentication key, or its digest
    when it is longer than a block. *)
Lemma aead_setkey_pads_run (sh : crypto_shash) (keys : crypto_authenc_keys)
    (K st0 sti sto imgi imgo : list Z) :
  let bs := shash_blocksize sh in
  0 <= bs <= SHA512_BLOCK_SIZE ->
  (if bs <? authkeylen keys
   then shash_digest sh (take (Z.to_nat (authkeylen keys)) (authkey keys)) = (0, K)
        /\ Z.of_nat (length K) = shash_digestsize sh /\ shash_digestsize sh <= bs
   else K = take (Z.to_nat (authkeylen keys)) (authkey keys)
        /\ Z.of_nat (length K) = authkeylen keys) ->
  shash_init sh = (0, st0) ->
  shash_update sh st0 (hmac_pad_block K bs HMAC_IPAD_VALUE) = (0, sti) ->
  shash_export sh sti = (0, imgi) ->
  shash_update sh st0 (hmac_pad_block K bs HMAC_OPAD_VALUE) = (0, sto) ->
  shash_export sh sto = (0, imgo) ->
  (length imgi <= 128)%nat -> (length imgo <= 128)%nat ->
  exists X Y,
    aead_setkey_pads sh keys = (0, (imgi ++ X) ++ (imgo ++ Y))
    /\ length (imgi ++ X) = 128%nat.
Proof.
  intros bs Hbs HK Hinit Hui Hei Huo Heo Hli Hlo.
  unfold SHA512_BLOCK_SIZE in Hbs.
  assert (HKl : (length K <= Z.to_nat bs)%nat /\ (Z.to_nat bs <= 128)%nat).
  { destruct (Z.ltb_spec bs (authkeylen keys)); destruct HK as (? & ?); lia. }
  destruct HKl as [HKl Hnb].
  assert (Hlay := pad_buffer_layout K bs HKl Hnb). cbv zeta in Hlay.
  assert (Hblk : forall c, length (hmac_pad_block K bs c) = Z.to_nat bs).
  { intros c. unfold hmac_pad_block. rewrite length_map, length_app, length_replicate.
    lia. }
  assert (Hhalf : forall c, length (hmac_pad_block K bs c ++ replicate (128 - Z.to_nat bs) 0)
                            = 128%nat).
  { intros c. rewrite length_app, Hblk, length_replicate. lia. }
  assert (Hgo : forall akl buf1,
            akl = Z.of_nat (length K) ->
            buf1 = buf_write (replicate (Z.to_nat (2 * SHA512_BLOCK_SIZE)) 0) 0 K ->
            exists X Y,
              (let buf := buf_write buf1 (0 + akl) (replicate (Z.to_nat (bs - akl)) 0) in
               let buf := buf_write buf SHA512_BLOCK_SIZE (buf_read buf 0 bs) in
               let buf := buf_xor (buf_xor buf 0 bs HMAC_IPAD_VALUE) SHA512_BLOCK_SIZE bs
                            HMAC_OPAD_VALUE in
               let '(err, buf) := shash_pad_state sh buf 0 bs in
               if negb (err =? 0) then (err, buf)
               else shash_pad_state sh buf SHA512_BLOCK_SIZE bs)
              = (0, (imgi ++ X) ++ (imgo ++ Y))
              /\ length (imgi ++ X) = 128%nat).
  { intros akl buf1 -> ->. cbv zeta. rewrite Hlay.
    rewrite (shash_pad_state_run sh _ 0 bs st0 sti imgi Hinit); [|
      rewrite buf_read_app_l by (rewrite Hhalf; lia);
      rewrite <- (Hblk HMAC_IPAD_VALUE), take_app_length; exact Hui | exact Hei].
    change (negb (0 =? 0)) with false. cbv beta iota.
    rewrite buf_write_app_l by (change (Z.to_nat 0) with 0%nat; rewrite Hhalf; lia).
    rewrite buf_write_0.
    assert (Hl1 : length (imgi ++ drop (length imgi)
                            (hmac_pad_block K bs HMAC_IPAD_VALUE ++ replicate (128 - Z.to_nat bs) 0))
                  = 128%nat).
    { rewrite length_app, length_drop, Hhalf. lia. }
    rewrite (shash_pad_state_run sh _ SHA512_BLOCK_SIZE bs st0 sto imgo Hinit); [|
      rewrite buf_read_app_r by (rewrite Hl1; reflexivity);
      rewrite <- (Hblk HMAC_OPAD_VALUE), take_app_length; exact Huo | exact Heo].
    rewrite buf_write_app_r by (rewrite Hl1; reflexivity).
    rewrite buf_write_0.
    eexists _, _. split; [reflexivity | exact Hl1]. }
  unfold aead_setkey_pads. cbv zeta. fold bs.
  destruct (bs <? authkeylen keys).
  - destruct HK as (Hd & Hlen & _). rewrite Hd. cbv beta iota.
    change (negb (0 =? 0)) with false. cbv beta iota.
    apply Hgo; [symmetry; exact Hlen | reflexivity].
  - destruct HK as (-> & Hlen). cbv beta iota.
    change (negb (0 =? 0)) with false. cbv beta iota.
    apply Hgo; [symmetry; exact Hlen | reflexivity].
Qed.

Lemma mtk_ctx_saRecord_total (ctx : mtk_cipher_ctx) (key nonce : list Z)
    (keylen flags : Z) (k : kstate) (sa : saRecord_s) :
  sa_mem k !! ctx_sa ctx = Some sa ->
  exists k', mtk_ctx_saRecord ctx key nonce keylen flags k = Done (tt, k').
Proof.
  intros Hsa. unfold mtk_ctx_saRecord. cbv zeta.
  unfold bind at 1, emit at 1.
  unfold bind at 1, load_sa at 1. cbn [sa_mem]. rewrite Hsa.
  unfold store_sa. eexists. reflexivity.
Qed.

(** X20: the key material a successful [mtk_aead_setkey] leaves in the SA
    record.  The inner and outer digest fields are the first 32 bytes of
    the exported hash states after one block, and that block is the HMAC
    pad of the authentication key (of its digest when the key is longer
    than a block): key, zero fill, every byte xor 0x36 resp. 0x5c.  The key
    field takes the encryption key as extracted, whatever its length up to
    32 bytes, with key-length code [enckeylen / 8] for AES; for RFC3686 the
    nonce is the last four bytes of the key blob. *)
Theorem mtk_aead_setkey_hmac_digests
    (extract : list Z -> Z -> option crypto_authenc_keys) (sh : crypto_shash)
    (tflags : Z) (ctx : mtk_cipher_ctx) (key : list Z) (keylen : Z) (k : kstate)
    (keys : crypto_authenc_keys) (K st0 sti sto imgi imgo : list Z)
    (p : Z) (rest : list (option Z)) (sa : saRecord_s) :
  let bs := shash_blocksize sh in
  extract key keylen = Some keys ->
  IS_RFC3686 tflags && (keylen <? CTR_RFC3686_NONCE_SIZE) = false ->
  enckeylen keys <= AES_MAX_KEY_SIZE ->
  allocs k = Some p :: rest ->
  sa_mem k !! ctx_sa ctx = Some sa ->
  0 <= bs <= SHA512_BLOCK_SIZE ->
  (if bs <? authkeylen keys
   then shash_digest sh (take (Z.to_nat (authkeylen keys)) (authkey keys)) = (0, K)
        /\ Z.of_nat (length K) = shash_digestsize sh /\ shash_digestsize sh <= bs
   else K = take (Z.to_nat (authkeylen keys)) (authkey keys)
        /\ Z.of_nat (length K) = authkeylen keys) ->
  shash_init sh = (0, st0) ->
  shash_update sh st0 (hmac_pad_block K bs HMAC_IPAD_VALUE) = (0, sti) ->
  shash_export sh sti = (0, imgi) ->
  shash_update sh st0 (hmac_pad_block K bs HMAC_OPAD_VALUE) = (0, sto) ->
  shash_export sh sto = (0, imgo) ->
  (32 <= length imgi <= 128)%nat -> (32 <= length imgo <= 128)%nat ->
  exists sa',
    mtk_aead_setkey extract sh tflags ctx key keylen k
    = Done (0, {| dev := dev k; trace := EvCall_mtk_ctx_saRecord :: trace k;
                  allocs := rest; sa_mem := <[ctx_sa ctx := sa']> (sa_mem k) |})
    /\ saIDigest sa' = take 32 imgi ++ drop 32 (saIDigest sa)
    /\ saODigest sa' = take 32 imgo ++ drop 32 (saODigest sa)
    /\ saKey sa' = memcpy (saKey sa) (enckey keys) (enckeylen keys)
    /\ saNonce sa'
       = (if IS_RFC3686 tflags
          then take 4 (drop (Z.to_nat (keylen - CTR_RFC3686_NONCE_SIZE)) key)
          else saNonce sa)
    /\ (Z.land tflags MTK_ALG_MASK = MTK_ALG_AES ->
        aesKeyLen (saCmd1 sa') = enckeylen keys / 8).
Proof.
  intros bs Hex Hrfc Henc Hal Hsa Hbs HK Hinit Hui Hei Huo Heo Hli Hlo.
  destruct (aead_setkey_pads_run sh keys K st0 sti sto imgi imgo Hbs HK Hinit Hui Hei
              Huo Heo ltac:(lia) ltac:(lia)) as (X & Y & Hpads & Hlen).
  set (k1 := {| dev := dev k; trace := trace k; allocs := rest; sa_mem := sa_mem k |}).
  set (nonce := if IS_RFC3686 tflags
                then take 4 (drop (Z.to_nat (keylen - CTR_RFC3686_NONCE_SIZE)) key)
                else replicate 4 0).
  destruct (mtk_ctx_saRecord_total ctx (enckey keys) nonce (enckeylen keys) tflags k1 sa Hsa)
    as (k2 & Hrun).
  destruct (mtk_ctx_saRecord_run _ _ _ _ _ _ _ _ Hrun)
    as (Hd2 & Ht2 & Ha2 & sa0 & sa1 & Hsa0 & Hm2 & Hkey & Hnonce & Hid & Hod & Hakl & _).
  cbn [sa_mem k1] in Hsa0. rewrite Hsa in Hsa0. injection Hsa0 as <-.
  eexists. split.
  - unfold mtk_aead_setkey. cbv zeta. rewrite Hex, Hrfc.
    apply Z.ltb_ge in Henc. rewrite Henc.
    unfold bind at 1, alloc at 1. rewrite Hal. fold k1.
    rewrite Hpads. change (negb (0 =? 0)) with false. cbv beta iota.
    assert (Hn : (if IS_RFC3686 tflags
                  then take 4 (drop (Z.to_nat (if IS_RFC3686 tflags
                                               then keylen - CTR_RFC3686_NONCE_SIZE
                                               else keylen)) key)
                  else replicate 4 0) = nonce).
    { unfold nonce. destruct (IS_RFC3686 tflags); reflexivity. }
    rewrite Hn. unfold bind at 1. rewrite Hrun.
    unfold bind at 1, load_sa at 1. rewrite Hm2, lookup_insert_eq.
    unfold bind, store_sa, ret. rewrite Hm2, Hd2, Ht2, Ha2.
    cbn [dev trace allocs sa_mem k1]. rewrite insert_insert_eq. reflexivity.
  - cbn [saIDigest saODigest saKey saNonce saCmd1].
    rewrite Hid, Hod, Hkey, Hnonce, Hakl. unfold memcpy, SHA256_DIGEST_SIZE.
    rewrite buf_read_app_l by (rewrite Hlen; lia).
    rewrite buf_read_app_r by (rewrite Hlen; reflexivity).
    change (Z.to_nat 32) with 32%nat.
    rewrite take_take. change (32 `min` 32)%nat with 32%nat.
    rewrite (take_app_le imgi X) by lia.
    rewrite (take_app_le imgo Y) by lia.
    rewrite take_take. change (32 `min` 32)%nat with 32%nat.
    unfold nonce.
    assert (Hlast : Z.land tflags MTK_ALG_MASK = MTK_ALG_AES ->
                    (if Z.land tflags MTK_ALG_MASK =? MTK_ALG_AES
                     then enckeylen keys / 8 else aesKeyLen (saCmd1 sa))
                    = enckeylen keys / 8)
      by (intros ->; reflexivity).
    destruct (IS_RFC3686 tflags); split_and!; try reflexivity; exact Hlast.
Qed.

Lemma mtk_aead_setkey_hmac_digests_witness :
  exists sa' k',
    mtk_aead_setkey extract_auth20 shash_echo
      (Z.lor (Z.lor (Z.lor MTK_HASH_HMAC MTK_HASH_SHA1) MTK_MODE_CBC) MTK_ALG_AES)
      ctx_aead_tfm (map Z.of_nat (seq 1 36)) 36 k_idle = Done (0, k')
    /\ sa_mem k' !! 4096 = Some sa'
    /\ saIDigest sa'
       = map (fun b => Z.lxor b 54) (map Z.of_nat (seq 1 20) ++ replicate 12 0)
    /\ saKey sa' = map Z.of_nat (seq 21 16) ++ replicate 16 0.
Proof.
  edestruct (mtk_aead_setkey_hmac_digests extract_auth20 shash_echo
               (Z.lor (Z.lor (Z.lor MTK_HASH_HMAC MTK_HASH_SHA1) MTK_MODE_CBC) MTK_ALG_AES)
               ctx_aead_tfm (map Z.of_nat (seq 1 36)) 36 k_idle)
    as (sa' & Hrun & Hi & _ & Hk & _).
  - reflexivity.
  - reflexivity.
  - lazy. discriminate.
  - reflexivity.
  - reflexivity.
  - lazy. split; discriminate.
  - lazy. split; reflexivity.
  - reflexivity.
  - reflexivity.
  - reflexivity.
  - reflexivity.
  - reflexivity.
  - lazy. lia.
  - lazy. lia.
  - eexists sa', _. split; [exact Hrun|].
    split; [cbn [sa_mem]; apply lookup_insert_eq|].
    split; [rewrite Hi; reflexivity | rewrite Hk; reflexivity].
Defined.

(** ** Lists with different segmentation *)

Lemma s32_small (x : Z) : 0 <= x < 2 ^ 31 -> s32 x = x.
Proof.
  intros H. unfold s32, u32. rewrite Z.mod_small by lia.
  destruct (Z.ltb_spec x (2 ^ 31)); [reflexivity | lia].
Qed.

Lemma u32_small (x : Z) : 0 <= x < 2 ^ 32 -> u32 x = x.
Proof. intros H. unfold u32. apply Z.mod_small. exact H. Qed.

Lemma scatter_plan_gather (s1 s2 d : scatterlist) (src dst : list scatterlist) :
  let a := sg_dma_len s1 in
  let b := sg_dma_len s2 in
  0 < a -> 0 < b -> a + b < 2 ^ 31 -> a + b <= sg_dma_len d ->
  scatter_plan (s1 :: s2 :: src) (d :: dst) (a + b)
  = Done [ {| pd_saddr := sg_dma_address s1; pd_offsetin := 0;
              pd_daddr := sg_dma_address d; pd_offsetout := a; pd_len := a |};
           {| pd_saddr := sg_dma_address s2; pd_offsetin := 0;
              pd_daddr := sg_dma_address d; pd_offsetout := a; pd_len := b |} ].
Proof.
  intros a b Ha Hb Hab Hd.
  unfold scatter_plan. cbn [length Nat.add].
  fold a. rewrite (Z.min_l a (a + b)) by lia.
  rewrite (Z.min_r (sg_dma_len d) (a + b)) by lia.
  cbn [sc_plan sc_advance].
  assert (E1 : (a =? a + b) = false) by (apply Z.eqb_neq; lia).
  assert (E2 : (a <? a + b) = true) by (apply Z.ltb_lt; lia).
  rewrite E1, E2.
  replace (u32 (a + b - a)) with b by (rewrite u32_small; lia).
  rewrite (s32_small (0 + a)) by lia. rewrite Z.add_0_l.
  assert (E3 : (b =? 0) = false) by (apply Z.eqb_neq; lia).
  rewrite E3. cbn [tail]. fold b. rewrite Z.min_id, E3.
  rewrite Z.eqb_refl.
  replace (u32 (b - b)) with 0 by (rewrite Z.sub_diag; reflexivity).
  reflexivity.
Qed.

Lemma scatter_plan_scatter (s d1 d2 : scatterlist) (src dst : list scatterlist) :
  let a := sg_dma_len d1 in
  let b := sg_dma_len d2 in
  0 < a -> 0 < b -> a + b < 2 ^ 31 -> a + b <= sg_dma_len s ->
  scatter_plan (s :: src) (d1 :: d2 :: dst) (a + b)
  = Done [ {| pd_saddr := sg_dma_address s; pd_offsetin := a;
              pd_daddr := sg_dma_address d1; pd_offsetout := 0; pd_len := a |};
           {| pd_saddr := sg_dma_address s; pd_offsetin := a;
              pd_daddr := sg_dma_address d2; pd_offsetout := 0; pd_len := b |} ].
Proof.
  intros a b Ha Hb Hab Hd.
  unfold scatter_plan. cbn [length Nat.add].
  fold a. rewrite (Z.min_l a (a + b)) by lia.
  rewrite (Z.min_r (sg_dma_len s) (a + b)) by lia.
  cbn [sc_plan sc_advance].
  assert (E1 : (a + b =? a) = false) by (apply Z.eqb_neq; lia).
  assert (E2 : (a + b <? a) = false) by (apply Z.ltb_ge; lia).
  rewrite E1, E2.
  replace (u32 (a + b - a)) with b by (rewrite u32_small; lia).
  rewrite (s32_small (0 + a)) by lia. rewrite Z.add_0_l.
  assert (E3 : (b =? 0) = false) by (apply Z.eqb_neq; lia).
  rewrite E3. rewrite Nat.add_succ_r. cbn [sc_plan sc_advance tail].
  fold b. rewrite Z.min_id, E3.
  rewrite Z.eqb_refl.
  replace (u32 (b - b)) with 0 by (rewrite Z.sub_diag; reflexivity).
  reflexivity.
Qed.

Lemma mtk_scatter_combine_two (sab ssb : Z) (sgsrc sgdst : list scatterlist)
    (datalen : Z) (complete : bool) (areq : Z) (k : kstate) (x1 x2 : sc_desc) :
  rings_sync k -> ring_wf (cdr (dev k)) -> 2 <= ring_free (cdr (dev k)) ->
  scatter_plan sgsrc sgdst datalen = Done [x1; x2] ->
  exists k',
    mtk_scatter_combine sab ssb sgsrc sgdst datalen complete areq k = Done ((0, 2, 2), k')
    /\ cdr_desc (dev k') !! ring_write (cdr (dev k)) = Some (desc_of sab ssb x1)
    /\ cdr_desc (dev k') !! ring_at (ring_write (cdr (dev k))) 1
       = Some (desc_of sab ssb x2).
Proof.
  intros Hsync Hwf Hfree Hplan.
  destruct (mtk_scatter_combine_run sab ssb sgsrc sgdst datalen complete areq k _
              Hsync Hwf Hplan ltac:(discriminate)) as (k' & Hrun & Hsub).
  { cbn [length]. lia. }
  exists k'. split; [exact Hrun|].
  pose proof (submitted_cdr_desc _ _ _ _ _ _ _ 0 x1 Hsub eq_refl) as H0.
  pose proof (submitted_cdr_desc _ _ _ _ _ _ _ 1 x2 Hsub eq_refl) as H1.
  unfold ring_at in H0. change (Z.of_nat 0) with 0 in H0.
  rewrite Z.add_0_r in H0.
  rewrite Z.mod_small in H0 by (unfold ring_wf in Hwf; lia).
  split; assumption.
Qed.

(** X21: lists with different segmentation.  When two source segments of
    [a] and [b] bytes go into one destination segment, [mtk_scatter_combine]
    issues two descriptors that both write at the destination address plus
    [a]: the offset is moved on before the first descriptor is filled in,
    so the first [a] bytes of the destination get no descriptor.  The same
    holds with the roles exchanged: from one source segment into two
    destination segments, both descriptors read at the source address plus
    [a].  The length fields hold [a] and [b] cut to the 20 bits of the
    field, which are [a] and [b] themselves below 2^20 bytes. *)
Theorem mtk_scatter_combine_unequal_segments (sab ssb : Z) (s1 s2 t : scatterlist)
    (l1 l2 : list scatterlist) (complete : bool) (areq : Z) (k : kstate) :
  let a := sg_dma_len s1 in
  let b := sg_dma_len s2 in
  let w0 := ring_write (cdr (dev k)) in
  0 < a -> 0 < b -> a + b < 2 ^ 31 -> a + b <= sg_dma_len t ->
  rings_sync k -> ring_wf (cdr (dev k)) -> 2 <= ring_free (cdr (dev k)) ->
  (exists k' x1 x2,
     mtk_scatter_combine sab ssb (s1 :: s2 :: l1) (t :: l2) (a + b) complete areq k
     = Done ((0, 2, 2), k')
     /\ cdr_desc (dev k') !! w0 = Some x1
     /\ cdr_desc (dev k') !! ring_at w0 1 = Some x2
     /\ srcAddr x1 = u32 (sg_dma_address s1)
     /\ len_length x1 = bitfield PE_LENGTH_BITS a
     /\ srcAddr x2 = u32 (sg_dma_address s2)
     /\ len_length x2 = bitfield PE_LENGTH_BITS b
     /\ dstAddr x1 = u32 (sg_dma_address t + a)
     /\ dstAddr x2 = u32 (sg_dma_address t + a)
     /\ (a + b < 2 ^ PE_LENGTH_BITS -> len_length x1 = a /\ len_length x2 = b))
  /\ (exists k' x1 x2,
        mtk_scatter_combine sab ssb (t :: l2) (s1 :: s2 :: l1) (a + b) complete areq k
        = Done ((0, 2, 2), k')
        /\ cdr_desc (dev k') !! w0 = Some x1
        /\ cdr_desc (dev k') !! ring_at w0 1 = Some x2
        /\ dstAddr x1 = u32 (sg_dma_address s1)
        /\ len_length x1 = bitfield PE_LENGTH_BITS a
        /\ dstAddr x2 = u32 (sg_dma_address s2)
        /\ len_length x2 = bitfield PE_LENGTH_BITS b
        /\ srcAddr x1 = u32 (sg_dma_address t + a)
        /\ srcAddr x2 = u32 (sg_dma_address t + a)
        /\ (a + b < 2 ^ PE_LENGTH_BITS -> len_length x1 = a /\ len_length x2 = b)).
Proof.
  intros a b w0 Ha Hb Hab Ht Hsync Hwf Hfree. split.
  - destruct (mtk_scatter_combine_two sab ssb (s1 :: s2 :: l1) (t :: l2) (a + b) complete
                areq k _ _ Hsync Hwf Hfree (scatter_plan_gather s1 s2 t l1 l2 Ha Hb Hab Ht))
      as (k' & Hrun & H1 & H2).
    eexists k', _, _. split; [exact Hrun|]. split; [exact H1|]. split; [exact H2|].
    unfold desc_of. cbn [srcAddr dstAddr len_length pd_saddr pd_daddr pd_offsetin
      pd_offsetout pd_len]. rewrite !Z.add_0_r.
    split_and!; try reflexivity.
    intros Hsmall; split; apply bitfield_small; fold a b; lia.
  - destruct (mtk_scatter_combine_two sab ssb (t :: l2) (s1 :: s2 :: l1) (a + b) complete
                areq k _ _ Hsync Hwf Hfree (scatter_plan_scatter t s1 s2 l2 l1 Ha Hb Hab Ht))
      as (k' & Hrun & H1 & H2).
    eexists k', _, _. split; [exact Hrun|]. split; [exact H1|]. split; [exact H2|].
    unfold desc_of. cbn [srcAddr dstAddr len_length pd_saddr pd_daddr pd_offsetin
      pd_offsetout pd_len]. rewrite !Z.add_0_r.
    split_and!; try reflexivity.
    intros Hsmall; split; apply bitfield_small; fold a b; lia.
Qed.

Lemma mtk_scatter_combine_unequal_segments_witness :
  exists k' x1 x2,
    mtk_scatter_combine 131072 65536 (sg_chain 256 16384 [16; 32])
      (sg_chain 512 32768 [48]) 48 true 7 k_idle = Done ((0, 2, 2), k')
    /\ cdr_desc (dev k') !! 0 = Some x1 /\ cdr_desc (dev k') !! 1 = Some x2
    /\ dstAddr x1 = 32784 /\ dstAddr x2 = 32784.
Proof.
  destruct (mtk_scatter_combine_unequal_segments 131072 65536
              {| sg_addr := 256; sg_page := 16384; sg_offset := 0; sg_length := 16;
                 sg_dma_address := 16384; sg_data := replicate 16 0 |}
              {| sg_addr := 288; sg_page := 16400; sg_offset := 0; sg_length := 32;
                 sg_dma_address := 16400; sg_data := replicate 32 0 |}
              {| sg_addr := 512; sg_page := 32768; sg_offset := 0; sg_length := 48;
                 sg_dma_address := 32768; sg_data := replicate 48 0 |}
              [] [] true 7 k_idle)
    as [(k' & x1 & x2 & Hrun & H1 & H2 & _ & _ & _ & _ & Hd1 & Hd2 & _) _].
  - reflexivity.
  - reflexivity.
  - reflexivity.
  - discriminate.
  - reflexivity.
  - unfold ring_wf, MTK_RING_SIZE. simpl. lia.
  - vm_compute. discriminate.
  - exists k', x1, x2. split; [exact Hrun|].
    split; [exact H1|]. split; [exact H2|]. split; assumption.
Defined.

(** ** The stored tag length *)

(** X22: [mtk_aead_setauthsize] accepts every tag length, and the value it
    stores is never read: requests behave the same on the transform before
    and after the call.  The tag length of a request is the one the crypto
    API hands to [mtk_aead_crypt]. *)
Theorem mtk_aead_setauthsize_unused (ctx : mtk_cipher_ctx) (a : Z) :
  fst (mtk_aead_setauthsize ctx a) = 0
  /\ (forall authsize ivsize rctx req k,
        mtk_aead_crypt authsize ivsize (snd (mtk_aead_setauthsize ctx a)) rctx req k
        = mtk_aead_crypt authsize ivsize ctx rctx req k)
  /\ (forall base reqsrc reqdst reqiv rctx k,
        mtk_send_req base (snd (mtk_aead_setauthsize ctx a)) reqsrc reqdst reqiv rctx k
        = mtk_send_req base ctx reqsrc reqdst reqiv rctx k).
Proof.
  split; [reflexivity|]. split.
  - intros. destruct ctx. reflexivity.
  - intros. destruct ctx. reflexivity.
Qed.

(** ** Requests without text *)

Lemma IS_DECRYPT_decrypt (tflags : Z) : IS_DECRYPT (Z.lor tflags MTK_DECRYPT) = true.
Proof.
  unfold IS_DECRYPT, flag_set. apply negb_true_iff, Z.eqb_neq.
  intros H. apply (f_equal (fun z => Z.testbit z 13)) in H.
  rewrite Z.land_spec, Z.lor_spec in H.
  change (Z.testbit MTK_DECRYPT 13) with true in H.
  rewrite orb_true_r in H. discriminate.
Qed.

Lemma IS_DECRYPT_encrypt (tflags : Z) :
  IS_DECRYPT (Z.lor tflags MTK_ENCRYPT) = IS_DECRYPT tflags.
Proof.
  unfold IS_DECRYPT, flag_set. do 2 f_equal.
  rewrite Z.land_lor_distr_l.
  change (Z.land MTK_ENCRYPT MTK_DECRYPT) with 0. apply Z.lor_0_r.
Qed.

(** X23: requests without text.  The skcipher entry answers 0 to a request
    of length 0.  The AEAD entries answer 0 when no text is left: an
    encryption of length 0 (associated data alone), and a decryption whose
    length is the tag length.  In all three cases nothing else happens: no
    descriptor, no register write, no completion call, so no tag is written
    and none is checked. *)
Theorem crypt_without_text (tflags authsize ivsize : Z) (ctx : mtk_cipher_ctx)
    (rctx : mtk_cipher_reqctx) (req : crypt_request) (k : kstate) :
  (req_cryptlen req = 0 ->
   mtk_skcipher_encrypt tflags ivsize ctx rctx req k
   = Done ((0, set_rctx_flags (Z.lor tflags MTK_ENCRYPT) rctx), k)
   /\ mtk_skcipher_decrypt tflags ivsize ctx rctx req k
      = Done ((0, set_rctx_flags (Z.lor tflags MTK_DECRYPT) rctx), k))
  /\ (req_cryptlen req = 0 -> IS_DECRYPT tflags = false ->
      exists rctx',
        mtk_aead_encrypt tflags authsize ivsize ctx rctx req k = Done ((0, rctx'), k))
  /\ (req_cryptlen req = authsize ->
      exists rctx',
        mtk_aead_decrypt tflags authsize ivsize ctx rctx req k = Done ((0, rctx'), k)).
Proof.
  split_and!.
  - intros Hlen. unfold mtk_skcipher_encrypt, mtk_skcipher_decrypt, mtk_skcipher_crypt.
    rewrite Hlen. split; reflexivity.
  - intros Hlen Hdec. unfold mtk_aead_encrypt, mtk_aead_crypt. cbv zeta.
    cbn [rctx_flags set_rctx_flags rctx_textsize set_rctx_sizes].
    rewrite IS_DECRYPT_encrypt, Hdec, Hlen. eexists. reflexivity.
  - intros Hlen. unfold mtk_aead_decrypt, mtk_aead_crypt. cbv zeta.
    cbn [rctx_flags set_rctx_flags rctx_textsize set_rctx_sizes].
    rewrite IS_DECRYPT_decrypt, Hlen, Z.sub_diag. eexists. reflexivity.
Qed.

Lemma crypt_without_text_witness :
  exists rctx',
    mtk_aead_decrypt
      (Z.lor (Z.lor (Z.lor MTK_HASH_HMAC MTK_HASH_SHA1) MTK_MODE_CBC) MTK_ALG_AES) 20 16
      ctx_aead_tfm (rctx_fresh 0)
      {| req_base := 7; req_src := sg_one 256 16384 28; req_dst := sg_one 320 32768 28;
         req_cryptlen := 20; req_assoclen := 8; req_iv := replicate 16 0 |} k_idle
    = Done ((0, rctx'), k_idle).
Proof.
  apply (proj2 (proj2 (crypt_without_text
                         (Z.lor (Z.lor (Z.lor MTK_HASH_HMAC MTK_HASH_SHA1) MTK_MODE_CBC)
                            MTK_ALG_AES) 20 16 ctx_aead_tfm (rctx_fresh 0)
                         {| req_base := 7; req_src := sg_one 256 16384 28;
                            req_dst := sg_one 320 32768 28; req_cryptlen := 20;
                            req_assoclen := 8; req_iv := replicate 16 0 |} k_idle))).
  reflexivity.
Defined.

(** ** Retirement of a request that went out in two halves *)

Lemma ring_at_add (r : Z) (c j : nat) : ring_at (ring_at r c) j = ring_at r (c + j).
Proof.
  unfold ring_at. rewrite Zplus_mod_idemp_l. f_equal. lia.
Qed.

(** The reaper at the last descriptor of a submission whose request holds
    two bounce buffers, finishing or not. *)
Lemma mtk_req_result_bounce_any (little_endian : bool) (hw : Z -> hw_rdesc)
    (rd_count : Z) (rctx : mtk_cipher_reqctx) (reqsrc reqdst : list scatterlist)
    (reqiv : list Z) (k : kstate) (c : nat) (complete : bool) (bs bd : scatterlist)
    (ts td : list scatterlist) :
  let r := ring_read (cdr (dev k)) in
  let last := buf_at (dev k) (ring_at r (c - 1)) in
  let flags := rctx_flags rctx in
  let len := u32 (rctx_assoclen rctx + rctx_textsize rctx) in
  let authsize := rctx_authsize rctx in
  (0 < c)%nat -> Z.of_nat c <= Z.land rd_count (GENMASK 10 0) ->
  rings_sync k -> ring_wf (cdr (dev k)) ->
  Z.of_nat c <= ring_used (cdr (dev k)) ->
  (forall j, (j < c)%nat ->
     buf_flags (buf_at (dev k) (ring_at r j)) = entry_flags complete c j) ->
  any_err hw r c = false ->
  rctx_sg_src rctx = bs :: ts -> rctx_sg_dst rctx = bd :: td ->
  u32 (len + authsize) <> 0 ->
  exists out k',
    mtk_req_result little_endian hw rd_count rctx reqsrc reqdst reqiv k = Done (out, k')
    /\ out_ndesc out = Z.of_nat c /\ out_ret out = 0
    /\ out_should_complete out = complete
    /\ out_rctx out = set_rctx_sg [] [] rctx
    /\ out_reqdst out
       = sg_copy_from_buffer reqdst
           (fix_tag_endianness little_endian flags len authsize (sg_data bd))
           (u32 (len + (if IS_ENCRYPT flags then authsize else 0)))
    /\ out_reqiv out
       = (if complete && (negb (IS_RFC3686 flags) && (IS_CBC flags || IS_CTR flags))
          then memcpy reqiv (stateIv (saState_at (dev k) (buf_saPointer last)))
                 (rctx_ivsize rctx)
          else reqiv)
    /\ trace k'
       = (if complete && IS_BUSY flags
          then [EvComplete (buf_req last) (- EINPROGRESS)] else [])
         ++ EvFreePages (sg_page bd)
         :: EvDmaUnmap (sg_addr bd) (sg_nents (bd :: td)) DMA_FROM_DEVICE
         :: EvFreePages (sg_page bs)
         :: EvDmaUnmap (sg_addr bs) (sg_nents (bs :: ts)) DMA_TO_DEVICE
         :: trace k
    /\ retired c k k'.
Proof.
  intros r last flags len authsize Hc Hn Hsync Hwf Hused Hflags Herr Hsrc Hdst Hlen.
  destruct (reap_loop_submission hw (Z.land rd_count (GENMASK 10 0)) complete c
              (Z.to_nat (Z.land rd_count (GENMASK 10 0)))
              {| rv_ndesc := 0; rv_buf := None; rv_should_complete := false;
                 rv_last_entry := false; rv_ret := 0; rv_tries := [] |} k)
    as (v & kl & Hloop & Hnd & Hle & Hsc & Hbuf & Hret & Htr & Hretired);
    try assumption; try (cbn [rv_ndesc]; lia); try reflexivity.
  fold r in Hbuf, Hret, Htr. fold last in Hbuf. rewrite Herr in Hret.
  specialize (Htr Herr).
  pose proof Hretired as (_ & _ & _ & _ & _ & _ & _ & _ & HsS & _).
  unfold mtk_req_result. cbv zeta. unfold bind at 1. rewrite Hloop.
  rewrite Hle. cbn [negb]. rewrite Hsrc, Hdst. cbn [sg_is_null andb negb].
  fold len. fold authsize. fold flags.
  apply Z.eqb_neq in Hlen.
  unfold mtk_free_sg_cpy. rewrite Hlen.
  unfold bind at 1. unfold bind at 1, dma_unmap_sg at 1, emit at 1.
  unfold bind at 1, emit at 1, ret at 1.
  unfold bind at 1. unfold bind at 1, dma_unmap_sg at 1, emit at 1.
  unfold bind at 1. unfold bind at 1, emit at 1, ret at 1. unfold ret at 1.
  rewrite Hsc. rewrite orb_false_r.
  unfold req_result_update_iv. rewrite Hbuf.
  cbn [rctx_flags set_rctx_sg rctx_ivsize]. fold flags.
  destruct complete; cbn [negb andb];
    [destruct (negb (IS_RFC3686 flags) && (IS_CBC flags || IS_CTR flags)) eqn:Hm;
     destruct (IS_BUSY flags) eqn:Hb |];
    unfold bind, get_dev, emit, ret; cbn [dev trace head_addr bounce_data];
    (eexists _, _; split; [reflexivity|]);
    cbn [out_ndesc out_ret out_should_complete out_rctx out_reqdst out_reqiv trace];
    rewrite Hnd, Hret, Htr; cbn [rv_ndesc rv_ret];
    unfold saState_at; rewrite ?HsS;
    (split_and!; [lia | reflexivity.. | exact Hretired]).
Qed.

(** The reaper at the last descriptor of a submission whose request holds
    no bounce buffer and has two different lists. *)
Lemma mtk_req_result_plain_any (little_endian : bool) (hw : Z -> hw_rdesc)
    (rd_count : Z) (rctx : mtk_cipher_reqctx) (reqsrc reqdst : list scatterlist)
    (reqiv : list Z) (k : kstate) (c : nat) (complete : bool) :
  let r := ring_read (cdr (dev k)) in
  let last := buf_at (dev k) (ring_at r (c - 1)) in
  let flags := rctx_flags rctx in
  (0 < c)%nat -> Z.of_nat c <= Z.land rd_count (GENMASK 10 0) ->
  rings_sync k -> ring_wf (cdr (dev k)) ->
  Z.of_nat c <= ring_used (cdr (dev k)) ->
  (forall j, (j < c)%nat ->
     buf_flags (buf_at (dev k) (ring_at r j)) = entry_flags complete c j) ->
  any_err hw r c = false ->
  rctx_sg_src rctx = [] -> rctx_sg_dst rctx = [] -> sg_ptr_eq reqsrc reqdst = false ->
  exists out k',
    mtk_req_result little_endian hw rd_count rctx reqsrc reqdst reqiv k = Done (out, k')
    /\ out_ndesc out = Z.of_nat c /\ out_ret out = 0
    /\ out_should_complete out = complete
    /\ out_rctx out = set_rctx_sg [] [] rctx
    /\ out_reqdst out = reqdst
    /\ out_reqiv out
       = (if complete && (negb (IS_RFC3686 flags) && (IS_CBC flags || IS_CTR flags))
          then memcpy reqiv (stateIv (saState_at (dev k) (buf_saPointer last)))
                 (rctx_ivsize rctx)
          else reqiv)
    /\ trace k'
       = (if complete && IS_BUSY flags
          then [EvComplete (buf_req last) (- EINPROGRESS)] else [])
         ++ EvDmaUnmap (head_addr reqdst) (sg_nents reqdst) DMA_FROM_DEVICE
         :: EvDmaUnmap (head_addr reqsrc) (sg_nents reqsrc) DMA_TO_DEVICE
         :: trace k
    /\ retired c k k'.
Proof.
  intros r last flags Hc Hn Hsync Hwf Hused Hflags Herr Hsrc Hdst Hne.
  destruct (reap_loop_submission hw (Z.land rd_count (GENMASK 10 0)) complete c
              (Z.to_nat (Z.land rd_count (GENMASK 10 0)))
              {| rv_ndesc := 0; rv_buf := None; rv_should_complete := false;
                 rv_last_entry := false; rv_ret := 0; rv_tries := [] |} k)
    as (v & kl & Hloop & Hnd & Hle & Hsc & Hbuf & Hret & Htr & Hretired);
    try assumption; try (cbn [rv_ndesc]; lia); try reflexivity.
  fold r in Hbuf, Hret, Htr. fold last in Hbuf. rewrite Herr in Hret.
  specialize (Htr Herr).
  pose proof Hretired as (_ & _ & _ & _ & _ & _ & _ & _ & HsS & _).
  unfold mtk_req_result. cbv zeta. unfold bind at 1. rewrite Hloop.
  rewrite Hle. cbn [negb]. rewrite Hsrc, Hdst, Hne. cbn [sg_is_null andb negb].
  fold flags.
  unfold bind at 1. unfold bind at 1, dma_unmap_sg at 1, emit at 1. unfold ret at 1.
  unfold bind at 1. unfold bind at 1, dma_unmap_sg at 1, emit at 1. unfold ret at 1.
  rewrite Hsc. rewrite orb_false_r.
  unfold req_result_update_iv. rewrite Hbuf.
  cbn [rctx_flags set_rctx_sg rctx_ivsize]. fold flags.
  destruct complete; cbn [negb andb];
    [destruct (negb (IS_RFC3686 flags) && (IS_CBC flags || IS_CTR flags)) eqn:Hm;
     destruct (IS_BUSY flags) eqn:Hb |];
    unfold bind, get_dev, emit, ret; cbn [dev trace];
    (eexists _, _; split; [reflexivity|]);
    cbn [out_ndesc out_ret out_should_complete out_rctx out_reqdst out_reqiv trace];
    rewrite Hnd, Hret, Htr; cbn [rv_ndesc rv_ret];
    unfold saState_at; rewrite ?HsS;
    (split_and!; [lia | reflexivity.. | exact Hretired]).
Qed.

Lemma sg_copy_from_buffer_head (sg : list scatterlist) (buf : list Z) (n : Z) :
  head_addr (sg_copy_from_buffer sg buf n) = head_addr sg
  /\ sg_nents (sg_copy_from_buffer sg buf n) = sg_nents sg
  /\ forall other, sg_ptr_eq other (sg_copy_from_buffer sg buf n) = sg_ptr_eq other sg.
Proof.
  split; [destruct sg; reflexivity|]. split.
  - unfold sg_nents. f_equal. revert buf n.
    induction sg as [|s sg IH]; intros buf n; [reflexivity|].
    cbn [sg_copy_from_buffer length]. f_equal. apply IH.
  - intros other. destruct other, sg; reflexivity.
Qed.

Lemma retired_next_window (c1 c2 : nat) (k k1 : kstate) :
  retired c1 k k1 -> ring_wf (cdr (dev k)) ->
  Z.of_nat (c1 + c2) <= ring_used (cdr (dev k)) ->
  rings_sync k1 /\ ring_wf (cdr (dev k1))
  /\ ring_read (cdr (dev k1)) = ring_at (ring_read (cdr (dev k))) c1
  /\ Z.of_nat c2 <= ring_used (cdr (dev k1))
  /\ saState (dev k1) = saState (dev k)
  /\ forall j, (j < c2)%nat ->
       buf_at (dev k1) (ring_at (ring_read (cdr (dev k1))) j)
       = buf_at (dev k) (ring_at (ring_read (cdr (dev k))) (c1 + j)).
Proof.
  intros (Hsync & Hwf1 & Hrd & _ & Hused & _ & Hout & _ & HsS & _) Hwf Hu.
  pose proof (ring_used_range (cdr (dev k))) as Hur. unfold MTK_RING_SIZE in Hur.
  split_and!; try assumption; [lia|].
  intros j Hj. rewrite Hrd, ring_at_add. unfold buf_at. f_equal.
  apply Hout. intros j' Hj' E.
  apply ring_at_inj in E; lia.
Qed.

(** X24: retirement of a request that went out in two halves (the counter
    split) through bounce buffers.  At the last entry of the first half the
    reaper already unmaps and frees both bounce buffers and copies the
    destination bounce buffer, over the whole length of the request, into
    the destination list; it reports the request as not complete.  At the
    last entry of the second half it unmaps the lists of the request
    themselves and copies nothing: the destination list is left as it was
    after the first half. *)
Theorem ctr_split_retirement (little_endian : bool) (hw : Z -> hw_rdesc)
    (rd1 rd2 : Z) (rctx : mtk_cipher_reqctx) (reqsrc reqdst : list scatterlist)
    (reqiv : list Z) (k : kstate) (c1 c2 : nat) (bs bd : scatterlist)
    (ts td : list scatterlist) :
  let r := ring_read (cdr (dev k)) in
  let last := buf_at (dev k) (ring_at r (c1 + c2 - 1)) in
  let flags := rctx_flags rctx in
  let len := u32 (rctx_assoclen rctx + rctx_textsize rctx) in
  let authsize := rctx_authsize rctx in
  (0 < c1)%nat -> (0 < c2)%nat ->
  Z.of_nat c1 <= Z.land rd1 (GENMASK 10 0) ->
  Z.of_nat c2 <= Z.land rd2 (GENMASK 10 0) ->
  rings_sync k -> ring_wf (cdr (dev k)) ->
  Z.of_nat (c1 + c2) <= ring_used (cdr (dev k)) ->
  (forall j, (j < c1)%nat ->
     buf_flags (buf_at (dev k) (ring_at r j)) = entry_flags false c1 j) ->
  (forall j, (j < c2)%nat ->
     buf_flags (buf_at (dev k) (ring_at r (c1 + j))) = entry_flags true c2 j) ->
  any_err hw r c1 = false -> any_err hw (ring_at r c1) c2 = false ->
  rctx_sg_src rctx = bs :: ts -> rctx_sg_dst rctx = bd :: td ->
  sg_ptr_eq reqsrc reqdst = false ->
  u32 (len + authsize) <> 0 ->
  exists out1 k1 out2 k2,
    mtk_req_result little_endian hw rd1 rctx reqsrc reqdst reqiv k = Done (out1, k1)
    /\ mtk_req_result little_endian hw rd2 (out_rctx out1) reqsrc (out_reqdst out1)
         (out_reqiv out1) k1 = Done (out2, k2)
    /\ out_ndesc out1 = Z.of_nat c1 /\ out_should_complete out1 = false
    /\ out_ndesc out2 = Z.of_nat c2 /\ out_should_complete out2 = true
    /\ out_reqiv out1 = reqiv
    /\ out_reqdst out1
       = sg_copy_from_buffer reqdst
           (fix_tag_endianness little_endian flags len authsize (sg_data bd))
           (u32 (len + (if IS_ENCRYPT flags then authsize else 0)))
    /\ out_reqdst out2 = out_reqdst out1
    /\ trace k1
       = EvFreePages (sg_page bd)
         :: EvDmaUnmap (sg_addr bd) (sg_nents (bd :: td)) DMA_FROM_DEVICE
         :: EvFreePages (sg_page bs)
         :: EvDmaUnmap (sg_addr bs) (sg_nents (bs :: ts)) DMA_TO_DEVICE
         :: trace k
    /\ trace k2
       = (if IS_BUSY flags then [EvComplete (buf_req last) (- EINPROGRESS)] else [])
         ++ EvDmaUnmap (head_addr reqdst) (sg_nents reqdst) DMA_FROM_DEVICE
         :: EvDmaUnmap (head_addr reqsrc) (sg_nents reqsrc) DMA_TO_DEVICE
         :: trace k1.
Proof.
  intros r last flags len authsize Hc1 Hc2 Hn1 Hn2 Hsync Hwf Hused Hf1 Hf2 He1 He2
    Hsrc Hdst Hne Hlen.
  destruct (mtk_req_result_bounce_any little_endian hw rd1 rctx reqsrc reqdst reqiv k c1
              false bs bd ts td Hc1 Hn1 Hsync Hwf ltac:(lia) Hf1 He1 Hsrc Hdst Hlen)
    as (out1 & k1 & Hrun1 & Hnd1 & _ & Hsc1 & Hrc1 & Hrd1 & Hiv1 & Htr1 & Hret1).
  fold flags len authsize in Hrd1.
  destruct (retired_next_window c1 c2 k k1 Hret1 Hwf Hused)
    as (Hsync1 & Hwf1 & Hr1 & Hu1 & HsS & Hbuf).
  destruct (sg_copy_from_buffer_head reqdst
              (fix_tag_endianness little_endian flags len authsize (sg_data bd))
              (u32 (len + (if IS_ENCRYPT flags then authsize else 0))))
    as (Hha & Hnn & Hpe).
  destruct (mtk_req_result_plain_any little_endian hw rd2 (out_rctx out1) reqsrc
              (out_reqdst out1) (out_reqiv out1) k1 c2 true Hc2 Hn2 Hsync1 Hwf1 Hu1)
    as (out2 & k2 & Hrun2 & Hnd2 & _ & Hsc2 & _ & Hrd2 & _ & Htr2 & _).
  - intros j Hj. rewrite (Hbuf j Hj). apply Hf2. exact Hj.
  - rewrite Hr1. exact He2.
  - rewrite Hrc1. reflexivity.
  - rewrite Hrc1. reflexivity.
  - rewrite Hrd1, Hpe. exact Hne.
  - exists out1, k1, out2, k2.
    split; [exact Hrun1|]. split; [exact Hrun2|].
    split; [exact Hnd1|]. split; [exact Hsc1|].
    split; [exact Hnd2|]. split; [exact Hsc2|].
    split; [exact Hiv1|]. split; [exact Hrd1|]. split; [exact Hrd2|].
    split; [exact Htr1|].
    rewrite Htr2. rewrite Hrc1. cbn [rctx_flags set_rctx_sg andb]. fold flags.
    rewrite Hrd1, Hha, Hnn.
    rewrite (Hbuf (c2 - 1)%nat ltac:(lia)).
    replace (c1 + (c2 - 1))%nat with (c1 + c2 - 1)%nat by lia.
    reflexivity.
Qed.

Lemma ctr_split_retirement_witness :
  exists out1 k1 out2 k2,
    mtk_req_result true hw_ready 1 rctx_ctr_bounce (sg_one 256 16384 48)
      (sg_one 320 32768 48) iv_fffffffe k_split_pending = Done (out1, k1)
    /\ mtk_req_result true hw_ready 1 (out_rctx out1) (sg_one 256 16384 48)
         (out_reqdst out1) (out_reqiv out1) k1 = Done (out2, k2)
    /\ out_should_complete out1 = false
    /\ out_reqdst out2 = out_reqdst out1.
Proof.
  destruct (ctr_split_retirement true hw_ready 1 1 rctx_ctr_bounce (sg_one 256 16384 48)
              (sg_one 320 32768 48) iv_fffffffe k_split_pending 1 1
              {| sg_addr := 8192; sg_page := 1048576; sg_offset := 0; sg_length := u32 48;
                 sg_dma_address := 0; sg_data := replicate 48 1 |}
              {| sg_addr := 8320; sg_page := 2097152; sg_offset := 0; sg_length := u32 48;
                 sg_dma_address := 0; sg_data := replicate 48 2 |} [] [])
    as (out1 & k1 & out2 & k2 & H1 & H2 & _ & Hsc & _ & _ & _ & _ & Hd & _).
  - lia.
  - lia.
  - vm_compute. discriminate.
  - vm_compute. discriminate.
  - reflexivity.
  - unfold ring_wf, MTK_RING_SIZE. simpl. lia.
  - vm_compute. discriminate.
  - intros j Hj. assert (j = 0%nat) by lia. subst j. reflexivity.
  - intros j Hj. assert (j = 0%nat) by lia. subst j. reflexivity.
  - reflexivity.
  - reflexivity.
  - reflexivity.
  - reflexivity.
  - reflexivity.
  - vm_compute. discriminate.
  - exists out1, k1, out2, k2. auto.
Defined.

(** ** A submission reaped over several calls *)

Lemma retired_0 (k : kstate) : rings_sync k -> ring_wf (cdr (dev k)) -> retired 0 k k.
Proof.
  intros Hsync Hwf. unfold retired.
  split; [exact Hsync|]. split; [exact Hwf|].
  split; [symmetry; apply ring_at_0; apply Hwf|].
  split; [reflexivity|]. split; [change (Z.of_nat 0) with 0; lia|].
  split; [intros j Hj; lia|]. split; [reflexivity|]. auto 10.
Qed.

(** The loop over [n] entries none of which ends a submission, when the
    result count allows for no more than these. *)
Lemma reap_loop_count (hw : Z -> hw_rdesc) (nreq : Z) :
  forall (n fuel : nat) (v : reap_vars) (k : kstate),
    (n <= fuel)%nat ->
    rv_ndesc v + Z.of_nat n = nreq ->
    rv_last_entry v = false ->
    rings_sync k -> ring_wf (cdr (dev k)) ->
    Z.of_nat n <= ring_used (cdr (dev k)) ->
    (forall j, (j < n)%nat ->
       buf_flags (buf_at (dev k) (ring_at (ring_read (cdr (dev k))) j)) = MTK_DESC_ASYNC) ->
    exists v' k',
      reap_loop fuel hw nreq v k = Done (v', k')
      /\ rv_ndesc v' = nreq
      /\ rv_last_entry v' = false
      /\ rv_should_complete v' = rv_should_complete v
      /\ rv_ret v'
         = (if any_err hw (ring_read (cdr (dev k))) n then - EINVAL else rv_ret v)
      /\ (any_err hw (ring_read (cdr (dev k))) n = false -> trace k' = trace k)
      /\ retired n k k'.
Proof.
  induction n as [|n IH]; intros fuel v k Hfuel Hn Hlast Hsync Hwf Hused Hflags.
  - exists v, k. change (Z.of_nat 0) with 0 in Hn.
    assert (Hge : (rv_ndesc v <? nreq) = false) by (apply Z.ltb_ge; lia).
    split.
    { destruct fuel; cbn [reap_loop]; rewrite Hge; reflexivity. }
    split; [lia|]. split; [exact Hlast|]. split; [reflexivity|].
    split; [reflexivity|]. split; [reflexivity|]. apply retired_0; assumption.
  - destruct fuel as [|fuel]; [lia|].
    pose proof (ring_used_range (cdr (dev k))) as Hur. unfold MTK_RING_SIZE in Hur.
    assert (Hne : ring_write (cdr (dev k)) <> ring_read (cdr (dev k)))
      by (apply ring_used_nonempty; [exact Hwf | lia]).
    rewrite reap_loop_forward_step by (assumption || lia).
    pose proof (Hflags 0%nat ltac:(lia)) as H0. rewrite ring_at_0 in H0 by apply Hwf.
    destruct (reap_state_next_facts hw k Hsync Hwf ltac:(lia))
      as (Hsync1 & Hwf1 & Hr1 & Hw1 & Hu1).
    destruct Hwf as [Hww Hwr].
    rewrite any_err_S by exact Hwr.
    set (r := ring_read (cdr (dev k))) in *.
    assert (Hl0 : flag_set (buf_flags (buf_at (dev k) r)) MTK_DESC_LAST = false)
      by (rewrite H0; reflexivity).
    assert (Hf0 : flag_set (buf_flags (buf_at (dev k) r)) MTK_DESC_FINISH = false)
      by (rewrite H0; reflexivity).
    unfold reap_vars_next at 1. cbn [rv_last_entry]. fold r. rewrite Hl0, Hlast.
    set (v1 := reap_vars_next hw k v). set (k1 := reap_state_next hw k) in *.
    assert (Hflags1 : forall j, (j < n)%nat ->
              buf_flags (buf_at (dev k1) (ring_at (ring_read (cdr (dev k1))) j))
              = MTK_DESC_ASYNC).
    { intros j Hj. rewrite Hr1. fold r. rewrite ring_at_succ by exact Hwr.
      unfold k1, reap_state_next. cbn [dev]. rewrite buf_at_reaped. fold r.
      destruct (decide (ring_at r (S j) = r)) as [E|_].
      - rewrite <- (ring_at_0 r) in E at 2 by exact Hwr.
        apply ring_at_inj in E; lia.
      - apply Hflags. lia. }
    destruct (IH fuel v1 k1) as (v' & k' & Hrun & Hnd & Hle & Hsc & Hret & Htr & Hret');
      try assumption; try lia.
    { unfold v1, reap_vars_next. cbn [rv_ndesc]. lia. }
    { unfold v1, reap_vars_next. cbn [rv_last_entry]. fold r. rewrite Hl0. exact Hlast. }
    exists v', k'. split; [exact Hrun|].
    rewrite Hr1 in Hret, Htr. fold r in Hret, Htr.
    split; [exact Hnd|]. split; [exact Hle|].
    split; [rewrite Hsc; unfold v1, reap_vars_next; cbn [rv_should_complete]; fold r;
            rewrite Hf0; reflexivity|].
    split.
    { rewrite Hret. unfold v1, reap_vars_next. cbn [rv_ret]. fold r.
      destruct (negb (rd_errStatus (hw r) =? 0)); cbn [orb]; [|reflexivity].
      destruct (any_err hw (ring_succ r) n); reflexivity. }
    split.
    { intros He. apply orb_false_iff in He as [He0 He1].
      rewrite (Htr He1). unfold k1, reap_state_next. cbn [trace]. fold r.
      rewrite He0. reflexivity. }
    destruct Hret' as (Hs' & Hwf' & Hr' & Hw' & Hu' & Hin' & Hout' & Hrest').
    rewrite Hr1 in Hr', Hin', Hout'. fold r in Hr', Hin', Hout'.
    unfold retired. fold r.
    split; [exact Hs'|]. split; [exact Hwf'|].
    split; [rewrite Hr'; apply ring_at_succ; exact Hwr|].
    split; [rewrite Hw'; exact Hw1|].
    split; [rewrite Hu', Hu1; lia|].
    split.
    { intros j Hj. destruct j as [|j].
      - rewrite ring_at_0 by exact Hwr.
        assert (Hk1 : buf_at (dev k1) r
                      = {| buf_flags := 0; buf_req := buf_req (buf_at (dev k) r);
                           buf_saPointer := buf_saPointer (buf_at (dev k) r) |}).
        { unfold k1, reap_state_next, reaped, buf_at. cbn [dev dma_buf set_dma_buf].
          fold r. rewrite lookup_insert_eq. reflexivity. }
        unfold buf_at at 1. rewrite Hout'.
        + fold (buf_at (dev k1) r). exact Hk1.
        + intros j Hj' E. rewrite ring_at_succ in E by exact Hwr.
          rewrite <- (ring_at_0 r) in E at 1 by exact Hwr.
          apply ring_at_inj in E; lia.
      - rewrite <- ring_at_succ by exact Hwr. rewrite Hin' by lia.
        rewrite ring_at_succ by exact Hwr.
        assert (Hsame : buf_at (dev k1) (ring_at r (S j)) = buf_at (dev k) (ring_at r (S j))).
        { unfold k1, reap_state_next, reaped, buf_at. cbn [dev dma_buf set_dma_buf].
          fold r. rewrite lookup_insert_ne; [reflexivity|].
          intros E. rewrite <- (ring_at_0 r) in E at 1 by exact Hwr.
          apply ring_at_inj in E; lia. }
        rewrite Hsame. reflexivity. }
    split.
    { intros i Hi. rewrite Hout'.
      - unfold k1, reap_state_next, reaped. cbn [dev dma_buf set_dma_buf]. fold r.
        rewrite lookup_insert_ne; [reflexivity|].
        specialize (Hi 0%nat ltac:(lia)). rewrite ring_at_0 in Hi by exact Hwr. auto.
      - intros j Hj. rewrite ring_at_succ by exact Hwr. apply Hi. lia. }
    destruct Hrest' as (H1 & H2 & H3 & H4 & H5 & H6 & H7).
    rewrite H1, H2, H3, H4, H5, H6, H7. unfold k1, reap_state_next, reaped. cbn. auto 10.
Qed.

Lemma entry_flags_add (complete : bool) (c n j : nat) :
  (n < c)%nat -> entry_flags complete c (n + j) = entry_flags complete (c - n) j.
Proof.
  intros H. unfold entry_flags.
  destruct (Nat.eqb_spec (n + j) (c - 1)), (Nat.eqb_spec j (c - n - 1));
    try reflexivity; lia.
Qed.

(** X25: a result count that stops short of the end of a submission.  When
    the engine reports [n] results and the submission at the read index has
    more than [n] entries, the reaper retires these [n] entries and returns
    [n]; it does not touch the request (no unmapping, no copy, no IV, no
    completion) and reports it as not complete.  The entries that are left
    are a submission of the remaining length for the next call. *)
Theorem mtk_req_result_partial (little_endian : bool) (hw : Z -> hw_rdesc)
    (rd_count : Z) (rctx : mtk_cipher_reqctx) (reqsrc reqdst : list scatterlist)
    (reqiv : list Z) (k : kstate) (n c : nat) (complete : bool) :
  let r := ring_read (cdr (dev k)) in
  (n < c)%nat -> Z.land rd_count (GENMASK 10 0) = Z.of_nat n ->
  rings_sync k -> ring_wf (cdr (dev k)) ->
  Z.of_nat c <= ring_used (cdr (dev k)) ->
  (forall j, (j < c)%nat ->
     buf_flags (buf_at (dev k) (ring_at r j)) = entry_flags complete c j) ->
  any_err hw r n = false ->
  exists out k',
    mtk_req_result little_endian hw rd_count rctx reqsrc reqdst reqiv k = Done (out, k')
    /\ out_ndesc out = Z.of_nat n /\ out_should_complete out = false /\ out_ret out = 0
    /\ out_rctx out = rctx /\ out_reqdst out = reqdst /\ out_reqiv out = reqiv
    /\ trace k' = trace k
    /\ retired n k k'
    /\ (forall j, (j < c - n)%nat ->
          buf_flags (buf_at (dev k') (ring_at (ring_read (cdr (dev k'))) j))
          = entry_flags complete (c - n) j).
Proof.
  intros r Hn Hcount Hsync Hwf Hused Hflags Herr.
  destruct (reap_loop_count hw (Z.of_nat n) n n
              {| rv_ndesc := 0; rv_buf := None; rv_should_complete := false;
                 rv_last_entry := false; rv_ret := 0; rv_tries := [] |} k)
    as (v & kl & Hloop & Hnd & Hle & Hsc & Hret & Htr & Hretired);
    try assumption; try reflexivity; try lia.
  { intros j Hj. fold r. rewrite Hflags by lia. unfold entry_flags.
    destruct (Nat.eqb_spec j (c - 1)); [lia | reflexivity]. }
  fold r in Hret, Htr. rewrite Herr in Hret. specialize (Htr Herr).
  destruct (retired_next_window n (c - n) k kl Hretired Hwf ltac:(lia))
    as (_ & _ & _ & _ & _ & Hbuf).
  exists {| out_ndesc := rv_ndesc v; out_should_complete := rv_should_complete v;
            out_ret := rv_ret v; out_rctx := rctx; out_reqdst := reqdst;
            out_reqiv := reqiv; out_tries := rv_tries v |}, kl.
  split.
  { unfold mtk_req_result. cbv zeta. rewrite Hcount, Nat2Z.id.
    unfold bind at 1. rewrite Hloop, Hle. reflexivity. }
  cbn [out_ndesc out_should_complete out_ret out_rctx out_reqdst out_reqiv].
  split; [exact Hnd|]. split; [rewrite Hsc; reflexivity|]. split; [exact Hret|].
  split; [reflexivity|]. split; [reflexivity|]. split; [reflexivity|].
  split; [exact Htr|]. split; [exact Hretired|].
  intros j Hj. rewrite (Hbuf j Hj). fold r. rewrite Hflags by lia.
  apply entry_flags_add. exact Hn.
Qed.

Lemma mtk_req_result_partial_witness :
  exists out k',
    mtk_req_result true hw_ready 1 rctx_ctr48 (sg_one 256 16384 48)
      (sg_one 256 16384 48) iv_fffffffe k_two_pending = Done (out, k')
    /\ out_ndesc out = 1 /\ out_should_complete out = false /\ trace k' = [].
Proof.
  destruct (mtk_req_result_partial true hw_ready 1 rctx_ctr48 (sg_one 256 16384 48)
              (sg_one 256 16384 48) iv_fffffffe k_two_pending 1 2 true)
    as (out & k' & Hrun & Hnd & Hsc & _ & _ & _ & _ & Htr & _).
  - lia.
  - reflexivity.
  - reflexivity.
  - unfold ring_wf, MTK_RING_SIZE. simpl. lia.
  - vm_compute. discriminate.
  - intros j Hj. destruct j as [|[|j]]; [reflexivity | reflexivity | lia].
  - reflexivity.
  - exists out, k'. auto.
Defined.

(** ** Keys that mtk_aead_setkey turns down *)

(** X26: the error returns of [mtk_aead_setkey], in the order the code
    takes them.  A blob that [crypto_authenc_extractkeys] does not accept
    gives [-EINVAL] with the bad-key flag; an RFC3686 blob of fewer than
    four bytes gives [-EINVAL] without the flag; an encryption key of more
    than 32 bytes gives [-EINVAL] with the flag; a failed allocation of the
    pad buffer gives [-ENOMEM].  Nothing else is changed in any of these
    cases. *)
Theorem mtk_aead_setkey_rejects
    (extract : list Z -> Z -> option crypto_authenc_keys) (sh : crypto_shash)
    (tflags : Z) (ctx : mtk_cipher_ctx) (key : list Z) (keylen : Z) (k : kstate) :
  let flagged := {| dev := dev k; trace := EvSetBadKeyLen :: trace k;
                    allocs := allocs k; sa_mem := sa_mem k |} in
  let run := mtk_aead_setkey extract sh tflags ctx key keylen k in
  (extract key keylen = None -> run = Done (- EINVAL, flagged))
  /\ (forall keys, extract key keylen = Some keys ->
        (IS_RFC3686 tflags = true -> keylen < CTR_RFC3686_NONCE_SIZE ->
         run = Done (- EINVAL, k))
        /\ ((IS_RFC3686 tflags = true -> CTR_RFC3686_NONCE_SIZE <= keylen) ->
            AES_MAX_KEY_SIZE < enckeylen keys ->
            run = Done (- EINVAL, flagged))
        /\ ((IS_RFC3686 tflags = true -> CTR_RFC3686_NONCE_SIZE <= keylen) ->
            enckeylen keys <= AES_MAX_KEY_SIZE ->
            (forall a rest, allocs k <> Some a :: rest) ->
            exists k',
              run = Done (- ENOMEM, k')
              /\ dev k' = dev k /\ sa_mem k' = sa_mem k /\ trace k' = trace k)).
Proof.
  intros flagged run. unfold run, mtk_aead_setkey. cbv zeta. split.
  - intros ->. reflexivity.
  - intros keys ->.
    assert (Hlong : (IS_RFC3686 tflags = true -> CTR_RFC3686_NONCE_SIZE <= keylen) ->
                    IS_RFC3686 tflags && (keylen <? CTR_RFC3686_NONCE_SIZE) = false).
    { intros H. destruct (IS_RFC3686 tflags); [|reflexivity].
      apply Z.ltb_ge. apply H. reflexivity. }
    split_and!.
    + intros -> Hshort. apply Z.ltb_lt in Hshort. rewrite Hshort. reflexivity.
    + intros Hl Henc. rewrite (Hlong Hl). apply Z.ltb_lt in Henc. rewrite Henc.
      reflexivity.
    + intros Hl Henc Hal. rewrite (Hlong Hl). apply Z.ltb_ge in Henc. rewrite Henc.
      unfold bind, alloc.
      destruct (allocs k) as [|[a|] rest] eqn:E.
      * eexists. split; [reflexivity|]. auto.
      * exfalso. exact (Hal a rest eq_refl).
      * eexists. split; [reflexivity|]. auto.
Qed.

Lemma mtk_aead_setkey_rejects_witness :
  mtk_aead_setkey extract_auth20 shash_echo
    (Z.lor (Z.lor (Z.lor MTK_HASH_HMAC MTK_HASH_SHA1) MTK_MODE_CBC) MTK_ALG_AES)
    ctx_aead_tfm (replicate 60 1) 60 k_idle
  = Done (- EINVAL, {| dev := dev k_idle; trace := [EvSetBadKeyLen];
                       allocs := allocs k_idle; sa_mem := sa_mem k_idle |}).
Proof.
  apply (proj1 (proj2 (proj2 (mtk_aead_setkey_rejects extract_auth20 shash_echo
                                (Z.lor (Z.lor (Z.lor MTK_HASH_HMAC MTK_HASH_SHA1)
                                          MTK_MODE_CBC) MTK_ALG_AES)
                                ctx_aead_tfm (replicate 60 1) 60 k_idle)
                         {| authkey := take 20 (replicate 60 1); authkeylen := 20;
                            enckey := drop 20 (replicate 60 1); enckeylen := 40 |}
                         eq_refl))).
  - discriminate.
  - reflexivity.
Defined.
